(** * libdc: dive-computer record parsers and the Suunto ring buffer walk

    A shallow embedding of the parser family of the library (the files
    [*_parser.c]) and of the dive enumeration of [suunto_common2.c],
    followed by the properties checked against them.

    Conventions of the embedding.
    - [unsigned int] is a [Z] kept in [0, 2^32) by [u32], written wherever
      the C arithmetic can leave that range.
    - [unsigned char] is [Byte.byte]; [u8] reads it as a number.
    - [double] is the kernel's binary64 [float].
    - A dive blob ([abstract->data], [abstract->size]) is a [list byte], its
      size the length of the list.  Reading outside the blob is undefined in
      C; [byte_at] returns 0 there.
    - The sample callback returns nothing, so it cannot steer a parser: a
      [samples_foreach] returns its status together with the samples it
      hands to the callback, in order.  A NULL callback drops that list.
    - The output pointers ([value], [datetime]) are taken to be non-NULL;
      what a call stores through them is returned next to the status.
    - A C loop is a [Fixpoint] on a [fuel] counter that tests the loop
      condition first; it returns [None] only when the fuel runs out, and
      the callers pass enough fuel for every blob below 4 GiB. *)

From Stdlib Require Import ZArith List Lia Bool Sorted.
From Stdlib Require Import Strings.Byte.
From Stdlib Require Import Floats.
From Stdlib Require Import Uint63.
From Stdlib Require String.
Import String.StringSyntax.
Import ListNotations.
Delimit Scope string_scope with string.
Open Scope Z_scope.

#[local] Set Warnings "-inexact-float".

(** ** Machine integers and bytes *)

Definition u32 (x : Z) : Z := x mod 2 ^ 32.

Definition u8 (b : byte) : Z := Z.of_N (Byte.to_N b).

(** A byte written as a number (for concrete blobs). *)
Definition byte_of_Z (z : Z) : byte :=
  match Byte.of_N (Z.to_N z) with
  | Some b => b
  | None => x00
  end.

Definition bytes_of (l : list Z) : list byte := map byte_of_Z l.

Definition blob := list byte.

Definition blob_size (data : blob) : Z := Z.of_nat (length data).

Definition byte_at (data : blob) (i : Z) : Z :=
  if i <? 0 then 0 else u8 (nth (Z.to_nat i) data x00).

(** [(signed char) x] and [(signed short) x]. *)
Definition s8 (x : Z) : Z := let y := x mod 2 ^ 8 in if y <? 2 ^ 7 then y else y - 2 ^ 8.
Definition s16 (x : Z) : Z := let y := x mod 2 ^ 16 in if y <? 2 ^ 15 then y else y - 2 ^ 16.

(** ** Floating point *)

(** Conversion of an [unsigned int] and of an [int] to [double]. *)
Definition double_of_uint (z : Z) : float := PrimFloat.of_uint63 (Uint63.of_Z z).

Definition double_of_int (z : Z) : float :=
  if z <? 0 then PrimFloat.opp (double_of_uint (- z)) else double_of_uint z.

(** ** Helpers of array.h, units.h and oceanic_common.h *)

(** Modelled from the spec: array.c is not among the sources; these are its
    "integer decoders at arbitrary offsets" (little and big endian), the
    "BCD to decimal" conversion ("two decimal digits per byte") and the
    "equality scan". *)
Definition array_uint16_le (data : blob) (off : Z) : Z :=
  byte_at data off + Z.shiftl (byte_at data (off + 1)) 8.

Definition array_uint16_be (data : blob) (off : Z) : Z :=
  Z.shiftl (byte_at data off) 8 + byte_at data (off + 1).

Definition array_uint24_be (data : blob) (off : Z) : Z :=
  Z.shiftl (byte_at data off) 16 + Z.shiftl (byte_at data (off + 1)) 8 +
  byte_at data (off + 2).

Definition array_uint32_le (data : blob) (off : Z) : Z :=
  byte_at data off + Z.shiftl (byte_at data (off + 1)) 8 +
  Z.shiftl (byte_at data (off + 2)) 16 + Z.shiftl (byte_at data (off + 3)) 24.

Definition array_uint32_be (data : blob) (off : Z) : Z :=
  Z.shiftl (byte_at data off) 24 + Z.shiftl (byte_at data (off + 1)) 16 +
  Z.shiftl (byte_at data (off + 2)) 8 + byte_at data (off + 3).

Definition bcd2dec (x : Z) : Z :=
  Z.land (Z.shiftr x 4) 0x0F * 10 + Z.land x 0x0F.

Definition array_isequal (data : blob) (off : Z) (size : Z) (value : Z) : bool :=
  forallb (fun i => byte_at data (off + Z.of_nat i) =? value)
          (seq 0 (Z.to_nat size)).

(** Modelled from the spec: units.h is not among the sources; the spec's
    imperial depth scenario gives one foot as 0.3048 m. *)
Definition FEET : float := 0.3048%float.

(** Modelled from the spec: oceanic_common.h is not among the sources; the
    spec counts header and footer sizes "in half-pages of 8 bytes". *)
Definition PAGESIZE : Z := 0x10.

(** ** Status codes, fields and samples (common.h, parser.h) *)

Inductive dc_status_t : Type :=
| DC_STATUS_SUCCESS
| DC_STATUS_DONE
| DC_STATUS_UNSUPPORTED
| DC_STATUS_INVALIDARGS
| DC_STATUS_NOMEMORY
| DC_STATUS_NODEVICE
| DC_STATUS_NOACCESS
| DC_STATUS_IO
| DC_STATUS_TIMEOUT
| DC_STATUS_PROTOCOL
| DC_STATUS_DATAFORMAT
| DC_STATUS_CANCELLED.

Definition dc_status_eqb (a b : dc_status_t) : bool :=
  match a, b with
  | DC_STATUS_SUCCESS, DC_STATUS_SUCCESS
  | DC_STATUS_DONE, DC_STATUS_DONE
  | DC_STATUS_UNSUPPORTED, DC_STATUS_UNSUPPORTED
  | DC_STATUS_INVALIDARGS, DC_STATUS_INVALIDARGS
  | DC_STATUS_NOMEMORY, DC_STATUS_NOMEMORY
  | DC_STATUS_NODEVICE, DC_STATUS_NODEVICE
  | DC_STATUS_NOACCESS, DC_STATUS_NOACCESS
  | DC_STATUS_IO, DC_STATUS_IO
  | DC_STATUS_TIMEOUT, DC_STATUS_TIMEOUT
  | DC_STATUS_PROTOCOL, DC_STATUS_PROTOCOL
  | DC_STATUS_DATAFORMAT, DC_STATUS_DATAFORMAT
  | DC_STATUS_CANCELLED, DC_STATUS_CANCELLED => true
  | _, _ => false
  end.

Inductive dc_field_type_t : Type :=
| DC_FIELD_DIVETIME
| DC_FIELD_MAXDEPTH
| DC_FIELD_AVGDEPTH
| DC_FIELD_GASMIX_COUNT
| DC_FIELD_GASMIX
| DC_FIELD_SALINITY
| DC_FIELD_ATMOSPHERIC
| DC_FIELD_TEMPERATURE_SURFACE
| DC_FIELD_TEMPERATURE_MINIMUM
| DC_FIELD_TEMPERATURE_MAXIMUM
| DC_FIELD_TANK_COUNT
| DC_FIELD_TANK
| DC_FIELD_DIVEMODE
| DC_FIELD_STRING.

Record dc_datetime_t : Type := mk_datetime {
  year : Z; month : Z; day : Z; hour : Z; minute : Z; second : Z
}.

Record dc_gasmix_t : Type := mk_gasmix {
  helium : float; oxygen : float; nitrogen : float
}.

Inductive dc_water_t : Type := DC_WATER_FRESH | DC_WATER_SALT.

Inductive dc_divemode_t : Type :=
| DC_DIVEMODE_FREEDIVE | DC_DIVEMODE_GAUGE | DC_DIVEMODE_OC | DC_DIVEMODE_CC.

Inductive dc_tankvolume_t : Type :=
| DC_TANKVOLUME_NONE | DC_TANKVOLUME_METRIC | DC_TANKVOLUME_IMPERIAL.

Record dc_tank_t : Type := mk_tank {
  tank_gasmix : Z;            (* unsigned int gasmix *)
  tank_type : dc_tankvolume_t;
  tank_volume : float;
  tank_workpressure : float;
  tank_beginpressure : float;
  tank_endpressure : float
}.

(** What a successful [get_field] stores through its [value] pointer; the
    two members of a [dc_field_string_t] are C strings, kept without
    their closing NUL. *)
Inductive dc_field_value : Type :=
| FV_uint (v : Z)
| FV_double (v : float)
| FV_gasmix (g : dc_gasmix_t)
| FV_salinity (w : dc_water_t) (density : float)
| FV_divemode (m : dc_divemode_t)
| FV_tank (t : dc_tank_t)
| FV_string (desc value : list byte).

Inductive dc_deco_type_t : Type := DC_DECO_NDL | DC_DECO_SAFETYSTOP | DC_DECO_DECOSTOP | DC_DECO_DEEPSTOP.

Inductive parser_sample_event_t : Type :=
| SAMPLE_EVENT_DECOSTOP
| SAMPLE_EVENT_RBT
| SAMPLE_EVENT_ASCENT
| SAMPLE_EVENT_CEILING
| SAMPLE_EVENT_WORKLOAD
| SAMPLE_EVENT_TRANSMITTER
| SAMPLE_EVENT_GASCHANGE
| SAMPLE_EVENT_GASCHANGE2
| SAMPLE_EVENT_NONE
| SAMPLE_EVENT_SURFACE
| SAMPLE_EVENT_BOOKMARK
| SAMPLE_EVENT_VIOLATION
| SAMPLE_EVENT_SAFETYSTOP
| SAMPLE_EVENT_SAFETYSTOP_VOLUNTARY
| SAMPLE_EVENT_SAFETYSTOP_MANDATORY
| SAMPLE_EVENT_DEEPSTOP
| SAMPLE_EVENT_CEILING_SAFETYSTOP
| SAMPLE_EVENT_DIVETIME
| SAMPLE_EVENT_MAXDEPTH
| SAMPLE_EVENT_AIRTIME
| SAMPLE_EVENT_TISSUELEVEL
| SAMPLE_EVENT_PO2.

Inductive parser_sample_vendor_t : Type :=
| SAMPLE_VENDOR_UWATEC_ALADIN
| SAMPLE_VENDOR_UWATEC_SMART
| SAMPLE_VENDOR_OCEANIC_ATOM2
| SAMPLE_VENDOR_OCEANIC_VTPRO.

(** One call of the sample callback: the sample kind with the member of
    [dc_sample_value_t] that the kind selects. *)
Inductive dc_sample : Type :=
| DC_SAMPLE_TIME (time : Z)
| DC_SAMPLE_DEPTH (depth : float)
| DC_SAMPLE_PRESSURE (tank : Z) (value : float)
| DC_SAMPLE_TEMPERATURE (temperature : float)
| DC_SAMPLE_EVENT (type : parser_sample_event_t) (time flags value : Z)
| DC_SAMPLE_RBT (rbt : Z)
| DC_SAMPLE_HEARTBEAT (heartbeat : Z)
| DC_SAMPLE_BEARING (bearing : Z)
| DC_SAMPLE_VENDOR (type : parser_sample_vendor_t) (size : Z) (data : list Z)
| DC_SAMPLE_PPO2 (ppo2 : float)
| DC_SAMPLE_CNS (cns : float)
| DC_SAMPLE_DECO (type : dc_deco_type_t) (depth : float) (time : Z).

(** The TIME values among the emitted samples, in order. *)
Fixpoint sample_times (l : list dc_sample) : list Z :=
  match l with
  | [] => []
  | DC_SAMPLE_TIME t :: r => t :: sample_times r
  | _ :: r => sample_times r
  end.

(** ** Cressi Leonardo (cressi_leonardo_parser.c) *)

Module Cressi.

Definition SZ_HEADER : Z := 82.

End Cressi.

Definition cressi_leonardo_parser_get_datetime (data : blob)
  : dc_status_t * option dc_datetime_t :=
  if blob_size data <? Cressi.SZ_HEADER then (DC_STATUS_DATAFORMAT, None)
  else
    (DC_STATUS_SUCCESS,
     Some {| year := byte_at data 8 + 2000;
             month := byte_at data 9;
             day := byte_at data 10;
             hour := byte_at data 11;
             minute := byte_at data 12;
             second := 0 |}).

Definition cressi_leonardo_parser_get_field (data : blob) (type : dc_field_type_t)
  (flags : Z) : dc_status_t * option dc_field_value :=
  if blob_size data <? Cressi.SZ_HEADER then (DC_STATUS_DATAFORMAT, None)
  else
    match type with
    | DC_FIELD_DIVETIME =>
        (DC_STATUS_SUCCESS, Some (FV_uint (u32 (array_uint16_le data 0x06 * 20))))
    | DC_FIELD_MAXDEPTH =>
        (DC_STATUS_SUCCESS,
         Some (FV_double (double_of_uint (array_uint16_le data 0x20) / 10.0)%float))
    | DC_FIELD_GASMIX_COUNT => (DC_STATUS_SUCCESS, Some (FV_uint 1))
    | DC_FIELD_GASMIX =>
        let he := 0.0%float in
        let o2 := (double_of_uint (byte_at data 0x19) / 100.0)%float in
        (DC_STATUS_SUCCESS,
         Some (FV_gasmix {| helium := he; oxygen := o2;
                            nitrogen := (1.0 - o2 - he)%float |}))
    | DC_FIELD_TEMPERATURE_MINIMUM =>
        (DC_STATUS_SUCCESS, Some (FV_double (double_of_uint (byte_at data 0x22))))
    | _ => (DC_STATUS_UNSUPPORTED, None)
    end.

(** The [while (offset + 2 <= size)] loop; [fuel] bounds the number of
    iterations and [None] means it ran out. *)
Fixpoint cressi_leonardo_samples_loop (fuel : nat) (data : blob)
  (time offset : Z) : option (dc_status_t * list dc_sample) :=
  if u32 (offset + 2) <=? blob_size data then
    match fuel with
    | O => None
    | S fuel' =>
        let value := array_uint16_le data offset in
        let depth := Z.land value 0x07FF in
        let ascent := Z.shiftr (Z.land value 0xC000) 14 in
        let interval := 20 in
        let time := u32 (time + interval) in
        let out :=
          [DC_SAMPLE_TIME time;
           DC_SAMPLE_DEPTH (double_of_uint depth / 10.0)%float] ++
          (if ascent =? 0 then []
           else [DC_SAMPLE_EVENT SAMPLE_EVENT_ASCENT 0 0 ascent]) in
        match cressi_leonardo_samples_loop fuel' data time (u32 (offset + 2)) with
        | Some (st, rest) => Some (st, out ++ rest)
        | None => None
        end
    end
  else Some (DC_STATUS_SUCCESS, []).

Definition cressi_leonardo_parser_samples_foreach (data : blob)
  : option (dc_status_t * list dc_sample) :=
  cressi_leonardo_samples_loop (length data) data 0 Cressi.SZ_HEADER.

(** ** Small array helpers for the C arrays of the parser structs *)

Definition array_get (l : list Z) (i : Z) : Z := nth (Z.to_nat i) l 0.

Fixpoint array_set_nat (l : list Z) (i : nat) (v : Z) : list Z :=
  match l, i with
  | [], _ => []
  | _ :: r, O => v :: r
  | x :: r, S i' => x :: array_set_nat r i' v
  end.

Definition array_set (l : list Z) (i : Z) (v : Z) : list Z :=
  array_set_nat l (Z.to_nat i) v.

(** [for (i = 0; i < n; ++i) dst[i] = src[i];] *)
Definition array_copy_prefix (n : Z) (src dst : list Z) : list Z :=
  firstn (Z.to_nat n) src ++ skipn (Z.to_nat n) dst.

(** ** DiveSystem iDive (divesystem_idive_parser.c) *)

Module Idive.

Definition SZ_HEADER : Z := 0x32.
Definition SZ_SAMPLE : Z := 0x2A.
Definition NGASMIXES : Z := 8.
Definition EPOCH : Z := 1199145600.

End Idive.

Record divesystem_idive_parser_t : Type := mk_idive {
  idive_data : blob;          (* base.data, base.size *)
  idive_cached : bool;
  idive_divetime : Z;
  idive_maxdepth : Z;
  idive_ngasmixes : Z;
  idive_oxygen : list Z;      (* NGASMIXES entries *)
  idive_helium : list Z
}.

(** The generic [dc_parser_set_data] (parser.c, not among the sources) stores
    the blob in the base struct before it calls the family's [set_data]. *)
Definition divesystem_idive_parser_set_data (parser : divesystem_idive_parser_t)
  (data : blob) : dc_status_t * divesystem_idive_parser_t :=
  (DC_STATUS_SUCCESS,
   {| idive_data := data;
      idive_cached := false;
      idive_divetime := 0;
      idive_maxdepth := 0;
      idive_ngasmixes := 0;
      idive_oxygen := repeat 0 (Z.to_nat Idive.NGASMIXES);
      idive_helium := repeat 0 (Z.to_nat Idive.NGASMIXES) |}).

(** The local variables of [samples_foreach] that live across iterations.
    The local arrays are not initialised in C; entries at or above
    [l_ngasmixes] are never read. *)
Record idive_locals : Type := mk_idive_locals {
  l_time : Z;
  l_maxdepth : Z;
  l_ngasmixes : Z;
  l_oxygen : list Z;
  l_helium : list Z;
  l_o2_previous : Z;
  l_he_previous : Z
}.

Definition idive_locals_init : idive_locals :=
  {| l_time := 0; l_maxdepth := 0; l_ngasmixes := 0;
     l_oxygen := repeat 0 (Z.to_nat Idive.NGASMIXES);
     l_helium := repeat 0 (Z.to_nat Idive.NGASMIXES);
     l_o2_previous := 0xFFFFFFFF; l_he_previous := 0xFFFFFFFF |}.

(** [while (i < ngasmixes) { if (o2 == oxygen[i] && he == helium[i]) break; i++; }]
    with [n] the number of entries still to visit. *)
Fixpoint idive_find_gasmix (n : nat) (oxygen helium : list Z) (o2 he i : Z) : Z :=
  match n with
  | O => i
  | S n' =>
      if (o2 =? array_get oxygen i) && (he =? array_get helium i) then i
      else idive_find_gasmix n' oxygen helium o2 he (i + 1)
  end.

(** One iteration of the sample loop on the record at [offset]: the status
    when the iteration returns from the function, the samples handed to the
    callback, and the locals after it. *)
Definition idive_sample (data : blob) (offset : Z) (l : idive_locals)
  : option dc_status_t * list dc_sample * idive_locals :=
  let timestamp := array_uint32_le data (offset + 2) in
  if timestamp <=? l_time l then (Some DC_STATUS_DATAFORMAT, [], l)
  else
    let depth := array_uint16_le data (offset + 6) in
    let maxdepth := if l_maxdepth l <? depth then depth else l_maxdepth l in
    let temperature := s16 (array_uint16_le data (offset + 8)) in
    let out1 :=
      [DC_SAMPLE_TIME timestamp;
       DC_SAMPLE_DEPTH (double_of_uint depth / 10.0)%float;
       DC_SAMPLE_TEMPERATURE (double_of_int temperature / 10.0)%float] in
    let o2 := byte_at data (offset + 10) in
    let he := byte_at data (offset + 11) in
    let deco := array_uint16_le data (offset + 21) in
    let tts := array_uint16_le data (offset + 23) in
    let cns := array_uint16_le data (offset + 29) in
    let out3 :=
      (if tts =? 0xFFFF then []
       else if deco =? 0 then [DC_SAMPLE_DECO DC_DECO_NDL 0.0%float tts]
       else [DC_SAMPLE_DECO DC_DECO_DECOSTOP (double_of_uint deco / 10.0)%float tts]) ++
      [DC_SAMPLE_CNS (double_of_uint cns / 100.0)%float] in
    if negb (o2 =? l_o2_previous l) || negb (he =? l_he_previous l) then
      let i := idive_find_gasmix (Z.to_nat (l_ngasmixes l)) (l_oxygen l) (l_helium l) o2 he 0 in
      if (i >=? l_ngasmixes l) && (i >=? Idive.NGASMIXES) then
        (Some DC_STATUS_DATAFORMAT, out1,
         {| l_time := timestamp; l_maxdepth := maxdepth;
            l_ngasmixes := l_ngasmixes l; l_oxygen := l_oxygen l;
            l_helium := l_helium l;
            l_o2_previous := l_o2_previous l; l_he_previous := l_he_previous l |})
      else
        let added := i >=? l_ngasmixes l in
        (None,
         out1 ++
         [DC_SAMPLE_EVENT SAMPLE_EVENT_GASCHANGE2 0 0 (Z.lor o2 (Z.shiftl he 16))] ++
         out3,
         {| l_time := timestamp; l_maxdepth := maxdepth;
            l_ngasmixes := if added then i + 1 else l_ngasmixes l;
            l_oxygen := if added then array_set (l_oxygen l) i o2 else l_oxygen l;
            l_helium := if added then array_set (l_helium l) i he else l_helium l;
            l_o2_previous := o2; l_he_previous := he |})
    else
      (None, out1 ++ out3,
       {| l_time := timestamp; l_maxdepth := maxdepth;
          l_ngasmixes := l_ngasmixes l; l_oxygen := l_oxygen l;
          l_helium := l_helium l;
          l_o2_previous := l_o2_previous l; l_he_previous := l_he_previous l |}).

(** [while (offset + SZ_SAMPLE <= size)]; [None] when [fuel] runs out. *)
Fixpoint idive_samples_loop (fuel : nat) (data : blob) (offset : Z)
  (l : idive_locals) : option (dc_status_t * list dc_sample * idive_locals) :=
  if u32 (offset + Idive.SZ_SAMPLE) <=? blob_size data then
    match fuel with
    | O => None
    | S fuel' =>
        match idive_sample data offset l with
        | (Some st, out, l') => Some (st, out, l')
        | (None, out, l') =>
            match idive_samples_loop fuel' data (u32 (offset + Idive.SZ_SAMPLE)) l' with
            | Some (st, rest, l'') => Some (st, out ++ rest, l'')
            | None => None
            end
        end
    end
  else Some (DC_STATUS_SUCCESS, [], l).

Definition divesystem_idive_parser_samples_foreach (parser : divesystem_idive_parser_t)
  : option (dc_status_t * list dc_sample * divesystem_idive_parser_t) :=
  match idive_samples_loop (length (idive_data parser)) (idive_data parser)
          Idive.SZ_HEADER idive_locals_init with
  | None => None
  | Some (DC_STATUS_SUCCESS, out, l) =>
      Some (DC_STATUS_SUCCESS, out,
            {| idive_data := idive_data parser;
               idive_cached := true;
               idive_divetime := l_time l;
               idive_maxdepth := l_maxdepth l;
               idive_ngasmixes := l_ngasmixes l;
               idive_oxygen := array_copy_prefix (l_ngasmixes l) (l_oxygen l) (idive_oxygen parser);
               idive_helium := array_copy_prefix (l_ngasmixes l) (l_helium l) (idive_helium parser) |})
  | Some (st, out, _) => Some (st, out, parser)
  end.

Definition divesystem_idive_parser_get_field (parser : divesystem_idive_parser_t)
  (type : dc_field_type_t) (flags : Z)
  : option (dc_status_t * option dc_field_value * divesystem_idive_parser_t) :=
  let data := idive_data parser in
  if blob_size data <? Idive.SZ_HEADER then Some (DC_STATUS_DATAFORMAT, None, parser)
  else
    match (if idive_cached parser then Some (DC_STATUS_SUCCESS, [], parser)
           else divesystem_idive_parser_samples_foreach parser) with
    | None => None
    | Some (DC_STATUS_SUCCESS, _, parser) =>
        match type with
        | DC_FIELD_DIVETIME =>
            Some (DC_STATUS_SUCCESS, Some (FV_uint (idive_divetime parser)), parser)
        | DC_FIELD_MAXDEPTH =>
            Some (DC_STATUS_SUCCESS,
                  Some (FV_double (double_of_uint (idive_maxdepth parser) / 10.0)%float),
                  parser)
        | DC_FIELD_GASMIX_COUNT =>
            Some (DC_STATUS_SUCCESS, Some (FV_uint (idive_ngasmixes parser)), parser)
        | DC_FIELD_GASMIX =>
            let he := (double_of_uint (array_get (idive_helium parser) flags) / 100.0)%float in
            let o2 := (double_of_uint (array_get (idive_oxygen parser) flags) / 100.0)%float in
            Some (DC_STATUS_SUCCESS,
                  Some (FV_gasmix {| helium := he; oxygen := o2;
                                     nitrogen := (1.0 - o2 - he)%float |}),
                  parser)
        | DC_FIELD_ATMOSPHERIC =>
            Some (DC_STATUS_SUCCESS,
                  Some (FV_double (double_of_uint (array_uint16_le data 11) / 1000.0)%float),
                  parser)
        | _ => Some (DC_STATUS_UNSUPPORTED, None, parser)
        end
    | Some (rc, _, parser) => Some (rc, None, parser)
    end.

(** ** Host time conversion (datetime.c, not among the sources)

    [dc_datetime_localtime] and [dc_datetime_gmtime] turn a tick count into
    a broken-down time and fail by returning NULL.  The parsers only hand
    them the ticks they computed, so the conversions are parameters. *)

Definition dc_ticks_t := Z.

Definition datetime_conv := dc_ticks_t -> option dc_datetime_t.

Definition datetime_result (conv : datetime_conv) (ticks : dc_ticks_t)
  : dc_status_t * option dc_datetime_t :=
  match conv ticks with
  | Some dt => (DC_STATUS_SUCCESS, Some dt)
  | None => (DC_STATUS_DATAFORMAT, None)
  end.

Section IdiveDatetime.

Variable dc_datetime_localtime : datetime_conv.

(** [array_uint32_le (...) + EPOCH] is an [unsigned int] sum, widened to
    [dc_ticks_t] afterwards. *)
Definition divesystem_idive_parser_get_datetime (parser : divesystem_idive_parser_t)
  : dc_status_t * option dc_datetime_t :=
  if blob_size (idive_data parser) <? Idive.SZ_HEADER then (DC_STATUS_DATAFORMAT, None)
  else
    let ticks := u32 (array_uint32_le (idive_data parser) 7 + Idive.EPOCH) in
    datetime_result dc_datetime_localtime ticks.

End IdiveDatetime.

(** ** Shearwater Predator and Petrel (shearwater_predator_parser.c) *)

Module Shearwater.

Definition SZ_BLOCK : Z := 0x80.
Definition SZ_SAMPLE_PREDATOR : Z := 0x10.
Definition SZ_SAMPLE_PETREL : Z := 0x20.
Definition METRIC : Z := 0.
Definition IMPERIAL : Z := 1.
Definition NGASMIXES : Z := 10.

End Shearwater.

Record shearwater_predator_parser_t : Type := mk_shearwater {
  sw_data : blob;             (* base.data, base.size *)
  sw_petrel : bool;
  sw_cached : bool;
  sw_ngasmixes : Z;
  sw_oxygen : list Z;         (* NGASMIXES entries *)
  sw_helium : list Z;
  sw_serial : Z
}.

Definition shearwater_common_parser_create (serial : Z) (petrel : bool)
  : shearwater_predator_parser_t :=
  {| sw_data := []; sw_petrel := petrel; sw_cached := false; sw_ngasmixes := 0;
     sw_oxygen := repeat 0 (Z.to_nat Shearwater.NGASMIXES);
     sw_helium := repeat 0 (Z.to_nat Shearwater.NGASMIXES);
     sw_serial := serial |}.

Definition shearwater_predator_parser_create (serial : Z) := shearwater_common_parser_create serial false.
Definition shearwater_petrel_parser_create (serial : Z) := shearwater_common_parser_create serial true.

Definition shearwater_predator_parser_set_data (parser : shearwater_predator_parser_t)
  (data : blob) : dc_status_t * shearwater_predator_parser_t :=
  (DC_STATUS_SUCCESS,
   {| sw_data := data; sw_petrel := sw_petrel parser; sw_cached := false;
      sw_ngasmixes := 0;
      sw_oxygen := repeat 0 (Z.to_nat Shearwater.NGASMIXES);
      sw_helium := repeat 0 (Z.to_nat Shearwater.NGASMIXES);
      sw_serial := sw_serial parser |}).

Section ShearwaterDatetime.

Variable dc_datetime_gmtime : datetime_conv.

Definition shearwater_predator_parser_get_datetime (parser : shearwater_predator_parser_t)
  : dc_status_t * option dc_datetime_t :=
  let data := sw_data parser in
  if blob_size data <? 2 * Shearwater.SZ_BLOCK then (DC_STATUS_DATAFORMAT, None)
  else datetime_result dc_datetime_gmtime (array_uint32_be data 12).

End ShearwaterDatetime.

(** The gas mix scan of [shearwater_predator_parser_cache], from slot [i]
    on, [n] slots left: the pairs that are not (0, 0), in order. *)
Fixpoint shearwater_gasmixes (n : nat) (data : blob) (i : Z) : list (Z * Z) :=
  match n with
  | O => []
  | S n' =>
      let o2 := byte_at data (20 + i) in
      let he := byte_at data (30 + i) in
      if (o2 =? 0) && (he =? 0) then shearwater_gasmixes n' data (i + 1)
      else (o2, he) :: shearwater_gasmixes n' data (i + 1)
  end.

Definition shearwater_predator_parser_cache (parser : shearwater_predator_parser_t)
  : dc_status_t * shearwater_predator_parser_t :=
  if sw_cached parser then (DC_STATUS_SUCCESS, parser)
  else
    let mixes := shearwater_gasmixes (Z.to_nat Shearwater.NGASMIXES) (sw_data parser) 0 in
    let ngasmixes := Z.of_nat (length mixes) in
    (DC_STATUS_SUCCESS,
     {| sw_data := sw_data parser; sw_petrel := sw_petrel parser; sw_cached := true;
        sw_ngasmixes := ngasmixes;
        sw_oxygen := array_copy_prefix ngasmixes (map fst mixes) (sw_oxygen parser);
        sw_helium := array_copy_prefix ngasmixes (map snd mixes) (sw_helium parser);
        sw_serial := sw_serial parser |}).

(** The offset of the footer record, or the DATAFORMAT return of the size
    checks that [get_field] and [samples_foreach] share. *)
Definition shearwater_footer (parser : shearwater_predator_parser_t) : option Z :=
  let data := sw_data parser in
  let size := blob_size data in
  if size <? 2 * Shearwater.SZ_BLOCK then None
  else
    let footer := u32 (size - Shearwater.SZ_BLOCK) in
    if sw_petrel parser || (array_uint16_be data footer =? 0xFFFD) then
      if size <? 3 * Shearwater.SZ_BLOCK then None
      else Some (u32 (footer - Shearwater.SZ_BLOCK))
    else Some footer.

(** The arguments of the [snprintf] call of a string field. *)
Inductive shearwater_string : Type :=
| SW_BATTERY (volts : float)   (* "%.1f" *)
| SW_SERIAL (serial : Z)       (* "%08x" *)
| SW_FIRMWARE (version : Z).   (* "%2x" *)

Inductive shearwater_field_value : Type :=
| SW_value (v : dc_field_value)
| SW_string (s : shearwater_string).

Definition shearwater_predator_parser_get_field (parser : shearwater_predator_parser_t)
  (type : dc_field_type_t) (flags : Z)
  : dc_status_t * option shearwater_field_value * shearwater_predator_parser_t :=
  let data := sw_data parser in
  match shearwater_footer parser with
  | None => (DC_STATUS_DATAFORMAT, None, parser)
  | Some footer =>
      let units := byte_at data 8 in
      let (rc, parser) := shearwater_predator_parser_cache parser in
      if negb (dc_status_eqb rc DC_STATUS_SUCCESS) then (rc, None, parser)
      else
        let ok v := (DC_STATUS_SUCCESS, Some (SW_value v), parser) in
        match type with
        | DC_FIELD_DIVETIME =>
            ok (FV_uint (u32 (array_uint16_be data (footer + 6) * 60)))
        | DC_FIELD_MAXDEPTH =>
            if units =? Shearwater.IMPERIAL then
              ok (FV_double (double_of_uint (array_uint16_be data (footer + 4)) * FEET)%float)
            else
              ok (FV_double (double_of_uint (array_uint16_be data (footer + 4))))
        | DC_FIELD_GASMIX_COUNT => ok (FV_uint (sw_ngasmixes parser))
        | DC_FIELD_GASMIX =>
            let o2 := (double_of_uint (array_get (sw_oxygen parser) flags) / 100.0)%float in
            let he := (double_of_uint (array_get (sw_helium parser) flags) / 100.0)%float in
            ok (FV_gasmix {| helium := he; oxygen := o2;
                             nitrogen := (1.0 - o2 - he)%float |})
        | DC_FIELD_SALINITY =>
            let density := array_uint16_be data 83 in
            ok (FV_salinity (if density =? 1000 then DC_WATER_FRESH else DC_WATER_SALT)
                            (double_of_uint density))
        | DC_FIELD_ATMOSPHERIC =>
            ok (FV_double (double_of_uint (array_uint16_be data 47) / 1000.0)%float)
        | DC_FIELD_STRING =>
            let str s := (DC_STATUS_SUCCESS, Some (SW_string s), parser) in
            if flags =? 0 then str (SW_BATTERY (double_of_uint (byte_at data 9) / 10.0)%float)
            else if flags =? 1 then str (SW_SERIAL (sw_serial parser))
            else if flags =? 2 then str (SW_FIRMWARE (byte_at data 19))
            else (DC_STATUS_UNSUPPORTED, None, parser)
        | _ => (DC_STATUS_UNSUPPORTED, None, parser)
        end
  end.

(** The samples of the record at [offset], which is not empty. *)
Definition shearwater_sample (data : blob) (petrel : bool) (units : Z) (offset : Z)
  (time o2_previous he_previous : Z) : list dc_sample * (Z * Z) :=
  let depth := array_uint16_be data offset in
  let temperature := byte_at data (offset + 13) in
  let o2 := byte_at data (offset + 7) in
  let he := byte_at data (offset + 8) in
  let changed := negb (o2 =? o2_previous) || negb (he =? he_previous) in
  let decostop := array_uint16_be data (offset + 2) in
  ([DC_SAMPLE_TIME time;
    DC_SAMPLE_DEPTH (if units =? Shearwater.IMPERIAL
                     then (double_of_uint depth * FEET / 10.0)%float
                     else (double_of_uint depth / 10.0)%float);
    DC_SAMPLE_TEMPERATURE (if units =? Shearwater.IMPERIAL
                           then ((double_of_uint temperature - 32.0) * (5.0 / 9.0))%float
                           else double_of_uint temperature);
    DC_SAMPLE_PPO2 (double_of_uint (byte_at data (offset + 6)) / 100.0)%float] ++
   (if petrel then [DC_SAMPLE_CNS (double_of_uint (byte_at data (offset + 22)) / 100.0)%float]
    else []) ++
   (if changed
    then [DC_SAMPLE_EVENT SAMPLE_EVENT_GASCHANGE2 0 0 (Z.lor o2 (Z.shiftl he 16))]
    else []) ++
   [DC_SAMPLE_DECO
      (if decostop =? 0 then DC_DECO_NDL else DC_DECO_DECOSTOP)
      (if decostop =? 0 then 0.0%float
       else if units =? Shearwater.IMPERIAL then (double_of_uint decostop * FEET)%float
       else double_of_uint decostop)
      (byte_at data (offset + 9) * 60)],
   if changed then (o2, he) else (o2_previous, he_previous)).

(** [while (offset < footer)]; [None] when [fuel] runs out. *)
Fixpoint shearwater_samples_loop (fuel : nat) (data : blob) (petrel : bool)
  (units samplesize footer : Z) (offset time o2_previous he_previous : Z)
  : option (dc_status_t * list dc_sample) :=
  if offset <? footer then
    match fuel with
    | O => None
    | S fuel' =>
        if array_isequal data offset samplesize 0x00 then
          shearwater_samples_loop fuel' data petrel units samplesize footer
            (u32 (offset + samplesize)) time o2_previous he_previous
        else
          let time := u32 (time + 10) in
          let '(out, (o2, he)) :=
            shearwater_sample data petrel units offset time o2_previous he_previous in
          match shearwater_samples_loop fuel' data petrel units samplesize footer
                  (u32 (offset + samplesize)) time o2 he with
          | Some (st, rest) => Some (st, out ++ rest)
          | None => None
          end
    end
  else Some (DC_STATUS_SUCCESS, []).

Definition shearwater_predator_parser_samples_foreach (parser : shearwater_predator_parser_t)
  : option (dc_status_t * list dc_sample) :=
  let data := sw_data parser in
  match shearwater_footer parser with
  | None => Some (DC_STATUS_DATAFORMAT, [])
  | Some footer =>
      let samplesize :=
        if sw_petrel parser then Shearwater.SZ_SAMPLE_PETREL
        else Shearwater.SZ_SAMPLE_PREDATOR in
      let units := byte_at data 8 in
      shearwater_samples_loop (length data) data (sw_petrel parser) units samplesize
        footer Shearwater.SZ_BLOCK 0 0 0
  end.

(** ** Uwatec Memomouse (uwatec_memomouse_parser.c) *)

Record uwatec_memomouse_parser_t : Type := mk_memomouse {
  mm_data : blob;             (* base.data, base.size *)
  mm_devtime : Z;             (* unsigned int *)
  mm_systime : dc_ticks_t
}.

Definition uwatec_memomouse_parser_create (devtime : Z) (systime : dc_ticks_t)
  : uwatec_memomouse_parser_t :=
  {| mm_data := []; mm_devtime := devtime; mm_systime := systime |}.

(** The local [ticks] of [get_datetime]: the difference and the division
    are [unsigned int] operations, the subtraction from [systime] is done
    in [dc_ticks_t]. *)
Definition uwatec_memomouse_parser_ticks (parser : uwatec_memomouse_parser_t)
  : dc_ticks_t :=
  let timestamp := array_uint32_le (mm_data parser) 11 in
  mm_systime parser - u32 (mm_devtime parser - timestamp) / 2.

Section MemomouseDatetime.

Variable dc_datetime_localtime : datetime_conv.

Definition uwatec_memomouse_parser_get_datetime (parser : uwatec_memomouse_parser_t)
  : dc_status_t * option dc_datetime_t :=
  if blob_size (mm_data parser) <? 11 + 4 then (DC_STATUS_DATAFORMAT, None)
  else datetime_result dc_datetime_localtime (uwatec_memomouse_parser_ticks parser).

End MemomouseDatetime.

Definition memomouse_is_nitrox (model : Z) : bool := Z.land model 0xF0 =? 0xF0.
Definition memomouse_is_oxygen (model : Z) : bool := Z.land model 0xF0 =? 0xA0.

Definition memomouse_header (model : Z) : Z :=
  22 + (if memomouse_is_nitrox model then 2 else 0) +
       (if memomouse_is_oxygen model then 3 else 0).

Definition uwatec_memomouse_parser_get_field (parser : uwatec_memomouse_parser_t)
  (type : dc_field_type_t) (flags : Z) : dc_status_t * option dc_field_value :=
  let data := mm_data parser in
  let size := blob_size data in
  if size <? 18 then (DC_STATUS_DATAFORMAT, None)
  else
    let model := byte_at data 3 in
    let is_nitrox := memomouse_is_nitrox model in
    let is_oxygen := memomouse_is_oxygen model in
    let header := memomouse_header model in
    match type with
    | DC_FIELD_DIVETIME =>
        (DC_STATUS_SUCCESS,
         Some (FV_uint (((if Z.land (byte_at data 4) 0x04 =? 0 then 0 else 100) +
                         bcd2dec (byte_at data 5)) * 60)))
    | DC_FIELD_MAXDEPTH =>
        (DC_STATUS_SUCCESS,
         Some (FV_double
                 (double_of_uint (Z.shiftr (Z.land (array_uint16_be data 6) 0xFFC0) 6)
                  * 10.0 / 64.0)%float))
    | DC_FIELD_GASMIX_COUNT => (DC_STATUS_SUCCESS, Some (FV_uint 1))
    | DC_FIELD_GASMIX =>
        let he := 0.0%float in
        let o2 :=
          if size >=? header + 18 then
            if is_oxygen then (double_of_uint (byte_at data (18 + 23)) / 100.0)%float
            else if is_nitrox then
              let nibble := Z.land (byte_at data (18 + 23)) 0x0F in
              if nibble =? 0 then (21.0 / 100.0)%float
              else ((20.0 + double_of_int (2 * nibble)) / 100.0)%float
            else 0.21%float
          else 0.21%float in
        (DC_STATUS_SUCCESS,
         Some (FV_gasmix {| helium := he; oxygen := o2;
                            nitrogen := (1.0 - o2 - he)%float |}))
    | DC_FIELD_TEMPERATURE_MINIMUM =>
        (DC_STATUS_SUCCESS,
         Some (FV_double (double_of_int (s8 (byte_at data 15)) / 4.0)%float))
    | _ => (DC_STATUS_UNSUPPORTED, None)
    end.

Definition memomouse_warning (i : Z) : parser_sample_event_t :=
  if i =? 0 then SAMPLE_EVENT_DECOSTOP
  else if i =? 1 then SAMPLE_EVENT_RBT
  else if i =? 2 then SAMPLE_EVENT_ASCENT
  else if i =? 3 then SAMPLE_EVENT_CEILING
  else if i =? 4 then SAMPLE_EVENT_WORKLOAD
  else SAMPLE_EVENT_TRANSMITTER.

Definition memomouse_warnings (warnings : Z) : list dc_sample :=
  flat_map (fun i => if Z.land warnings (Z.shiftl 1 i) =? 0 then []
                     else [DC_SAMPLE_EVENT (memomouse_warning i) 0 0 0])
           [0; 1; 2; 3; 4; 5].

Definition blob_slice (data : blob) (off len : Z) : list Z :=
  map (fun i => byte_at data (off + Z.of_nat i)) (seq 0 (Z.to_nat len)).

(** [while (offset + 2 <= size)]; [None] when [fuel] runs out. *)
Fixpoint memomouse_samples_loop (fuel : nat) (data : blob) (is_oxygen : bool)
  (time offset : Z) : option (dc_status_t * list dc_sample) :=
  let size := blob_size data in
  if u32 (offset + 2) <=? size then
    match fuel with
    | O => None
    | S fuel' =>
        let value := array_uint16_be data offset in
        let depth := Z.shiftr (Z.land value 0xFFC0) 6 in
        let warnings := Z.land value 0x3F in
        let offset := u32 (offset + 2) in
        let out :=
          [DC_SAMPLE_TIME time;
           DC_SAMPLE_DEPTH (double_of_uint depth * 10.0 / 64.0)%float] ++
          memomouse_warnings warnings in
        let continue (out : list dc_sample) (offset : Z) :=
          match memomouse_samples_loop fuel' data is_oxygen (u32 (time + 20)) offset with
          | Some (st, rest) => Some (st, out ++ rest)
          | None => None
          end in
        if time mod 60 =? 0 then
          if u32 (offset + 1) >? size then Some (DC_STATUS_DATAFORMAT, out)
          else
            let offset1 := u32 (offset + 1) in
            if is_oxygen then
              if u32 (offset1 + 1) >? size then Some (DC_STATUS_DATAFORMAT, out)
              else
                continue
                  (out ++ [DC_SAMPLE_VENDOR SAMPLE_VENDOR_UWATEC_ALADIN 2 (blob_slice data offset 2)])
                  (u32 (offset1 + 1))
            else
              continue
                (out ++ [DC_SAMPLE_VENDOR SAMPLE_VENDOR_UWATEC_ALADIN 1 (blob_slice data offset 1)])
                offset1
        else continue out offset
    end
  else Some (DC_STATUS_SUCCESS, []).

Definition uwatec_memomouse_parser_samples_foreach (parser : uwatec_memomouse_parser_t)
  : option (dc_status_t * list dc_sample) :=
  let data := mm_data parser in
  if blob_size data <? 18 then Some (DC_STATUS_DATAFORMAT, [])
  else
    let model := byte_at data 3 in
    memomouse_samples_loop (length data) data (memomouse_is_oxygen model) 20
      (memomouse_header model + 18).

(** ** Reefnet Sensus Pro and Ultra (reefnet_sensuspro_parser.c,
       reefnet_sensusultra_parser.c) *)

Record reefnet_sensuspro_parser_t : Type := mk_sensuspro {
  sp_data : blob;             (* base.data, base.size *)
  sp_atmospheric : float;
  sp_hydrostatic : float;
  sp_devtime : Z;             (* unsigned int *)
  sp_systime : dc_ticks_t;
  sp_cached : bool;
  sp_divetime : Z;
  sp_maxdepth : Z
}.

Definition reefnet_sensuspro_parser_ticks (parser : reefnet_sensuspro_parser_t)
  : dc_ticks_t :=
  let timestamp := array_uint32_le (sp_data parser) 6 in
  sp_systime parser - u32 (sp_devtime parser - timestamp).

(** [memcmp (data + offset, footer, 2) != 0] for the footer FF FF. *)
Definition sensuspro_not_footer (data : blob) (offset : Z) : bool :=
  negb ((byte_at data offset =? 0xFF) && (byte_at data (offset + 1) =? 0xFF)).

(** The scan of [get_field]; the bound [offset + sizeof (footer) <= size]
    is computed in [size_t].  [None] when [fuel] runs out. *)
Fixpoint sensuspro_scan (fuel : nat) (data : blob) (offset maxdepth nsamples : Z)
  : option (Z * Z) :=
  if (offset + 2 <=? blob_size data) && sensuspro_not_footer data offset then
    match fuel with
    | O => None
    | S fuel' =>
        let value := array_uint16_le data offset in
        let depth := Z.land value 0x01FF in
        sensuspro_scan fuel' data (u32 (offset + 2))
          (if depth >? maxdepth then depth else maxdepth) (u32 (nsamples + 1))
    end
  else Some (maxdepth, nsamples).

Section ReefnetSensuspro.

Variable dc_datetime_localtime : datetime_conv.
(** One foot of sea water in pascal (units.h, not among the sources). *)
Variable FSW : float.

Definition reefnet_sensuspro_parser_get_datetime (parser : reefnet_sensuspro_parser_t)
  : dc_status_t * option dc_datetime_t :=
  if blob_size (sp_data parser) <? 6 + 4 then (DC_STATUS_DATAFORMAT, None)
  else datetime_result dc_datetime_localtime (reefnet_sensuspro_parser_ticks parser).

Definition reefnet_sensuspro_parser_get_field (parser : reefnet_sensuspro_parser_t)
  (type : dc_field_type_t) (flags : Z)
  : option (dc_status_t * option dc_field_value * reefnet_sensuspro_parser_t) :=
  let data := sp_data parser in
  if blob_size data <? 12 then Some (DC_STATUS_DATAFORMAT, None, parser)
  else
    match (if sp_cached parser then Some parser
           else
             let interval := array_uint16_le data 4 in
             match sensuspro_scan (length data) data 10 0 0 with
             | None => None
             | Some (maxdepth, nsamples) =>
                 Some {| sp_data := data;
                         sp_atmospheric := sp_atmospheric parser;
                         sp_hydrostatic := sp_hydrostatic parser;
                         sp_devtime := sp_devtime parser;
                         sp_systime := sp_systime parser;
                         sp_cached := true;
                         sp_divetime := u32 (nsamples * interval);
                         sp_maxdepth := maxdepth |}
             end) with
    | None => None
    | Some parser =>
        match type with
        | DC_FIELD_DIVETIME =>
            Some (DC_STATUS_SUCCESS, Some (FV_uint (sp_divetime parser)), parser)
        | DC_FIELD_MAXDEPTH =>
            Some (DC_STATUS_SUCCESS,
                  Some (FV_double ((double_of_uint (sp_maxdepth parser) * FSW
                                    - sp_atmospheric parser) / sp_hydrostatic parser)%float),
                  parser)
        | DC_FIELD_GASMIX_COUNT => Some (DC_STATUS_SUCCESS, Some (FV_uint 0), parser)
        | DC_FIELD_DIVEMODE =>
            Some (DC_STATUS_SUCCESS, Some (FV_divemode DC_DIVEMODE_GAUGE), parser)
        | _ => Some (DC_STATUS_UNSUPPORTED, None, parser)
        end
    end.

(** The inner loop of [samples_foreach], after a header was found. *)
Fixpoint sensuspro_profile (fuel : nat) (parser : reefnet_sensuspro_parser_t)
  (interval time offset : Z) : option (list dc_sample) :=
  let data := sp_data parser in
  if (offset + 2 <=? blob_size data) && sensuspro_not_footer data offset then
    match fuel with
    | O => None
    | S fuel' =>
        let value := array_uint16_le data offset in
        let depth := Z.land value 0x01FF in
        let temperature := Z.shiftr (Z.land value 0xFE00) 9 in
        let time := u32 (time + interval) in
        match sensuspro_profile fuel' parser interval time (u32 (offset + 2)) with
        | Some rest =>
            Some ([DC_SAMPLE_TIME time;
                   DC_SAMPLE_TEMPERATURE
                     ((double_of_uint temperature - 32.0) * (5.0 / 9.0))%float;
                   DC_SAMPLE_DEPTH
                     ((double_of_uint depth * FSW - sp_atmospheric parser)
                      / sp_hydrostatic parser)%float] ++ rest)
        | None => None
        end
    end
  else Some [].

(** The outer loop that looks for the header 00 00 00 00. *)
Fixpoint sensuspro_find_header (fuel : nat) (parser : reefnet_sensuspro_parser_t)
  (offset : Z) : option (dc_status_t * list dc_sample) :=
  let data := sp_data parser in
  if offset + 4 <=? blob_size data then
    match fuel with
    | O => None
    | S fuel' =>
        if array_isequal data offset 4 0x00 then
          if u32 (offset + 10) >? blob_size data then Some (DC_STATUS_DATAFORMAT, [])
          else
            let interval := array_uint16_le data (offset + 4) in
            match sensuspro_profile (length data) parser interval 0 (u32 (offset + 10)) with
            | Some out => Some (DC_STATUS_SUCCESS, out)
            | None => None
            end
        else sensuspro_find_header fuel' parser (u32 (offset + 1))
    end
  else Some (DC_STATUS_SUCCESS, []).

Definition reefnet_sensuspro_parser_samples_foreach (parser : reefnet_sensuspro_parser_t)
  : option (dc_status_t * list dc_sample) :=
  sensuspro_find_header (length (sp_data parser)) parser 0.

End ReefnetSensuspro.

Record reefnet_sensusultra_parser_t : Type := mk_sensusultra {
  su_data : blob;             (* base.data, base.size *)
  su_atmospheric : float;
  su_hydrostatic : float;
  su_devtime : Z;             (* unsigned int *)
  su_systime : dc_ticks_t;
  su_cached : bool;
  su_divetime : Z;
  su_maxdepth : Z
}.

Definition reefnet_sensusultra_parser_ticks (parser : reefnet_sensusultra_parser_t)
  : dc_ticks_t :=
  let timestamp := array_uint32_le (su_data parser) 4 in
  su_systime parser - u32 (su_devtime parser - timestamp).

Section ReefnetSensusultra.

Variable dc_datetime_localtime : datetime_conv.

Definition reefnet_sensusultra_parser_get_datetime (parser : reefnet_sensusultra_parser_t)
  : dc_status_t * option dc_datetime_t :=
  if blob_size (su_data parser) <? 4 + 4 then (DC_STATUS_DATAFORMAT, None)
  else datetime_result dc_datetime_localtime (reefnet_sensusultra_parser_ticks parser).

End ReefnetSensusultra.

(** ** Uwatec Smart (uwatec_smart_parser.c) *)

Module Smart.

Definition NBITS : Z := 8.

Definition SMARTPRO : Z := 0x10.
Definition GALILEO : Z := 0x11.
Definition ALADINTEC : Z := 0x12.
Definition ALADINTEC2G : Z := 0x13.
Definition SMARTCOM : Z := 0x14.
Definition ALADIN2G : Z := 0x15.
Definition SMARTTEC : Z := 0x18.
Definition GALILEOTRIMIX : Z := 0x19.
Definition SMARTZ : Z := 0x1C.
Definition MERIDIAN : Z := 0x20.
Definition CHROMIS : Z := 0x24.

Definition UNSUPPORTED : Z := 0xFFFFFFFF.

End Smart.

Inductive uwatec_smart_sample_t : Type :=
| PRESSURE_DEPTH
| RBT
| TEMPERATURE
| PRESSURE
| DEPTH
| HEARTRATE
| BEARING
| ALARMS
| TIME
| UNKNOWN1
| UNKNOWN2.

Record uwatec_smart_header_info_t : Type := mk_header_info {
  h_maxdepth : Z;
  h_divetime : Z;
  h_gasmix : Z;
  h_ngases : Z;
  h_temp_minimum : Z;
  h_temp_maximum : Z;
  h_temp_surface : Z;
  h_tankpressure : Z;
  h_salinity : Z;
  h_timezone : Z
}.

Record uwatec_smart_sample_info_t : Type := mk_sample_info {
  s_type : uwatec_smart_sample_t;
  s_absolute : Z;
  s_index : Z;
  s_ntypebits : Z;
  s_ignoretype : Z;
  s_extrabytes : Z
}.

Definition uwatec_smart_pro_header : uwatec_smart_header_info_t :=
  mk_header_info 18 20 24 1 22 Smart.UNSUPPORTED Smart.UNSUPPORTED
    Smart.UNSUPPORTED Smart.UNSUPPORTED Smart.UNSUPPORTED.

Definition uwatec_smart_galileo_header : uwatec_smart_header_info_t :=
  mk_header_info 22 26 44 3 30 28 32 50 94 16.

Definition uwatec_smart_aladin_tec_header : uwatec_smart_header_info_t :=
  mk_header_info 22 24 30 1 26 28 32 Smart.UNSUPPORTED Smart.UNSUPPORTED 16.

Definition uwatec_smart_aladin_tec2g_header : uwatec_smart_header_info_t :=
  mk_header_info 22 26 34 2 30 28 32 Smart.UNSUPPORTED Smart.UNSUPPORTED
    Smart.UNSUPPORTED.

Definition uwatec_smart_com_header : uwatec_smart_header_info_t :=
  mk_header_info 18 20 24 1 22 Smart.UNSUPPORTED Smart.UNSUPPORTED 30
    Smart.UNSUPPORTED Smart.UNSUPPORTED.

Definition uwatec_smart_tec_header : uwatec_smart_header_info_t :=
  mk_header_info 18 20 28 3 22 Smart.UNSUPPORTED Smart.UNSUPPORTED 34
    Smart.UNSUPPORTED Smart.UNSUPPORTED.

Definition uwatec_smart_pro_samples : list uwatec_smart_sample_info_t :=
  [ mk_sample_info DEPTH          0 0 1 0 0;   (* 0ddddddd *)
    mk_sample_info TEMPERATURE    0 0 2 0 0;   (* 10dddddd *)
    mk_sample_info TIME           1 0 3 0 0;   (* 110ddddd *)
    mk_sample_info ALARMS         1 0 4 0 0;   (* 1110dddd *)
    mk_sample_info DEPTH          0 0 5 0 1;   (* 11110ddd dddddddd *)
    mk_sample_info TEMPERATURE    0 0 6 0 1;   (* 111110dd dddddddd *)
    mk_sample_info DEPTH          1 0 7 1 2;   (* 1111110d dddddddd dddddddd *)
    mk_sample_info TEMPERATURE    1 0 8 0 2 ]. (* 11111110 dddddddd dddddddd *)

Definition uwatec_smart_galileo_samples : list uwatec_smart_sample_info_t :=
  [ mk_sample_info DEPTH          0 0 1 0 0;
    mk_sample_info RBT            0 0 3 0 0;
    mk_sample_info PRESSURE       0 0 4 0 0;
    mk_sample_info TEMPERATURE    0 0 4 0 0;
    mk_sample_info TIME           1 0 4 0 0;
    mk_sample_info HEARTRATE      0 0 4 0 0;
    mk_sample_info ALARMS         1 0 4 0 0;
    mk_sample_info ALARMS         1 1 8 0 1;
    mk_sample_info DEPTH          1 0 8 0 2;
    mk_sample_info RBT            1 0 8 0 1;
    mk_sample_info TEMPERATURE    1 0 8 0 2;
    mk_sample_info PRESSURE       1 0 8 0 2;
    mk_sample_info PRESSURE       1 1 8 0 2;
    mk_sample_info PRESSURE       1 2 8 0 2;
    mk_sample_info HEARTRATE      1 0 8 0 1;
    mk_sample_info BEARING        1 0 8 0 2;
    mk_sample_info ALARMS         1 2 8 0 1;
    mk_sample_info UNKNOWN1       1 0 8 0 0;
    mk_sample_info UNKNOWN2       1 0 8 0 1 ].

Definition uwatec_smart_aladin_samples : list uwatec_smart_sample_info_t :=
  [ mk_sample_info DEPTH          0 0 1 0 0;   (* 0ddddddd *)
    mk_sample_info TEMPERATURE    0 0 2 0 0;   (* 10dddddd *)
    mk_sample_info TIME           1 0 3 0 0;   (* 110ddddd *)
    mk_sample_info ALARMS         1 0 4 0 0;   (* 1110dddd *)
    mk_sample_info DEPTH          0 0 5 0 1;   (* 11110ddd dddddddd *)
    mk_sample_info TEMPERATURE    0 0 6 0 1;   (* 111110dd dddddddd *)
    mk_sample_info DEPTH          1 0 7 1 2;   (* 1111110d dddddddd dddddddd *)
    mk_sample_info TEMPERATURE    1 0 8 0 2;   (* 11111110 dddddddd dddddddd *)
    mk_sample_info ALARMS         1 1 9 0 0 ]. (* 11111111 0ddddddd *)

Definition uwatec_smart_com_samples : list uwatec_smart_sample_info_t :=
  [ mk_sample_info PRESSURE_DEPTH 0 0  1 0 1;
    mk_sample_info RBT            0 0  2 0 0;
    mk_sample_info TEMPERATURE    0 0  3 0 0;
    mk_sample_info PRESSURE       0 0  4 0 1;
    mk_sample_info DEPTH          0 0  5 0 1;
    mk_sample_info TEMPERATURE    0 0  6 0 1;
    mk_sample_info ALARMS         1 0  7 1 1;
    mk_sample_info TIME           1 0  8 0 1;
    mk_sample_info DEPTH          1 0  9 1 2;
    mk_sample_info PRESSURE       1 0 10 1 2;
    mk_sample_info TEMPERATURE    1 0 11 1 2;
    mk_sample_info RBT            1 0 12 1 1 ].

Definition uwatec_smart_tec_samples : list uwatec_smart_sample_info_t :=
  [ mk_sample_info PRESSURE_DEPTH 0 0  1 0 1;
    mk_sample_info RBT            0 0  2 0 0;
    mk_sample_info TEMPERATURE    0 0  3 0 0;
    mk_sample_info PRESSURE       0 0  4 0 1;
    mk_sample_info DEPTH          0 0  5 0 1;
    mk_sample_info TEMPERATURE    0 0  6 0 1;
    mk_sample_info ALARMS         1 0  7 1 1;
    mk_sample_info TIME           1 0  8 0 1;
    mk_sample_info DEPTH          1 0  9 1 2;
    mk_sample_info TEMPERATURE    1 0 10 1 2;
    mk_sample_info PRESSURE       1 0 11 1 2;
    mk_sample_info PRESSURE       1 1 12 1 2;
    mk_sample_info PRESSURE       1 2 13 1 2;
    mk_sample_info RBT            1 0 14 1 1 ].

(** The fields of the parser that [create] fixes; the cached fields play no
    part in the functions embedded here. *)
Record uwatec_smart_parser_t : Type := mk_smart {
  sm_data : blob;             (* base.data, base.size *)
  sm_model : Z;
  sm_devtime : Z;             (* unsigned int *)
  sm_systime : dc_ticks_t;
  sm_samples : list uwatec_smart_sample_info_t;   (* samples, nsamples *)
  sm_header : uwatec_smart_header_info_t;
  sm_headersize : Z
}.

Definition model_in (model : Z) (l : list Z) : bool := existsb (Z.eqb model) l.

(** [None] is the INVALIDARGS return for an unknown model. *)
Definition uwatec_smart_parser_create (model devtime : Z) (systime : dc_ticks_t)
  : option uwatec_smart_parser_t :=
  let mk headersize header samples :=
    Some {| sm_data := []; sm_model := model; sm_devtime := devtime;
            sm_systime := systime; sm_samples := samples; sm_header := header;
            sm_headersize := headersize |} in
  if model =? Smart.SMARTPRO then
    mk 92 uwatec_smart_pro_header uwatec_smart_pro_samples
  else if model_in model [Smart.GALILEO; Smart.GALILEOTRIMIX; Smart.ALADIN2G;
                          Smart.MERIDIAN; Smart.CHROMIS] then
    mk 152 uwatec_smart_galileo_header uwatec_smart_galileo_samples
  else if model =? Smart.ALADINTEC then
    mk 108 uwatec_smart_aladin_tec_header uwatec_smart_aladin_samples
  else if model =? Smart.ALADINTEC2G then
    mk 116 uwatec_smart_aladin_tec2g_header uwatec_smart_aladin_samples
  else if model =? Smart.SMARTCOM then
    mk 100 uwatec_smart_com_header uwatec_smart_com_samples
  else if model_in model [Smart.SMARTTEC; Smart.SMARTZ] then
    mk 132 uwatec_smart_tec_header uwatec_smart_tec_samples
  else None.

Definition uwatec_smart_parser_set_data (parser : uwatec_smart_parser_t) (data : blob)
  : dc_status_t * uwatec_smart_parser_t :=
  (DC_STATUS_SUCCESS,
   {| sm_data := data; sm_model := sm_model parser; sm_devtime := sm_devtime parser;
      sm_systime := sm_systime parser; sm_samples := sm_samples parser;
      sm_header := sm_header parser; sm_headersize := sm_headersize parser |}).

(** The local [ticks] of [get_datetime], before and after the time zone
    correction. *)
Definition uwatec_smart_parser_ticks (parser : uwatec_smart_parser_t) : dc_ticks_t :=
  let timestamp := array_uint32_le (sm_data parser) 8 in
  sm_systime parser - u32 (sm_devtime parser - timestamp) / 2.

Section SmartDatetime.

Variables dc_datetime_localtime dc_datetime_gmtime : datetime_conv.

Definition uwatec_smart_parser_get_datetime (parser : uwatec_smart_parser_t)
  : dc_status_t * option dc_datetime_t :=
  let table := sm_header parser in
  let data := sm_data parser in
  if blob_size data <? sm_headersize parser then (DC_STATUS_DATAFORMAT, None)
  else
    let ticks := uwatec_smart_parser_ticks parser in
    if negb (h_timezone table =? Smart.UNSUPPORTED) then
      let utc_offset := s8 (byte_at data (h_timezone table)) in
      datetime_result dc_datetime_gmtime (ticks + utc_offset * 900)
    else
      datetime_result dc_datetime_localtime ticks.

End SmartDatetime.

(** The inner loop of [uwatec_smart_identify] over the bits of one byte,
    [n] bits left, [j] the index of the next one: [inl] is the value
    returned from inside the loop, [inr] the count after all the bits. *)
Fixpoint uwatec_smart_identify_bits (n : nat) (j value count : Z) : Z + Z :=
  match n with
  | O => inr count
  | S n' =>
      let mask := Z.shiftl 1 (Smart.NBITS - 1 - j) mod 2 ^ 8 in
      if Z.land value mask =? 0 then inl count
      else uwatec_smart_identify_bits n' (j + 1) value (u32 (count + 1))
  end.

Fixpoint uwatec_smart_identify_from (data : list byte) (count : Z) : Z :=
  match data with
  | [] => u32 (-1)
  | value :: rest =>
      match uwatec_smart_identify_bits (Z.to_nat Smart.NBITS) 0 (u8 value) count with
      | inl c => c
      | inr c => uwatec_smart_identify_from rest c
      end
  end.

(** [data] is the array with its [size] entries. *)
Definition uwatec_smart_identify (data : list byte) : Z :=
  uwatec_smart_identify_from data 0.

Definition uwatec_galileo_identify (value : Z) : Z :=
  if Z.land value 0x80 =? 0 then 0
  else if Z.land value 0xE0 =? 0x80 then 1
  else if negb (Z.land value 0xF0 =? 0xF0) then Z.shiftr (Z.land value 0x70) 4
  else Z.land value 0x0F + 7.

(** The type identification at the head of an iteration of
    [uwatec_smart_parser_samples_foreach]: the table entry that the bytes
    at [offset] select, or [None] for the "Invalid type bits" return. *)
Definition uwatec_smart_sample_type (parser : uwatec_smart_parser_t) (offset : Z)
  : option (Z * uwatec_smart_sample_info_t) :=
  let data := sm_data parser in
  let id :=
    if model_in (sm_model parser) [Smart.GALILEO; Smart.GALILEOTRIMIX; Smart.ALADIN2G;
                                   Smart.MERIDIAN; Smart.CHROMIS]
    then uwatec_galileo_identify (byte_at data offset)
    else uwatec_smart_identify (skipn (Z.to_nat offset) data) in
  if id >=? Z.of_nat (length (sm_samples parser)) then None
  else option_map (fun e => (id, e)) (nth_error (sm_samples parser) (Z.to_nat id)).

(** ** Oceanic Atom2 (oceanic_atom2_parser.c) *)

Module Atom2.

Definition ATOM1 : Z := 0x4250.
Definition EPICA : Z := 0x4257.
Definition VT3 : Z := 0x4258.
Definition T3A : Z := 0x4259.
Definition ATOM2 : Z := 0x4342.
Definition GEO : Z := 0x4344.
Definition MANTA : Z := 0x4345.
Definition DATAMASK : Z := 0x4347.
Definition COMPUMASK : Z := 0x4348.
Definition OC1A : Z := 0x434E.
Definition F10 : Z := 0x434D.
Definition WISDOM2 : Z := 0x4350.
Definition INSIGHT2 : Z := 0x4353.
Definition ELEMENT2 : Z := 0x4357.
Definition VEO20 : Z := 0x4359.
Definition VEO30 : Z := 0x435A.
Definition ZEN : Z := 0x4441.
Definition ZENAIR : Z := 0x4442.
Definition ATMOSAI2 : Z := 0x4443.
Definition PROPLUS21 : Z := 0x4444.
Definition GEO20 : Z := 0x4446.
Definition VT4 : Z := 0x4447.
Definition OC1B : Z := 0x4449.
Definition VOYAGER2G : Z := 0x444B.
Definition ATOM3 : Z := 0x444C.
Definition DG03 : Z := 0x444D.
Definition OCS : Z := 0x4450.
Definition OC1C : Z := 0x4451.
Definition VT41 : Z := 0x4452.
Definition EPICB : Z := 0x4453.
Definition T3B : Z := 0x4455.
Definition ATOM31 : Z := 0x4456.
Definition A300AI : Z := 0x4457.
Definition WISDOM3 : Z := 0x4458.
Definition A300 : Z := 0x445A.
Definition TX1 : Z := 0x4542.
Definition AMPHOS : Z := 0x4545.
Definition AMPHOSAIR : Z := 0x4546.
Definition PROPLUS3 : Z := 0x4548.
Definition F11 : Z := 0x4549.
Definition OCI : Z := 0x454B.
Definition A300CS : Z := 0x454C.
Definition VTX : Z := 0x4557.

Definition NORMAL : Z := 0.
Definition GAUGE : Z := 1.
Definition FREEDIVE : Z := 2.

End Atom2.

Import Atom2.

Record oceanic_atom2_parser_t : Type := mk_atom2 {
  a2_data : blob;             (* base.data, base.size *)
  a2_model : Z;
  a2_headersize : Z;
  a2_footersize : Z;
  a2_serial : Z;
  a2_cached : bool;
  a2_divetime : Z;
  a2_maxdepth : float
}.

Definition oceanic_atom2_parser_create (model serial : Z) : oceanic_atom2_parser_t :=
  let headersize := 9 * PAGESIZE / 2 in
  let footersize := 2 * PAGESIZE / 2 in
  let '(headersize, footersize) :=
    if model_in model [DATAMASK; COMPUMASK; GEO; GEO20; VEO20; VEO30; OCS; PROPLUS3;
                       A300; MANTA; INSIGHT2; ZEN]
    then (headersize - PAGESIZE, footersize)
    else if model_in model [VT4; VT41] then (headersize + PAGESIZE, footersize)
    else if model =? TX1 then (headersize + 2 * PAGESIZE, footersize)
    else if model =? ATOM1 then (headersize - 2 * PAGESIZE, footersize)
    else if model =? F10 then (3 * PAGESIZE, PAGESIZE / 2)
    else if model =? F11 then (5 * PAGESIZE, PAGESIZE / 2)
    else if model_in model [A300CS; VTX] then (5 * PAGESIZE, footersize)
    else (headersize, footersize) in
  {| a2_data := []; a2_model := model; a2_headersize := headersize;
     a2_footersize := footersize; a2_serial := serial; a2_cached := false;
     a2_divetime := 0; a2_maxdepth := 0.0%float |}.

Definition oceanic_atom2_parser_set_data (parser : oceanic_atom2_parser_t) (data : blob)
  : dc_status_t * oceanic_atom2_parser_t :=
  (DC_STATUS_SUCCESS,
   {| a2_data := data; a2_model := a2_model parser;
      a2_headersize := a2_headersize parser; a2_footersize := a2_footersize parser;
      a2_serial := a2_serial parser; a2_cached := false; a2_divetime := 0;
      a2_maxdepth := 0.0%float |}).

(** What [samples_foreach] fixes before its loop. *)
Record atom2_setup : Type := mk_atom2_setup {
  st_mode : Z;
  st_interval : Z;
  st_samplesize : Z;
  st_have_temperature : bool;
  st_have_pressure : bool
}.

(** The locals that change across iterations. *)
Record atom2_locals : Type := mk_atom2_locals {
  a_time : Z;
  a_temperature : Z;
  a_tank : Z;
  a_pressure : Z;
  a_complete : bool
}.

Definition atom2_mode (model : Z) (data : blob) : Z :=
  if model_in model [F10; F11] then FREEDIVE
  else if model_in model [T3B; VT3; DG03] then Z.shiftr (Z.land (byte_at data 2) 0xC0) 6
  else if model_in model [VEO20; VEO30] then Z.shiftr (Z.land (byte_at data 1) 0x60) 5
  else NORMAL.

Definition atom2_interval (model mode : Z) (data : blob) : Z :=
  if negb (mode =? FREEDIVE) then
    let idx := if model_in model [A300CS; VTX] then 0x1f else 0x17 in
    let sel := Z.land (byte_at data idx) 0x03 in
    if sel =? 0 then 2 else if sel =? 1 then 15 else if sel =? 2 then 30 else 60
  else 1.

Definition atom2_samplesize (model mode : Z) : Z :=
  if mode =? FREEDIVE then
    if model_in model [F10; F11] then 2 else 4
  else if model_in model [OC1A; OC1B; OC1C; OCI; TX1; A300CS; VTX] then PAGESIZE
  else PAGESIZE / 2.

(** [for (i = 0; i < nsamples; ++i)] of the surface interval sample. *)
Fixpoint atom2_surface (nsamples : nat) (interval time : Z) (complete : bool)
  : list dc_sample * Z * bool :=
  match nsamples with
  | O => ([], time, complete)
  | S n =>
      let time' := if complete then u32 (time + interval) else time in
      let '(rest, t, c) := atom2_surface n interval time' true in
      ((if complete then [DC_SAMPLE_TIME time'] else []) ++
       [DC_SAMPLE_DEPTH 0.0%float] ++ rest, t, c)
  end.

Section OceanicAtom2.

(** One psi and one bar in pascal (units.h, not among the sources). *)
Variables PSI BAR : float.

(** The temperature of an ordinary sample. *)
Definition atom2_temperature (model : Z) (data : blob) (offset temperature : Z) : Z :=
  if model_in model [GEO; ATOM1; ELEMENT2] then byte_at data (offset + 6)
  else if model_in model [GEO20; VEO20; VEO30; OC1A; OC1B; OC1C; OCI; A300]
  then byte_at data (offset + 3)
  else if model_in model [OCS; TX1] then byte_at data (offset + 1)
  else if model_in model [VT4; VT41; ATOM3; ATOM31; A300AI] then
    Z.lor (Z.lor (Z.shiftr (Z.land (byte_at data (offset + 7)) 0xF0) 4)
                 (Z.shiftl (Z.land (byte_at data (offset + 7)) 0x0C) 2))
          (Z.shiftl (Z.land (byte_at data (offset + 5)) 0x0C) 4)
  else if model_in model [A300CS; VTX] then byte_at data (offset + 11)
  else
    let sign :=
      if model_in model [DG03; PROPLUS3]
      then Z.shiftr (Z.land (Z.lnot (byte_at data (offset + 5))) 0x04) 2
      else if model_in model [VOYAGER2G; AMPHOS; AMPHOSAIR]
      then Z.shiftr (Z.land (byte_at data (offset + 5)) 0x04) 2
      else if model_in model [ATOM2; PROPLUS21; EPICA; EPICB; ATMOSAI2; WISDOM2; WISDOM3]
      then Z.shiftr (Z.land (byte_at data (offset + 0)) 0x80) 7
      else Z.shiftr (Z.land (Z.lnot (byte_at data (offset + 0))) 0x80) 7 in
    let delta := Z.shiftr (Z.land (byte_at data (offset + 7)) 0x0C) 2 in
    if sign =? 0 then u32 (temperature + delta) else u32 (temperature - delta).

(** The tank pressure of an ordinary sample. *)
Definition atom2_pressure (model : Z) (data : blob) (offset pressure : Z) : Z :=
  if model_in model [OC1A; OC1B; OC1C; OCI]
  then Z.land (byte_at data (offset + 10) + Z.shiftl (byte_at data (offset + 11)) 8) 0x0FFF
  else if model_in model [VT4; VT41; ATOM3; ATOM31; ZENAIR; A300AI; DG03; PROPLUS3; AMPHOSAIR]
  then (Z.shiftl (Z.land (byte_at data (offset + 0)) 0x03) 8 + byte_at data (offset + 1)) * 5
  else if model_in model [TX1; A300CS; VTX] then array_uint16_le data (offset + 4)
  else u32 (pressure - byte_at data (offset + 1)).

(** The depth of an ordinary sample, in 1/16 ft. *)
Definition atom2_depth (model mode : Z) (data : blob) (offset : Z) : Z :=
  if mode =? FREEDIVE then array_uint16_le data offset
  else if model_in model [GEO20; VEO20; VEO30; OC1A; OC1B; OC1C; OCI; A300]
  then Z.land (byte_at data (offset + 4) + Z.shiftl (byte_at data (offset + 5)) 8) 0x0FFF
  else if model =? ATOM1 then byte_at data (offset + 3) * 16
  else Z.land (byte_at data (offset + 2) + Z.shiftl (byte_at data (offset + 3)) 8) 0x0FFF.

(** The tank switch sample (0xAA): the new tank and pressure. *)
Definition atom2_tank_switch (model : Z) (data : blob) (offset : Z) : Z * Z :=
  if model_in model [DATAMASK; COMPUMASK] then
    (0, Z.land (Z.shiftl (byte_at data (offset + 7)) 8 + byte_at data (offset + 6)) 0x0FFF)
  else if model_in model [A300CS; VTX] then
    (u32 (Z.land (byte_at data (offset + 1)) 0x03 - 1),
     Z.land (Z.shiftl (byte_at data (offset + 7)) 8 + byte_at data (offset + 6)) 0x0FFF)
  else
    (u32 (Z.land (byte_at data (offset + 1)) 0x03 - 1),
     if model_in model [ATOM2; EPICA; EPICB]
     then Z.land (Z.shiftl (byte_at data (offset + 3)) 8 + byte_at data (offset + 4)) 0x0FFF * 2
     else Z.land (Z.shiftl (byte_at data (offset + 4)) 8 + byte_at data (offset + 5)) 0x0FFF * 2).

(** One iteration of the sample loop on a sample that is not empty: the
    status when the iteration returns from the function, the samples handed
    to the callback, the locals after it and the length to skip. *)
Definition atom2_sample (model : Z) (data : blob) (s : atom2_setup) (offset : Z)
  (l : atom2_locals) : option dc_status_t * list dc_sample * atom2_locals * Z :=
  let size := blob_size data in
  let time := if a_complete l then u32 (a_time l + st_interval s) else a_time l in
  let out0 := if a_complete l then [DC_SAMPLE_TIME time] else [] in
  let sampletype := if st_mode s =? FREEDIVE then 0 else byte_at data (offset + 0) in
  let length := if sampletype =? 0xBB then PAGESIZE else st_samplesize s in
  if (sampletype =? 0xBB) && (u32 (offset + length) >? u32 (size - PAGESIZE)) then
    (Some DC_STATUS_DATAFORMAT, out0,
     mk_atom2_locals time (a_temperature l) (a_tank l) (a_pressure l) false, length)
  else
    let vendor := [DC_SAMPLE_VENDOR SAMPLE_VENDOR_OCEANIC_ATOM2 length
                     (blob_slice data offset length)] in
    if sampletype =? 0xAA then
      let '(tank, pressure) := atom2_tank_switch model data offset in
      (None, out0 ++ vendor,
       mk_atom2_locals time (a_temperature l) tank pressure false, length)
    else if sampletype =? 0xBB then
      let surftime :=
        u32 (60 * bcd2dec (byte_at data (offset + 1)) + bcd2dec (byte_at data (offset + 2))) in
      let nsamples := surftime / st_interval s in
      let '(surf, time', complete) :=
        atom2_surface (Z.to_nat nsamples) (st_interval s) time false in
      (None, out0 ++ vendor ++ surf,
       mk_atom2_locals time' (a_temperature l) (a_tank l) (a_pressure l) complete, length)
    else
      let temperature :=
        if st_have_temperature s then atom2_temperature model data offset (a_temperature l)
        else a_temperature l in
      let pressure :=
        if st_have_pressure s then atom2_pressure model data offset (a_pressure l)
        else a_pressure l in
      let depth := atom2_depth model (st_mode s) data offset in
      (None,
       out0 ++ vendor ++
       (if st_have_temperature s
        then [DC_SAMPLE_TEMPERATURE ((double_of_uint temperature - 32.0) * (5.0 / 9.0))%float]
        else []) ++
       (if st_have_pressure s
        then [DC_SAMPLE_PRESSURE (a_tank l) (double_of_uint pressure * PSI / BAR)%float]
        else []) ++
       [DC_SAMPLE_DEPTH (double_of_uint depth / 16.0 * FEET)%float] ++
       (if model_in model [A300CS; VTX] then
          let deco := Z.shiftr (Z.land (byte_at data (offset + 15)) 0x70) 4 in
          [DC_SAMPLE_DECO (if deco =? 0 then DC_DECO_NDL else DC_DECO_DECOSTOP)
             (if deco =? 0 then 0.0%float else (double_of_uint (deco * 10) * FEET)%float)
             (Z.land (array_uint16_le data (offset + 6)) 0x03FF)]
        else []),
       mk_atom2_locals time temperature (a_tank l) pressure true, length).

(** [while (offset + samplesize <= size - footersize)]; [None] when [fuel]
    runs out. *)
Fixpoint atom2_samples_loop (fuel : nat) (parser : oceanic_atom2_parser_t)
  (s : atom2_setup) (offset : Z) (l : atom2_locals)
  : option (dc_status_t * list dc_sample) :=
  let data := a2_data parser in
  if u32 (offset + st_samplesize s) <=? u32 (blob_size data - a2_footersize parser) then
    match fuel with
    | O => None
    | S fuel' =>
        if array_isequal data offset (st_samplesize s) 0x00 ||
           array_isequal data offset (st_samplesize s) 0xFF then
          atom2_samples_loop fuel' parser s (u32 (offset + st_samplesize s)) l
        else
          match atom2_sample (a2_model parser) data s offset l with
          | (Some st, out, _, _) => Some (st, out)
          | (None, out, l', length) =>
              match atom2_samples_loop fuel' parser s (u32 (offset + length)) l' with
              | Some (st, rest) => Some (st, out ++ rest)
              | None => None
              end
          end
    end
  else Some (DC_STATUS_SUCCESS, []).

Definition oceanic_atom2_parser_samples_foreach (parser : oceanic_atom2_parser_t)
  : option (dc_status_t * list dc_sample) :=
  let data := a2_data parser in
  let model := a2_model parser in
  let headersize := a2_headersize parser in
  let footersize := a2_footersize parser in
  if blob_size data <? u32 (headersize + footersize) then Some (DC_STATUS_DATAFORMAT, [])
  else
    let header :=
      if model_in model [VT4; VT41; A300AI] then 3 * PAGESIZE
      else u32 (headersize - PAGESIZE / 2) in
    let mode := atom2_mode model data in
    let interval := atom2_interval model mode data in
    let samplesize := atom2_samplesize model mode in
    let have_temperature := negb (mode =? FREEDIVE) in
    let have_pressure0 :=
      negb (mode =? FREEDIVE) &&
      negb (model_in model [VEO30; OCS; ELEMENT2; VEO20; A300; ZEN; GEO; GEO20; MANTA]) in
    let temperature := if have_temperature then byte_at data (header + 7) else 0 in
    let idx := if model_in model [A300CS; VTX] then 16 else 2 in
    let pressure :=
      if have_pressure0
      then byte_at data (header + idx) + Z.shiftl (byte_at data (header + idx + 1)) 8
      else 0 in
    let have_pressure := have_pressure0 && negb (pressure =? 10000) in
    atom2_samples_loop (length data) parser
      (mk_atom2_setup mode interval samplesize have_temperature have_pressure)
      headersize
      (mk_atom2_locals 0 temperature 0 pressure true).

End OceanicAtom2.

(** ** Suunto Common2 dive enumeration (suunto_common2.c) *)

Module Common2.

Definition MAXRETRIES : Z := 2.
Definition SZ_VERSION : Z := 0x04.
Definition SZ_PACKET : Z := 0x78.
Definition SZ_MINIMUM : Z := 8.

End Common2.

(** The layout and device structs of suunto_common2.h (not among the
    sources), with the fields the enumeration reads.  [sizeof
    (device->fingerprint)] is the length of [dev_fingerprint]. *)
Record suunto_common2_layout_t : Type := mk_layout {
  memsize : Z;
  fingerprint : Z;
  serial : Z;
  rb_profile_begin : Z;
  rb_profile_end : Z
}.

Record suunto_common2_device_t : Type := mk_device {
  layout : suunto_common2_layout_t;
  dev_version : list byte;
  dev_fingerprint : list byte
}.

(** Modelled from the spec: ringbuffer.c is not among the sources; the
    "modular distance in the arena" from [a] to [b], where [mode] tells
    whether equal pointers mean a full ([true]) or an empty buffer. *)
Definition ringbuffer_distance (a b : Z) (mode : bool) (rb_begin rb_end : Z) : Z :=
  let n := rb_end - rb_begin in
  if a <? b then (b - a) mod n
  else if a >? b then n - (a - b) mod n
  else if mode then n else 0.

Definition RB_PROFILE_DISTANCE (l : suunto_common2_layout_t) (a b : Z) (m : bool) : Z :=
  ringbuffer_distance a b m (rb_profile_begin l) (rb_profile_end l).

(** Modelled from the spec: checksum.c is not among the sources; the
    "XOR of the preceding bytes with initial value 0". *)
Definition checksum_xor_uint8 (data : list byte) (init : Z) : Z :=
  fold_left (fun crc b => Z.lxor crc (u8 b)) data init.

(** The messages of the ERROR calls of [suunto_common2_device_foreach]. *)
Inductive log_message : Type :=
| MSG_FAILED_TO_READ_THE_MEMORY_HEADER     (* "Failed to read the memory header." *)
| MSG_INVALID_RINGBUFFER_POINTER_DETECTED  (* "Invalid ringbuffer pointer detected." *)
| MSG_UNEXPECTED_PROFILE_SIZE              (* "Unexpected profile size." *)
| MSG_FAILED_TO_READ_THE_MEMORY            (* "Failed to read the memory." *)
| MSG_PROFILES_ARE_NOT_CONTINUOUS          (* "Profiles are not continuous." *)
| MSG_SKIPPING_INCOMPLETE_DIVE.            (* "Skipping incomplete dive." *)

(** What the enumeration lets the outside see, in order: the events it
    emits, the messages it logs and the dives it hands to the callback. *)
Inductive foreach_event : Type :=
| EV_PROGRESS (current maximum : Z)
| EV_VENDOR (data : list byte)
| EV_DEVINFO (model firmware serial : Z)
| EV_ERROR (msg : log_message)
| EV_DIVE (data : list byte) (fingerprint : list byte).

(** The dives handed to the callback, in order. *)
Fixpoint trace_dives (t : list foreach_event) : list (list byte) :=
  match t with
  | [] => []
  | EV_DIVE d _ :: r => d :: trace_dives r
  | _ :: r => trace_dives r
  end.

Definition bytes_slice (data : list byte) (off len : Z) : list byte :=
  firstn (Z.to_nat len) (skipn (Z.to_nat off) data).

(** [memcpy (data + pos, src, |src|)] into a buffer of fixed size. *)
Definition buffer_write (data : list byte) (pos : Z) (src : list byte) : list byte :=
  firstn (Z.to_nat pos) data ++ src ++ skipn (Z.to_nat pos + length src) data.

Definition bytes_eqb (a b : list byte) : bool :=
  (length a =? length b)%nat &&
  forallb (fun p => Byte.eqb (fst p) (snd p)) (combine a b).

Inductive loop_exit : Type :=
| EXIT_DONE                       (* the loop condition became false *)
| EXIT_RETURN (rc : dc_status_t).  (* a return statement inside the loop *)

Section SuuntoCommon2.

(** The serial line and the user of the library are outside the program:
    [world] is the state of the device and the line, [packet] the
    family's packet exchange (the vtable entry, NULL when absent), which
    yields a status and the answer buffer; [callback] is the dive
    callback (NULL when absent) with its [userdata]. *)
Variable world : Type.
Variable packet :
  option (world -> list byte -> Z -> Z -> world * dc_status_t * list byte).
Variable userdata : Type.
Variable callback :
  option (userdata -> list byte -> list byte -> userdata * bool).

(** [retries] counts the retries still allowed ([MAXRETRIES - nretries]). *)
Fixpoint suunto_common2_transfer_loop (retries : nat)
  (pk : world -> list byte -> Z -> Z -> world * dc_status_t * list byte)
  (w : world) (command : list byte) (asize size : Z)
  : world * dc_status_t * list byte :=
  let '(w, rc, answer) := pk w command asize size in
  match rc with
  | DC_STATUS_SUCCESS => (w, rc, answer)
  | DC_STATUS_TIMEOUT | DC_STATUS_PROTOCOL =>
      match retries with
      | O => (w, rc, answer)
      | S retries' => suunto_common2_transfer_loop retries' pk w command asize size
      end
  | _ => (w, rc, answer)
  end.

Definition suunto_common2_transfer (w : world) (command : list byte) (asize size : Z)
  : world * dc_status_t * list byte :=
  match packet with
  | None => (w, DC_STATUS_UNSUPPORTED, [])
  | Some pk =>
      suunto_common2_transfer_loop (Z.to_nat Common2.MAXRETRIES) pk w command asize size
  end.

(** [while (nbytes < size)] of [suunto_common2_device_read]; the bytes
    copied so far are [acc].  [None] when [fuel] runs out. *)
Fixpoint suunto_common2_read_loop (fuel : nat) (w : world) (address nbytes size : Z)
  (acc : list byte) : option (world * dc_status_t * list byte) :=
  if nbytes <? size then
    match fuel with
    | O => None
    | S fuel' =>
        let len := if u32 (size - nbytes) >? Common2.SZ_PACKET then Common2.SZ_PACKET
                   else u32 (size - nbytes) in
        let command6 :=
          bytes_of [0x05; 0x00; 0x03;
                    Z.land (Z.shiftr address 8) 0xFF;
                    Z.land address 0xFF;
                    len mod 2 ^ 8] in
        let command := command6 ++ [byte_of_Z (checksum_xor_uint8 command6 0x00)] in
        let '(w, rc, answer) := suunto_common2_transfer w command (len + 7) len in
        if negb (dc_status_eqb rc DC_STATUS_SUCCESS) then Some (w, rc, acc)
        else
          suunto_common2_read_loop fuel' w (u32 (address + len)) (u32 (nbytes + len)) size
            (acc ++ bytes_slice answer 6 len)
    end
  else Some (w, DC_STATUS_SUCCESS, acc).

Definition suunto_common2_device_read (w : world) (address size : Z)
  : option (world * dc_status_t * list byte) :=
  suunto_common2_read_loop (Z.to_nat size) w address 0 size [].

(** The state of [suunto_common2_device_foreach] inside its loop. *)
Record foreach_state : Type := mk_foreach_state {
  fs_world : world;
  fs_user : userdata;
  fs_trace : list foreach_event;
  fs_data : list byte;          (* the malloc'ed buffer *)
  fs_progress_current : Z;
  fs_progress_maximum : Z;
  fs_status : dc_status_t;      (* the delayed status *)
  fs_remaining : Z;
  fs_available : Z;
  fs_current : Z;
  fs_previous : Z;
  fs_address : Z;
  fs_offset : Z
}.

Definition fs_log (s : foreach_state) (ev : list foreach_event) : foreach_state :=
  {| fs_world := fs_world s; fs_user := fs_user s; fs_trace := fs_trace s ++ ev;
     fs_data := fs_data s; fs_progress_current := fs_progress_current s;
     fs_progress_maximum := fs_progress_maximum s; fs_status := fs_status s;
     fs_remaining := fs_remaining s; fs_available := fs_available s;
     fs_current := fs_current s; fs_previous := fs_previous s;
     fs_address := fs_address s; fs_offset := fs_offset s |}.

(** [while (nbytes < size)]: the packets of the current dive.  The result
    is a return status, or the state and [nbytes] after the loop. *)
Fixpoint common2_read_packets (fuel : nat) (l : suunto_common2_layout_t)
  (s : foreach_state) (size nbytes : Z)
  : option (dc_status_t * foreach_state + foreach_state * Z) :=
  if nbytes <? size then
    match fuel with
    | O => None
    | S fuel' =>
        let address :=
          if fs_address s =? rb_profile_begin l then rb_profile_end l else fs_address s in
        let len := Common2.SZ_PACKET in
        let len := if u32 (rb_profile_begin l + len) >? address
                   then u32 (address - rb_profile_begin l) else len in
        let len := if u32 (nbytes + len) >? fs_remaining s
                   then u32 (fs_remaining s - nbytes) else len in
        let offset := u32 (fs_offset s - len) in
        let address := u32 (address - len) in
        let extra := if len <? Common2.SZ_MINIMUM then Common2.SZ_MINIMUM - len else 0 in
        match suunto_common2_device_read (fs_world s) (u32 (address - extra))
                (u32 (len + extra)) with
        | None => None
        | Some (w, rc, bytes) =>
            let data := buffer_write (fs_data s) (offset - extra) bytes in
            if negb (dc_status_eqb rc DC_STATUS_SUCCESS) then
              Some (inl (rc,
                {| fs_world := w; fs_user := fs_user s;
                   fs_trace := fs_trace s ++ [EV_ERROR MSG_FAILED_TO_READ_THE_MEMORY];
                   fs_data := data; fs_progress_current := fs_progress_current s;
                   fs_progress_maximum := fs_progress_maximum s; fs_status := fs_status s;
                   fs_remaining := fs_remaining s; fs_available := fs_available s;
                   fs_current := fs_current s; fs_previous := fs_previous s;
                   fs_address := address; fs_offset := offset |}))
            else
              let current := u32 (fs_progress_current s + len) in
              common2_read_packets fuel' l
                {| fs_world := w; fs_user := fs_user s;
                   fs_trace := fs_trace s ++ [EV_PROGRESS current (fs_progress_maximum s)];
                   fs_data := data; fs_progress_current := current;
                   fs_progress_maximum := fs_progress_maximum s; fs_status := fs_status s;
                   fs_remaining := fs_remaining s; fs_available := fs_available s;
                   fs_current := fs_current s; fs_previous := fs_previous s;
                   fs_address := address; fs_offset := offset |}
                size (u32 (nbytes + len))
        end
    end
  else Some (inr (s, nbytes)).

(** The rest of an iteration, once the packets of the dive of [size]
    bytes are in the buffer and [nbytes] were read or left over. *)
Definition common2_check_dive (dev : suunto_common2_device_t) (s : foreach_state)
  (size nbytes : Z) : loop_exit * foreach_state :=
  let l := layout dev in
  let remaining := u32 (fs_remaining s - size) in
  let available := u32 (nbytes - size) in
  let p := fs_offset s + available in
  let prev := array_uint16_le (fs_data s) (p + 0) in
  let next := array_uint16_le (fs_data s) (p + 2) in
  let s :=
    {| fs_world := fs_world s; fs_user := fs_user s; fs_trace := fs_trace s;
       fs_data := fs_data s; fs_progress_current := fs_progress_current s;
       fs_progress_maximum := fs_progress_maximum s; fs_status := fs_status s;
       fs_remaining := remaining; fs_available := available;
       fs_current := fs_current s; fs_previous := fs_previous s;
       fs_address := fs_address s; fs_offset := fs_offset s |} in
  if (prev <? rb_profile_begin l) || (prev >=? rb_profile_end l) ||
     (next <? rb_profile_begin l) || (next >=? rb_profile_end l) then
    (EXIT_RETURN DC_STATUS_DATAFORMAT,
     fs_log s [EV_ERROR MSG_INVALID_RINGBUFFER_POINTER_DETECTED])
  else if negb (next =? fs_previous s) && negb (next =? fs_current s) then
    (EXIT_RETURN DC_STATUS_DATAFORMAT,
     fs_log s [EV_ERROR MSG_PROFILES_ARE_NOT_CONTINUOUS])
  else
    let advance (s : foreach_state) :=
      {| fs_world := fs_world s; fs_user := fs_user s; fs_trace := fs_trace s;
         fs_data := fs_data s; fs_progress_current := fs_progress_current s;
         fs_progress_maximum := fs_progress_maximum s; fs_status := fs_status s;
         fs_remaining := fs_remaining s; fs_available := fs_available s;
         fs_current := prev; fs_previous := fs_current s;
         fs_address := fs_address s; fs_offset := fs_offset s |} in
    if negb (next =? fs_current s) then
      let fp_offset := fingerprint l + 4 in
      let nfp := Z.of_nat (length (dev_fingerprint dev)) in
      let fp := bytes_slice (fs_data s) (p + fp_offset) nfp in
      if bytes_eqb fp (dev_fingerprint dev) then (EXIT_RETURN DC_STATUS_SUCCESS, s)
      else
        match callback with
        | None => (EXIT_DONE, advance s)
        | Some cb =>
            let dive := bytes_slice (fs_data s) (p + 4) (u32 (size - 4)) in
            let '(u, go) := cb (fs_user s) dive fp in
            let s :=
              {| fs_world := fs_world s; fs_user := u;
                 fs_trace := fs_trace s ++ [EV_DIVE dive fp];
                 fs_data := fs_data s; fs_progress_current := fs_progress_current s;
                 fs_progress_maximum := fs_progress_maximum s; fs_status := fs_status s;
                 fs_remaining := fs_remaining s; fs_available := fs_available s;
                 fs_current := fs_current s; fs_previous := fs_previous s;
                 fs_address := fs_address s; fs_offset := fs_offset s |} in
            if go then (EXIT_DONE, advance s) else (EXIT_RETURN DC_STATUS_SUCCESS, s)
        end
    else
      let s := fs_log s [EV_ERROR MSG_SKIPPING_INCOMPLETE_DIVE] in
      (EXIT_DONE,
       advance
         {| fs_world := fs_world s; fs_user := fs_user s; fs_trace := fs_trace s;
            fs_data := fs_data s; fs_progress_current := fs_progress_current s;
            fs_progress_maximum := fs_progress_maximum s;
            fs_status := DC_STATUS_DATAFORMAT;
            fs_remaining := fs_remaining s; fs_available := fs_available s;
            fs_current := fs_current s; fs_previous := fs_previous s;
            fs_address := fs_address s; fs_offset := fs_offset s |}).

(** One iteration of [while (remaining)]; [EXIT_DONE] here means that the
    iteration reached its end. *)
Definition common2_dive (dev : suunto_common2_device_t) (s : foreach_state)
  : option (loop_exit * foreach_state) :=
  let l := layout dev in
  let size := RB_PROFILE_DISTANCE l (fs_current s) (fs_previous s) true in
  if (size <? 4) || (size >? fs_remaining s) then
    Some (EXIT_RETURN DC_STATUS_DATAFORMAT, fs_log s [EV_ERROR MSG_UNEXPECTED_PROFILE_SIZE])
  else
    match common2_read_packets (Z.to_nat size) l s size (fs_available s) with
    | None => None
    | Some (inl (rc, s)) => Some (EXIT_RETURN rc, s)
    | Some (inr (s, nbytes)) => Some (common2_check_dive dev s size nbytes)
    end.

(** [while (remaining)]; [None] when [fuel] runs out. *)
Fixpoint common2_dives_loop (fuel : nat) (dev : suunto_common2_device_t)
  (s : foreach_state) : option (loop_exit * foreach_state) :=
  if fs_remaining s =? 0 then Some (EXIT_DONE, s)
  else
    match fuel with
    | O => None
    | S fuel' =>
        match common2_dive dev s with
        | None => None
        | Some (EXIT_RETURN rc, s) => Some (EXIT_RETURN rc, s)
        | Some (EXIT_DONE, s) => common2_dives_loop fuel' dev s
        end
    end.

(** [suunto_common2_device_foreach]: the status, and what the outside saw.
    The allocation of the buffer is taken to succeed;
    [EVENT_PROGRESS_INITIALIZER] starts the progress at 0. *)
Definition suunto_common2_device_foreach (dev : suunto_common2_device_t)
  (w : world) (u : userdata)
  : option (dc_status_t * list foreach_event * userdata * world) :=
  let l := layout dev in
  let maximum := u32 (rb_profile_end l - rb_profile_begin l + 8 +
                      (if Common2.SZ_MINIMUM >? 4 then Common2.SZ_MINIMUM else 4)) in
  let t := [EV_PROGRESS 0 maximum; EV_VENDOR (dev_version dev)] in
  let nserial := if Common2.SZ_MINIMUM >? 4 then Common2.SZ_MINIMUM else 4 in
  match suunto_common2_device_read w (serial l) nserial with
  | None => None
  | Some (w, rc, ser) =>
      if negb (dc_status_eqb rc DC_STATUS_SUCCESS) then
        Some (rc, t ++ [EV_ERROR MSG_FAILED_TO_READ_THE_MEMORY_HEADER], u, w)
      else
        let current := nserial in
        let devinfo :=
          EV_DEVINFO (byte_at (dev_version dev) 0) (array_uint24_be (dev_version dev) 1)
            (fold_left (fun acc i => u32 (u32 (acc * 100) + byte_at ser i)) [0; 1; 2; 3] 0) in
        let t := t ++ [EV_PROGRESS current maximum; devinfo] in
        match suunto_common2_device_read w 0x0190 8 with
        | None => None
        | Some (w, rc, header) =>
            if negb (dc_status_eqb rc DC_STATUS_SUCCESS) then
              Some (rc, t ++ [EV_ERROR MSG_FAILED_TO_READ_THE_MEMORY_HEADER], u, w)
            else
              let last := array_uint16_le header 0 in
              let count := array_uint16_le header 2 in
              let end_ := array_uint16_le header 4 in
              let begin := array_uint16_le header 6 in
              if (last <? rb_profile_begin l) || (last >=? rb_profile_end l) ||
                 (end_ <? rb_profile_begin l) || (end_ >=? rb_profile_end l) ||
                 (begin <? rb_profile_begin l) || (begin >=? rb_profile_end l) then
                Some (DC_STATUS_DATAFORMAT,
                      t ++ [EV_ERROR MSG_INVALID_RINGBUFFER_POINTER_DETECTED], u, w)
              else
                let data :=
                  repeat x00 (Z.to_nat (rb_profile_end l - rb_profile_begin l +
                                        Common2.SZ_MINIMUM)) in
                let remaining := RB_PROFILE_DISTANCE l begin end_ (negb (count =? 0)) in
                let maximum :=
                  u32 (maximum - ((rb_profile_end l - rb_profile_begin l) - remaining)) in
                let current := u32 (current + 8) in
                let s0 :=
                  {| fs_world := w; fs_user := u;
                     fs_trace := t ++ [EV_PROGRESS current maximum];
                     fs_data := data; fs_progress_current := current;
                     fs_progress_maximum := maximum; fs_status := DC_STATUS_SUCCESS;
                     fs_remaining := remaining; fs_available := 0;
                     fs_current := last; fs_previous := end_;
                     fs_address := end_; fs_offset := u32 (remaining + Common2.SZ_MINIMUM) |} in
                match common2_dives_loop (Z.to_nat remaining) dev s0 with
                | None => None
                | Some (EXIT_RETURN rc, s) => Some (rc, fs_trace s, fs_user s, fs_world s)
                | Some (EXIT_DONE, s) => Some (fs_status s, fs_trace s, fs_user s, fs_world s)
                end
        end
  end.

End SuuntoCommon2.

(** * Example inputs *)

(** A Cressi Leonardo header of 82 bytes: 0x003C at 0x06, the date bytes at
    8..12, 0x28 at 0x19, 0x0064 at 0x20 and 0x14 at 0x22. *)
Definition cressi_header_example : blob :=
  bytes_of (repeat 0 6 ++ [0x3C; 0x00; 0x18; 0x03; 0x0F; 0x0A; 0x1E] ++ repeat 0 12 ++
            [0x28] ++ repeat 0 6 ++ [0x64; 0x00; 0x14] ++ repeat 0 47).

(** The same header followed by one sample, while the header counts 0 minutes. *)
Definition cressi_one_sample_example : blob :=
  bytes_of (repeat 0 82 ++ [0x64; 0x00]).

(** A Shearwater Petrel record: a header block with the unit byte set to
    IMPERIAL, one 32-byte sample whose depth field holds 100, and the two
    footer blocks. *)
Definition petrel_imperial_example : shearwater_predator_parser_t :=
  snd (shearwater_predator_parser_set_data (shearwater_petrel_parser_create 0)
         (bytes_of (repeat 0 8 ++ [1] ++ repeat 0 119 ++
                    [0x00; 0x64] ++ repeat 0 30 ++
                    repeat 0 128 ++ repeat 0 128))).

(** The timestamp field of the [k]-th iDive sample record. *)
Definition idive_timestamp (data : blob) (k : Z) : Z :=
  array_uint32_le data (Idive.SZ_HEADER + k * Idive.SZ_SAMPLE + 2).

(** An empty iDive parser, as [divesystem_idive_parser_create] leaves it,
    with a blob installed. *)
Definition idive_parser_of (data : blob) : divesystem_idive_parser_t :=
  snd (divesystem_idive_parser_set_data
         (mk_idive [] false 0 0 0 (repeat 0 8) (repeat 0 8)) data).

(** An iDive sample record with the given timestamp, depth 0 and air. *)
Definition idive_record (timestamp : Z) : list Z :=
  [0; 0; timestamp mod 256; (timestamp / 256) mod 256; (timestamp / 65536) mod 256;
   (timestamp / 16777216) mod 256] ++ repeat 0 4 ++ [21; 0] ++ repeat 0 30.

Definition idive_blob (timestamps : list Z) : blob :=
  bytes_of (repeat 0 50 ++ flat_map idive_record timestamps).

(** A blob of ten zero bytes, shorter than every header. *)
Definition short_blob_example : blob := bytes_of (repeat 0 10).

(** A Smart Pro parser created with devtime 100 and systime 1000 on a
    92-byte record whose timestamp field (offset 8) is 0. *)
Definition smart_pro_example : uwatec_smart_parser_t :=
  {| sm_data := bytes_of (repeat 0 92); sm_model := Smart.SMARTPRO;
     sm_devtime := 100; sm_systime := 1000;
     sm_samples := uwatec_smart_pro_samples; sm_header := uwatec_smart_pro_header;
     sm_headersize := 92 |}.

(** A Galileo parser (time zone byte at offset 16) with the same clock
    pair, timestamp 40 and a UTC offset of +4 quarters of an hour. *)
Definition smart_galileo_example : uwatec_smart_parser_t :=
  {| sm_data := bytes_of (repeat 0 8 ++ [40; 0; 0; 0] ++ repeat 0 4 ++ [4] ++ repeat 0 135);
     sm_model := Smart.GALILEO;
     sm_devtime := 100; sm_systime := 1000;
     sm_samples := uwatec_smart_galileo_samples; sm_header := uwatec_smart_galileo_header;
     sm_headersize := 152 |}.

(** Memomouse and Reefnet parsers with the clock pair (100, 1000) and the
    timestamp 40 in their records. *)
Definition memomouse_example : uwatec_memomouse_parser_t :=
  {| mm_data := bytes_of (repeat 0 11 ++ [40; 0; 0; 0] ++ repeat 0 3);
     mm_devtime := 100; mm_systime := 1000 |}.

Definition sensuspro_example : reefnet_sensuspro_parser_t :=
  {| sp_data := bytes_of (repeat 0 6 ++ [40; 0; 0; 0] ++ repeat 0 2);
     sp_atmospheric := 101325.0%float; sp_hydrostatic := 10055.0%float;
     sp_devtime := 100; sp_systime := 1000;
     sp_cached := false; sp_divetime := 0; sp_maxdepth := 0 |}.

Definition sensusultra_example : reefnet_sensusultra_parser_t :=
  {| su_data := bytes_of (repeat 0 4 ++ [40; 0; 0; 0] ++ repeat 0 12);
     su_atmospheric := 101325.0%float; su_hydrostatic := 10055.0%float;
     su_devtime := 100; su_systime := 1000;
     su_cached := false; su_divetime := 0; su_maxdepth := 0 |}.

(** A conversion that keeps the ticks visible in the result. *)
Definition ticks_as_seconds : datetime_conv :=
  fun ticks => Some (mk_datetime 1970 1 1 0 0 ticks).

(** The bits of a byte from the most significant one on, [n] of them
    starting at position [j], and the bits of a byte sequence. *)
Fixpoint byte_bits_from (n : nat) (j : Z) (v : Z) : list bool :=
  match n with
  | O => []
  | S n' => Z.testbit v (7 - j) :: byte_bits_from n' (j + 1) v
  end.

Definition byte_bits (b : byte) : list bool := byte_bits_from 8 0 (u8 b).

Definition stream_bits (data : list byte) : list bool := flat_map byte_bits data.

(** The count of leading 1-bits of a bit sequence. *)
Fixpoint leading_ones (bits : list bool) : Z :=
  match bits with
  | true :: rest => 1 + leading_ones rest
  | _ => 0
  end.

(** An Aladin Tec parser (Smart identifier style, Aladin sample table) on
    the given record. *)
Definition aladin_tec_parser (data : blob) : uwatec_smart_parser_t :=
  {| sm_data := data; sm_model := Smart.ALADINTEC; sm_devtime := 0; sm_systime := 0;
     sm_samples := uwatec_smart_aladin_samples;
     sm_header := uwatec_smart_aladin_tec_header; sm_headersize := 108 |}.

(** An Atom 2 record (header of 72 bytes, sample interval selector 2, that
    is 30 s) whose only sample is a surface interval sample 0xBB with the
    BCD surface time 01:30, followed by the 16-byte footer. *)
Definition atom2_surface_example : oceanic_atom2_parser_t :=
  snd (oceanic_atom2_parser_set_data (oceanic_atom2_parser_create ATOM2 0)
         (bytes_of (repeat 0 0x17 ++ [2] ++ repeat 0 48 ++
                    [0xBB; 0x01; 0x30] ++ repeat 0 13 ++ repeat 0 16))).

(** [t] only grew into [t']: what the outside saw stays seen. *)
Definition trace_extends (t t' : list foreach_event) : Prop :=
  exists more, t' = t ++ more.

(** A simulated Suunto device for the enumeration: its memory image
    answers every read packet (opcode 0x05, address in bytes 3 and 4, count
    in byte 5) with the six header bytes, the bytes asked for and a
    checksum byte.  The line has no state. *)
Definition sim_packet (mem : list byte) (w : unit) (command : list byte)
  (asize size : Z) : unit * dc_status_t * list byte :=
  let address := Z.shiftl (byte_at command 3) 8 + byte_at command 4 in
  let len := byte_at command 5 in
  (tt, DC_STATUS_SUCCESS, firstn 6 command ++ bytes_slice mem address len ++ [x00]).

(** A ring buffer of 64 bytes at 0x019A, the serial number at 0x0023 and a
    two-byte fingerprint at the start of each dive. *)
Definition sim_layout : suunto_common2_layout_t :=
  {| memsize := 0x0200; fingerprint := 0; serial := 0x0023;
     rb_profile_begin := 0x019A; rb_profile_end := 0x01DA |}.

Definition sim_device : suunto_common2_device_t :=
  {| layout := sim_layout; dev_version := bytes_of [0x0E; 1; 2; 3];
     dev_fingerprint := bytes_of [0xEE; 0xEE] |}.

(** A memory image with two dives of 12 bytes: the older one at 0x019A and
    the newer one at 0x01A6, ending at 0x01B2.  The header at 0x0190 holds
    last = 0x01A6, count = 2, end = 0x01B2 and begin = 0x019A.  The older
    dive is well formed (prev 0x019A, next 0x01A6); [next_lo], [next_hi]
    are the stored next pointer of the newer dive, whose prev is 0x019A. *)
Definition sim_memory (next_lo next_hi : Z) : list byte :=
  bytes_of (repeat 0 0x23 ++ [1; 2; 3; 4; 0; 0; 0; 0] ++ repeat 0 (0x190 - 0x2B) ++
            [0xA6; 0x01; 2; 0; 0xB2; 0x01; 0x9A; 0x01] ++ [0; 0] ++
            [0x9A; 0x01; 0xA6; 0x01; 0xA1; 0xA2; 0xA3; 0xA4; 0xA5; 0xA6; 0xA7; 0xA8] ++
            [0x9A; 0x01; next_lo; next_hi; 0xB1; 0xB2; 0xB3; 0xB4; 0xB5; 0xB6; 0xB7; 0xB8] ++
            repeat 0 (0x200 - 0x1B2)).

(** A dive callback that counts the dives and always asks for more. *)
Definition count_dives (n : nat) (dive fp : list byte) : nat * bool := (S n, true).

(** The state of the enumeration on the simulated device once the
    packet holding both dives is in the buffer (bytes 8 to 31), with the
    trace started afresh. *)
Definition sim_state (next_lo next_hi : Z) : foreach_state unit nat :=
  {| fs_world := tt; fs_user := 0%nat; fs_trace := [];
     fs_data := buffer_write (repeat x00 72) 8
                  (bytes_slice (sim_memory next_lo next_hi) 0x019A 24);
     fs_progress_current := 40; fs_progress_maximum := 40;
     fs_status := DC_STATUS_SUCCESS;
     fs_remaining := 24; fs_available := 0;
     fs_current := 0x01A6; fs_previous := 0x01B2;
     fs_address := 0x019A; fs_offset := 8 |}.

(** * Further embedded code *)

(** ** Uwatec Smart: the data bits of a sample (uwatec_smart_parser.c) *)

(** The conversion of an [unsigned int] to [signed int]. *)
Definition s32 (x : Z) : Z := let y := x mod 2 ^ 32 in if y <? 2 ^ 31 then y else y - 2 ^ 32.

(** [uwatec_smart_fixsignbit]; both shifts are taken in [unsigned int]
    (C leaves [0xFFFFFFFF << 32] undefined; the callers stay below). *)
Definition uwatec_smart_fixsignbit (x n : Z) : Z :=
  if (n <=? 0) || (n >? 32) then 0
  else
    let signbit := u32 (Z.shiftl 1 (n - 1)) in
    let mask := u32 (Z.shiftl 0xFFFFFFFF n) in
    if Z.land x signbit =? signbit then Z.lor x mask
    else Z.land x (u32 (Z.lnot mask)).

(** [for (i = 0; i < extrabytes; ++i) { nbits += NBITS; value <<= NBITS;
    value += data[offset]; offset++; }] with [n] bytes left. *)
Fixpoint uwatec_smart_extrabytes (n : nat) (data : blob) (offset nbits value : Z)
  : Z * Z * Z :=
  match n with
  | O => (offset, nbits, value)
  | S n' =>
      uwatec_smart_extrabytes n' data (u32 (offset + 1)) (u32 (nbits + Smart.NBITS))
        (u32 (u32 (Z.shiftl value Smart.NBITS) + byte_at data offset))
  end.

(** The part of an iteration of [uwatec_smart_parser_samples_foreach]
    between the type identification and the sign fix, for the table entry
    that the type selected: the offset after the sample, the number of data
    bits and their value, or [None] for the "Incomplete sample data"
    return.  The byte that shares the last type byte is read before the
    size check. *)
Definition uwatec_smart_sample_value (data : blob) (entry : uwatec_smart_sample_info_t)
  (offset : Z) : option (Z * Z * Z) :=
  let offset := u32 (offset + s_ntypebits entry / Smart.NBITS) in
  let n := s_ntypebits entry mod Smart.NBITS in
  let '(offset, nbits, value) :=
    if n >? 0 then
      if negb (s_ignoretype entry =? 0) then (u32 (offset + 1), 0, 0)
      else (u32 (offset + 1), Smart.NBITS - n,
            Z.land (byte_at data offset) (Z.shiftr 0xFF n))
    else (offset, 0, 0) in
  if u32 (offset + s_extrabytes entry) >? blob_size data then None
  else Some (uwatec_smart_extrabytes (Z.to_nat (s_extrabytes entry)) data offset nbits value).

(** ** Oceanic Atom2: the dive's date and time (oceanic_atom2_parser.c) *)

(** The fields of [oceanic_atom2_parser_get_datetime] as the [switch] on
    the model decodes them, before the clock and the year are adjusted:
    year, month, day, hour, minute and the AM/PM bit. *)
Definition atom2_datetime_raw (model : Z) (p : blob) : Z * Z * Z * Z * Z * Z :=
  let b i := byte_at p i in
  let pm := Z.land (b 1) 0x80 in
  if model_in model [OC1A; OC1B; OC1C; OCS; VT4; VT41; ATOM3; ATOM31; A300AI; OCI] then
    (Z.shiftr (Z.land (b 5) 0xE0) 5 + Z.shiftr (Z.land (b 7) 0xE0) 2 + 2000,
     Z.land (b 3) 0x0F,
     Z.shiftr (Z.land (b 0) 0x80) 3 + Z.shiftr (Z.land (b 3) 0xF0) 4,
     bcd2dec (Z.land (b 1) 0x1F),
     bcd2dec (Z.land (b 0) 0x7F),
     pm)
  else if model_in model [VT3; VEO20; VEO30; DG03] then
    (Z.shiftr (Z.land (b 3) 0xE0) 1 + Z.land (b 4) 0x0F + 2000,
     Z.shiftr (Z.land (b 4) 0xF0) 4,
     Z.land (b 3) 0x1F,
     bcd2dec (Z.land (b 1) 0x1F),
     bcd2dec (b 0),
     pm)
  else if model_in model [ZENAIR; AMPHOS; AMPHOSAIR; VOYAGER2G] then
    (Z.land (b 3) 0x0F + 2000,
     Z.shiftr (Z.land (b 7) 0xF0) 4,
     Z.shiftr (Z.land (b 3) 0x80) 3 + Z.shiftr (Z.land (b 5) 0xF0) 4,
     bcd2dec (Z.land (b 1) 0x1F),
     bcd2dec (b 0),
     pm)
  else if model_in model [F10; F11] then
    (bcd2dec (b 6) + 2000,
     bcd2dec (b 7),
     bcd2dec (b 8),
     bcd2dec (Z.land (b 13) 0x7F),
     bcd2dec (b 12),
     Z.land (b 13) 0x80)
  else if model =? TX1 then
    (bcd2dec (b 13) + 2000,
     bcd2dec (b 14),
     bcd2dec (b 15),
     b 11,
     b 10,
     pm)
  else if model_in model [A300CS; VTX] then
    (b 10 + 2000,
     b 8,
     b 9,
     bcd2dec (Z.land (b 1) 0x1F),
     bcd2dec (b 0),
     pm)
  else
    (bcd2dec (Z.shiftr (Z.land (b 3) 0xC0) 2 + Z.land (b 4) 0x0F) + 2000,
     Z.shiftr (Z.land (b 4) 0xF0) 4,
     (if model_in model [T3A; T3B; GEO20; PROPLUS3] then Z.land (b 3) 0x3F
      else bcd2dec (Z.land (b 3) 0x3F)),
     bcd2dec (Z.land (b 1) 0x1F),
     bcd2dec (b 0),
     pm).

Section OceanicAtom2Datetime.

(** [dc_datetime_localtime (&now, dc_datetime_now ())]: the current date
    of the host (datetime.c, not among the sources), [None] when the
    conversion fails. *)
Variable now : option dc_datetime_t.

Definition oceanic_atom2_parser_get_datetime (parser : oceanic_atom2_parser_t)
  : dc_status_t * option dc_datetime_t :=
  let model := a2_model parser in
  let p := a2_data parser in
  let header := if model_in model [F10; F11] then 32 else 8 in
  if blob_size p <? header then (DC_STATUS_DATAFORMAT, None)
  else
    let '(year0, month0, day0, hour0, minute0, pm) := atom2_datetime_raw model p in
    (* Convert to a 24-hour clock. *)
    let hour1 := hour0 mod 12 in
    let hour1 := if negb (pm =? 0) then hour1 + 12 else hour1 in
    (* Workaround for the year 2010 problem. *)
    let year1 :=
      if year0 <? 2010 then
        match now with
        | Some n =>
            if year n >=? 2010 then
              let decade := (year n / 10) * 10 in
              let decade := if year0 mod 10 >? year n mod 10 then decade - 10 else decade in
              year0 + (decade - 2000)
            else year0
        | None => year0
        end
      else year0 in
    (DC_STATUS_SUCCESS,
     Some {| year := year1; month := month0; day := day0; hour := hour1;
             minute := minute0; second := 0 |}).

End OceanicAtom2Datetime.

(** ** Uwatec Smart: the cache and the sample loop (uwatec_smart_parser.c) *)

Module Uwatec.

Definition NGASMIXES : Z := 3.
Definition FRESH : float := 1.000%float.
Definition SALT : float := 1.025%float.

End Uwatec.

Record uwatec_smart_tank_t : Type := mk_smart_tank {
  beginpressure : Z;
  endpressure : Z
}.

(** The cached fields of [uwatec_smart_parser_t], in a record of their
    own. *)
Record uwatec_smart_cache_t : Type := mk_smart_cache {
  sc_cached : bool;
  sc_trimix : bool;
  sc_ngasmixes : Z;
  sc_oxygen : list Z;                  (* NGASMIXES entries *)
  sc_ntanks : Z;
  sc_tank : list uwatec_smart_tank_t;  (* NGASMIXES entries *)
  sc_watertype : dc_water_t
}.

(** The cached fields as [create] and [set_data] leave them. *)
Definition uwatec_smart_cache_reset : uwatec_smart_cache_t :=
  {| sc_cached := false; sc_trimix := false; sc_ngasmixes := 0;
     sc_oxygen := repeat 0 (Z.to_nat Uwatec.NGASMIXES);
     sc_ntanks := 0;
     sc_tank := repeat (mk_smart_tank 0 0) (Z.to_nat Uwatec.NGASMIXES);
     sc_watertype := DC_WATER_FRESH |}.

(** The gas mix loop of [uwatec_smart_parser_cache] from mix [i] on, [n]
    mixes left: the oxygen values up to the first disabled mix. *)
Fixpoint smart_cache_gasmixes (n : nat) (data : blob) (gasmix i : Z) : list Z :=
  match n with
  | O => []
  | S n' =>
      let o2 := byte_at data (u32 (gasmix + u32 (i * 2))) in
      if o2 =? 0 then []
      else o2 :: smart_cache_gasmixes n' data gasmix (i + 1)
  end.

(** The tank loop, likewise up to the first unused tank. *)
Fixpoint smart_cache_tanks (n : nat) (galileo : bool) (data : blob)
  (tankpressure ngases i : Z) : list uwatec_smart_tank_t :=
  match n with
  | O => []
  | S n' =>
      let '(beginpressure, endpressure) :=
        if galileo then
          let idx := u32 (tankpressure + u32 (2 * i)) in
          (array_uint16_le data (u32 (idx + u32 (2 * ngases))), array_uint16_le data idx)
        else
          let idx := u32 (tankpressure + u32 (4 * i)) in
          (array_uint16_le data idx, array_uint16_le data (u32 (idx + 2))) in
      if (beginpressure =? 0) && (endpressure =? 0) then []
      else mk_smart_tank beginpressure endpressure ::
           smart_cache_tanks n' galileo data tankpressure ngases (i + 1)
  end.

Definition uwatec_smart_parser_cache (parser : uwatec_smart_parser_t)
  (c : uwatec_smart_cache_t) : dc_status_t * uwatec_smart_cache_t :=
  let data := sm_data parser in
  let header := sm_header parser in
  let model := sm_model parser in
  if sc_cached c then (DC_STATUS_SUCCESS, c)
  else if model_in model [Smart.GALILEO; Smart.GALILEOTRIMIX] && (blob_size data <? 44)
  then (DC_STATUS_DATAFORMAT, c)
  else
    let trimix :=
      model_in model [Smart.GALILEO; Smart.GALILEOTRIMIX] &&
      negb (Z.land (byte_at data 43) 0x80 =? 0) in
    let oxygen :=
      if negb trimix
      then smart_cache_gasmixes (Z.to_nat (h_ngases header)) data (h_gasmix header) 0
      else [] in
    let tank :=
      if negb trimix && negb (h_tankpressure header =? Smart.UNSUPPORTED)
      then smart_cache_tanks (Z.to_nat (h_ngases header))
             (model_in model [Smart.GALILEO; Smart.GALILEOTRIMIX; Smart.ALADIN2G;
                              Smart.MERIDIAN; Smart.CHROMIS])
             data (h_tankpressure header) (h_ngases header) 0
      else [] in
    let watertype :=
      if negb (h_salinity header =? Smart.UNSUPPORTED) &&
         negb (Z.land (byte_at data (h_salinity header)) 0x10 =? 0)
      then DC_WATER_SALT else DC_WATER_FRESH in
    (DC_STATUS_SUCCESS,
     {| sc_cached := true;
        sc_trimix := trimix;
        sc_ngasmixes := Z.of_nat (length oxygen);
        sc_oxygen := oxygen ++ skipn (length oxygen) (sc_oxygen c);
        sc_ntanks := Z.of_nat (length tank);
        sc_tank := tank ++ skipn (length tank) (sc_tank c);
        sc_watertype := watertype |}).

(** [nalarms], the maximum number of alarm bytes of a sample table. *)
Definition smart_nalarms (table : list uwatec_smart_sample_info_t) : Z :=
  fold_left
    (fun nalarms e =>
       match s_type e with
       | ALARMS => if s_index e >=? nalarms then u32 (s_index e + 1) else nalarms
       | _ => nalarms
       end)
    table 0.

(** The local variables of [uwatec_smart_parser_samples_foreach] that live
    across iterations ([unsigned int] where no type is given). *)
Record smart_locals : Type := mk_smart_locals {
  sl_complete : Z;   (* int *)
  sl_calibrated : bool;   (* int *)
  sl_time : Z;
  sl_rbt : Z;
  sl_tank : Z;
  sl_gasmix : Z;
  sl_depth : float;
  sl_depth_calibration : float;
  sl_temperature : float;
  sl_pressure : float;
  sl_heartrate : Z;
  sl_bearing : Z;
  sl_alarms : list Z;   (* unsigned char alarms[3] *)
  sl_gasmix_previous : Z;
  sl_have_depth : bool;
  sl_have_temperature : bool;
  sl_have_pressure : bool;
  sl_have_rbt : bool;
  sl_have_heartrate : bool;
  sl_have_alarms : bool;
  sl_have_bearing : bool
}.

(** The assignment to one local. *)
Definition set_sl_complete (v : Z) (l : smart_locals) : smart_locals :=
  mk_smart_locals v (sl_calibrated l) (sl_time l) (sl_rbt l) (sl_tank l) (sl_gasmix l)
    (sl_depth l) (sl_depth_calibration l) (sl_temperature l) (sl_pressure l)
    (sl_heartrate l) (sl_bearing l) (sl_alarms l) (sl_gasmix_previous l) (sl_have_depth l)
    (sl_have_temperature l) (sl_have_pressure l) (sl_have_rbt l) (sl_have_heartrate l)
    (sl_have_alarms l) (sl_have_bearing l).

Definition set_sl_calibrated (v : bool) (l : smart_locals) : smart_locals :=
  mk_smart_locals (sl_complete l) v (sl_time l) (sl_rbt l) (sl_tank l) (sl_gasmix l)
    (sl_depth l) (sl_depth_calibration l) (sl_temperature l) (sl_pressure l)
    (sl_heartrate l) (sl_bearing l) (sl_alarms l) (sl_gasmix_previous l) (sl_have_depth l)
    (sl_have_temperature l) (sl_have_pressure l) (sl_have_rbt l) (sl_have_heartrate l)
    (sl_have_alarms l) (sl_have_bearing l).

Definition set_sl_time (v : Z) (l : smart_locals) : smart_locals :=
  mk_smart_locals (sl_complete l) (sl_calibrated l) v (sl_rbt l) (sl_tank l) (sl_gasmix l)
    (sl_depth l) (sl_depth_calibration l) (sl_temperature l) (sl_pressure l)
    (sl_heartrate l) (sl_bearing l) (sl_alarms l) (sl_gasmix_previous l) (sl_have_depth l)
    (sl_have_temperature l) (sl_have_pressure l) (sl_have_rbt l) (sl_have_heartrate l)
    (sl_have_alarms l) (sl_have_bearing l).

Definition set_sl_rbt (v : Z) (l : smart_locals) : smart_locals :=
  mk_smart_locals (sl_complete l) (sl_calibrated l) (sl_time l) v (sl_tank l) (sl_gasmix l)
    (sl_depth l) (sl_depth_calibration l) (sl_temperature l) (sl_pressure l)
    (sl_heartrate l) (sl_bearing l) (sl_alarms l) (sl_gasmix_previous l) (sl_have_depth l)
    (sl_have_temperature l) (sl_have_pressure l) (sl_have_rbt l) (sl_have_heartrate l)
    (sl_have_alarms l) (sl_have_bearing l).

Definition set_sl_tank (v : Z) (l : smart_locals) : smart_locals :=
  mk_smart_locals (sl_complete l) (sl_calibrated l) (sl_time l) (sl_rbt l) v (sl_gasmix l)
    (sl_depth l) (sl_depth_calibration l) (sl_temperature l) (sl_pressure l)
    (sl_heartrate l) (sl_bearing l) (sl_alarms l) (sl_gasmix_previous l) (sl_have_depth l)
    (sl_have_temperature l) (sl_have_pressure l) (sl_have_rbt l) (sl_have_heartrate l)
    (sl_have_alarms l) (sl_have_bearing l).

Definition set_sl_gasmix (v : Z) (l : smart_locals) : smart_locals :=
  mk_smart_locals (sl_complete l) (sl_calibrated l) (sl_time l) (sl_rbt l) (sl_tank l) v
    (sl_depth l) (sl_depth_calibration l) (sl_temperature l) (sl_pressure l)
    (sl_heartrate l) (sl_bearing l) (sl_alarms l) (sl_gasmix_previous l) (sl_have_depth l)
    (sl_have_temperature l) (sl_have_pressure l) (sl_have_rbt l) (sl_have_heartrate l)
    (sl_have_alarms l) (sl_have_bearing l).

Definition set_sl_depth (v : float) (l : smart_locals) : smart_locals :=
  mk_smart_locals (sl_complete l) (sl_calibrated l) (sl_time l) (sl_rbt l) (sl_tank l)
    (sl_gasmix l) v (sl_depth_calibration l) (sl_temperature l) (sl_pressure l)
    (sl_heartrate l) (sl_bearing l) (sl_alarms l) (sl_gasmix_previous l) (sl_have_depth l)
    (sl_have_temperature l) (sl_have_pressure l) (sl_have_rbt l) (sl_have_heartrate l)
    (sl_have_alarms l) (sl_have_bearing l).

Definition set_sl_depth_calibration (v : float) (l : smart_locals) : smart_locals :=
  mk_smart_locals (sl_complete l) (sl_calibrated l) (sl_time l) (sl_rbt l) (sl_tank l)
    (sl_gasmix l) (sl_depth l) v (sl_temperature l) (sl_pressure l) (sl_heartrate l)
    (sl_bearing l) (sl_alarms l) (sl_gasmix_previous l) (sl_have_depth l)
    (sl_have_temperature l) (sl_have_pressure l) (sl_have_rbt l) (sl_have_heartrate l)
    (sl_have_alarms l) (sl_have_bearing l).

Definition set_sl_temperature (v : float) (l : smart_locals) : smart_locals :=
  mk_smart_locals (sl_complete l) (sl_calibrated l) (sl_time l) (sl_rbt l) (sl_tank l)
    (sl_gasmix l) (sl_depth l) (sl_depth_calibration l) v (sl_pressure l) (sl_heartrate l)
    (sl_bearing l) (sl_alarms l) (sl_gasmix_previous l) (sl_have_depth l)
    (sl_have_temperature l) (sl_have_pressure l) (sl_have_rbt l) (sl_have_heartrate l)
    (sl_have_alarms l) (sl_have_bearing l).

Definition set_sl_pressure (v : float) (l : smart_locals) : smart_locals :=
  mk_smart_locals (sl_complete l) (sl_calibrated l) (sl_time l) (sl_rbt l) (sl_tank l)
    (sl_gasmix l) (sl_depth l) (sl_depth_calibration l) (sl_temperature l) v
    (sl_heartrate l) (sl_bearing l) (sl_alarms l) (sl_gasmix_previous l) (sl_have_depth l)
    (sl_have_temperature l) (sl_have_pressure l) (sl_have_rbt l) (sl_have_heartrate l)
    (sl_have_alarms l) (sl_have_bearing l).

Definition set_sl_heartrate (v : Z) (l : smart_locals) : smart_locals :=
  mk_smart_locals (sl_complete l) (sl_calibrated l) (sl_time l) (sl_rbt l) (sl_tank l)
    (sl_gasmix l) (sl_depth l) (sl_depth_calibration l) (sl_temperature l) (sl_pressure l) v
    (sl_bearing l) (sl_alarms l) (sl_gasmix_previous l) (sl_have_depth l)
    (sl_have_temperature l) (sl_have_pressure l) (sl_have_rbt l) (sl_have_heartrate l)
    (sl_have_alarms l) (sl_have_bearing l).

Definition set_sl_bearing (v : Z) (l : smart_locals) : smart_locals :=
  mk_smart_locals (sl_complete l) (sl_calibrated l) (sl_time l) (sl_rbt l) (sl_tank l)
    (sl_gasmix l) (sl_depth l) (sl_depth_calibration l) (sl_temperature l) (sl_pressure l)
    (sl_heartrate l) v (sl_alarms l) (sl_gasmix_previous l) (sl_have_depth l)
    (sl_have_temperature l) (sl_have_pressure l) (sl_have_rbt l) (sl_have_heartrate l)
    (sl_have_alarms l) (sl_have_bearing l).

Definition set_sl_alarms (v : list Z) (l : smart_locals) : smart_locals :=
  mk_smart_locals (sl_complete l) (sl_calibrated l) (sl_time l) (sl_rbt l) (sl_tank l)
    (sl_gasmix l) (sl_depth l) (sl_depth_calibration l) (sl_temperature l) (sl_pressure l)
    (sl_heartrate l) (sl_bearing l) v (sl_gasmix_previous l) (sl_have_depth l)
    (sl_have_temperature l) (sl_have_pressure l) (sl_have_rbt l) (sl_have_heartrate l)
    (sl_have_alarms l) (sl_have_bearing l).

Definition set_sl_gasmix_previous (v : Z) (l : smart_locals) : smart_locals :=
  mk_smart_locals (sl_complete l) (sl_calibrated l) (sl_time l) (sl_rbt l) (sl_tank l)
    (sl_gasmix l) (sl_depth l) (sl_depth_calibration l) (sl_temperature l) (sl_pressure l)
    (sl_heartrate l) (sl_bearing l) (sl_alarms l) v (sl_have_depth l)
    (sl_have_temperature l) (sl_have_pressure l) (sl_have_rbt l) (sl_have_heartrate l)
    (sl_have_alarms l) (sl_have_bearing l).

Definition set_sl_have_depth (v : bool) (l : smart_locals) : smart_locals :=
  mk_smart_locals (sl_complete l) (sl_calibrated l) (sl_time l) (sl_rbt l) (sl_tank l)
    (sl_gasmix l) (sl_depth l) (sl_depth_calibration l) (sl_temperature l) (sl_pressure l)
    (sl_heartrate l) (sl_bearing l) (sl_alarms l) (sl_gasmix_previous l) v
    (sl_have_temperature l) (sl_have_pressure l) (sl_have_rbt l) (sl_have_heartrate l)
    (sl_have_alarms l) (sl_have_bearing l).

Definition set_sl_have_temperature (v : bool) (l : smart_locals) : smart_locals :=
  mk_smart_locals (sl_complete l) (sl_calibrated l) (sl_time l) (sl_rbt l) (sl_tank l)
    (sl_gasmix l) (sl_depth l) (sl_depth_calibration l) (sl_temperature l) (sl_pressure l)
    (sl_heartrate l) (sl_bearing l) (sl_alarms l) (sl_gasmix_previous l) (sl_have_depth l) v
    (sl_have_pressure l) (sl_have_rbt l) (sl_have_heartrate l) (sl_have_alarms l)
    (sl_have_bearing l).

Definition set_sl_have_pressure (v : bool) (l : smart_locals) : smart_locals :=
  mk_smart_locals (sl_complete l) (sl_calibrated l) (sl_time l) (sl_rbt l) (sl_tank l)
    (sl_gasmix l) (sl_depth l) (sl_depth_calibration l) (sl_temperature l) (sl_pressure l)
    (sl_heartrate l) (sl_bearing l) (sl_alarms l) (sl_gasmix_previous l) (sl_have_depth l)
    (sl_have_temperature l) v (sl_have_rbt l) (sl_have_heartrate l) (sl_have_alarms l)
    (sl_have_bearing l).

Definition set_sl_have_rbt (v : bool) (l : smart_locals) : smart_locals :=
  mk_smart_locals (sl_complete l) (sl_calibrated l) (sl_time l) (sl_rbt l) (sl_tank l)
    (sl_gasmix l) (sl_depth l) (sl_depth_calibration l) (sl_temperature l) (sl_pressure l)
    (sl_heartrate l) (sl_bearing l) (sl_alarms l) (sl_gasmix_previous l) (sl_have_depth l)
    (sl_have_temperature l) (sl_have_pressure l) v (sl_have_heartrate l) (sl_have_alarms l)
    (sl_have_bearing l).

Definition set_sl_have_heartrate (v : bool) (l : smart_locals) : smart_locals :=
  mk_smart_locals (sl_complete l) (sl_calibrated l) (sl_time l) (sl_rbt l) (sl_tank l)
    (sl_gasmix l) (sl_depth l) (sl_depth_calibration l) (sl_temperature l) (sl_pressure l)
    (sl_heartrate l) (sl_bearing l) (sl_alarms l) (sl_gasmix_previous l) (sl_have_depth l)
    (sl_have_temperature l) (sl_have_pressure l) (sl_have_rbt l) v (sl_have_alarms l)
    (sl_have_bearing l).

Definition set_sl_have_alarms (v : bool) (l : smart_locals) : smart_locals :=
  mk_smart_locals (sl_complete l) (sl_calibrated l) (sl_time l) (sl_rbt l) (sl_tank l)
    (sl_gasmix l) (sl_depth l) (sl_depth_calibration l) (sl_temperature l) (sl_pressure l)
    (sl_heartrate l) (sl_bearing l) (sl_alarms l) (sl_gasmix_previous l) (sl_have_depth l)
    (sl_have_temperature l) (sl_have_pressure l) (sl_have_rbt l) (sl_have_heartrate l) v
    (sl_have_bearing l).

Definition set_sl_have_bearing (v : bool) (l : smart_locals) : smart_locals :=
  mk_smart_locals (sl_complete l) (sl_calibrated l) (sl_time l) (sl_rbt l) (sl_tank l)
    (sl_gasmix l) (sl_depth l) (sl_depth_calibration l) (sl_temperature l) (sl_pressure l)
    (sl_heartrate l) (sl_bearing l) (sl_alarms l) (sl_gasmix_previous l) (sl_have_depth l)
    (sl_have_temperature l) (sl_have_pressure l) (sl_have_rbt l) (sl_have_heartrate l)
    (sl_have_alarms l) v.

(** The locals before the loop. *)
Definition smart_locals_init : smart_locals :=
  {| sl_complete := 0; sl_calibrated := false; sl_time := 0; sl_rbt := 99; sl_tank := 0;
     sl_gasmix := 0; sl_depth := 0.0%float; sl_depth_calibration := 0.0%float;
     sl_temperature := 0.0%float; sl_pressure := 0.0%float; sl_heartrate := 0;
     sl_bearing := 0; sl_alarms := [0; 0; 0]; sl_gasmix_previous := 0xFFFFFFFF;
     sl_have_depth := false; sl_have_temperature := false; sl_have_pressure := false;
     sl_have_rbt := false; sl_have_heartrate := false; sl_have_alarms := false;
     sl_have_bearing := false |}.

(** [switch (table[id].type)]: the value of a sample goes into the locals;
    [None] is the "Incomplete sample data" return of the two unknown
    types, which skip bytes. *)
Definition uwatec_smart_parse_value (model : Z) (trimix : bool) (size : Z)
  (entry : uwatec_smart_sample_info_t) (value svalue offset : Z) (l : smart_locals)
  : option (Z * smart_locals) :=
  let absolute := negb (s_absolute entry =? 0) in
  match s_type entry with
  | PRESSURE_DEPTH =>
      let pressure :=
        (sl_pressure l + double_of_int (s8 (Z.land (Z.shiftr svalue Smart.NBITS) 0xFF)) / 4.0)%float in
      let depth := (sl_depth l + double_of_int (s8 (Z.land svalue 0xFF)) / 50.0)%float in
      Some (offset, set_sl_complete 1 (set_sl_depth depth (set_sl_pressure pressure l)))
  | RBT =>
      if absolute then Some (offset, set_sl_have_rbt true (set_sl_rbt value l))
      else Some (offset, set_sl_rbt (u32 (sl_rbt l + svalue)) l)
  | TEMPERATURE =>
      if absolute then
        Some (offset,
              set_sl_have_temperature true
                (set_sl_temperature (double_of_int svalue / 2.5)%float l))
      else
        Some (offset,
              set_sl_temperature (sl_temperature l + double_of_int svalue / 2.5)%float l)
  | PRESSURE =>
      if absolute then
        let tank :=
          if trimix then Z.shiftr (Z.land value 0xF000) 24 else s_index entry in
        let pressure :=
          if trimix then (double_of_uint (Z.land value 0x0FFF) / 4.0)%float
          else (double_of_uint value / 4.0)%float in
        Some (offset,
              set_sl_gasmix tank
                (set_sl_have_pressure true (set_sl_pressure pressure (set_sl_tank tank l))))
      else
        Some (offset, set_sl_pressure (sl_pressure l + double_of_int svalue / 4.0)%float l)
  | DEPTH =>
      if absolute then
        let depth := (double_of_uint value / 50.0)%float in
        let l := set_sl_depth depth l in
        let l :=
          if negb (sl_calibrated l)
          then set_sl_depth_calibration depth (set_sl_calibrated true l)
          else l in
        Some (offset, set_sl_complete 1 (set_sl_have_depth true l))
      else
        Some (offset,
              set_sl_complete 1
                (set_sl_depth (sl_depth l + double_of_int svalue / 50.0)%float l))
  | HEARTRATE =>
      if absolute then Some (offset, set_sl_have_heartrate true (set_sl_heartrate value l))
      else Some (offset, set_sl_heartrate (u32 (sl_heartrate l + svalue)) l)
  | BEARING => Some (offset, set_sl_have_bearing true (set_sl_bearing value l))
  | ALARMS =>
      let l :=
        set_sl_have_alarms true
          (set_sl_alarms (array_set (sl_alarms l) (s_index entry) (value mod 2 ^ 8)) l) in
      if (s_index entry =? 1) && negb (model =? Smart.MERIDIAN) && negb (model =? Smart.CHROMIS)
      then Some (offset, set_sl_gasmix (Z.shiftr (Z.land value 0x30) 4) l)
      else Some (offset, l)
  | TIME => Some (offset, set_sl_complete (s32 value) l)
  | UNKNOWN1 =>
      if u32 (offset + 8) >? size then None
      else Some (u32 (offset + 8), l)
  | UNKNOWN2 =>
      if (value <? 1) || (u32 (u32 (offset + value) - 1) >? size) then None
      else Some (u32 (u32 (offset + value) - 1), l)
  end.

(** [while (complete)]: the samples of the sample times that the sample
    completed; the status when the loop returns from the function.  [None]
    when [fuel] runs out. *)
Fixpoint smart_emit (fuel : nat) (c : uwatec_smart_cache_t) (nalarms : Z)
  (l : smart_locals) : option (option dc_status_t * list dc_sample * smart_locals) :=
  if sl_complete l =? 0 then Some (None, [], l)
  else
    match fuel with
    | O => None
    | S fuel' =>
        let out_time := [DC_SAMPLE_TIME (sl_time l)] in
        let change :=
          negb (sc_ngasmixes c =? 0) && negb (sl_gasmix l =? sl_gasmix_previous l) in
        if change && (sl_gasmix l >=? sc_ngasmixes c) then
          Some (Some DC_STATUS_DATAFORMAT, out_time, l)
        else
          let salinity :=
            match sc_watertype c with
            | DC_WATER_SALT => Uwatec.SALT
            | DC_WATER_FRESH => Uwatec.FRESH
            end in
          let out :=
            out_time ++
            (if change
             then [DC_SAMPLE_EVENT SAMPLE_EVENT_GASCHANGE 0 0
                     (array_get (sc_oxygen c) (sl_gasmix l))]
             else []) ++
            (if sl_have_temperature l then [DC_SAMPLE_TEMPERATURE (sl_temperature l)]
             else []) ++
            (if sl_have_alarms l
             then [DC_SAMPLE_VENDOR SAMPLE_VENDOR_UWATEC_SMART nalarms
                     (firstn (Z.to_nat nalarms) (sl_alarms l))]
             else []) ++
            (if sl_have_rbt l || sl_have_pressure l then [DC_SAMPLE_RBT (sl_rbt l)] else []) ++
            (if sl_have_pressure l then [DC_SAMPLE_PRESSURE (sl_tank l) (sl_pressure l)]
             else []) ++
            (if sl_have_heartrate l then [DC_SAMPLE_HEARTBEAT (sl_heartrate l)] else []) ++
            (if sl_have_bearing l then [DC_SAMPLE_BEARING (sl_bearing l)] else []) ++
            (if sl_have_depth l
             then [DC_SAMPLE_DEPTH
                     ((sl_depth l - sl_depth_calibration l) * salinity)%float]
             else []) in
          let l1 := if change then set_sl_gasmix_previous (sl_gasmix l) l else l in
          let l2 :=
            if sl_have_alarms l
            then set_sl_have_alarms false (set_sl_alarms [0; 0; 0] l1)
            else l1 in
          let l3 := if sl_have_bearing l then set_sl_have_bearing false l2 else l2 in
          let l4 := set_sl_complete (sl_complete l - 1) (set_sl_time (u32 (sl_time l + 4)) l3) in
          match smart_emit fuel' c nalarms l4 with
          | Some (st, rest, l') => Some (st, out ++ rest, l')
          | None => None
          end
    end.

(** One iteration of [while (offset < size)]: the status when the
    iteration returns from the function, the samples handed to the
    callback, the locals and the offset after it. *)
Definition uwatec_smart_sample (parser : uwatec_smart_parser_t) (c : uwatec_smart_cache_t)
  (nalarms offset : Z) (l : smart_locals)
  : option (option dc_status_t * list dc_sample * smart_locals * Z) :=
  let data := sm_data parser in
  match uwatec_smart_sample_type parser offset with
  | None => Some (Some DC_STATUS_DATAFORMAT, [], l, offset)
  | Some (id, entry) =>
      match uwatec_smart_sample_value data entry offset with
      | None => Some (Some DC_STATUS_DATAFORMAT, [], l, offset)
      | Some (offset, nbits, value) =>
          let svalue := s32 (uwatec_smart_fixsignbit value nbits) in
          match uwatec_smart_parse_value (sm_model parser) (sc_trimix c) (blob_size data)
                  entry value svalue offset l with
          | None => Some (Some DC_STATUS_DATAFORMAT, [], l, offset)
          | Some (offset, l) =>
              match smart_emit (Z.to_nat (sl_complete l)) c nalarms l with
              | None => None
              | Some (st, out, l) => Some (st, out, l, offset)
              end
          end
      end
  end.

(** [while (offset < size)]; [None] when [fuel] runs out. *)
Fixpoint uwatec_smart_samples_loop (fuel : nat) (parser : uwatec_smart_parser_t)
  (c : uwatec_smart_cache_t) (nalarms offset : Z) (l : smart_locals)
  : option (dc_status_t * list dc_sample) :=
  if offset <? blob_size (sm_data parser) then
    match fuel with
    | O => None
    | S fuel' =>
        match uwatec_smart_sample parser c nalarms offset l with
        | None => None
        | Some (Some st, out, _, _) => Some (st, out)
        | Some (None, out, l', offset') =>
            match uwatec_smart_samples_loop fuel' parser c nalarms offset' l' with
            | Some (st, rest) => Some (st, out ++ rest)
            | None => None
            end
        end
    end
  else Some (DC_STATUS_SUCCESS, []).

(** [uwatec_smart_parser_samples_foreach] on a parser with the cached
    fields [c]: the status, the samples handed to the callback and the
    cached fields afterwards. *)
Definition uwatec_smart_parser_samples_foreach (parser : uwatec_smart_parser_t)
  (c : uwatec_smart_cache_t)
  : option (dc_status_t * list dc_sample * uwatec_smart_cache_t) :=
  let '(rc, c) := uwatec_smart_parser_cache parser c in
  if negb (dc_status_eqb rc DC_STATUS_SUCCESS) then Some (rc, [], c)
  else
    let header := if sc_trimix c then 0xB1 else sm_headersize parser in
    let nalarms := smart_nalarms (sm_samples parser) in
    match uwatec_smart_samples_loop (length (sm_data parser)) parser c nalarms header
            smart_locals_init with
    | Some (st, out) => Some (st, out, c)
    | None => None
    end.

(** ** Suunto Common2: writing (suunto_common2.c) *)

Section SuuntoCommon2Write.

Variable world : Type.
Variable packet :
  option (world -> list byte -> Z -> Z -> world * dc_status_t * list byte).

(** [while (nbytes < size)] of [suunto_common2_device_write]: [data] is
    the caller's buffer, whose first [nbytes] bytes have been sent.  The
    command handed to the transfer is the first [len + 7] bytes of the
    [command] array.  [None] when [fuel] runs out. *)
Fixpoint suunto_common2_write_loop (fuel : nat) (w : world) (address : Z)
  (data : list byte) (nbytes size : Z) : option (world * dc_status_t) :=
  if nbytes <? size then
    match fuel with
    | O => None
    | S fuel' =>
        let len := if u32 (size - nbytes) >? Common2.SZ_PACKET then Common2.SZ_PACKET
                   else u32 (size - nbytes) in
        let command6 :=
          bytes_of [0x06; 0x00; (len + 3) mod 2 ^ 8;
                    Z.land (Z.shiftr address 8) 0xFF;
                    Z.land address 0xFF;
                    len mod 2 ^ 8] in
        let command := command6 ++ bytes_slice data nbytes len in
        let command := command ++ [byte_of_Z (checksum_xor_uint8 command 0x00)] in
        let '(w, rc, answer) := suunto_common2_transfer world packet w command 7 0 in
        if negb (dc_status_eqb rc DC_STATUS_SUCCESS) then Some (w, rc)
        else
          suunto_common2_write_loop fuel' w (u32 (address + len)) data (u32 (nbytes + len)) size
    end
  else Some (w, DC_STATUS_SUCCESS).

Definition suunto_common2_device_write (w : world) (address : Z) (data : list byte)
  (size : Z) : option (world * dc_status_t) :=
  suunto_common2_write_loop (Z.to_nat size) w address data 0 size.

End SuuntoCommon2Write.


(** ** Reefnet Sensus Ultra: fields and samples (reefnet_sensusultra_parser.c) *)

(** [memcmp (data + offset, footer, 4) != 0] for the footer FF FF FF FF. *)
Definition sensusultra_not_footer (data : blob) (offset : Z) : bool :=
  negb (array_isequal data offset 4 0xFF).

(** The scan of [get_field], which counts the samples whose depth field
    reaches the threshold; the bound [offset + sizeof (footer) <= size] is
    computed in [size_t].  [None] when [fuel] runs out. *)
Fixpoint sensusultra_scan (fuel : nat) (data : blob)
  (threshold offset maxdepth nsamples : Z) : option (Z * Z) :=
  if (offset + 4 <=? blob_size data) && sensusultra_not_footer data offset then
    match fuel with
    | O => None
    | S fuel' =>
        let depth := array_uint16_le data (offset + 2) in
        let '(maxdepth, nsamples) :=
          if depth >=? threshold
          then (if depth >? maxdepth then depth else maxdepth, u32 (nsamples + 1))
          else (maxdepth, nsamples) in
        sensusultra_scan fuel' data threshold (u32 (offset + 4)) maxdepth nsamples
    end
  else Some (maxdepth, nsamples).

Section ReefnetSensusultraFields.

(** One bar in pascal (units.h, not among the sources). *)
Variable BAR : float.

Definition reefnet_sensusultra_parser_get_field (parser : reefnet_sensusultra_parser_t)
  (type : dc_field_type_t) (flags : Z)
  : option (dc_status_t * option dc_field_value * reefnet_sensusultra_parser_t) :=
  let data := su_data parser in
  if blob_size data <? 20 then Some (DC_STATUS_DATAFORMAT, None, parser)
  else
    match (if su_cached parser then Some parser
           else
             let interval := array_uint16_le data 8 in
             let threshold := array_uint16_le data 10 in
             match sensusultra_scan (length data) data threshold 16 0 0 with
             | None => None
             | Some (maxdepth, nsamples) =>
                 Some {| su_data := data;
                         su_atmospheric := su_atmospheric parser;
                         su_hydrostatic := su_hydrostatic parser;
                         su_devtime := su_devtime parser;
                         su_systime := su_systime parser;
                         su_cached := true;
                         su_divetime := u32 (nsamples * interval);
                         su_maxdepth := maxdepth |}
             end) with
    | None => None
    | Some parser =>
        match type with
        | DC_FIELD_DIVETIME =>
            Some (DC_STATUS_SUCCESS, Some (FV_uint (su_divetime parser)), parser)
        | DC_FIELD_MAXDEPTH =>
            Some (DC_STATUS_SUCCESS,
                  Some (FV_double ((double_of_uint (su_maxdepth parser) * BAR / 1000.0
                                    - su_atmospheric parser) / su_hydrostatic parser)%float),
                  parser)
        | DC_FIELD_GASMIX_COUNT => Some (DC_STATUS_SUCCESS, Some (FV_uint 0), parser)
        | DC_FIELD_DIVEMODE =>
            Some (DC_STATUS_SUCCESS, Some (FV_divemode DC_DIVEMODE_GAUGE), parser)
        | _ => Some (DC_STATUS_UNSUPPORTED, None, parser)
        end
    end.

(** The inner loop of [samples_foreach], after a header was found. *)
Fixpoint sensusultra_profile (fuel : nat) (parser : reefnet_sensusultra_parser_t)
  (interval time offset : Z) : option (list dc_sample) :=
  let data := su_data parser in
  if (offset + 4 <=? blob_size data) && sensusultra_not_footer data offset then
    match fuel with
    | O => None
    | S fuel' =>
        let time := u32 (time + interval) in
        let temperature := array_uint16_le data offset in
        let depth := array_uint16_le data (offset + 2) in
        match sensusultra_profile fuel' parser interval time (u32 (offset + 4)) with
        | Some rest =>
            Some ([DC_SAMPLE_TIME time;
                   DC_SAMPLE_TEMPERATURE (double_of_uint temperature / 100.0 - 273.15)%float;
                   DC_SAMPLE_DEPTH
                     ((double_of_uint depth * BAR / 1000.0 - su_atmospheric parser)
                      / su_hydrostatic parser)%float] ++ rest)
        | None => None
        end
    end
  else Some [].

(** The outer loop that looks for the header 00 00 00 00. *)
Fixpoint sensusultra_find_header (fuel : nat) (parser : reefnet_sensusultra_parser_t)
  (offset : Z) : option (dc_status_t * list dc_sample) :=
  let data := su_data parser in
  if offset + 4 <=? blob_size data then
    match fuel with
    | O => None
    | S fuel' =>
        if array_isequal data offset 4 0x00 then
          if u32 (offset + 16) >? blob_size data then Some (DC_STATUS_DATAFORMAT, [])
          else
            let interval := array_uint16_le data (offset + 8) in
            match sensusultra_profile (length data) parser interval 0 (u32 (offset + 16)) with
            | Some out => Some (DC_STATUS_SUCCESS, out)
            | None => None
            end
        else sensusultra_find_header fuel' parser (u32 (offset + 1))
    end
  else Some (DC_STATUS_SUCCESS, []).

Definition reefnet_sensusultra_parser_samples_foreach (parser : reefnet_sensusultra_parser_t)
  : option (dc_status_t * list dc_sample) :=
  sensusultra_find_header (length (su_data parser)) parser 0.

End ReefnetSensusultraFields.


(** ** Conversions of floating point values *)

(** A [double] without its fraction.  [(unsigned int) x] and [(int) x]
    drop the fraction; for a value outside the range of the target type
    the conversion is undefined in C, and [uint_of_double] reduces it
    modulo 2^32 here. *)
Definition trunc_double (x : float) : Z :=
  match Prim2SF x with
  | S754_finite s m e =>
      let v := if e >=? 0 then Z.pos m * 2 ^ e else Z.pos m / 2 ^ (- e) in
      if s then - v else v
  | _ => 0
  end.

Definition uint_of_double (x : float) : Z := u32 (trunc_double x).

Definition int_of_double (x : float) : Z := trunc_double x.

(** ** Oceanic VT Pro (oceanic_vtpro_parser.c) *)

Record oceanic_vtpro_parser_t : Type := mk_vtpro {
  vt_data : blob;             (* base.data, base.size *)
  vt_cached : bool;
  vt_divetime : Z;
  vt_maxdepth : float
}.

Definition oceanic_vtpro_parser_create : oceanic_vtpro_parser_t :=
  {| vt_data := []; vt_cached := false; vt_divetime := 0; vt_maxdepth := 0.0%float |}.

Definition oceanic_vtpro_parser_set_data (parser : oceanic_vtpro_parser_t) (data : blob)
  : dc_status_t * oceanic_vtpro_parser_t :=
  (DC_STATUS_SUCCESS,
   {| vt_data := data; vt_cached := false; vt_divetime := 0; vt_maxdepth := 0.0%float |}).

Definition oceanic_vtpro_parser_get_datetime (parser : oceanic_vtpro_parser_t)
  : dc_status_t * option dc_datetime_t :=
  let p := vt_data parser in
  if blob_size p <? 8 then (DC_STATUS_DATAFORMAT, None)
  else
    let year :=
      if blob_size p <? 40 then bcd2dec (Z.land (byte_at p 4) 0x0F) + 2000
      else bcd2dec (Z.shiftr (Z.land (byte_at p (32 + 3)) 0xC0) 2 +
                    Z.shiftr (Z.land (byte_at p (32 + 2)) 0xF0) 4) + 2000 in
    let month := Z.shiftr (Z.land (byte_at p 4) 0xF0) 4 in
    let day := bcd2dec (byte_at p 3) in
    let hour := bcd2dec (Z.land (byte_at p 1) 0x7F) in
    let minute := bcd2dec (byte_at p 0) in
    (* Convert to a 24-hour clock. *)
    let hour := hour mod 12 in
    let hour := if negb (Z.land (byte_at p 1) 0x80 =? 0) then hour + 12 else hour in
    (DC_STATUS_SUCCESS,
     Some {| year := year; month := month; day := day; hour := hour;
             minute := minute; second := 0 |}).

(** The timestamp of the sample at [offset], in minutes. *)
Definition vtpro_timestamp (data : blob) (offset : Z) : Z :=
  u32 (bcd2dec (Z.land (byte_at data (offset + 1)) 0x0F) * 60 +
       bcd2dec (byte_at data (offset + 0))).

(** The inner [while (idx + PAGESIZE / 2 <= size - PAGESIZE)], which
    counts the samples that share the timestamp [current]; [None] when
    [fuel] runs out. *)
Fixpoint vtpro_count (fuel : nat) (data : blob) (current idx count : Z) : option Z :=
  if u32 (idx + PAGESIZE / 2) <=? u32 (blob_size data - PAGESIZE) then
    match fuel with
    | O => None
    | S fuel' =>
        if array_isequal data idx (PAGESIZE / 2) 0x00
        then vtpro_count fuel' data current (u32 (idx + PAGESIZE / 2)) count
        else
          let next := vtpro_timestamp data idx in
          if negb (next =? current) then Some count
          else vtpro_count fuel' data current (u32 (idx + PAGESIZE / 2)) (u32 (count + 1))
    end
  else Some count.

(** The local variables of [samples_foreach] that live across
    iterations. *)
Record vtpro_locals : Type := mk_vtpro_locals {
  v_time : Z;
  v_timestamp : Z;
  v_count : Z;
  v_i : Z
}.

(** [while (offset + PAGESIZE / 2 <= size - PAGESIZE)]; [None] when
    [fuel] runs out. *)
Fixpoint vtpro_samples_loop (fuel : nat) (data : blob) (interval offset : Z)
  (l : vtpro_locals) : option (dc_status_t * list dc_sample) :=
  if u32 (offset + PAGESIZE / 2) <=? u32 (blob_size data - PAGESIZE) then
    match fuel with
    | O => None
    | S fuel' =>
        (* Ignore empty samples. *)
        if array_isequal data offset (PAGESIZE / 2) 0x00
        then vtpro_samples_loop fuel' data interval (u32 (offset + PAGESIZE / 2)) l
        else
          (* Get the current timestamp. *)
          let current := vtpro_timestamp data offset in
          if current <? v_timestamp l then Some (DC_STATUS_DATAFORMAT, [])
          else
            match (if negb (current =? v_timestamp l) || (v_count l =? 0) then
                     (* A sample with a new timestamp. *)
                     if negb (interval =? 0) then Some (0, 60 / interval)
                     else
                       match vtpro_count (length data) data current
                               (u32 (offset + PAGESIZE / 2)) 1 with
                       | Some count => Some (0, count)
                       | None => None
                       end
                   else
                     (* A sample with the same timestamp. *)
                     Some (u32 (v_i l + 1), v_count l)) with
            | None => None
            | Some (i, count) =>
                if negb (interval =? 0) && (current >? u32 (v_timestamp l + 1))
                then Some (DC_STATUS_DATAFORMAT, [])
                else if negb (interval =? 0) && (i >=? count)
                then
                  vtpro_samples_loop fuel' data interval (u32 (offset + PAGESIZE / 2))
                    (mk_vtpro_locals (v_time l) (v_timestamp l) count i)
                else
                  (* Store the current timestamp. *)
                  let timestamp := current in
                  let time :=
                    if negb (interval =? 0) then u32 (v_time l + interval)
                    else
                      uint_of_double
                        (double_of_uint (u32 (timestamp * 60)) +
                         double_of_uint (u32 (i + 1)) * 60.0 / double_of_uint count +
                         0.5)%float in
                  let depth := byte_at data (offset + 3) in
                  let temperature := byte_at data (offset + 6) in
                  let out :=
                    [DC_SAMPLE_TIME time;
                     DC_SAMPLE_VENDOR SAMPLE_VENDOR_OCEANIC_VTPRO (PAGESIZE / 2)
                       (blob_slice data offset (PAGESIZE / 2));
                     DC_SAMPLE_DEPTH (double_of_uint depth * FEET)%float;
                     DC_SAMPLE_TEMPERATURE
                       ((double_of_uint temperature - 32.0) * (5.0 / 9.0))%float] in
                  match vtpro_samples_loop fuel' data interval (u32 (offset + PAGESIZE / 2))
                          (mk_vtpro_locals time timestamp count i) with
                  | Some (st, rest) => Some (st, out ++ rest)
                  | None => None
                  end
            end
    end
  else Some (DC_STATUS_SUCCESS, []).

Definition oceanic_vtpro_parser_samples_foreach (parser : oceanic_vtpro_parser_t)
  : option (dc_status_t * list dc_sample) :=
  let data := vt_data parser in
  if blob_size data <? 7 * PAGESIZE / 2 then Some (DC_STATUS_DATAFORMAT, [])
  else
    let selector := Z.land (Z.shiftr (byte_at data 0x27) 4) 0x07 in
    let interval :=
      if selector =? 0 then 2
      else if selector =? 1 then 15
      else if selector =? 2 then 30
      else if selector =? 3 then 60
      else 0 in
    vtpro_samples_loop (length data) data interval (5 * PAGESIZE / 2)
      (mk_vtpro_locals 0 0 0 0).

Section SampleStatistics.

(** [sample_statistics_cb] of parser.c (not among the sources) is the
    callback that gathers the dive time and the maximum depth of the
    samples it is handed; what it leaves in [statistics.divetime] and
    [statistics.maxdepth] after the samples [l] is a parameter. *)
Variable sample_statistics : list dc_sample -> Z * float.

Definition oceanic_vtpro_parser_get_field (parser : oceanic_vtpro_parser_t)
  (type : dc_field_type_t) (flags : Z)
  : option (dc_status_t * option dc_field_value * oceanic_vtpro_parser_t) :=
  let data := vt_data parser in
  let size := blob_size data in
  if size <? 7 * PAGESIZE / 2 then Some (DC_STATUS_DATAFORMAT, None, parser)
  else
    match (if vt_cached parser then Some (inr parser)
           else
             match oceanic_vtpro_parser_samples_foreach parser with
             | None => None
             | Some (rc, out) =>
                 if negb (dc_status_eqb rc DC_STATUS_SUCCESS) then Some (inl rc)
                 else
                   let '(divetime, maxdepth) := sample_statistics out in
                   Some (inr {| vt_data := data; vt_cached := true;
                                vt_divetime := divetime; vt_maxdepth := maxdepth |})
             end) with
    | None => None
    | Some (inl rc) => Some (rc, None, parser)
    | Some (inr parser) =>
        let footer := u32 (size - PAGESIZE) in
        match type with
        | DC_FIELD_DIVETIME =>
            Some (DC_STATUS_SUCCESS, Some (FV_uint (vt_divetime parser)), parser)
        | DC_FIELD_MAXDEPTH =>
            Some (DC_STATUS_SUCCESS,
                  Some (FV_double
                          (double_of_uint
                             (byte_at data (footer + 0) +
                              Z.shiftl (Z.land (byte_at data (footer + 1)) 0x0F) 8)
                           * FEET)%float),
                  parser)
        | DC_FIELD_GASMIX_COUNT => Some (DC_STATUS_SUCCESS, Some (FV_uint 1), parser)
        | DC_FIELD_GASMIX =>
            let he := 0.0%float in
            let o2 :=
              if negb (byte_at data (footer + 3) =? 0)
              then (double_of_uint (byte_at data (footer + 3)) / 100.0)%float
              else 0.21%float in
            Some (DC_STATUS_SUCCESS,
                  Some (FV_gasmix {| helium := he; oxygen := o2;
                                     nitrogen := (1.0 - o2 - he)%float |}),
                  parser)
        | _ => Some (DC_STATUS_UNSUPPORTED, None, parser)
        end
    end.

End SampleStatistics.

(** ** Suunto Eon, Solution and Spyder (suunto_eon_parser.c) *)

Record suunto_eon_parser_t : Type := mk_eon {
  eon_data : blob;            (* base.data, base.size *)
  eon_spyder : bool;          (* int spyder *)
  eon_cached : bool;
  eon_divetime : Z;
  eon_maxdepth : Z;
  eon_marker : Z;
  eon_nitrox : bool           (* unsigned int nitrox, 0 or 1 *)
}.

Definition suunto_eon_parser_create (spyder : bool) : suunto_eon_parser_t :=
  {| eon_data := []; eon_spyder := spyder; eon_cached := false; eon_divetime := 0;
     eon_maxdepth := 0; eon_marker := 0; eon_nitrox := false |}.

Definition suunto_eon_parser_set_data (parser : suunto_eon_parser_t) (data : blob)
  : dc_status_t * suunto_eon_parser_t :=
  (DC_STATUS_SUCCESS,
   {| eon_data := data; eon_spyder := eon_spyder parser; eon_cached := false;
      eon_divetime := 0; eon_maxdepth := 0; eon_marker := 0; eon_nitrox := false |}).

(** [while (offset < size && data[offset] != 0x80)] of the cache: the
    offset, the maximum depth and the number of samples after the loop;
    [None] when [fuel] runs out. *)
Fixpoint eon_cache_loop (fuel : nat) (data : blob) (offset depth maxdepth nsamples : Z)
  : option (Z * Z * Z) :=
  if (offset <? blob_size data) && negb (byte_at data offset =? 0x80) then
    match fuel with
    | O => None
    | S fuel' =>
        let value := byte_at data offset in
        let offset := u32 (offset + 1) in
        if (value <? 0x7d) || (value >? 0x82) then
          let depth := u32 (depth + s8 value) in
          eon_cache_loop fuel' data offset depth
            (if depth >? maxdepth then depth else maxdepth) (u32 (nsamples + 1))
        else eon_cache_loop fuel' data offset depth maxdepth nsamples
    end
  else Some (offset, maxdepth, nsamples).

Definition suunto_eon_parser_cache (parser : suunto_eon_parser_t)
  : option (dc_status_t * suunto_eon_parser_t) :=
  let data := eon_data parser in
  let size := blob_size data in
  if eon_cached parser then Some (DC_STATUS_SUCCESS, parser)
  else if size <? 13 then Some (DC_STATUS_DATAFORMAT, parser)
  else
    (* The Solution Nitrox/Vario stores nitrox data, not tank pressure. *)
    let nitrox := negb (eon_spyder parser) && negb (Z.land (byte_at data 4) 0x80 =? 0) in
    (* Parse the samples. *)
    let interval := byte_at data 3 in
    match eon_cache_loop (length data) data 11 0 0 0 with
    | None => None
    | Some (offset, maxdepth, nsamples) =>
        (* Check the end marker. *)
        let marker := offset in
        if (u32 (marker + 2) >=? size) || negb (byte_at data marker =? 0x80)
        then Some (DC_STATUS_DATAFORMAT, parser)
        else
          Some (DC_STATUS_SUCCESS,
                {| eon_data := data; eon_spyder := eon_spyder parser; eon_cached := true;
                   eon_divetime := u32 (nsamples * interval); eon_maxdepth := maxdepth;
                   eon_marker := marker; eon_nitrox := nitrox |})
    end.

Definition suunto_eon_parser_get_datetime (parser : suunto_eon_parser_t)
  : dc_status_t * option dc_datetime_t :=
  let data := eon_data parser in
  if blob_size data <? 6 + 5 then (DC_STATUS_DATAFORMAT, None)
  else
    let p (i : Z) := byte_at data (6 + i) in
    if eon_spyder parser then
      (DC_STATUS_SUCCESS,
       Some {| year := p 0 + (if p 0 <? 90 then 2000 else 1900);
               month := p 1; day := p 2; hour := p 3; minute := p 4; second := 0 |})
    else
      (DC_STATUS_SUCCESS,
       Some {| year := bcd2dec (p 0) + (if bcd2dec (p 0) <? 85 then 2000 else 1900);
               month := bcd2dec (p 1); day := bcd2dec (p 2); hour := bcd2dec (p 3);
               minute := bcd2dec (p 4); second := 0 |}).

Definition suunto_eon_parser_get_field (parser : suunto_eon_parser_t)
  (type : dc_field_type_t) (flags : Z)
  : option (dc_status_t * option dc_field_value * suunto_eon_parser_t) :=
  match suunto_eon_parser_cache parser with
  | None => None
  | Some (rc, parser) =>
      if negb (dc_status_eqb rc DC_STATUS_SUCCESS) then Some (rc, None, parser)
      else
        let data := eon_data parser in
        let oxygen := if eon_nitrox parser then byte_at data 0x05 else 21 in
        let beginpressure := if eon_nitrox parser then 0 else byte_at data 5 * 2 in
        let endpressure :=
          if eon_nitrox parser then 0 else byte_at data (u32 (eon_marker parser + 2)) * 2 in
        match type with
        | DC_FIELD_DIVETIME =>
            Some (DC_STATUS_SUCCESS, Some (FV_uint (eon_divetime parser)), parser)
        | DC_FIELD_MAXDEPTH =>
            Some (DC_STATUS_SUCCESS,
                  Some (FV_double (double_of_uint (eon_maxdepth parser) * FEET)%float),
                  parser)
        | DC_FIELD_GASMIX_COUNT => Some (DC_STATUS_SUCCESS, Some (FV_uint 1), parser)
        | DC_FIELD_GASMIX =>
            let he := 0.0%float in
            let o2 := (double_of_uint oxygen / 100.0)%float in
            Some (DC_STATUS_SUCCESS,
                  Some (FV_gasmix {| helium := he; oxygen := o2;
                                     nitrogen := (1.0 - o2 - he)%float |}),
                  parser)
        | DC_FIELD_TANK_COUNT =>
            Some (DC_STATUS_SUCCESS,
                  Some (FV_uint (if (beginpressure =? 0) && (endpressure =? 0) then 0 else 1)),
                  parser)
        | DC_FIELD_TANK =>
            Some (DC_STATUS_SUCCESS,
                  Some (FV_tank {| tank_gasmix := 0; tank_type := DC_TANKVOLUME_NONE;
                                   tank_volume := 0.0%float;
                                   tank_workpressure := 0.0%float;
                                   tank_beginpressure := double_of_uint beginpressure;
                                   tank_endpressure := double_of_uint endpressure |}),
                  parser)
        | DC_FIELD_TEMPERATURE_MINIMUM =>
            let t := byte_at data (u32 (eon_marker parser + 1)) in
            Some (DC_STATUS_SUCCESS,
                  Some (FV_double (if eon_spyder parser then double_of_int (s8 t)
                                   else double_of_int (t - 40))),
                  parser)
        | _ => Some (DC_STATUS_UNSUPPORTED, None, parser)
        end
  end.

(** The event of a sample byte from 0x7d to 0x82. *)
Definition eon_event (value : Z) : parser_sample_event_t :=
  if value =? 0x7d then SAMPLE_EVENT_SURFACE
  else if value =? 0x7e then SAMPLE_EVENT_DECOSTOP
  else if value =? 0x7f then SAMPLE_EVENT_CEILING
  else if value =? 0x81 then SAMPLE_EVENT_ASCENT
  else SAMPLE_EVENT_NONE.

(** [while (offset < size && data[offset] != 0x80)] of [samples_foreach]:
    the samples it hands out, and [time] and [complete] after the loop;
    [None] when [fuel] runs out. *)
Fixpoint eon_samples_loop (fuel : nat) (data : blob) (interval offset depth time : Z)
  (complete : bool) : option (list dc_sample * Z * bool) :=
  if (offset <? blob_size data) && negb (byte_at data offset =? 0x80) then
    match fuel with
    | O => None
    | S fuel' =>
        let value := byte_at data offset in
        let offset := u32 (offset + 1) in
        let '(out, time) :=
          if complete then ([DC_SAMPLE_TIME (u32 (time + interval))], u32 (time + interval))
          else ([], time) in
        let complete := false in
        let '(out, depth, complete) :=
          if (value <? 0x7d) || (value >? 0x82) then
            let depth := u32 (depth + s8 value) in
            (out ++ [DC_SAMPLE_DEPTH (double_of_uint depth * FEET)%float], depth, true)
          else
            match eon_event value with
            | SAMPLE_EVENT_NONE => (out, depth, complete)
            | type => (out ++ [DC_SAMPLE_EVENT type 0 0 0], depth, complete)
            end in
        match eon_samples_loop fuel' data interval offset depth time complete with
        | Some (rest, time, complete) => Some (out ++ rest, time, complete)
        | None => None
        end
    end
  else Some ([], time, complete).

Definition suunto_eon_parser_samples_foreach (parser : suunto_eon_parser_t)
  : option (dc_status_t * list dc_sample * suunto_eon_parser_t) :=
  match suunto_eon_parser_cache parser with
  | None => None
  | Some (rc, parser) =>
      if negb (dc_status_eqb rc DC_STATUS_SUCCESS) then Some (rc, [], parser)
      else
        let data := eon_data parser in
        let interval := byte_at data 3 in
        match eon_samples_loop (length data) data interval 11 0 0 true with
        | None => None
        | Some (out, time, complete) =>
            Some (DC_STATUS_SUCCESS,
                  [DC_SAMPLE_TIME 0; DC_SAMPLE_DEPTH (double_of_uint 0)] ++ out ++
                  (if complete then [DC_SAMPLE_TIME (u32 (time + interval))] else []) ++
                  [DC_SAMPLE_DEPTH (double_of_uint 0)],
                  parser)
        end
  end.


(** ** Suunto EON Steel (suunto_eonsteel_parser.c) *)

Module Eonsteel.

Definition MAXTYPE : Z := 512.
Definition MAXGASES : Z := 16.
Definition MAXSTRINGS : Z := 16.

End Eonsteel.

(** A C string literal, without its closing NUL. *)
Definition cstr (s : String.string) : list byte := String.list_byte_of_string s.

Arguments cstr s%_string.

(** The C string that starts at the offset [off] of the blob: the bytes
    before the first NUL.  A string that runs off the blob, a read that is
    undefined in C, ends there. *)
Fixpoint cstring_of (l : list byte) : list byte :=
  match l with
  | [] => []
  | b :: r => if Byte.eqb b x00 then [] else b :: cstring_of r
  end.

Definition cstring (data : blob) (off : Z) : list byte :=
  if off <? 0 then [] else cstring_of (skipn (Z.to_nat off) data).

(** [strchr]: the index of the first [c] in a string. *)
Fixpoint strchr (s : list byte) (c : byte) : option nat :=
  match s with
  | [] => None
  | b :: r => if Byte.eqb b c then Some O else option_map S (strchr r c)
  end.

(** [strncmp (s, prefix, |prefix|) == 0]. *)
Definition strprefix (prefix s : list byte) : bool :=
  bytes_eqb (firstn (length prefix) s) prefix.

(** [struct type_desc]; a NULL member is [None]. *)
Record type_desc : Type := mk_type_desc {
  td_desc : option (list byte);
  td_format : option (list byte);
  td_mod : option (list byte)
}.

(** The array [type_desc[MAXTYPE]] of the parser, as the list of the
    entries written so far, the newest first; the other entries are
    zero.  The check [type > MAXTYPE] of [record_type] lets the index
    MAXTYPE through, one past the end of the C array. *)
Definition type_table := list (Z * type_desc).

Definition type_table_get (table : type_table) (type : Z) : type_desc :=
  match find (fun e => fst e =? type) table with
  | Some e => snd e
  | None => mk_type_desc None None None
  end.

(** The [do ... while] of [record_type] over the lines of the
    description: [Some None] is the return of -1; [None] when [fuel] runs
    out. *)
Fixpoint record_type_lines (fuel : nat) (data : blob) (name : Z) (desc : type_desc)
  : option (option type_desc) :=
  match fuel with
  | O => None
  | S fuel' =>
      let s := cstring data name in
      let '(len, next) :=
        match strchr s x0a with
        | Some k => (Z.of_nat k, Some (name + Z.of_nat k + 1))
        | None => (Z.of_nat (length s), None)
        end in
      if (len <? 5) || negb (byte_at data name =? 0x3C (* '<' *)) ||
         negb (byte_at data (name + 4) =? 0x3E (* '>' *))
      then Some None
      else
        let p := bytes_slice data (name + 5) (len - 5) in
        let c := byte_at data (name + 1) in
        (* PTH, GRP, FRM, MOD *)
        match (if (c =? 0x50 (* 'P' *)) || (c =? 0x47 (* 'G' *))
               then Some {| td_desc := Some p; td_format := td_format desc;
                            td_mod := td_mod desc |}
               else if c =? 0x46 (* 'F' *)
               then Some {| td_desc := td_desc desc; td_format := Some p;
                            td_mod := td_mod desc |}
               else if c =? 0x4D (* 'M' *)
               then Some {| td_desc := td_desc desc; td_format := td_format desc;
                            td_mod := Some p |}
               else None) with
        | None => Some None
        | Some desc =>
            match next with
            | None => Some (Some desc)
            | Some next => record_type_lines fuel' data next desc
            end
        end
  end.

(** [record_type], whose return value its caller drops: the table
    afterwards. *)
Definition record_type (data : blob) (table : type_table) (type name : Z)
  : option type_table :=
  match record_type_lines (S (length data)) data name (mk_type_desc None None None) with
  | None => None
  | Some None => Some table
  | Some (Some desc) =>
      if type >? Eonsteel.MAXTYPE then Some table else Some ((type, desc) :: table)
  end.

Section EonsteelTraverse.

(** The [user] pointer of a traversal and its callback [eon_data_cb_t],
    which gets the type, its descriptor, the offset of the data in the
    blob and their length, and returns its [int] with the new state. *)
Variable user_t : Type.
Variable callback : Z -> type_desc -> Z -> Z -> user_t -> Z * user_t.

(** [while (end < one_past_end && *end)] of [traverse_entry]: a negative
    return of the callback, or [end] after the loop; [None] when [fuel]
    runs out. *)
Fixpoint traverse_entry_loop (fuel : nat) (data : blob) (table : type_table)
  (one_past_end end_ : Z) (user : user_t) : option ((Z + Z) * user_t) :=
  if (end_ <? one_past_end) && negb (byte_at data end_ =? 0) then
    match fuel with
    | O => None
    | S fuel' =>
        let type := byte_at data end_ in
        let end_ := end_ + 1 in
        let '(type, end_) :=
          if type =? 0xff then (array_uint16_le data end_, end_ + 2) else (type, end_) in
        let len := byte_at data end_ in
        let end_ := end_ + 1 in
        let '(len, end_) :=
          if len =? 0xff then (array_uint32_le data end_, end_ + 4) else (len, end_) in
        let desc := type_table_get table type in
        let '(rc, user) :=
          if (type >? Eonsteel.MAXTYPE) ||
             match td_desc desc with None => true | Some _ => false end
          then (0, user)
          else callback type desc end_ (s32 len) user in
        if rc <? 0 then Some (inl rc, user)
        else traverse_entry_loop fuel' data table one_past_end (end_ + len) user
    end
  else Some (inr end_, user).

(** [traverse_entry] on the [len] bytes at the offset [p]: its return
    value, the table and the state afterwards. *)
Definition traverse_entry (data : blob) (table : type_table) (p len : Z) (user : user_t)
  : option (Z * type_table * user_t) :=
  let one_past_end := p + len in
  (* First two bytes: zero and text length *)
  if negb (byte_at data p =? 0) then Some (-1, table, user)
  else
    let textlen := byte_at data (p + 1) in
    let name := p + 2 in
    let '(textlen, name) :=
      if textlen =? 0xff then (s32 (array_uint32_le data name), name + 4)
      else (textlen, name) in
    (* Two bytes of 'type' followed by the name/descriptor, followed by the data *)
    let data_ := name + textlen in
    let type := array_uint16_le data name in
    let name := name + 2 in
    if negb (byte_at data name =? 0x3C (* '<' *)) then Some (-1, table, user)
    else
      match record_type data table type name with
      | None => None
      | Some table =>
          match traverse_entry_loop (length data) data table one_past_end data_ user with
          | None => None
          | Some (inl rc, user) => Some (rc, table, user)
          | Some (inr end_, user) => Some (end_ - p, table, user)
          end
      end.

(** [while (len > 4)] of [traverse_data]; [None] when [fuel] runs out. *)
Fixpoint traverse_data_loop (fuel : nat) (data : blob) (table : type_table)
  (p len : Z) (user : user_t) : option (Z * type_table * user_t) :=
  if len >? 4 then
    match fuel with
    | O => None
    | S fuel' =>
        match traverse_entry data table p len user with
        | None => None
        | Some (i, table, user) =>
            if i <? 0 then Some (1, table, user)
            else traverse_data_loop fuel' data table (p + i) (len - i) user
        end
    end
  else Some (0, table, user).

Definition traverse_data (data : blob) (table : type_table) (user : user_t)
  : option (Z * type_table * user_t) :=
  let len := s32 (blob_size data) in
  (* Dive files start with "SBEM" and four NUL characters; the time is
     prepended as an extra 4-byte pre-header. *)
  if (len <? 12) || negb (bytes_eqb (bytes_slice data 4 4) (cstr "SBEM"))
  then Some (0, table, user)
  else traverse_data_loop (length data) data table 12 (len - 12) user.

End EonsteelTraverse.

(** The field cache of the parser.  The array [strings[MAXSTRINGS]] is
    the list of the entries filled so far, in order. *)
Record eonsteel_cache_t : Type := mk_eonsteel_cache {
  ec_initialized : Z;
  ec_divetime : Z;
  ec_maxdepth : float;
  ec_avgdepth : float;
  ec_ngases : Z;
  ec_gasmix : list dc_gasmix_t;         (* MAXGASES entries *)
  ec_salinity : dc_water_t * float;
  ec_surface_pressure : float;
  ec_strings : list (list byte * list byte)
}.

Record suunto_eonsteel_parser_t : Type := mk_eonsteel {
  es_data : blob;             (* base.data, base.size *)
  es_type_desc : type_table;
  es_cache : eonsteel_cache_t
}.

(** [struct sample_data] without its pointers, together with the samples
    handed to the callback so far. *)
Record sample_data : Type := mk_sample_data {
  sd_time : Z;
  sd_state_type : Z;
  sd_notify_type : Z;
  sd_warning_type : Z;
  sd_alarm_type : Z;
  sd_out : list dc_sample
}.

Definition sample_emit (info : sample_data) (out : list dc_sample) : sample_data :=
  {| sd_time := sd_time info; sd_state_type := sd_state_type info;
     sd_notify_type := sd_notify_type info; sd_warning_type := sd_warning_type info;
     sd_alarm_type := sd_alarm_type info; sd_out := sd_out info ++ out |}.

Definition sample_time (info : sample_data) (time_delta : Z) : sample_data :=
  let time := u32 (sd_time info + time_delta) in
  {| sd_time := time; sd_state_type := sd_state_type info;
     sd_notify_type := sd_notify_type info; sd_warning_type := sd_warning_type info;
     sd_alarm_type := sd_alarm_type info;
     sd_out := sd_out info ++ [DC_SAMPLE_TIME (time / 1000)] |}.

Definition sample_depth (info : sample_data) (depth : Z) : sample_data :=
  if depth =? 0xffff then info
  else sample_emit info [DC_SAMPLE_DEPTH (double_of_uint depth / 100.0)%float].

(** [temp] is a [short]. *)
Definition sample_temp (info : sample_data) (temp : Z) : sample_data :=
  if temp <? -3000 then info
  else sample_emit info [DC_SAMPLE_TEMPERATURE (double_of_int temp / 10.0)%float].

(** [ndl] is a [short]; the members of the zeroed sample that are not set
    stay 0. *)
Definition sample_deco (info : sample_data) (ndl tts ceiling : Z) : sample_data :=
  if ndl <? 0 then
    sample_emit info
      [DC_SAMPLE_DECO DC_DECO_DECOSTOP
         (if negb (ceiling =? 0xffff) then (double_of_uint ceiling / 100.0)%float
          else 0.0%float)
         (if negb (tts =? 0xffff) then tts else 0)]
  else sample_emit info [DC_SAMPLE_DECO DC_DECO_NDL 0.0%float ndl].

Definition sample_cylinder_pressure (info : sample_data) (idx pressure : Z)
  : sample_data :=
  if pressure =? 0xffff then info
  else
    sample_emit info
      [DC_SAMPLE_PRESSURE (u32 (idx - 1)) (double_of_uint pressure / 100.0)%float].

Definition sample_bookmark_event (info : sample_data) (idx : Z) : sample_data :=
  sample_emit info [DC_SAMPLE_EVENT SAMPLE_EVENT_BOOKMARK 0 0 idx].

Definition gasmix_zero : dc_gasmix_t :=
  {| helium := 0.0%float; oxygen := 0.0%float; nitrogen := 0.0%float |}.

Definition sample_gas_switch_event (cache : eonsteel_cache_t) (info : sample_data)
  (idx : Z) : sample_data :=
  if (idx <? 1) || (idx >? ec_ngases cache) then info
  else
    (* Horrible, broken, gas change events *)
    let mix := nth (Z.to_nat (idx - 1)) (ec_gasmix cache) gasmix_zero in
    let o2 := int_of_double (100.0 * oxygen mix)%float in
    let he := int_of_double (100.0 * helium mix)%float in
    sample_emit info
      [DC_SAMPLE_EVENT SAMPLE_EVENT_GASCHANGE2 0 idx (u32 (Z.lor o2 (Z.shiftl he 16)))].

Definition sample_event_state_type (info : sample_data) (type : Z) : sample_data :=
  {| sd_time := sd_time info; sd_state_type := type;
     sd_notify_type := sd_notify_type info; sd_warning_type := sd_warning_type info;
     sd_alarm_type := sd_alarm_type info; sd_out := sd_out info |}.

Definition sample_event_state_value (info : sample_data) (value : Z) : sample_data :=
  info.

Definition sample_event_notify_type (info : sample_data) (type : Z) : sample_data :=
  {| sd_time := sd_time info; sd_state_type := sd_state_type info;
     sd_notify_type := type; sd_warning_type := sd_warning_type info;
     sd_alarm_type := sd_alarm_type info; sd_out := sd_out info |}.

Definition sample_event_warning_type (info : sample_data) (type : Z) : sample_data :=
  {| sd_time := sd_time info; sd_state_type := sd_state_type info;
     sd_notify_type := sd_notify_type info; sd_warning_type := type;
     sd_alarm_type := sd_alarm_type info; sd_out := sd_out info |}.

Definition sample_event_alarm_type (info : sample_data) (type : Z) : sample_data :=
  {| sd_time := sd_time info; sd_state_type := sd_state_type info;
     sd_notify_type := sd_notify_type info; sd_warning_type := sd_warning_type info;
     sd_alarm_type := type; sd_out := sd_out info |}.

Definition translate_notification : list parser_sample_event_t :=
  [SAMPLE_EVENT_NONE;                  (* 0=NoFly Time *)
   SAMPLE_EVENT_NONE;                  (* 1=Depth *)
   SAMPLE_EVENT_NONE;                  (* 2=Surface Time *)
   SAMPLE_EVENT_TISSUELEVEL;           (* 3=Tissue Level *)
   SAMPLE_EVENT_NONE;                  (* 4=Deco *)
   SAMPLE_EVENT_NONE;                  (* 5=Deco Window *)
   SAMPLE_EVENT_SAFETYSTOP_VOLUNTARY;  (* 6=Safety Stop Ahead *)
   SAMPLE_EVENT_SAFETYSTOP;            (* 7=Safety Stop *)
   SAMPLE_EVENT_CEILING_SAFETYSTOP;    (* 8=Safety Stop Broken *)
   SAMPLE_EVENT_NONE;                  (* 9=Deep Stop Ahead *)
   SAMPLE_EVENT_DEEPSTOP;              (* 10=Deep Stop *)
   SAMPLE_EVENT_DIVETIME;              (* 11=Dive Time *)
   SAMPLE_EVENT_NONE;                  (* 12=Gas Available *)
   SAMPLE_EVENT_NONE;                  (* 13=SetPoint Switch *)
   SAMPLE_EVENT_NONE;                  (* 14=Diluent Hypoxia *)
   SAMPLE_EVENT_NONE].                 (* 15=Tank Pressure *)

Definition translate_warning : list parser_sample_event_t :=
  [SAMPLE_EVENT_NONE;                  (* 0=ICD Penalty *)
   SAMPLE_EVENT_VIOLATION;             (* 1=Deep Stop Penalty *)
   SAMPLE_EVENT_SAFETYSTOP_MANDATORY;  (* 2=Mandatory Safety Stop *)
   SAMPLE_EVENT_NONE;                  (* 3=OTU250 *)
   SAMPLE_EVENT_NONE;                  (* 4=OTU300 *)
   SAMPLE_EVENT_NONE;                  (* 5=CNS80% *)
   SAMPLE_EVENT_NONE;                  (* 6=CNS100% *)
   SAMPLE_EVENT_AIRTIME;               (* 7=Air Time *)
   SAMPLE_EVENT_MAXDEPTH;              (* 8=Max.Depth *)
   SAMPLE_EVENT_AIRTIME;               (* 9=Tank Pressure *)
   SAMPLE_EVENT_CEILING_SAFETYSTOP;    (* 10=Safety Stop Broken *)
   SAMPLE_EVENT_CEILING_SAFETYSTOP;    (* 11=Deep Stop Broken *)
   SAMPLE_EVENT_CEILING;               (* 12=Ceiling Broken *)
   SAMPLE_EVENT_PO2].                  (* 13=PO2 High *)

Definition translate_alarm : list parser_sample_event_t :=
  [SAMPLE_EVENT_CEILING_SAFETYSTOP;    (* 0=Mandatory Safety Stop Broken *)
   SAMPLE_EVENT_ASCENT;                (* 1=Ascent Speed *)
   SAMPLE_EVENT_NONE;                  (* 2=Diluent Hyperoxia *)
   SAMPLE_EVENT_VIOLATION;             (* 3=Violated Deep Stop *)
   SAMPLE_EVENT_CEILING;               (* 4=Ceiling Broken *)
   SAMPLE_EVENT_PO2;                   (* 5=PO2 High *)
   SAMPLE_EVENT_PO2].                  (* 6=PO2 Low *)

Section SuuntoEonsteel.

(** parser.h is not among the sources: the values SAMPLE_FLAGS_BEGIN and
    SAMPLE_FLAGS_END and the numbers of the enumeration
    [dc_field_type_t] are parameters. *)
Variables SAMPLE_FLAGS_BEGIN SAMPLE_FLAGS_END : Z.
Variable field_code : dc_field_type_t -> Z.

Variable dc_datetime_gmtime : datetime_conv.

(** The three [sample_event_*_value] functions: the event of the type
    kept in the state, looked up in the table of [last + 1] entries. *)
Definition sample_event_value (table : list parser_sample_event_t) (last : Z)
  (info : sample_data) (type value : Z) : sample_data :=
  if type >? last then info
  else
    match nth (Z.to_nat type) table SAMPLE_EVENT_NONE with
    | SAMPLE_EVENT_NONE => info
    | event =>
        sample_emit info
          [DC_SAMPLE_EVENT event 0 0
             (if negb (value =? 0) then SAMPLE_FLAGS_BEGIN else SAMPLE_FLAGS_END)]
    end.

Definition sample_event_notify_value (info : sample_data) (value : Z) : sample_data :=
  sample_event_value translate_notification 15 info (sd_notify_type info) value.

Definition sample_event_warning_value (info : sample_data) (value : Z) : sample_data :=
  sample_event_value translate_warning 13 info (sd_warning_type info) value.

Definition sample_event_alarm_value (info : sample_data) (value : Z) : sample_data :=
  sample_event_value translate_alarm 6 info (sd_alarm_type info) value.

(** The callback of [samples_foreach]; [data] is the offset of the
    record's data in the blob [blob]. *)
Definition traverse_samples (blob : blob) (cache : eonsteel_cache_t)
  (type : Z) (desc : type_desc) (data len : Z) (info : sample_data)
  : Z * sample_data :=
  (0,
   if type =? 0x0001 then (* group: time in first word, depth in second *)
     let info := sample_time info (array_uint16_le blob data) in
     let info := sample_depth info (array_uint16_le blob (data + 2)) in
     let info := sample_temp info (s16 (array_uint16_le blob (data + 4))) in
     sample_deco info (s16 (array_uint16_le blob (data + 8)))
       (array_uint16_le blob (data + 10)) (array_uint16_le blob (data + 12))
   else if type =? 0x0002 then (* time in first word *)
     sample_time info (array_uint16_le blob data)
   else if type =? 0x0003 then (* depth in first word *)
     sample_depth info (array_uint16_le blob data)
   else if type =? 0x000a then (* cylinder idx in first byte, pressure in next word *)
     sample_cylinder_pressure info (byte_at blob data) (array_uint16_le blob (data + 1))
   else if type =? 0x0013 then sample_event_state_type info (byte_at blob data)
   else if type =? 0x0014 then sample_event_state_value info (byte_at blob data)
   else if type =? 0x0015 then sample_event_notify_type info (byte_at blob data)
   else if type =? 0x0016 then sample_event_notify_value info (byte_at blob data)
   else if type =? 0x0017 then sample_event_warning_type info (byte_at blob data)
   else if type =? 0x0018 then sample_event_warning_value info (byte_at blob data)
   else if type =? 0x0019 then sample_event_alarm_type info (byte_at blob data)
   else if type =? 0x001a then sample_event_alarm_value info (byte_at blob data)
   else if type =? 0x001c then sample_bookmark_event info (array_uint16_le blob data)
   else if type =? 0x001d then
     sample_gas_switch_event cache info (array_uint16_le blob data)
   else info).

(** [samples_foreach] drops the return value of [traverse_data] and
    returns SUCCESS; the parser keeps the type descriptors that the
    traversal recorded. *)
Definition suunto_eonsteel_parser_samples_foreach (eon : suunto_eonsteel_parser_t)
  : option (dc_status_t * list dc_sample * suunto_eonsteel_parser_t) :=
  match traverse_data sample_data (traverse_samples (es_data eon) (es_cache eon))
          (es_data eon) (es_type_desc eon) (mk_sample_data 0 0 0 0 0 []) with
  | None => None
  | Some (_, table, info) =>
      Some (DC_STATUS_SUCCESS, sd_out info,
            {| es_data := es_data eon; es_type_desc := table; es_cache := es_cache eon |})
  end.

Definition get_string_field (eon : suunto_eonsteel_parser_t) (idx : Z)
  : dc_status_t * option dc_field_value :=
  if idx <? Eonsteel.MAXSTRINGS then
    match nth_error (ec_strings (es_cache eon)) (Z.to_nat idx) with
    | Some (desc, value) => (DC_STATUS_SUCCESS, Some (FV_string desc value))
    | None => (DC_STATUS_UNSUPPORTED, None)
    end
  else (DC_STATUS_UNSUPPORTED, None).

Definition suunto_eonsteel_parser_get_field (eon : suunto_eonsteel_parser_t)
  (type : dc_field_type_t) (flags : Z) : dc_status_t * option dc_field_value :=
  let cache := es_cache eon in
  if Z.shiftr (ec_initialized cache) (field_code type) =? 0
  then (DC_STATUS_UNSUPPORTED, None)
  else
    match type with
    | DC_FIELD_DIVETIME => (DC_STATUS_SUCCESS, Some (FV_uint (ec_divetime cache)))
    | DC_FIELD_MAXDEPTH => (DC_STATUS_SUCCESS, Some (FV_double (ec_maxdepth cache)))
    | DC_FIELD_AVGDEPTH => (DC_STATUS_SUCCESS, Some (FV_double (ec_avgdepth cache)))
    | DC_FIELD_GASMIX_COUNT => (DC_STATUS_SUCCESS, Some (FV_uint (ec_ngases cache)))
    | DC_FIELD_GASMIX =>
        if flags >=? Eonsteel.MAXGASES then (DC_STATUS_UNSUPPORTED, None)
        else
          (DC_STATUS_SUCCESS,
           Some (FV_gasmix (nth (Z.to_nat flags) (ec_gasmix cache) gasmix_zero)))
    | DC_FIELD_SALINITY =>
        (DC_STATUS_SUCCESS,
         Some (FV_salinity (fst (ec_salinity cache)) (snd (ec_salinity cache))))
    | DC_FIELD_ATMOSPHERIC =>
        (DC_STATUS_SUCCESS, Some (FV_double (ec_surface_pressure cache)))
    | DC_FIELD_STRING => get_string_field eon flags
    | _ => (DC_STATUS_UNSUPPORTED, None)
    end.

(** The time of the dive is the four first bytes of the blob; the return
    value of [dc_datetime_gmtime] is dropped, and a failed conversion
    leaves the caller's [datetime] as it was ([None]). *)
Definition suunto_eonsteel_parser_get_datetime (eon : suunto_eonsteel_parser_t)
  : dc_status_t * option dc_datetime_t :=
  if blob_size (es_data eon) <? 4 then (DC_STATUS_UNSUPPORTED, None)
  else (DC_STATUS_SUCCESS, dc_datetime_gmtime (array_uint32_le (es_data eon) 0)).

Definition cache_initialized (cache : eonsteel_cache_t) (type : dc_field_type_t)
  : eonsteel_cache_t :=
  {| ec_initialized := u32 (Z.lor (ec_initialized cache) (Z.shiftl 1 (field_code type)));
     ec_divetime := ec_divetime cache; ec_maxdepth := ec_maxdepth cache;
     ec_avgdepth := ec_avgdepth cache; ec_ngases := ec_ngases cache;
     ec_gasmix := ec_gasmix cache; ec_salinity := ec_salinity cache;
     ec_surface_pressure := ec_surface_pressure cache; ec_strings := ec_strings cache |}.

(** time in ms *)
Definition add_time_field (cache : eonsteel_cache_t) (time_delta_ms : Z)
  : eonsteel_cache_t :=
  {| ec_initialized := ec_initialized cache;
     ec_divetime := u32 (ec_divetime cache + time_delta_ms);
     ec_maxdepth := ec_maxdepth cache;
     ec_avgdepth := ec_avgdepth cache; ec_ngases := ec_ngases cache;
     ec_gasmix := ec_gasmix cache; ec_salinity := ec_salinity cache;
     ec_surface_pressure := ec_surface_pressure cache; ec_strings := ec_strings cache |}.

Definition cache_maxdepth (cache : eonsteel_cache_t) (depth : float) : eonsteel_cache_t :=
  {| ec_initialized := ec_initialized cache; ec_divetime := ec_divetime cache;
     ec_maxdepth := if PrimFloat.ltb (ec_maxdepth cache) depth then depth
                    else ec_maxdepth cache;
     ec_avgdepth := ec_avgdepth cache; ec_ngases := ec_ngases cache;
     ec_gasmix := ec_gasmix cache; ec_salinity := ec_salinity cache;
     ec_surface_pressure := ec_surface_pressure cache; ec_strings := ec_strings cache |}.

(** depth in cm *)
Definition set_depth_field (cache : eonsteel_cache_t) (d : Z) : eonsteel_cache_t :=
  if negb (d =? 0xffff) then
    cache_initialized (cache_maxdepth cache (double_of_uint d / 100.0)%float)
      DC_FIELD_MAXDEPTH
  else cache.

(** gas type: 0=Off,1=Primary,2=?,3=Diluent *)
Definition add_gas_type (cache : eonsteel_cache_t) (type : Z) : eonsteel_cache_t :=
  cache_initialized
    {| ec_initialized := ec_initialized cache; ec_divetime := ec_divetime cache;
       ec_maxdepth := ec_maxdepth cache; ec_avgdepth := ec_avgdepth cache;
       ec_ngases := if ec_ngases cache <? Eonsteel.MAXGASES then u32 (ec_ngases cache + 1)
                    else ec_ngases cache;
       ec_gasmix := ec_gasmix cache; ec_salinity := ec_salinity cache;
       ec_surface_pressure := ec_surface_pressure cache;
       ec_strings := ec_strings cache |}
    DC_FIELD_GASMIX_COUNT.

Fixpoint gasmix_set (l : list dc_gasmix_t) (i : nat) (f : dc_gasmix_t -> dc_gasmix_t)
  : list dc_gasmix_t :=
  match l, i with
  | [], _ => []
  | x :: r, O => f x :: r
  | x :: r, S i' => x :: gasmix_set r i' f
  end.

Definition cache_gasmix (cache : eonsteel_cache_t) (f : dc_gasmix_t -> dc_gasmix_t)
  : eonsteel_cache_t :=
  let idx := s32 (ec_ngases cache - 1) in
  cache_initialized
    {| ec_initialized := ec_initialized cache; ec_divetime := ec_divetime cache;
       ec_maxdepth := ec_maxdepth cache; ec_avgdepth := ec_avgdepth cache;
       ec_ngases := ec_ngases cache;
       ec_gasmix := if idx >=? 0 then gasmix_set (ec_gasmix cache) (Z.to_nat idx) f
                    else ec_gasmix cache;
       ec_salinity := ec_salinity cache;
       ec_surface_pressure := ec_surface_pressure cache;
       ec_strings := ec_strings cache |}
    DC_FIELD_GASMIX.

(** O2 percentage as a byte *)
Definition add_gas_o2 (cache : eonsteel_cache_t) (o2 : Z) : eonsteel_cache_t :=
  cache_gasmix cache
    (fun g => {| helium := helium g; oxygen := (double_of_uint o2 / 100.0)%float;
                 nitrogen := nitrogen g |}).

(** He percentage as a byte *)
Definition add_gas_he (cache : eonsteel_cache_t) (he : Z) : eonsteel_cache_t :=
  cache_gasmix cache
    (fun g => {| helium := (double_of_uint he / 100.0)%float; oxygen := oxygen g;
                 nitrogen := nitrogen g |}).

(** [add_string]: the first free entry of [strings] gets the description
    and a copy of the value; with all MAXSTRINGS entries taken nothing is
    stored. *)
Definition add_string (cache : eonsteel_cache_t) (desc value : list byte)
  : eonsteel_cache_t :=
  cache_initialized
    {| ec_initialized := ec_initialized cache; ec_divetime := ec_divetime cache;
       ec_maxdepth := ec_maxdepth cache; ec_avgdepth := ec_avgdepth cache;
       ec_ngases := ec_ngases cache; ec_gasmix := ec_gasmix cache;
       ec_salinity := ec_salinity cache;
       ec_surface_pressure := ec_surface_pressure cache;
       ec_strings := if Z.of_nat (length (ec_strings cache)) <? Eonsteel.MAXSTRINGS
                     then ec_strings cache ++ [(desc, value)]
                     else ec_strings cache |}
    DC_FIELD_STRING.

(** [get_le32_float]: the four bytes read as an IEEE 754 binary32 value,
    widened to [double]. *)
Definition float_of_bits32 (v : Z) : float :=
  let e := Z.land (Z.shiftr v 23) 0xFF in
  let m := Z.land v 0x7FFFFF in
  let x :=
    if e =? 0xFF then (if m =? 0 then infinity else nan)
    else if e =? 0 then Z.ldexp (double_of_uint m) (-149)
    else Z.ldexp (double_of_uint (m + 0x800000)) (e - 150) in
  if Z.testbit v 31 then PrimFloat.opp x else x.

Definition get_le32_float (blob : blob) (src : Z) : float :=
  float_of_bits32 (array_uint32_le blob src).

(** The decimal digits of [n >= 0], as [snprintf] prints them for %u and
    %d. *)
Fixpoint decimal_digits (fuel : nat) (n : Z) (acc : list byte) : list byte :=
  match fuel with
  | O => acc
  | S fuel' =>
      let acc := byte_of_Z (0x30 + n mod 10) :: acc in
      if n / 10 =? 0 then acc else decimal_digits fuel' (n / 10) acc
  end.

Definition decimal (n : Z) : list byte := decimal_digits 20 n [].

Definition traverse_device_fields (blob : blob) (cache : eonsteel_cache_t)
  (name : list byte) (data : Z) : eonsteel_cache_t :=
  if bytes_eqb name (cstr "SerialNumber")
  then add_string cache (cstr "Serial") (cstring blob data)
  else if bytes_eqb name (cstr "Info.HW")
  then add_string cache (cstr "HW Version") (cstring blob data)
  else if bytes_eqb name (cstr "Info.SW")
  then add_string cache (cstr "FW Version") (cstring blob data)
  else if bytes_eqb name (cstr "Info.BatteryAtStart")
  then add_string cache (cstr "Battery at start") (cstring blob data)
  else if bytes_eqb name (cstr "Info.BatteryAtEnd")
  then add_string cache (cstr "Battery at end") (cstring blob data)
  else cache.

Definition traverse_header_fields (blob : blob) (cache : eonsteel_cache_t)
  (name : list byte) (data : Z) : eonsteel_cache_t :=
  if bytes_eqb name (cstr "Depth.Max") then
    cache_maxdepth cache (get_le32_float blob data)
  else if bytes_eqb name (cstr "Diving.SurfacePressure") then
    let pressure := array_uint32_le blob data in   (* in SI units - Pascal *)
    cache_initialized
      {| ec_initialized := ec_initialized cache; ec_divetime := ec_divetime cache;
         ec_maxdepth := ec_maxdepth cache; ec_avgdepth := ec_avgdepth cache;
         ec_ngases := ec_ngases cache; ec_gasmix := ec_gasmix cache;
         ec_salinity := ec_salinity cache;
         ec_surface_pressure := (double_of_uint pressure / 100000.0)%float;   (* bar *)
         ec_strings := ec_strings cache |}
      DC_FIELD_ATMOSPHERIC
  else if bytes_eqb name (cstr "DateTime")
  then add_string cache (cstr "Dive ID") (cstring blob data)
  else if bytes_eqb name (cstr "Diving.Algorithm")
  then add_string cache (cstr "Deco algorithm") (cstring blob data)
  else if bytes_eqb name (cstr "Diving.DiveMode")
  then add_string cache (cstr "Dive Mode") (cstring blob data)
  else if bytes_eqb name (cstr "Diving.Conservatism") then
    (* Signed byte of conservatism (-2 .. +2) *)
    let val := s8 (byte_at blob data) in
    add_string cache (cstr "Personal Adjustment")
      (cstr "P" ++ (if val <? 0 then cstr "-" ++ decimal (- val) else decimal val))
  else cache.

Definition traverse_dynamic_fields (blob : blob) (cache : eonsteel_cache_t)
  (desc : type_desc) (data : Z) : eonsteel_cache_t :=
  match td_desc desc with
  | None => cache
  | Some name =>
      if strprefix (cstr "sml.") name then
        let name := skipn 4 name in
        if strprefix (cstr "DeviceLog.") name then
          let name := skipn 10 name in
          if strprefix (cstr "Device.") name
          then traverse_device_fields blob cache (skipn 7 name) data
          else if strprefix (cstr "Header.") name
          then traverse_header_fields blob cache (skipn 7 name) data
          else cache
        else cache
      else cache
  end.

(** The callback of [initialize_field_caches]; its [user] pointer is the
    parser, of which it changes the cache. *)
Definition traverse_fields (blob : blob) (type : Z) (desc : type_desc) (data len : Z)
  (cache : eonsteel_cache_t) : Z * eonsteel_cache_t :=
  (0,
   if type =? 0x0001 then (* group: time in first word, depth in second *)
     set_depth_field (add_time_field cache (array_uint16_le blob data))
       (array_uint16_le blob (data + 2))
   else if type =? 0x0002 then (* time in first word *)
     add_time_field cache (array_uint16_le blob data)
   else if type =? 0x0003 then (* depth in first word *)
     set_depth_field cache (array_uint16_le blob data)
   else if type =? 0x000d then (* gas state in first byte *)
     add_gas_type cache (byte_at blob data)
   else if type =? 0x000e then (* Oxygen percentage in first byte *)
     add_gas_o2 cache (byte_at blob data)
   else if type =? 0x000f then (* Helium percentage in first byte *)
     add_gas_he cache (byte_at blob data)
   else if type =? 0x0011 then (* Transmitter ID *)
     add_string cache (cstr "Transmitter ID") (cstring blob data)
   else if type >? 255 then traverse_dynamic_fields blob cache desc data
   else cache).

(** [memset (&eon->cache, 0, sizeof (eon->cache))]; 0 is the first value
    of the enumeration [dc_water_t]. *)
Definition eonsteel_cache_zero : eonsteel_cache_t :=
  {| ec_initialized := 0; ec_divetime := 0; ec_maxdepth := 0.0%float;
     ec_avgdepth := 0.0%float; ec_ngases := 0;
     ec_gasmix := repeat gasmix_zero (Z.to_nat Eonsteel.MAXGASES);
     ec_salinity := (DC_WATER_FRESH, 0.0%float);
     ec_surface_pressure := 0.0%float; ec_strings := [] |}.

(** [initialize_field_caches] on a parser whose descriptors are [table]:
    the descriptors and the cache afterwards. *)
Definition initialize_field_caches (data : blob) (table : type_table)
  : option (type_table * eonsteel_cache_t) :=
  let cache := cache_initialized eonsteel_cache_zero DC_FIELD_DIVETIME in
  match traverse_data eonsteel_cache_t (traverse_fields data) data table cache with
  | None => None
  | Some (_, table, cache) =>
      (* The internal time fields are in ms and have to be added up
         like that. At the end, we translate it back to seconds. *)
      Some (table,
            {| ec_initialized := ec_initialized cache;
               ec_divetime := ec_divetime cache / 1000;
               ec_maxdepth := ec_maxdepth cache; ec_avgdepth := ec_avgdepth cache;
               ec_ngases := ec_ngases cache; ec_gasmix := ec_gasmix cache;
               ec_salinity := ec_salinity cache;
               ec_surface_pressure := ec_surface_pressure cache;
               ec_strings := ec_strings cache |})
  end.

(** [set_data], after the generic [dc_parser_set_data] has stored the
    blob: the descriptors are cleared and the cache is built. *)
Definition suunto_eonsteel_parser_set_data (eon : suunto_eonsteel_parser_t) (data : blob)
  : option (dc_status_t * suunto_eonsteel_parser_t) :=
  match initialize_field_caches data [] with
  | None => None
  | Some (table, cache) =>
      Some (DC_STATUS_SUCCESS,
            {| es_data := data; es_type_desc := table; es_cache := cache |})
  end.

(** [calloc] zeroes the parser. *)
Definition suunto_eonsteel_parser_create (model : Z) : suunto_eonsteel_parser_t :=
  {| es_data := []; es_type_desc := []; es_cache := eonsteel_cache_zero |}.

End SuuntoEonsteel.


(** ** Oceanic Atom2: the fields (oceanic_atom2_parser.c) *)

(** [snprintf (buf, BUF_LEN, "%06u", serial)]: the decimal digits of an
    [unsigned int], filled up with zeros to six characters; they fit the
    buffer of BUF_LEN = 16 characters. *)
Definition atom2_serial_string (serial : Z) : list byte :=
  let digits := decimal serial in
  repeat (byte_of_Z 0x30) (6 - length digits) ++ digits.

Section OceanicAtom2Fields.

(** One psi and one bar in pascal (units.h, not among the sources). *)
Variables PSI BAR : float.

(** [sample_statistics_cb] of parser.c (not among the sources): what it
    leaves in [statistics.divetime] and [statistics.maxdepth] after the
    samples it is handed. *)
Variable sample_statistics : list dc_sample -> Z * float.

Definition oceanic_atom2_parser_get_field (parser : oceanic_atom2_parser_t)
  (type : dc_field_type_t) (flags : Z)
  : option (dc_status_t * option dc_field_value * oceanic_atom2_parser_t) :=
  let data := a2_data parser in
  let size := blob_size data in
  let model := a2_model parser in
  (* Get the total amount of bytes before and after the profile data. *)
  let headersize := a2_headersize parser in
  let footersize := a2_footersize parser in
  if size <? u32 (headersize + footersize) then Some (DC_STATUS_DATAFORMAT, None, parser)
  else
    (* Get the offset to the header and footer sample. *)
    let header :=
      if model_in model [VT4; VT41; A300AI] then 3 * PAGESIZE
      else u32 (headersize - PAGESIZE / 2) in
    let footer := u32 (size - footersize) in
    (* Get the dive mode. *)
    let mode := atom2_mode model data in
    match (if a2_cached parser then Some (inr parser)
           else
             match oceanic_atom2_parser_samples_foreach PSI BAR parser with
             | None => None
             | Some (rc, out) =>
                 if negb (dc_status_eqb rc DC_STATUS_SUCCESS) then Some (inl rc)
                 else
                   let '(divetime, maxdepth) := sample_statistics out in
                   Some (inr {| a2_data := data; a2_model := model;
                                a2_headersize := headersize; a2_footersize := footersize;
                                a2_serial := a2_serial parser; a2_cached := true;
                                a2_divetime := divetime; a2_maxdepth := maxdepth |})
             end) with
    | None => None
    | Some (inl rc) => Some (rc, None, parser)
    | Some (inr parser) =>
        let ok (v : dc_field_value) := Some (DC_STATUS_SUCCESS, Some v, parser) in
        match type with
        | DC_FIELD_DIVETIME =>
            if model_in model [F10; F11]
            then ok (FV_uint (u32 (bcd2dec (byte_at data 2) + bcd2dec (byte_at data 3) * 60 +
                                   bcd2dec (byte_at data 1) * 3600)))
            else ok (FV_uint (a2_divetime parser))
        | DC_FIELD_MAXDEPTH =>
            if model_in model [F10; F11]
            then ok (FV_double (double_of_uint (array_uint16_le data 4) / 16.0 * FEET)%float)
            else ok (FV_double
                       (double_of_uint (array_uint16_le data (footer + 4)) / 16.0 * FEET)%float)
        | DC_FIELD_GASMIX_COUNT =>
            if mode =? FREEDIVE then ok (FV_uint 0)
            else if model_in model [DATAMASK; COMPUMASK] then ok (FV_uint 1)
            else if model_in model [VT4; VT41; OCI; A300AI] then ok (FV_uint 4)
            else if model =? TX1 then ok (FV_uint 6)
            else if model_in model [A300CS; VTX] then
              if negb (Z.land (byte_at data 0x39) 0x04 =? 0) then ok (FV_uint 1)
              else if negb (Z.land (byte_at data 0x39) 0x08 =? 0) then ok (FV_uint 2)
              else if negb (Z.land (byte_at data 0x39) 0x10 =? 0) then ok (FV_uint 3)
              else ok (FV_uint 4)
            else ok (FV_uint 3)
        | DC_FIELD_GASMIX =>
            let '(oxygen, helium) :=
              if model_in model [DATAMASK; COMPUMASK] then (byte_at data (header + 3), 0)
              else if model =? OCI then (byte_at data (u32 (0x28 + flags)), 0)
              else if model_in model [A300CS; VTX] then (byte_at data (u32 (0x2A + flags)), 0)
              else if model =? TX1
              then (byte_at data (u32 (0x3E + flags)), byte_at data (u32 (0x48 + flags)))
              else (byte_at data (u32 (header + 4 + flags)), 0) in
            let he := (double_of_uint helium / 100.0)%float in
            let o2 := if negb (oxygen =? 0) then (double_of_uint oxygen / 100.0)%float
                      else 0.21%float in
            ok (FV_gasmix {| helium := he; oxygen := o2;
                             nitrogen := (1.0 - o2 - he)%float |})
        | DC_FIELD_SALINITY =>
            if model_in model [A300CS; VTX] then
              ok (FV_salinity (if negb (Z.land (byte_at data 0x18) 0x80 =? 0)
                               then DC_WATER_FRESH else DC_WATER_SALT)
                              0.0%float)
            else Some (DC_STATUS_UNSUPPORTED, None, parser)
        | DC_FIELD_DIVEMODE =>
            if mode =? NORMAL then ok (FV_divemode DC_DIVEMODE_OC)
            else if mode =? GAUGE then ok (FV_divemode DC_DIVEMODE_GAUGE)
            else if mode =? FREEDIVE then ok (FV_divemode DC_DIVEMODE_FREEDIVE)
            else Some (DC_STATUS_DATAFORMAT, None, parser)
        | DC_FIELD_STRING =>
            if flags =? 0 (* Serial *)
            then ok (FV_string (cstr "Serial") (atom2_serial_string (a2_serial parser)))
            else Some (DC_STATUS_UNSUPPORTED, None, parser)
        | _ => Some (DC_STATUS_UNSUPPORTED, None, parser)
        end
    end.

End OceanicAtom2Fields.

(** ** Uwatec Smart: the fields (uwatec_smart_parser.c) *)

Section UwatecSmartFields.

(** parser.h is not among the sources: the value DC_GASMIX_UNKNOWN is a
    parameter. *)
Variable DC_GASMIX_UNKNOWN : Z.

(** [get_field] on a parser with the cached fields [c]: the status, the
    value and the cached fields afterwards.  The arrays [oxygen] and
    [tank] are read at [flags], which is not checked against
    NGASMIXES. *)
Definition uwatec_smart_parser_get_field (parser : uwatec_smart_parser_t)
  (c : uwatec_smart_cache_t) (type : dc_field_type_t) (flags : Z)
  : dc_status_t * option dc_field_value * uwatec_smart_cache_t :=
  let data := sm_data parser in
  let table := sm_header parser in
  (* Cache the parser data. *)
  let '(rc, c) := uwatec_smart_parser_cache parser c in
  if negb (dc_status_eqb rc DC_STATUS_SUCCESS) then (rc, None, c)
  else
    let salinity :=
      match sc_watertype c with
      | DC_WATER_SALT => Uwatec.SALT
      | DC_WATER_FRESH => Uwatec.FRESH
      end in
    let ok (v : dc_field_value) := (DC_STATUS_SUCCESS, Some v, c) in
    let unsupported := (DC_STATUS_UNSUPPORTED, @None dc_field_value, c) in
    let temperature (off : Z) :=
      ok (FV_double (double_of_int (s16 (array_uint16_le data off)) / 10.0)%float) in
    match type with
    | DC_FIELD_DIVETIME => ok (FV_uint (u32 (array_uint16_le data (h_divetime table) * 60)))
    | DC_FIELD_MAXDEPTH =>
        ok (FV_double
              (double_of_uint (array_uint16_le data (h_maxdepth table)) / 100.0
               * salinity)%float)
    | DC_FIELD_GASMIX_COUNT =>
        if sc_trimix c then unsupported else ok (FV_uint (sc_ngasmixes c))
    | DC_FIELD_GASMIX =>
        if sc_trimix c then unsupported
        else
          let he := 0.0%float in
          let o2 := (double_of_uint (array_get (sc_oxygen c) flags) / 100.0)%float in
          ok (FV_gasmix {| helium := he; oxygen := o2;
                           nitrogen := (1.0 - o2 - he)%float |})
    | DC_FIELD_TANK_COUNT =>
        if sc_trimix c || (h_tankpressure table =? Smart.UNSUPPORTED) then unsupported
        else ok (FV_uint (sc_ntanks c))
    | DC_FIELD_TANK =>
        if sc_trimix c || (h_tankpressure table =? Smart.UNSUPPORTED) then unsupported
        else
          let t := nth (Z.to_nat flags) (sc_tank c) (mk_smart_tank 0 0) in
          ok (FV_tank
                {| tank_gasmix := if flags <? sc_ngasmixes c then flags
                                  else DC_GASMIX_UNKNOWN;
                   tank_type := DC_TANKVOLUME_NONE;
                   tank_volume := 0.0%float;
                   tank_workpressure := 0.0%float;
                   tank_beginpressure := (double_of_uint (beginpressure t) / 128.0)%float;
                   tank_endpressure := (double_of_uint (endpressure t) / 128.0)%float |})
    | DC_FIELD_TEMPERATURE_MINIMUM => temperature (h_temp_minimum table)
    | DC_FIELD_TEMPERATURE_MAXIMUM =>
        if h_temp_maximum table =? Smart.UNSUPPORTED then unsupported
        else temperature (h_temp_maximum table)
    | DC_FIELD_TEMPERATURE_SURFACE =>
        if h_temp_surface table =? Smart.UNSUPPORTED then unsupported
        else temperature (h_temp_surface table)
    | DC_FIELD_DIVEMODE =>
        if sc_trimix c then unsupported
        else if negb (sc_ngasmixes c =? 0) then ok (FV_divemode DC_DIVEMODE_OC)
        else ok (FV_divemode DC_DIVEMODE_GAUGE)
    | DC_FIELD_SALINITY =>
        if h_salinity table =? Smart.UNSUPPORTED then unsupported
        else ok (FV_salinity (sc_watertype c) (salinity * 1000.0)%float)
    | _ => unsupported
    end.

End UwatecSmartFields.


(** * Vocabulary of the further properties *)

(** The indices 0, 1, ..., n - 1. *)
Definition indices (n : nat) : list Z := map Z.of_nat (seq 0 n).

(** The number of whole sample records of a Cressi Leonardo blob and of
    an iDive blob, and the depth field of the [k]-th iDive record. *)
Definition cressi_records (data : blob) : nat :=
  Z.to_nat ((blob_size data - Cressi.SZ_HEADER) / 2).

Definition idive_records (data : blob) : nat :=
  Z.to_nat ((blob_size data - Idive.SZ_HEADER) / Idive.SZ_SAMPLE).

Definition idive_depth (data : blob) (k : Z) : Z :=
  array_uint16_le data (Idive.SZ_HEADER + k * Idive.SZ_SAMPLE + 6).

(** The first [n] entries of a gas mix table kept in two arrays, as
    (oxygen, helium) pairs. *)
Definition gasmix_table (n : Z) (oxygen helium : list Z) : list (Z * Z) :=
  map (fun k => (array_get oxygen k, array_get helium k)) (indices (Z.to_nat n)).

(** The values of the GASCHANGE2 events among the emitted samples. *)
Fixpoint sample_gaschanges (l : list dc_sample) : list Z :=
  match l with
  | [] => []
  | DC_SAMPLE_EVENT SAMPLE_EVENT_GASCHANGE2 _ _ value :: r => value :: sample_gaschanges r
  | _ :: r => sample_gaschanges r
  end.

(** The event value [o2 | (he << 16)] of a gas mix. *)
Definition gaschange_value (mix : Z * Z) : Z := Z.lor (fst mix) (Z.shiftl (snd mix) 16).

(** The gas mix table of the sample loop is well formed: at most
    NGASMIXES entries, held in arrays of at least that many cells, no mix
    twice. *)
Definition idive_gasmix_table_ok (n : Z) (oxygen helium : list Z) : Prop :=
  0 <= n <= Idive.NGASMIXES /\
  (Z.to_nat Idive.NGASMIXES <= length oxygen)%nat /\
  (Z.to_nat Idive.NGASMIXES <= length helium)%nat /\
  NoDup (gasmix_table n oxygen helium).

(** An iDive sample record with the given timestamp, depth (1/10 m) and
    gas mix, and a blob of such records after an all-zero header. *)
Definition idive_mix_record (r : Z * Z * Z * Z) : list Z :=
  let '(timestamp, depth, o2, he) := r in
  [0; 0; timestamp mod 256; (timestamp / 256) mod 256; (timestamp / 65536) mod 256;
   (timestamp / 16777216) mod 256; depth mod 256; (depth / 256) mod 256; 0; 0; o2; he] ++
  repeat 0 30.

Definition idive_mix_blob (records : list (Z * Z * Z * Z)) : blob :=
  bytes_of (repeat 0 50 ++ flat_map idive_mix_record records).

(** Three records at 10, 20 and 30 s: air at 5.5 m, air at 12.0 m, then
    nitrox 32 at 8.0 m. *)
Definition idive_mix_example : blob :=
  idive_mix_blob [(10, 55, 21, 0); (20, 120, 21, 0); (30, 80, 32, 0)].


Definition idive_locals_table (l : idive_locals) : list (Z * Z) :=
  gasmix_table (l_ngasmixes l) (l_oxygen l) (l_helium l).


(** The Shearwater sample size of a parser, the number of record slots
    that start before the footer, and how many of the [m] slots from
    [offset] on are not all zero. *)
Definition shearwater_samplesize (parser : shearwater_predator_parser_t) : Z :=
  if sw_petrel parser then Shearwater.SZ_SAMPLE_PETREL else Shearwater.SZ_SAMPLE_PREDATOR.

Definition shearwater_slots (samplesize footer : Z) : nat :=
  Z.to_nat ((footer - Shearwater.SZ_BLOCK + samplesize - 1) / samplesize).

Fixpoint shearwater_nonempty (m : nat) (data : blob) (samplesize offset : Z) : nat :=
  match m with
  | O => O
  | S m' =>
      ((if array_isequal data offset samplesize 0x00 then 0 else 1) +
       shearwater_nonempty m' data samplesize (offset + samplesize))%nat
  end.


(** A Predator record with three 16-byte slots between the header block
    and the footer block: depth 5.0 m, an empty slot, depth 6.0 m. *)
Definition shearwater_gap_example : shearwater_predator_parser_t :=
  snd (shearwater_predator_parser_set_data (shearwater_predator_parser_create 0)
         (bytes_of (repeat 0 128 ++
                    ([0; 50] ++ repeat 0 14) ++ repeat 0 16 ++ ([0; 60] ++ repeat 0 14) ++
                    repeat 0 128))).


(** The ten gas mix slots of a Shearwater header (oxygen at 20 + i,
    helium at 30 + i) that are not (0, 0), in slot order, and the
    [dc_gasmix_t] that [get_field] builds from a mix in percent. *)
Definition shearwater_header_mixes (data : blob) : list (Z * Z) :=
  filter (fun mix => negb ((fst mix =? 0) && (snd mix =? 0)))
         (map (fun i => (byte_at data (20 + i), byte_at data (30 + i)))
              (indices (Z.to_nat Shearwater.NGASMIXES))).

Definition gasmix_of_percent (mix : Z * Z) : dc_gasmix_t :=
  let o2 := (double_of_uint (fst mix) / 100.0)%float in
  let he := (double_of_uint (snd mix) / 100.0)%float in
  {| helium := he; oxygen := o2; nitrogen := (1.0 - o2 - he)%float |}.

(** A Predator record of two blocks whose header lists air, an empty slot
    and trimix 18/45. *)
Definition shearwater_mixes_example : shearwater_predator_parser_t :=
  snd (shearwater_predator_parser_set_data (shearwater_predator_parser_create 0)
         (bytes_of (repeat 0 20 ++ [21; 0; 18] ++ repeat 0 7 ++ [0; 0; 45] ++ repeat 0 7 ++
                    repeat 0 88 ++ repeat 0 128))).


(** A Sensus Pro record that starts with the header: interval 5 s, three
    samples, the footer FF FF and two trailing bytes. *)
Definition sensuspro_dive_example : reefnet_sensuspro_parser_t :=
  {| sp_data := bytes_of ([0; 0; 0; 0; 5; 0; 40; 0; 0; 0] ++
                          [10; 70; 20; 70; 15; 70] ++ [255; 255; 0; 0]);
     sp_atmospheric := 101325.0%float; sp_hydrostatic := 10055.0%float;
     sp_devtime := 100; sp_systime := 1000;
     sp_cached := false; sp_divetime := 0; sp_maxdepth := 0 |}.


(** The TIME, DEPTH and warning samples of the Memomouse sample at
    [offset]; the bytes of a whole minute of profile (three samples and
    the decompression byte, with an oxygen byte on the O2 series); the
    bytes after the profile start; and, in a profile of [n] bytes with [c]
    bytes per minute, the number of samples and whether the last minute's
    vendor bytes are cut off. *)
Definition memomouse_sample (data : blob) (time offset : Z) : list dc_sample :=
  let value := array_uint16_be data offset in
  [DC_SAMPLE_TIME time;
   DC_SAMPLE_DEPTH (double_of_uint (Z.shiftr (Z.land value 0xFFC0) 6) * 10.0 / 64.0)%float] ++
  memomouse_warnings (Z.land value 0x3F).

Definition memomouse_minute (is_oxygen : bool) : Z := if is_oxygen then 8 else 7.

Definition memomouse_profile_size (data : blob) : Z :=
  Z.max 0 (blob_size data - (memomouse_header (byte_at data 3) + 18)).

Definition memomouse_sample_count (n c : Z) : nat :=
  (3 * Z.to_nat (n / c) + Z.to_nat (Z.min 3 ((n mod c) / 2)))%nat.

Definition memomouse_truncated (n c : Z) : bool := 6 <=? n mod c.

(** A Memomouse record (model byte 0: 22 header bytes after the 18-byte
    prefix) with one whole minute of profile and six more bytes. *)
Definition memomouse_truncated_example : uwatec_memomouse_parser_t :=
  {| mm_data := bytes_of (repeat 0 40 ++ [1; 0; 2; 0; 3; 0; 9] ++ [4; 0; 5; 0; 6; 0]);
     mm_devtime := 100; mm_systime := 1000 |}.


(** The bounds that every entry of the sample tables keeps: 1 to 14 type
    bits and at most 2 extra bytes. *)
Definition smart_entry_ok (e : uwatec_smart_sample_info_t) : bool :=
  (1 <=? s_ntypebits e) && (s_ntypebits e <=? 14) &&
  (0 <=? s_extrabytes e) && (s_extrabytes e <=? 2).

(** The bits of the last type byte that an [ignoretype] entry skips. *)
Definition smart_ignored_bits (e : uwatec_smart_sample_info_t) : Z :=
  let n := s_ntypebits e mod Smart.NBITS in
  if negb (s_ignoretype e =? 0) && (n >? 0) then Smart.NBITS - n else 0.


(** Three bytes of a Smart Pro profile: a DEPTH delta with 11 data bits
    (type bits 11110, then 101 and the byte 0x12) and a trailing byte. *)
Definition smart_depth_delta_example : blob := bytes_of [0xF5; 0x12; 0x00].


(** The [m] multiples of [interval] after the [c]-th, in [unsigned int]
    arithmetic: (c + 1) * interval, ..., (c + m) * interval. *)
Definition multiples (interval c : Z) (m : nat) : list Z :=
  map (fun k => u32 ((c + k + 1) * interval)) (indices m).

(** An Atom2 parser as [oceanic_atom2_parser_create] and the generic
    [dc_parser_set_data] leave it. *)
Definition atom2_parser_of (model serial : Z) (data : blob) : oceanic_atom2_parser_t :=
  snd (oceanic_atom2_parser_set_data (oceanic_atom2_parser_create model serial) data).


(** An Atom 2 record (interval selector 2, that is 30 s) with an ordinary
    sample, a tank switch sample (0xAA), a surface interval sample (0xBB,
    two 8-byte halves) of 01:00 and another ordinary sample, followed by
    the 16-byte footer. *)
Definition atom2_clock_example : blob :=
  bytes_of (repeat 0 0x17 ++ [2] ++ repeat 0 48 ++
            ([1; 0; 40; 0] ++ repeat 0 4) ++
            ([0xAA; 1] ++ repeat 0 6) ++
            ([0xBB; 0x01; 0x00] ++ repeat 0 13) ++
            ([1; 0; 50; 0] ++ repeat 0 4) ++
            repeat 0 16).


(** One packet exchange as the line saw it: the command sent, the buffer
    and payload sizes asked for, and the status that came back. *)
Record exchange : Type := mk_exchange {
  ex_command : list byte;
  ex_asize : Z;
  ex_size : Z;
  ex_status : dc_status_t
}.

(** A packet exchange with a log of the exchanges made, kept beside the
    state of the line. *)
Definition logged_packet {world : Type}
  (pk : world -> list byte -> Z -> Z -> world * dc_status_t * list byte)
  (wl : world * list exchange) (command : list byte) (asize size : Z)
  : (world * list exchange) * dc_status_t * list byte :=
  let '(w, rc, answer) := pk (fst wl) command asize size in
  ((w, snd wl ++ [mk_exchange command asize size rc]), rc, answer).

(** A line that times out while its counter is below [n] and answers with
    four bytes afterwards. *)
Definition flaky_line (n : nat) (w : nat) (command : list byte) (asize size : Z)
  : nat * dc_status_t * list byte :=
  if (w <? n)%nat then (S w, DC_STATUS_TIMEOUT, [])
  else (S w, DC_STATUS_SUCCESS, repeat x00 4).

(** The read command of the protocol: code 0x05, two length bytes 0x00
    0x03, the address high byte first, the number of bytes asked for, and
    the XOR of these six bytes. *)
Definition common2_read_command (address len : Z) : list byte :=
  let command6 := bytes_of [0x05; 0x00; 0x03; address / 256; address mod 256; len] in
  command6 ++ [byte_of_Z (checksum_xor_uint8 command6 0x00)].

(** The exchanges of a read of [size] bytes at [address] in packets of
    the protocol's 0x78 bytes: read commands at consecutive addresses, all
    of 0x78 bytes but the last, each with an answer buffer of seven bytes
    more than the payload. *)
Definition common2_read_exchanges (address size : Z) : list exchange :=
  map (fun k => let len := Z.min 0x78 (size - 0x78 * k) in
                mk_exchange (common2_read_command (address + 0x78 * k) len)
                            (len + 7) len DC_STATUS_SUCCESS)
      (indices (Z.to_nat ((size + 0x77) / 0x78))).

(** A packet exchange that serves reads from the memory image [mem]: it
    answers a read command for 1 to 0x78 bytes of the 16-bit address
    space, sent with the sizes that go with it, with SUCCESS and those
    bytes from offset 6 of the answer.  Nothing is asked of it on any
    other command. *)
Definition serves_memory {world : Type}
  (pk : world -> list byte -> Z -> Z -> world * dc_status_t * list byte)
  (mem : list byte) : Prop :=
  forall (w : world) (address len : Z),
    0 <= address -> 1 <= len <= 0x78 -> address + len <= 2 ^ 16 ->
    exists w' answer,
      pk w (common2_read_command address len) (len + 7) len
      = (w', DC_STATUS_SUCCESS, answer) /\
      bytes_slice answer 6 len = bytes_slice mem address len.


(** A simulated device that answers a well-formed read command for at
    most 0x78 bytes with six header bytes and the bytes asked for from its
    memory image, and rejects every other command. *)
Definition memory_packet (mem : list byte) (w : unit) (command : list byte)
  (asize size : Z) : unit * dc_status_t * list byte :=
  let address := Z.shiftl (byte_at command 3) 8 + byte_at command 4 in
  let len := byte_at command 5 in
  if (byte_at command 0 =? 0x05) && (byte_at command 1 =? 0x00) &&
     (byte_at command 2 =? 0x03) && (Z.of_nat (length command) =? 7) &&
     (1 <=? len) && (len <=? 0x78) && (checksum_xor_uint8 command 0x00 =? 0) &&
     (asize =? len + 7) && (size =? len)
  then (tt, DC_STATUS_SUCCESS, repeat x00 6 ++ bytes_slice mem address len)
  else (tt, DC_STATUS_PROTOCOL, []).


(** The year that the model's fields store, before the decade guess. *)
Definition atom2_raw_year (parser : oceanic_atom2_parser_t) : Z :=
  let '(year0, _, _, _, _, _) := atom2_datetime_raw (a2_model parser) (a2_data parser) in
  year0.

(** An Atom 2 header that stores 1:45 PM on the 21st of March of a year
    ending in 7. *)
Definition atom2_datetime_example : oceanic_atom2_parser_t :=
  atom2_parser_of ATOM2 0 (bytes_of ([0x45; 0x81; 0; 0x21; 0x37] ++ repeat 0 83)).


(** A Smart parser as [uwatec_smart_parser_create] and the generic
    [dc_parser_set_data] leave it, when the model is known. *)
Definition smart_parser_of (model devtime : Z) (systime : dc_ticks_t) (data : blob)
  : option uwatec_smart_parser_t :=
  option_map (fun parser => snd (uwatec_smart_parser_set_data parser data))
             (uwatec_smart_parser_create model devtime systime).


(** A Smart Pro blob: the 92-byte header, an absolute depth sample
    (1111110d and two bytes), a time sample (110ddddd) that announces two
    sample times, and a depth delta (0ddddddd). *)
Definition smart_clock_example : blob :=
  bytes_of (repeat 0 92 ++ [0xFC; 0x01; 0x00; 0xC2; 0x01]).


(** The offsets of the header bytes that [uwatec_smart_parser_cache] reads
    when no loop of it ends early: byte 43 of a Galileo, the oxygen byte
    of every gas mix, the two 16-bit pressures of every tank, and the
    salinity byte. *)
Definition smart_cache_reads (parser : uwatec_smart_parser_t) : list Z :=
  let header := sm_header parser in
  let model := sm_model parser in
  let ngases := h_ngases header in
  (if model_in model [Smart.GALILEO; Smart.GALILEOTRIMIX] then [43] else []) ++
  map (fun i => h_gasmix header + i * 2) (indices (Z.to_nat ngases)) ++
  (if h_tankpressure header =? Smart.UNSUPPORTED then []
   else
     flat_map
       (fun i =>
          if model_in model [Smart.GALILEO; Smart.GALILEOTRIMIX; Smart.ALADIN2G;
                             Smart.MERIDIAN; Smart.CHROMIS]
          then let idx := h_tankpressure header + 2 * i in
               [idx; idx + 1; idx + 2 * ngases; idx + 2 * ngases + 1]
          else let idx := h_tankpressure header + 4 * i in
               [idx; idx + 1; idx + 2; idx + 2 + 1])
       (indices (Z.to_nat ngases))) ++
  (if h_salinity header =? Smart.UNSUPPORTED then [] else [h_salinity header]).

(** The tanks that the PRESSURE samples name and the types of the EVENT
    samples, in order. *)
Definition sample_tanks (l : list dc_sample) : list Z :=
  flat_map (fun s => match s with DC_SAMPLE_PRESSURE tank _ => [tank] | _ => [] end) l.

Definition sample_events (l : list dc_sample) : list parser_sample_event_t :=
  flat_map (fun s => match s with DC_SAMPLE_EVENT type _ _ _ => [type] | _ => [] end) l.

(** A Galileo Trimix blob with the trimix bit of byte 43 set: after the
    0xB1 header bytes an absolute tank pressure sample (0xF4 and two
    bytes, the upper nibble of the value set) and an absolute depth sample
    (0xF1 and two bytes). *)
Definition smart_trimix_example : blob :=
  bytes_of (repeat 0 43 ++ [0x80] ++ repeat 0 133 ++ [0xF4; 0xF1; 0x23; 0xF1; 0x01; 0x00]).


(** The EVENT samples, in order, as (type, time, flags, value). *)
Definition sample_event_list (l : list dc_sample)
  : list (parser_sample_event_t * Z * Z * Z) :=
  flat_map (fun s => match s with
                     | DC_SAMPLE_EVENT type time flags value => [(type, time, flags, value)]
                     | _ => []
                     end) l.

(** A gas change event for one of the cached gas mixes. *)
Definition smart_gaschange (c : uwatec_smart_cache_t)
  (e : parser_sample_event_t * Z * Z * Z) : Prop :=
  exists i, 0 <= i < sc_ngasmixes c /\
            e = (SAMPLE_EVENT_GASCHANGE, 0, 0, array_get (sc_oxygen c) i).

(** The offsets of the gas mix table and the sample indices that the
    header and sample tables keep. *)
Definition smart_header_ok (parser : uwatec_smart_parser_t) : bool :=
  (0 <=? h_gasmix (sm_header parser)) && (h_gasmix (sm_header parser) <=? 44) &&
  (0 <=? h_ngases (sm_header parser)) && (h_ngases (sm_header parser) <=? 3) &&
  forallb (fun e => 0 <=? s_index e) (sm_samples parser).

(** A Galileo blob with the gas mixes 32% and 50% in the header (the
    third slot is disabled): an alarm sample that selects mix 1, an
    absolute depth sample, a depth delta, an alarm sample that selects
    mix 0 and another depth delta. *)
Definition smart_gasmix_example : blob :=
  bytes_of (repeat 0 44 ++ [32; 0; 50] ++ repeat 0 105 ++
            [0xF0; 0x10; 0xF1; 0x01; 0x00; 0x01; 0xF0; 0x00; 0x01]).


(** The write command of the protocol for the bytes [data]: code 0x06,
    the length bytes 0x00 and [len + 3], the address high byte first, the
    number [len] of data bytes, the data, and the XOR of all that
    precedes. *)
Definition common2_write_command (address : Z) (data : list byte) : list byte :=
  let len := Z.of_nat (length data) in
  let body := bytes_of [0x06; 0x00; len + 3; address / 256; address mod 256; len] ++ data in
  body ++ [byte_of_Z (checksum_xor_uint8 body 0x00)].

(** The exchanges of a write of [data] at [address] in packets of the
    protocol's 0x78 bytes: write commands at consecutive addresses that
    carry consecutive pieces of [data], all of 0x78 bytes but the last,
    each with an answer buffer of seven bytes and no payload asked for. *)
Definition common2_write_exchanges (address : Z) (data : list byte) : list exchange :=
  let size := Z.of_nat (length data) in
  map (fun k => let len := Z.min 0x78 (size - 0x78 * k) in
                mk_exchange (common2_write_command (address + 0x78 * k)
                               (bytes_slice data (0x78 * k) len))
                            7 0 DC_STATUS_SUCCESS)
      (indices (Z.to_nat ((size + 0x77) / 0x78))).

(** A packet exchange that stores writes in a memory image, [mem_of] of
    the state of the line: it accepts a write command that carries 1 to
    0x78 bytes for the 16-bit address space, sent with an answer buffer of
    seven bytes, with SUCCESS and puts the data bytes into the image at
    the address.  Nothing is asked of it on any other command. *)
Definition stores_memory {world : Type}
  (pk : world -> list byte -> Z -> Z -> world * dc_status_t * list byte)
  (mem_of : world -> list byte) : Prop :=
  forall (w : world) (address : Z) (data : list byte),
    0 <= address -> 1 <= Z.of_nat (length data) <= 0x78 ->
    address + Z.of_nat (length data) <= 2 ^ 16 ->
    exists w' answer,
      pk w (common2_write_command address data) 7 0 = (w', DC_STATUS_SUCCESS, answer) /\
      mem_of w' = buffer_write (mem_of w) address data.

(** A simulated device whose state is its memory image: it stores the
    data of a well-formed write command of at most 0x78 data bytes and
    rejects every other command. *)
Definition memory_store_packet (w : list byte) (command : list byte) (asize size : Z)
  : list byte * dc_status_t * list byte :=
  let address := Z.shiftl (byte_at command 3) 8 + byte_at command 4 in
  let len := byte_at command 5 in
  if (byte_at command 0 =? 0x06) && (byte_at command 1 =? 0x00) &&
     (byte_at command 2 =? len + 3) &&
     (Z.of_nat (length command) =? len + 7) && (1 <=? len) && (len <=? 0x78) &&
     (checksum_xor_uint8 command 0x00 =? 0) && (asize =? 7) && (size =? 0)
  then (buffer_write w address (bytes_slice command 6 len), DC_STATUS_SUCCESS, repeat x00 7)
  else (w, DC_STATUS_PROTOCOL, []).

(** 300 bytes to write. *)
Definition write_example : list byte :=
  bytes_of (map (fun k => k mod 251) (indices 300)).


(** The depth field of the [k]-th sample of a Sensus Ultra record that
    starts with its header. *)
Definition sensusultra_depth (data : blob) (k : Z) : Z :=
  array_uint16_le data (16 + 4 * k + 2).

(** A Sensus Ultra record that starts with the header: interval 10 s,
    threshold 1100 mbar, four samples of which two reach the threshold,
    the footer and two trailing bytes. *)
Definition sensusultra_dive_example : reefnet_sensusultra_parser_t :=
  {| su_data := bytes_of ([0; 0; 0; 0; 1; 0; 0; 0; 10; 0; 0x4C; 0x04; 0; 0; 0; 0] ++
                          [0x30; 0x75; 0xE8; 0x03] ++ [0x30; 0x75; 0xB0; 0x04] ++
                          [0x30; 0x75; 0xDC; 0x05] ++ [0x30; 0x75; 0xF2; 0x03] ++
                          [255; 255; 255; 255; 0; 0]);
     su_atmospheric := 101325.0%float; su_hydrostatic := 10055.0%float;
     su_devtime := 100; su_systime := 1000;
     su_cached := false; su_divetime := 0; su_maxdepth := 0 |}.


(** No two neighbours of the sequence [x :: l] are equal. *)
Fixpoint distinct_neighbours (x : Z) (l : list Z) : Prop :=
  match l with
  | [] => True
  | y :: r => x <> y /\ distinct_neighbours y r
  end.

(** A Predator record with four 16-byte samples between the header block
    and the footer block: air (twice), then trimix 18/45, then air. *)
Definition shearwater_switch_example : shearwater_predator_parser_t :=
  snd (shearwater_predator_parser_set_data (shearwater_predator_parser_create 0)
         (bytes_of (repeat 0 128 ++
                    ([0; 50] ++ repeat 0 5 ++ [21; 0] ++ repeat 0 7) ++
                    ([0; 60] ++ repeat 0 5 ++ [21; 0] ++ repeat 0 7) ++
                    ([0; 70] ++ repeat 0 5 ++ [18; 45] ++ repeat 0 7) ++
                    ([0; 40] ++ repeat 0 5 ++ [21; 0] ++ repeat 0 7) ++
                    repeat 0 128))).


(** An event that hands no known dive to the callback: the fingerprint of
    a dive is not the one the device was given. *)
Definition new_dive (dev : suunto_common2_device_t) (ev : foreach_event) : Prop :=
  match ev with
  | EV_DIVE _ fp => fp <> dev_fingerprint dev
  | _ => True
  end.

(** The simulated device, told the fingerprint of the older dive. *)
Definition sim_known_device : suunto_common2_device_t :=
  {| layout := sim_layout; dev_version := bytes_of [0x0E; 1; 2; 3];
     dev_fingerprint := bytes_of [0xA1; 0xA2] |}.


(** A progress event that does not exceed its maximum. *)
Definition progress_within (ev : foreach_event) : Prop :=
  match ev with
  | EV_PROGRESS current maximum => 0 <= current <= maximum
  | _ => True
  end.

(** The progress bookkeeping of the enumeration between two packets:
    [nbytes] of the [fs_remaining] profile bytes that are still to be
    handed out are in the buffer, and the progress lacks exactly the
    others. *)
Definition progress_state {world userdata : Type} (l : suunto_common2_layout_t)
  (s : foreach_state world userdata) (nbytes : Z) : Prop :=
  let remaining := fs_remaining world userdata s in
  let current := fs_progress_current world userdata s in
  rb_profile_begin l <= fs_address world userdata s <= rb_profile_end l /\
  0 <= nbytes <= remaining /\
  remaining <= rb_profile_end l - rb_profile_begin l /\
  0 <= current /\
  current + (remaining - nbytes) = fs_progress_maximum world userdata s /\
  fs_progress_maximum world userdata s <= rb_profile_end l - rb_profile_begin l + 16 /\
  Forall progress_within (fs_trace world userdata s).


(** The part of [suunto_common2_device_foreach] before its loop: the
    result of the call when it ends there, or else the state in which the
    loop is entered. *)
Definition common2_foreach_start {world userdata : Type}
  (packet : option (world -> list byte -> Z -> Z -> world * dc_status_t * list byte))
  (dev : suunto_common2_device_t) (w : world) (u : userdata)
  : option (dc_status_t * list foreach_event * userdata * world +
            foreach_state world userdata) :=
  let l := layout dev in
  let maximum := u32 (rb_profile_end l - rb_profile_begin l + 8 +
                      (if Common2.SZ_MINIMUM >? 4 then Common2.SZ_MINIMUM else 4)) in
  let t := [EV_PROGRESS 0 maximum; EV_VENDOR (dev_version dev)] in
  let nserial := if Common2.SZ_MINIMUM >? 4 then Common2.SZ_MINIMUM else 4 in
  match suunto_common2_device_read world packet w (serial l) nserial with
  | None => None
  | Some (w, rc, ser) =>
      if negb (dc_status_eqb rc DC_STATUS_SUCCESS) then
        Some (inl (rc, t ++ [EV_ERROR MSG_FAILED_TO_READ_THE_MEMORY_HEADER], u, w))
      else
        let current := nserial in
        let devinfo :=
          EV_DEVINFO (byte_at (dev_version dev) 0) (array_uint24_be (dev_version dev) 1)
            (fold_left (fun acc i => u32 (u32 (acc * 100) + byte_at ser i)) [0; 1; 2; 3] 0) in
        let t := t ++ [EV_PROGRESS current maximum; devinfo] in
        match suunto_common2_device_read world packet w 0x0190 8 with
        | None => None
        | Some (w, rc, header) =>
            if negb (dc_status_eqb rc DC_STATUS_SUCCESS) then
              Some (inl (rc, t ++ [EV_ERROR MSG_FAILED_TO_READ_THE_MEMORY_HEADER], u, w))
            else
              let last := array_uint16_le header 0 in
              let count := array_uint16_le header 2 in
              let end_ := array_uint16_le header 4 in
              let begin := array_uint16_le header 6 in
              if (last <? rb_profile_begin l) || (last >=? rb_profile_end l) ||
                 (end_ <? rb_profile_begin l) || (end_ >=? rb_profile_end l) ||
                 (begin <? rb_profile_begin l) || (begin >=? rb_profile_end l) then
                Some (inl (DC_STATUS_DATAFORMAT,
                           t ++ [EV_ERROR MSG_INVALID_RINGBUFFER_POINTER_DETECTED], u, w))
              else
                let data :=
                  repeat x00 (Z.to_nat (rb_profile_end l - rb_profile_begin l +
                                        Common2.SZ_MINIMUM)) in
                let remaining := RB_PROFILE_DISTANCE l begin end_ (negb (count =? 0)) in
                let maximum :=
                  u32 (maximum - ((rb_profile_end l - rb_profile_begin l) - remaining)) in
                let current := u32 (current + 8) in
                Some (inr
                  {| fs_world := w; fs_user := u;
                     fs_trace := t ++ [EV_PROGRESS current maximum];
                     fs_data := data; fs_progress_current := current;
                     fs_progress_maximum := maximum; fs_status := DC_STATUS_SUCCESS;
                     fs_remaining := remaining; fs_available := 0;
                     fs_current := last; fs_previous := end_;
                     fs_address := end_;
                     fs_offset := u32 (remaining + Common2.SZ_MINIMUM) |})
        end
  end.

(** What the call returns when its loop ends in the state [s], by the
    loop condition or by a return statement. *)
Definition common2_foreach_result {world userdata : Type}
  (r : loop_exit * foreach_state world userdata)
  : dc_status_t * list foreach_event * userdata * world :=
  let '(e, s) := r in
  (match e with
   | EXIT_RETURN rc => rc
   | EXIT_DONE => fs_status world userdata s
   end,
   fs_trace world userdata s, fs_user world userdata s, fs_world world userdata s).

(** The state at the head of the loop after [n] iterations that reached
    their end, from the state [s] on; [None] when the loop ends
    earlier. *)
Fixpoint common2_after {world userdata : Type}
  (packet : option (world -> list byte -> Z -> Z -> world * dc_status_t * list byte))
  (callback : option (userdata -> list byte -> list byte -> userdata * bool))
  (n : nat) (dev : suunto_common2_device_t) (s : foreach_state world userdata)
  : option (foreach_state world userdata) :=
  match n with
  | O => Some s
  | S n' =>
      if fs_remaining world userdata s =? 0 then None
      else
        match common2_dive world packet userdata callback dev s with
        | Some (EXIT_DONE, s1) => common2_after packet callback n' dev s1
        | _ => None
        end
  end.

(** The state in which the simulated device enters the loop, and the
    state once the packet holding both dives is in the buffer. *)
Definition sim_loop_start : foreach_state unit nat :=
  {| fs_world := tt; fs_user := 0%nat;
     fs_trace := [EV_PROGRESS 0 80; EV_VENDOR (bytes_of [0x0E; 1; 2; 3]);
                  EV_PROGRESS 8 80; EV_DEVINFO 14 66051 1020304; EV_PROGRESS 16 40];
     fs_data := repeat x00 72;
     fs_progress_current := 16; fs_progress_maximum := 40;
     fs_status := DC_STATUS_SUCCESS;
     fs_remaining := 24; fs_available := 0;
     fs_current := 0x01A6; fs_previous := 0x01B2;
     fs_address := 0x01B2; fs_offset := 32 |}.

Definition sim_dive_read (next_lo next_hi : Z) : foreach_state unit nat :=
  {| fs_world := tt; fs_user := 0%nat;
     fs_trace := fs_trace unit nat sim_loop_start ++ [EV_PROGRESS 40 40];
     fs_data := buffer_write (repeat x00 72) 8
                  (bytes_slice (sim_memory next_lo next_hi) 0x019A 24);
     fs_progress_current := 40; fs_progress_maximum := 40;
     fs_status := DC_STATUS_SUCCESS;
     fs_remaining := 24; fs_available := 0;
     fs_current := 0x01A6; fs_previous := 0x01B2;
     fs_address := 0x019A; fs_offset := 8 |}.

(** The state of the simulated device at the head of the second
    iteration, when the newer dive is well formed and has gone to the
    callback. *)
Definition sim_second_dive : foreach_state unit nat :=
  {| fs_world := tt; fs_user := 1%nat;
     fs_trace := fs_trace unit nat sim_loop_start ++
                 [EV_PROGRESS 40 40;
                  EV_DIVE (bytes_of [0xB1; 0xB2; 0xB3; 0xB4; 0xB5; 0xB6; 0xB7; 0xB8])
                          (bytes_of [0xB1; 0xB2])];
     fs_data := buffer_write (repeat x00 72) 8
                  (bytes_slice (sim_memory 0xB2 0x01) 0x019A 24);
     fs_progress_current := 40; fs_progress_maximum := 40;
     fs_status := DC_STATUS_SUCCESS;
     fs_remaining := 12; fs_available := 12;
     fs_current := 0x019A; fs_previous := 0x01A6;
     fs_address := 0x019A; fs_offset := 8 |}.


(** The parser families of the sources: the first member of the vtable of
    each parser.  The Cressi Leonardo parser names DC_FAMILY_CRESSI_EDY
    there, and the Shearwater parser has a vtable for the Predator and
    one for the Petrel. *)
Inductive dc_family_t : Type :=
| DC_FAMILY_SUUNTO_EON
| DC_FAMILY_SUUNTO_EONSTEEL
| DC_FAMILY_REEFNET_SENSUSPRO
| DC_FAMILY_REEFNET_SENSUSULTRA
| DC_FAMILY_UWATEC_MEMOMOUSE
| DC_FAMILY_UWATEC_SMART
| DC_FAMILY_OCEANIC_VTPRO
| DC_FAMILY_OCEANIC_ATOM2
| DC_FAMILY_SHEARWATER_PREDATOR
| DC_FAMILY_SHEARWATER_PETREL
| DC_FAMILY_CRESSI_EDY
| DC_FAMILY_DIVESYSTEM_IDIVE.

(** The minimum record size of a family: the size that its get_datetime
    requires of the record, which no size check of another operation of
    the family falls below, the check of 44 bytes of the Galileo models
    of the Uwatec Smart family apart.  The model matters in the Oceanic
    Atom2 and the Uwatec Smart family only; an unknown Smart model has no
    parser, and 0 stands for its size. *)
Definition minimum_record_size (family : dc_family_t) (model : Z) : Z :=
  match family with
  | DC_FAMILY_SUUNTO_EON => 6 + 5
  | DC_FAMILY_SUUNTO_EONSTEEL => 4
  | DC_FAMILY_REEFNET_SENSUSPRO => 6 + 4
  | DC_FAMILY_REEFNET_SENSUSULTRA => 4 + 4
  | DC_FAMILY_UWATEC_MEMOMOUSE => 11 + 4
  | DC_FAMILY_UWATEC_SMART =>
      match uwatec_smart_parser_create model 0 0 with
      | Some parser => sm_headersize parser
      | None => 0
      end
  | DC_FAMILY_OCEANIC_VTPRO => 8
  | DC_FAMILY_OCEANIC_ATOM2 => if model_in model [F10; F11] then 32 else 8
  | DC_FAMILY_SHEARWATER_PREDATOR | DC_FAMILY_SHEARWATER_PETREL => 2 * Shearwater.SZ_BLOCK
  | DC_FAMILY_CRESSI_EDY => Cressi.SZ_HEADER
  | DC_FAMILY_DIVESYSTEM_IDIVE => Idive.SZ_HEADER
  end.

(** The blob holds the four zero bytes that open a Reefnet Sensus record
    at some offset. *)
Definition sensus_has_header (data : blob) : bool :=
  existsb (fun k => array_isequal data k 4 0x00)
          (indices (Z.to_nat (blob_size data - 3))).

(** An Eon parser and an EON Steel parser after [set_data]. *)
Definition eon_parser_of (spyder : bool) (data : blob) : suunto_eon_parser_t :=
  snd (suunto_eon_parser_set_data (suunto_eon_parser_create spyder) data).

(** A VT Pro parser after [set_data]. *)
Definition vtpro_parser_of (data : blob) : oceanic_vtpro_parser_t :=
  snd (oceanic_vtpro_parser_set_data oceanic_vtpro_parser_create data).

(** A numbering of the field types, in the order of their declaration. *)
Definition field_index (type : dc_field_type_t) : Z :=
  match type with
  | DC_FIELD_DIVETIME => 0
  | DC_FIELD_MAXDEPTH => 1
  | DC_FIELD_AVGDEPTH => 2
  | DC_FIELD_GASMIX_COUNT => 3
  | DC_FIELD_GASMIX => 4
  | DC_FIELD_SALINITY => 5
  | DC_FIELD_ATMOSPHERIC => 6
  | DC_FIELD_TEMPERATURE_SURFACE => 7
  | DC_FIELD_TEMPERATURE_MINIMUM => 8
  | DC_FIELD_TEMPERATURE_MAXIMUM => 9
  | DC_FIELD_TANK_COUNT => 10
  | DC_FIELD_TANK => 11
  | DC_FIELD_DIVEMODE => 12
  | DC_FIELD_STRING => 13
  end.

(** Statistics that count the TIME samples and keep no depth. *)
Definition count_time_samples (l : list dc_sample) : Z * float :=
  (Z.of_nat (length (sample_times l)), 0.0%float).

(** Three bytes, six bytes without a zero among them, five bytes that
    start with four zeros, and thirty bytes of which only byte 20 is not
    zero. *)
Definition three_byte_example : blob := bytes_of [1; 2; 3].

Definition six_byte_example : blob := bytes_of [1; 2; 3; 4; 5; 6].

Definition zero_header_example : blob := bytes_of [0; 0; 0; 0; 5].

Definition thirty_byte_example : blob := bytes_of (repeat 0 20 ++ [7] ++ repeat 0 9).


(** * Properties *)

(** The loop bodies stay folded when a loop is unfolded by [simpl]. *)
Arguments u32 : simpl never.
Arguments byte_at : simpl never.
Arguments array_isequal : simpl never.
Arguments shearwater_sample : simpl never.
Arguments idive_sample : simpl never.
Arguments atom2_sample : simpl never.

Arguments fs_world {world userdata} _.
Arguments fs_user {world userdata} _.
Arguments fs_trace {world userdata} _.
Arguments fs_data {world userdata} _.
Arguments fs_progress_current {world userdata} _.
Arguments fs_progress_maximum {world userdata} _.
Arguments fs_status {world userdata} _.
Arguments fs_remaining {world userdata} _.
Arguments fs_available {world userdata} _.
Arguments fs_current {world userdata} _.
Arguments fs_previous {world userdata} _.
Arguments fs_address {world userdata} _.
Arguments fs_offset {world userdata} _.
Arguments fs_log {world userdata} _ _.
Arguments common2_check_dive {world userdata} _ _ _ _ _.
Arguments common2_read_packets {world} _ {userdata} _ _ _ _ _.
Arguments common2_dive {world} _ {userdata} _ _ _.
Arguments common2_dives_loop {world} _ {userdata} _ _ _ _.
Arguments suunto_common2_device_foreach {world} _ {userdata} _ _ _ _.

(** Closed goals over concrete inputs are settled by evaluation. *)
Ltac by_evaluation :=
  vm_compute;
  solve [reflexivity | discriminate | let H := fresh in intro H; discriminate H].

(** ** Arithmetic of the embedding *)

Lemma u8_range (b : byte) : 0 <= u8 b < 256.
Proof.
  unfold u8. pose proof (Byte.to_N_bounded b). lia.
Qed.

Lemma byte_at_range (data : blob) (i : Z) : 0 <= byte_at data i < 256.
Proof.
  unfold byte_at. destruct (i <? 0); [lia | apply u8_range].
Qed.

Lemma u32_small (x : Z) : 0 <= x < 2 ^ 32 -> u32 x = x.
Proof.
  intro H. unfold u32. apply Z.mod_small. exact H.
Qed.

Lemma blob_size_nonneg (data : blob) : 0 <= blob_size data.
Proof.
  unfold blob_size. lia.
Qed.

Lemma array_uint16_le_range (data : blob) (off : Z) :
  0 <= array_uint16_le data off < 2 ^ 16.
Proof.
  unfold array_uint16_le. rewrite Z.shiftl_mul_pow2 by lia.
  pose proof (byte_at_range data off). pose proof (byte_at_range data (off + 1)). lia.
Qed.

Lemma array_uint16_be_range (data : blob) (off : Z) :
  0 <= array_uint16_be data off < 2 ^ 16.
Proof.
  unfold array_uint16_be. rewrite Z.shiftl_mul_pow2 by lia.
  pose proof (byte_at_range data off). pose proof (byte_at_range data (off + 1)). lia.
Qed.

Lemma array_uint32_le_range (data : blob) (off : Z) :
  0 <= array_uint32_le data off < 2 ^ 32.
Proof.
  unfold array_uint32_le. rewrite !Z.shiftl_mul_pow2 by lia.
  pose proof (byte_at_range data off). pose proof (byte_at_range data (off + 1)).
  pose proof (byte_at_range data (off + 2)). pose proof (byte_at_range data (off + 3)).
  lia.
Qed.

(** ** Cressi Leonardo *)

(** C9. On a blob that starts with the 82-byte header of the scenario
    (0x003C little endian at 0x06, 0x28 at 0x19, 0x0064 little endian at
    0x20, 0x14 at 0x22, and 0x18 0x03 0x0F 0x0A 0x1E at 8..12), get_field
    gives DIVETIME 1200 s, MAXDEPTH 10.0 m, the gas mix O2 0.40, He 0,
    N2 0.60 and TEMPERATURE_MINIMUM 20 degrees, and get_datetime gives
    2024-03-15 10:30:00. *)
Theorem cressi_leonardo_header_scenario (data : blob) :
  Cressi.SZ_HEADER <= blob_size data ->
  array_uint16_le data 0x06 = 0x003C ->
  byte_at data 0x19 = 0x28 ->
  array_uint16_le data 0x20 = 0x0064 ->
  byte_at data 0x22 = 0x14 ->
  byte_at data 8 = 0x18 -> byte_at data 9 = 0x03 -> byte_at data 10 = 0x0F ->
  byte_at data 11 = 0x0A -> byte_at data 12 = 0x1E ->
  cressi_leonardo_parser_get_field data DC_FIELD_DIVETIME 0
    = (DC_STATUS_SUCCESS, Some (FV_uint 1200)) /\
  cressi_leonardo_parser_get_field data DC_FIELD_MAXDEPTH 0
    = (DC_STATUS_SUCCESS, Some (FV_double 10.0%float)) /\
  cressi_leonardo_parser_get_field data DC_FIELD_GASMIX 0
    = (DC_STATUS_SUCCESS,
       Some (FV_gasmix {| helium := 0.0%float; oxygen := 0.40%float;
                          nitrogen := 0.60%float |})) /\
  cressi_leonardo_parser_get_field data DC_FIELD_TEMPERATURE_MINIMUM 0
    = (DC_STATUS_SUCCESS, Some (FV_double 20.0%float)) /\
  cressi_leonardo_parser_get_datetime data
    = (DC_STATUS_SUCCESS,
       Some {| year := 2024; month := 3; day := 15; hour := 10; minute := 30;
               second := 0 |}).
Proof.
  intros Hsize Htime Ho2 Hdepth Htemp Hy Hm Hd Hh Hmin.
  assert (Hguard : (blob_size data <? Cressi.SZ_HEADER) = false)
    by (apply Z.ltb_ge; exact Hsize).
  unfold cressi_leonardo_parser_get_field, cressi_leonardo_parser_get_datetime.
  rewrite Hguard, Htime, Ho2, Hdepth, Htemp, Hy, Hm, Hd, Hh, Hmin.
  repeat split; reflexivity.
Qed.

Lemma cressi_leonardo_header_scenario_witness :
  cressi_leonardo_parser_get_field cressi_header_example DC_FIELD_DIVETIME 0
    = (DC_STATUS_SUCCESS, Some (FV_uint 1200)) /\
  cressi_leonardo_parser_get_field cressi_header_example DC_FIELD_MAXDEPTH 0
    = (DC_STATUS_SUCCESS, Some (FV_double 10.0%float)) /\
  cressi_leonardo_parser_get_field cressi_header_example DC_FIELD_GASMIX 0
    = (DC_STATUS_SUCCESS,
       Some (FV_gasmix {| helium := 0.0%float; oxygen := 0.40%float;
                          nitrogen := 0.60%float |})) /\
  cressi_leonardo_parser_get_field cressi_header_example DC_FIELD_TEMPERATURE_MINIMUM 0
    = (DC_STATUS_SUCCESS, Some (FV_double 20.0%float)) /\
  cressi_leonardo_parser_get_datetime cressi_header_example
    = (DC_STATUS_SUCCESS,
       Some {| year := 2024; month := 3; day := 15; hour := 10; minute := 30;
               second := 0 |}).
Proof.
  apply (cressi_leonardo_header_scenario cressi_header_example);
    vm_compute; solve [reflexivity | discriminate].
Defined.

(** ** Shearwater Predator and Petrel *)

Lemma array_isequal_true (data : blob) (off size v i : Z) :
  array_isequal data off size v = true -> 0 <= i < size -> byte_at data (off + i) = v.
Proof.
  unfold array_isequal. intros H Hi.
  rewrite forallb_forall in H.
  specialize (H (Z.to_nat i)).
  rewrite Z2Nat.id in H by lia.
  apply Z.eqb_eq, H, in_seq. lia.
Qed.

Lemma shearwater_footer_bound (parser : shearwater_predator_parser_t) (f : Z) :
  blob_size (sw_data parser) < 2 ^ 32 ->
  shearwater_footer parser = Some f ->
  0 <= f /\ f + Shearwater.SZ_BLOCK <= blob_size (sw_data parser).
Proof.
  unfold shearwater_footer, Shearwater.SZ_BLOCK. intros Hsz H.
  destruct (blob_size (sw_data parser) <? 2 * 128) eqn:E2; [discriminate |].
  apply Z.ltb_ge in E2.
  rewrite (u32_small (blob_size (sw_data parser) - 128)) in H by lia.
  destruct (sw_petrel parser || _).
  - destruct (blob_size (sw_data parser) <? 3 * 128) eqn:E3; [discriminate |].
    apply Z.ltb_ge in E3. rewrite u32_small in H by lia.
    injection H as <-. lia.
  - injection H as <-. lia.
Qed.

Lemma shearwater_samples_loop_S (fuel : nat) (data : blob) (petrel : bool)
  (units samplesize footer offset time o2_previous he_previous : Z) :
  shearwater_samples_loop (S fuel) data petrel units samplesize footer offset time
    o2_previous he_previous
  = if offset <? footer then
      if array_isequal data offset samplesize 0x00 then
        shearwater_samples_loop fuel data petrel units samplesize footer
          (u32 (offset + samplesize)) time o2_previous he_previous
      else
        let '(out, (o2, he)) :=
          shearwater_sample data petrel units offset (u32 (time + 10))
            o2_previous he_previous in
        match shearwater_samples_loop fuel data petrel units samplesize footer
                (u32 (offset + samplesize)) (u32 (time + 10)) o2 he with
        | Some (st, rest) => Some (st, out ++ rest)
        | None => None
        end
    else Some (DC_STATUS_SUCCESS, []).
Proof.
  reflexivity.
Qed.

(** With fuel for every record before the footer the sample loop ends, and
    it ends with SUCCESS. *)
Lemma shearwater_samples_loop_total (data : blob) (petrel : bool)
  (units samplesize footer : Z) :
  0 < samplesize -> footer + samplesize <= 2 ^ 32 ->
  forall (fuel : nat) (offset time o2 he : Z),
    0 <= offset ->
    footer - offset <= Z.of_nat fuel * samplesize ->
    exists out,
      shearwater_samples_loop fuel data petrel units samplesize footer offset time o2 he
      = Some (DC_STATUS_SUCCESS, out).
Proof.
  intros Hss Hfoot. induction fuel as [| fuel IH]; intros offset time o2 he Hoff Hfuel.
  - simpl. destruct (offset <? footer) eqn:E; [apply Z.ltb_lt in E; lia |].
    eexists; reflexivity.
  - rewrite shearwater_samples_loop_S.
    destruct (offset <? footer) eqn:E; [| eexists; reflexivity].
    apply Z.ltb_lt in E.
    rewrite (u32_small (offset + samplesize)) by lia.
    assert (Hnext : footer - (offset + samplesize) <= Z.of_nat fuel * samplesize) by lia.
    destruct (array_isequal data offset samplesize 0).
    + apply IH; lia.
    + destruct (shearwater_sample data petrel units offset (u32 (time + 10)) o2 he)
        as [out [o2' he']].
      destruct (IH (offset + samplesize) (u32 (time + 10)) o2' he') as [rest Hrest];
        [lia | exact Hnext |].
      rewrite Hrest. eexists; reflexivity.
Qed.




(** ** DiveSystem iDive *)

Lemma sample_times_app (a b : list dc_sample) :
  sample_times (a ++ b) = sample_times a ++ sample_times b.
Proof.
  induction a as [| x a IH]; [reflexivity |].
  destruct x; simpl; rewrite ?IH; reflexivity.
Qed.

Lemma idive_samples_loop_eq (fuel : nat) (data : blob) (offset : Z) (l : idive_locals) :
  idive_samples_loop fuel data offset l
  = if u32 (offset + Idive.SZ_SAMPLE) <=? blob_size data then
      match fuel with
      | O => None
      | S fuel' =>
          match idive_sample data offset l with
          | (Some st, out, l') => Some (st, out, l')
          | (None, out, l') =>
              match idive_samples_loop fuel' data (u32 (offset + Idive.SZ_SAMPLE)) l' with
              | Some (st, rest, l'') => Some (st, out ++ rest, l'')
              | None => None
              end
          end
      end
    else Some (DC_STATUS_SUCCESS, [], l).
Proof.
  destruct fuel; reflexivity.
Qed.

(** A record whose timestamp does not exceed the running time ends the
    call before anything of it reaches the callback. *)
Lemma idive_sample_backwards (data : blob) (offset : Z) (l : idive_locals) :
  array_uint32_le data (offset + 2) <= l_time l ->
  idive_sample data offset l = (Some DC_STATUS_DATAFORMAT, [], l).
Proof.
  intro H. unfold idive_sample.
  replace (array_uint32_le data (offset + 2) <=? l_time l) with true
    by (symmetry; apply Z.leb_le; exact H).
  reflexivity.
Qed.

(** What one iteration can do: fail with DATAFORMAT, or go on after it
    emitted exactly one TIME sample, the record's timestamp, which is above
    the running time and becomes the new running time. *)
Lemma idive_sample_cases (data : blob) (offset : Z) (l : idive_locals) :
  (exists out l', idive_sample data offset l = (Some DC_STATUS_DATAFORMAT, out, l')) \/
  (exists out l',
     idive_sample data offset l = (None, out, l') /\
     l_time l < array_uint32_le data (offset + 2) /\
     l_time l' = array_uint32_le data (offset + 2) /\
     sample_times out = [array_uint32_le data (offset + 2)]).
Proof.
  unfold idive_sample.
  destruct (array_uint32_le data (offset + 2) <=? l_time l) eqn:Ets.
  { left. do 2 eexists. reflexivity. }
  apply Z.leb_gt in Ets.
  destruct (negb (byte_at data (offset + 10) =? l_o2_previous l)
            || negb (byte_at data (offset + 11) =? l_he_previous l)).
  - match goal with
    | |- context [if ?c then _ else _] => destruct c
    end.
    + left. do 2 eexists. reflexivity.
    + right. do 2 eexists. split; [reflexivity |]. split; [exact Ets |].
      split; [reflexivity |].
      rewrite !sample_times_app.
      repeat match goal with
             | |- context [if ?c then _ else _] => destruct c
             end; reflexivity.
  - right. do 2 eexists. split; [reflexivity |]. split; [exact Ets |].
    split; [reflexivity |].
    rewrite !sample_times_app.
    repeat match goal with
           | |- context [if ?c then _ else _] => destruct c
           end; reflexivity.
Qed.

(** The loop only ever ends with SUCCESS or DATAFORMAT. *)
Lemma idive_samples_loop_status (fuel : nat) (data : blob) :
  forall (offset : Z) (l : idive_locals) st out l',
    idive_samples_loop fuel data offset l = Some (st, out, l') ->
    st = DC_STATUS_SUCCESS \/ st = DC_STATUS_DATAFORMAT.
Proof.
  induction fuel as [| fuel IH]; intros offset l st out l' H;
    rewrite idive_samples_loop_eq in H;
    destruct (u32 (offset + Idive.SZ_SAMPLE) <=? blob_size data);
    try discriminate; try (injection H as <- _ _; left; reflexivity).
  destruct (idive_sample_cases data offset l) as [[o [m E]] | [o [m [E _]]]];
    rewrite E in H.
  - injection H as <- _ _. right; reflexivity.
  - destruct (idive_samples_loop fuel data (u32 (offset + Idive.SZ_SAMPLE)) m)
      as [[[st' rest] l''] |] eqn:Erec; [| discriminate].
    injection H as <- _ _. eapply IH; exact Erec.
Qed.

(** With fuel for every record of the blob the loop ends. *)
Lemma idive_samples_loop_total (data : blob) :
  blob_size data < 2 ^ 32 - Idive.SZ_SAMPLE ->
  forall (fuel : nat) (offset : Z) (l : idive_locals),
    0 <= offset -> offset + Idive.SZ_SAMPLE < 2 ^ 32 ->
    blob_size data - offset < (Z.of_nat fuel + 1) * Idive.SZ_SAMPLE ->
    exists r, idive_samples_loop fuel data offset l = Some r.
Proof.
  unfold Idive.SZ_SAMPLE. intros Hsz.
  induction fuel as [| fuel IH]; intros offset l Hoff Hlt Hfuel;
    rewrite idive_samples_loop_eq; unfold Idive.SZ_SAMPLE;
    destruct (u32 (offset + 42) <=? blob_size data) eqn:E;
    try (eexists; reflexivity);
    apply Z.leb_le in E; rewrite u32_small in * by lia.
  - lia.
  - destruct (idive_sample_cases data offset l) as [[o [m Es]] | [o [m [Es _]]]];
      rewrite Es; [eexists; reflexivity |].
    destruct (IH (offset + 42) m ltac:(lia) ltac:(lia) ltac:(lia)) as [[[st rest] l''] Hr].
    rewrite Hr. eexists; reflexivity.
Qed.

(** A successful loop has seen strictly increasing timestamps, all above
    the running time it started with. *)
Lemma idive_samples_loop_increasing (data : blob) :
  blob_size data < 2 ^ 32 - Idive.SZ_SAMPLE ->
  forall (fuel : nat) (offset : Z) (l : idive_locals) out l',
    0 <= offset ->
    idive_samples_loop fuel data offset l = Some (DC_STATUS_SUCCESS, out, l') ->
    (forall j, 0 <= j -> offset + (j + 1) * Idive.SZ_SAMPLE <= blob_size data ->
               l_time l < array_uint32_le data (offset + j * Idive.SZ_SAMPLE + 2)) /\
    (forall j, 0 <= j -> offset + (j + 2) * Idive.SZ_SAMPLE <= blob_size data ->
               array_uint32_le data (offset + j * Idive.SZ_SAMPLE + 2)
               < array_uint32_le data (offset + (j + 1) * Idive.SZ_SAMPLE + 2)).
Proof.
  unfold Idive.SZ_SAMPLE. intros Hsz.
  induction fuel as [| fuel IH]; intros offset l out l' Hoff H;
    rewrite idive_samples_loop_eq in H; unfold Idive.SZ_SAMPLE in H;
    destruct (u32 (offset + 42) <=? blob_size data) eqn:E; try discriminate.
  - apply Z.leb_gt in E. split; intros j Hj Hin; exfalso;
      rewrite u32_small in E by lia; lia.
  - apply Z.leb_le in E.
    destruct (Z_lt_le_dec (offset + 42) (2 ^ 32)) as [Hlt | Hge].
    2:{ split; intros j Hj Hin; exfalso; lia. }
    rewrite u32_small in * by lia.
    destruct (idive_sample_cases data offset l)
      as [[o [m Es]] | [o [m [Es [Hlt' [Hm _]]]]]]; rewrite Es in H; [discriminate |].
    destruct (idive_samples_loop fuel data (offset + 42) m)
      as [[[st rest] l''] |] eqn:Erec; [| discriminate].
    injection H as -> _ _.
    destruct (IH (offset + 42) m rest l'' ltac:(lia) Erec) as [IH1 IH2].
    rewrite Hm in IH1.
    split; intros j Hj Hin.
    + destruct (Z.eq_dec j 0) as [-> | Hne].
      * replace (offset + 0 * 42 + 2) with (offset + 2) by lia. exact Hlt'.
      * specialize (IH1 (j - 1) ltac:(lia) ltac:(lia)).
        replace (offset + 42 + (j - 1) * 42 + 2) with (offset + j * 42 + 2) in IH1 by lia.
        lia.
    + destruct (Z.eq_dec j 0) as [-> | Hne].
      * specialize (IH1 0 ltac:(lia) ltac:(lia)).
        replace (offset + 42 + 0 * 42 + 2) with (offset + (0 + 1) * 42 + 2) in IH1 by lia.
        replace (offset + 0 * 42 + 2) with (offset + 2) by lia. exact IH1.
      * specialize (IH2 (j - 1) ltac:(lia) ltac:(lia)).
        replace (offset + 42 + (j - 1) * 42 + 2) with (offset + j * 42 + 2) in IH2 by lia.
        replace (offset + 42 + (j - 1 + 1) * 42 + 2)
          with (offset + (j + 1) * 42 + 2) in IH2 by lia.
        exact IH2.
  - apply Z.leb_gt in E. split; intros j Hj Hin; exfalso.
    + destruct (Z_lt_le_dec (offset + 42) (2 ^ 32)) as [Hlt | Hge]; [| lia].
      rewrite u32_small in E by lia. lia.
    + destruct (Z_lt_le_dec (offset + 42) (2 ^ 32)) as [Hlt | Hge]; [| lia].
      rewrite u32_small in E by lia. lia.
Qed.

Lemma last_nonempty_default (x : Z) (l : list Z) (d d' : Z) :
  last (x :: l) d = last (x :: l) d'.
Proof.
  revert x. induction l as [| y l IH]; intro x; [reflexivity |].
  change (last (y :: l) d = last (y :: l) d'). apply IH.
Qed.

(** The running time after a successful loop is the last TIME value it
    emitted (the starting time when it emitted none). *)
Lemma idive_samples_loop_last_time (fuel : nat) (data : blob) :
  forall (offset : Z) (l : idive_locals) out l',
    idive_samples_loop fuel data offset l = Some (DC_STATUS_SUCCESS, out, l') ->
    l_time l' = last (sample_times out) (l_time l).
Proof.
  induction fuel as [| fuel IH]; intros offset l out l' H;
    rewrite idive_samples_loop_eq in H;
    destruct (u32 (offset + Idive.SZ_SAMPLE) <=? blob_size data);
    try discriminate; try (injection H as <- <-; reflexivity).
  destruct (idive_sample_cases data offset l)
    as [[o [m Es]] | [o [m [Es [_ [Hm Ht]]]]]]; rewrite Es in H; [discriminate |].
  destruct (idive_samples_loop fuel data (u32 (offset + Idive.SZ_SAMPLE)) m)
    as [[[st rest] l''] |] eqn:Erec; [| discriminate].
  injection H as -> <- <-.
  rewrite (IH _ _ _ _ Erec), sample_times_app, Ht, Hm.
  destruct (sample_times rest) as [| z r]; [reflexivity |].
  change (last (z :: r) (array_uint32_le data (offset + 2)) = last (z :: r) (l_time l)).
  apply last_nonempty_default.
Qed.

(** A pair of records whose timestamps do not increase, or a first record
    stamped 0, makes samples_foreach fail with DATAFORMAT and leaves the
    parser as it was. *)
Lemma idive_foreach_not_increasing (parser : divesystem_idive_parser_t) :
  let data := idive_data parser in
  blob_size data < 2 ^ 32 - Idive.SZ_SAMPLE ->
  (exists k, 0 <= k /\
             Idive.SZ_HEADER + (k + 2) * Idive.SZ_SAMPLE <= blob_size data /\
             idive_timestamp data (k + 1) <= idive_timestamp data k) \/
  (Idive.SZ_HEADER + Idive.SZ_SAMPLE <= blob_size data /\ idive_timestamp data 0 = 0) ->
  exists out,
    divesystem_idive_parser_samples_foreach parser
    = Some (DC_STATUS_DATAFORMAT, out, parser).
Proof.
  intros data Hsz Hbad. unfold divesystem_idive_parser_samples_foreach. fold data.
  destruct (idive_samples_loop_total data Hsz (length data) Idive.SZ_HEADER
              idive_locals_init) as [[[st out] l'] Hr].
  { unfold Idive.SZ_HEADER; lia. }
  { unfold Idive.SZ_HEADER, Idive.SZ_SAMPLE; lia. }
  { unfold blob_size, Idive.SZ_HEADER, Idive.SZ_SAMPLE. lia. }
  rewrite Hr.
  destruct (idive_samples_loop_status _ _ _ _ _ _ _ Hr) as [-> | ->];
    [| eexists; reflexivity].
  exfalso.
  assert (Hoff : 0 <= Idive.SZ_HEADER) by (unfold Idive.SZ_HEADER; lia).
  destruct (idive_samples_loop_increasing data Hsz _ _ _ _ _ Hoff Hr) as [H1 H2].
  unfold idive_timestamp in Hbad.
  destruct Hbad as [[k [Hk [Hin Hle]]] | [Hin Hz]].
  - specialize (H2 k Hk Hin). lia.
  - specialize (H1 0 ltac:(lia) ltac:(lia)).
    change (l_time idive_locals_init) with 0 in H1.
    rewrite Hz in H1. lia.
Qed.

(** C6. Two iDive sample records stamped 10 s and then 9 s make
    samples_foreach return DATAFORMAT, whatever the other bytes are. *)
Theorem idive_timestamps_10_then_9 (parser : divesystem_idive_parser_t) :
  let data := idive_data parser in
  blob_size data < 2 ^ 32 - Idive.SZ_SAMPLE ->
  Idive.SZ_HEADER + 2 * Idive.SZ_SAMPLE <= blob_size data ->
  idive_timestamp data 0 = 10 ->
  idive_timestamp data 1 = 9 ->
  exists out,
    divesystem_idive_parser_samples_foreach parser
    = Some (DC_STATUS_DATAFORMAT, out, parser).
Proof.
  intros data Hsz Hin H0 H1.
  apply idive_foreach_not_increasing; [exact Hsz |].
  left. exists 0. fold data. rewrite H0. change (0 + 1) with 1. rewrite H1.
  repeat split; lia.
Qed.

Lemma idive_timestamps_10_then_9_witness :
  exists out,
    divesystem_idive_parser_samples_foreach (idive_parser_of (idive_blob [10; 9]))
    = Some (DC_STATUS_DATAFORMAT, out, idive_parser_of (idive_blob [10; 9])).
Proof.
  apply (idive_timestamps_10_then_9 (idive_parser_of (idive_blob [10; 9])));
    by_evaluation.
Defined.

(** C10. The iDive sample loop wants strictly increasing timestamps: two
    consecutive records with equal timestamps, or a first record stamped 0,
    make samples_foreach return DATAFORMAT, and the parser, its field cache
    included, is left as it was, so a cache that was not populated stays
    so. *)
Theorem idive_timestamps_strictly_increasing (parser : divesystem_idive_parser_t) :
  let data := idive_data parser in
  blob_size data < 2 ^ 32 - Idive.SZ_SAMPLE ->
  (exists k, 0 <= k /\
             Idive.SZ_HEADER + (k + 2) * Idive.SZ_SAMPLE <= blob_size data /\
             idive_timestamp data (k + 1) = idive_timestamp data k) \/
  (Idive.SZ_HEADER + Idive.SZ_SAMPLE <= blob_size data /\ idive_timestamp data 0 = 0) ->
  exists out parser',
    divesystem_idive_parser_samples_foreach parser
    = Some (DC_STATUS_DATAFORMAT, out, parser') /\
    parser' = parser /\
    (idive_cached parser = false -> idive_cached parser' = false).
Proof.
  intros data Hsz Hbad.
  destruct (idive_foreach_not_increasing parser Hsz) as [out Hout].
  - fold data. destruct Hbad as [[k [Hk [Hin Heq]]] | Hzero].
    + left. exists k. repeat split; [exact Hk | exact Hin | lia].
    + right. exact Hzero.
  - exists out, parser. repeat split; [exact Hout | intro H; exact H].
Qed.

Lemma idive_timestamps_strictly_increasing_witness :
  (exists out parser',
     divesystem_idive_parser_samples_foreach (idive_parser_of (idive_blob [7; 7]))
     = Some (DC_STATUS_DATAFORMAT, out, parser') /\
     parser' = idive_parser_of (idive_blob [7; 7]) /\
     (idive_cached (idive_parser_of (idive_blob [7; 7])) = false ->
      idive_cached parser' = false)) /\
  (exists out parser',
     divesystem_idive_parser_samples_foreach (idive_parser_of (idive_blob [0]))
     = Some (DC_STATUS_DATAFORMAT, out, parser') /\
     parser' = idive_parser_of (idive_blob [0]) /\
     (idive_cached (idive_parser_of (idive_blob [0])) = false ->
      idive_cached parser' = false)).
Proof.
  split.
  - apply (idive_timestamps_strictly_increasing (idive_parser_of (idive_blob [7; 7]))).
    + by_evaluation.
    + left. exists 0. repeat split; by_evaluation.
  - apply (idive_timestamps_strictly_increasing (idive_parser_of (idive_blob [0]))).
    + by_evaluation.
    + right. split; by_evaluation.
Defined.

(** C5, as the code has it.  For the DiveSystem iDive parser the divetime
    is the running time of the sample loop: when samples_foreach succeeds
    and emits a TIME sample, get_field(DIVETIME) returns the last TIME
    value, asked before or after the cache is populated. *)
Theorem idive_divetime_is_last_time (parser parser' : divesystem_idive_parser_t)
  (out : list dc_sample) :
  idive_cached parser = false ->
  divesystem_idive_parser_samples_foreach parser = Some (DC_STATUS_SUCCESS, out, parser') ->
  sample_times out <> [] ->
  divesystem_idive_parser_get_field parser DC_FIELD_DIVETIME 0
  = Some (DC_STATUS_SUCCESS, Some (FV_uint (last (sample_times out) 0)), parser') /\
  divesystem_idive_parser_get_field parser' DC_FIELD_DIVETIME 0
  = Some (DC_STATUS_SUCCESS, Some (FV_uint (last (sample_times out) 0)), parser').
Proof.
  intros Hc Hrun Hne.
  assert (Hrun' := Hrun).
  unfold divesystem_idive_parser_samples_foreach in Hrun'.
  destruct (idive_samples_loop (length (idive_data parser)) (idive_data parser)
              Idive.SZ_HEADER idive_locals_init) as [[[st o] l] |] eqn:Eloop;
    [| discriminate].
  assert (Hst : st = DC_STATUS_SUCCESS).
  { destruct st; try reflexivity; injection Hrun' as Hbad _ _; discriminate Hbad. }
  subst st. injection Hrun' as Ho Hp. subst o.
  pose proof (idive_samples_loop_last_time _ _ _ _ _ _ Eloop) as Hlast.
  change (l_time idive_locals_init) with 0 in Hlast.
  assert (Hsize : (blob_size (idive_data parser) <? Idive.SZ_HEADER) = false).
  { apply Z.ltb_ge. rewrite idive_samples_loop_eq in Eloop.
    destruct (u32 (Idive.SZ_HEADER + Idive.SZ_SAMPLE) <=? blob_size (idive_data parser))
      eqn:E.
    - apply Z.leb_le in E. unfold Idive.SZ_HEADER, Idive.SZ_SAMPLE in *.
      change (u32 (50 + 42)) with 92 in E. lia.
    - injection Eloop as Ho _. subst out. exfalso. apply Hne. reflexivity. }
  assert (Hdata : idive_data parser' = idive_data parser) by (subst parser'; reflexivity).
  assert (Hcached : idive_cached parser' = true) by (subst parser'; reflexivity).
  assert (Hdt : idive_divetime parser' = last (sample_times out) 0)
    by (subst parser'; exact Hlast).
  split.
  - unfold divesystem_idive_parser_get_field. rewrite Hsize, Hc, Hrun, Hdt. reflexivity.
  - unfold divesystem_idive_parser_get_field. rewrite Hdata, Hsize, Hcached, Hdt.
    reflexivity.
Qed.

Lemma idive_divetime_is_last_time_witness :
  divesystem_idive_parser_get_field (idive_parser_of (idive_blob [10; 20; 35]))
    DC_FIELD_DIVETIME 0
  = Some (DC_STATUS_SUCCESS, Some (FV_uint 35),
          {| idive_data := idive_blob [10; 20; 35]; idive_cached := true;
             idive_divetime := 35; idive_maxdepth := 0; idive_ngasmixes := 1;
             idive_oxygen := [21; 0; 0; 0; 0; 0; 0; 0];
             idive_helium := [0; 0; 0; 0; 0; 0; 0; 0] |}).
Proof.
  refine (proj1 (idive_divetime_is_last_time
                   (idive_parser_of (idive_blob [10; 20; 35]))
                   {| idive_data := idive_blob [10; 20; 35]; idive_cached := true;
                      idive_divetime := 35; idive_maxdepth := 0; idive_ngasmixes := 1;
                      idive_oxygen := [21; 0; 0; 0; 0; 0; 0; 0];
                      idive_helium := [0; 0; 0; 0; 0; 0; 0; 0] |}
                   [DC_SAMPLE_TIME 10; DC_SAMPLE_DEPTH 0.0%float;
                    DC_SAMPLE_TEMPERATURE 0.0%float;
                    DC_SAMPLE_EVENT SAMPLE_EVENT_GASCHANGE2 0 0 21;
                    DC_SAMPLE_DECO DC_DECO_NDL 0.0%float 0; DC_SAMPLE_CNS 0.0%float;
                    DC_SAMPLE_TIME 20; DC_SAMPLE_DEPTH 0.0%float;
                    DC_SAMPLE_TEMPERATURE 0.0%float;
                    DC_SAMPLE_DECO DC_DECO_NDL 0.0%float 0; DC_SAMPLE_CNS 0.0%float;
                    DC_SAMPLE_TIME 35; DC_SAMPLE_DEPTH 0.0%float;
                    DC_SAMPLE_TEMPERATURE 0.0%float;
                    DC_SAMPLE_DECO DC_DECO_NDL 0.0%float 0; DC_SAMPLE_CNS 0.0%float]
                   _ _ _)).
  - reflexivity.
  - vm_compute. reflexivity.
  - discriminate.
Defined.

(** C5, as the specification states it, fails.  The Cressi Leonardo parser reads
    DIVETIME from the header (offset 0x06) and counts TIME in steps of
    20 s per sample; on a blob whose header field is 0 and that carries one
    sample both operations succeed, the final TIME is 20 and DIVETIME is
    0. *)
Lemma cressi_divetime_counterexample :
  cressi_leonardo_parser_samples_foreach cressi_one_sample_example
  = Some (DC_STATUS_SUCCESS, [DC_SAMPLE_TIME 20; DC_SAMPLE_DEPTH 10.0%float]) /\
  cressi_leonardo_parser_get_field cressi_one_sample_example DC_FIELD_DIVETIME 0
  = (DC_STATUS_SUCCESS, Some (FV_uint 0)) /\
  last (sample_times [DC_SAMPLE_TIME 20; DC_SAMPLE_DEPTH 10.0%float]) 0 <> 0.
Proof.
  repeat split; try (vm_compute; reflexivity).
  vm_compute. discriminate.
Qed.

(** ** Minimum-size guards *)

(** The outer loops of the two Reefnet parsers on a blob too short for a
    record: a header that the search finds has no room for its record. *)
Lemma sensuspro_find_header_short (FSW : float) (parser : reefnet_sensuspro_parser_t) :
  blob_size (sp_data parser) < 10 ->
  forall (n fuel : nat) (offset : Z),
    0 <= offset -> Z.of_nat n = Z.max 0 (blob_size (sp_data parser) - 3 - offset) ->
    (n <= fuel)%nat ->
    sensuspro_find_header FSW fuel parser offset
    = Some (if existsb (fun k => array_isequal (sp_data parser) k 4 0x00)
                       (map Z.of_nat (seq (Z.to_nat offset) n))
            then DC_STATUS_DATAFORMAT else DC_STATUS_SUCCESS, []).
Proof.
  intro Hsize.
  induction n as [| n IH]; intros fuel offset Hoff Hn Hfuel.
  - cbn [seq map existsb].
    destruct fuel; cbn [sensuspro_find_header];
      replace (offset + 4 <=? blob_size (sp_data parser)) with false
        by (symmetry; apply Z.leb_gt; lia);
      reflexivity.
  - destruct fuel as [| fuel]; [lia |].
    cbn [sensuspro_find_header seq map existsb].
    replace (offset + 4 <=? blob_size (sp_data parser)) with true
      by (symmetry; apply Z.leb_le; lia).
    rewrite Z2Nat.id by lia.
    destruct (array_isequal (sp_data parser) offset 4 0) eqn:Ehead; cbn [orb].
    + rewrite (u32_small (offset + 10)) by lia.
      replace (offset + 10 >? blob_size (sp_data parser)) with true
        by (symmetry; rewrite Z.gtb_ltb; apply Z.ltb_lt; lia).
      reflexivity.
    + rewrite (u32_small (offset + 1)) by lia.
      rewrite (IH fuel (offset + 1)) by lia.
      replace (Z.to_nat (offset + 1)) with (S (Z.to_nat offset)) by lia.
      reflexivity.
Qed.

Lemma sensusultra_find_header_short (BAR : float) (parser : reefnet_sensusultra_parser_t) :
  blob_size (su_data parser) < 16 ->
  forall (n fuel : nat) (offset : Z),
    0 <= offset -> Z.of_nat n = Z.max 0 (blob_size (su_data parser) - 3 - offset) ->
    (n <= fuel)%nat ->
    sensusultra_find_header BAR fuel parser offset
    = Some (if existsb (fun k => array_isequal (su_data parser) k 4 0x00)
                       (map Z.of_nat (seq (Z.to_nat offset) n))
            then DC_STATUS_DATAFORMAT else DC_STATUS_SUCCESS, []).
Proof.
  intro Hsize.
  induction n as [| n IH]; intros fuel offset Hoff Hn Hfuel.
  - cbn [seq map existsb].
    destruct fuel; cbn [sensusultra_find_header];
      replace (offset + 4 <=? blob_size (su_data parser)) with false
        by (symmetry; apply Z.leb_gt; lia);
      reflexivity.
  - destruct fuel as [| fuel]; [lia |].
    cbn [sensusultra_find_header seq map existsb].
    replace (offset + 4 <=? blob_size (su_data parser)) with true
      by (symmetry; apply Z.leb_le; lia).
    rewrite Z2Nat.id by lia.
    destruct (array_isequal (su_data parser) offset 4 0) eqn:Ehead; cbn [orb].
    + rewrite (u32_small (offset + 16)) by lia.
      replace (offset + 16 >? blob_size (su_data parser)) with true
        by (symmetry; rewrite Z.gtb_ltb; apply Z.ltb_lt; lia).
      reflexivity.
    + rewrite (u32_small (offset + 1)) by lia.
      rewrite (IH fuel (offset + 1)) by lia.
      replace (Z.to_nat (offset + 1)) with (S (Z.to_nat offset)) by lia.
      reflexivity.
Qed.

(** Header and footer of every Atom2 model take 56 bytes or more. *)
Lemma atom2_record_size (model serial : Z) :
  56 <= u32 (a2_headersize (oceanic_atom2_parser_create model serial) +
             a2_footersize (oceanic_atom2_parser_create model serial)).
Proof.
  unfold oceanic_atom2_parser_create. cbv zeta.
  repeat match goal with
         | |- context [if ?c then _ else _] => destruct c
         end;
    cbn [a2_headersize a2_footersize]; vm_compute; discriminate.
Qed.

(** The header of a created Smart parser is the minimum record size of
    its model, and that of a Galileo takes 152 bytes. *)
Lemma smart_minimum_record_size (model devtime : Z) (systime : dc_ticks_t) (data : blob)
  (parser : uwatec_smart_parser_t) :
  smart_parser_of model devtime systime data = Some parser ->
  sm_headersize parser = minimum_record_size DC_FAMILY_UWATEC_SMART model /\
  sm_data parser = data /\ sm_model parser = model /\
  (model_in model [Smart.GALILEO; Smart.GALILEOTRIMIX] = true -> sm_headersize parser = 152).
Proof.
  unfold smart_parser_of, minimum_record_size, uwatec_smart_parser_create. cbv zeta.
  destruct (model =? Smart.SMARTPRO) eqn:Epro.
  { intro H. injection H as <-.
    cbn [uwatec_smart_parser_set_data snd sm_headersize sm_data sm_model].
    repeat split. apply Z.eqb_eq in Epro. subst model. intro H. discriminate H. }
  destruct (model_in model [Smart.GALILEO; Smart.GALILEOTRIMIX; Smart.ALADIN2G;
                            Smart.MERIDIAN; Smart.CHROMIS]) eqn:Egal.
  { intro H. injection H as <-.
    cbn [uwatec_smart_parser_set_data snd sm_headersize sm_data sm_model].
    repeat split. }
  assert (Hno : model_in model [Smart.GALILEO; Smart.GALILEOTRIMIX] = false).
  { unfold model_in in *. cbn [existsb] in *.
    apply orb_false_elim in Egal. destruct Egal as [E1 Egal].
    apply orb_false_elim in Egal. destruct Egal as [E2 _].
    rewrite E1, E2. reflexivity. }
  rewrite Hno.
  repeat match goal with
         | |- context [if ?c then _ else _] => destruct c
         end;
    intro H; try discriminate H; injection H as <-;
    cbn [uwatec_smart_parser_set_data snd sm_headersize sm_data sm_model];
    (repeat split); intro H; discriminate H.
Qed.




(** ** Clock skew *)

(** C2, as the code has it.  With the dive timestamp t read from the
    record not above devtime, get_datetime hands the time conversion
    systime - (devtime - t) in the Reefnet Sensus Pro and Sensus Ultra
    parsers, and systime - (devtime - t) / 2 in the Uwatec Memomouse and in
    the Uwatec Smart parser alike; the Smart parser adds the record's UTC
    offset (quarters of an hour) for the models that store one. *)
Theorem clock_skew_conversion (localtime gmtime : datetime_conv) :
  (forall parser : reefnet_sensuspro_parser_t,
      let t := array_uint32_le (sp_data parser) 6 in
      6 + 4 <= blob_size (sp_data parser) ->
      t <= sp_devtime parser < 2 ^ 32 ->
      reefnet_sensuspro_parser_get_datetime localtime parser
      = datetime_result localtime (sp_systime parser - (sp_devtime parser - t))) /\
  (forall parser : reefnet_sensusultra_parser_t,
      let t := array_uint32_le (su_data parser) 4 in
      4 + 4 <= blob_size (su_data parser) ->
      t <= su_devtime parser < 2 ^ 32 ->
      reefnet_sensusultra_parser_get_datetime localtime parser
      = datetime_result localtime (su_systime parser - (su_devtime parser - t))) /\
  (forall parser : uwatec_memomouse_parser_t,
      let t := array_uint32_le (mm_data parser) 11 in
      11 + 4 <= blob_size (mm_data parser) ->
      t <= mm_devtime parser < 2 ^ 32 ->
      uwatec_memomouse_parser_get_datetime localtime parser
      = datetime_result localtime (mm_systime parser - (mm_devtime parser - t) / 2)) /\
  (forall parser : uwatec_smart_parser_t,
      let t := array_uint32_le (sm_data parser) 8 in
      let tz := h_timezone (sm_header parser) in
      sm_headersize parser <= blob_size (sm_data parser) ->
      t <= sm_devtime parser < 2 ^ 32 ->
      uwatec_smart_parser_get_datetime localtime gmtime parser
      = if tz =? Smart.UNSUPPORTED
        then datetime_result localtime
               (sm_systime parser - (sm_devtime parser - t) / 2)
        else datetime_result gmtime
               (sm_systime parser - (sm_devtime parser - t) / 2
                + s8 (byte_at (sm_data parser) tz) * 900)).
Proof.
  split; [| split; [| split]]; intros parser t.
  - intros Hsize Ht.
    unfold reefnet_sensuspro_parser_get_datetime, reefnet_sensuspro_parser_ticks.
    replace (blob_size (sp_data parser) <? 6 + 4) with false
      by (symmetry; apply Z.ltb_ge; exact Hsize).
    fold t. pose proof (array_uint32_le_range (sp_data parser) 6).
    rewrite u32_small by (fold t in H; lia). reflexivity.
  - intros Hsize Ht.
    unfold reefnet_sensusultra_parser_get_datetime, reefnet_sensusultra_parser_ticks.
    replace (blob_size (su_data parser) <? 4 + 4) with false
      by (symmetry; apply Z.ltb_ge; exact Hsize).
    fold t. pose proof (array_uint32_le_range (su_data parser) 4).
    rewrite u32_small by (fold t in H; lia). reflexivity.
  - intros Hsize Ht.
    unfold uwatec_memomouse_parser_get_datetime, uwatec_memomouse_parser_ticks.
    replace (blob_size (mm_data parser) <? 11 + 4) with false
      by (symmetry; apply Z.ltb_ge; exact Hsize).
    fold t. pose proof (array_uint32_le_range (mm_data parser) 11).
    rewrite u32_small by (fold t in H; lia). reflexivity.
  - intros tz Hsize Ht.
    unfold uwatec_smart_parser_get_datetime, uwatec_smart_parser_ticks.
    replace (blob_size (sm_data parser) <? sm_headersize parser) with false
      by (symmetry; apply Z.ltb_ge; exact Hsize).
    fold t tz. pose proof (array_uint32_le_range (sm_data parser) 8).
    rewrite u32_small by (fold t in H; lia).
    destruct (tz =? Smart.UNSUPPORTED); reflexivity.
Qed.

Lemma clock_skew_conversion_witness :
  reefnet_sensuspro_parser_get_datetime ticks_as_seconds sensuspro_example
  = datetime_result ticks_as_seconds (1000 - (100 - 40)) /\
  reefnet_sensusultra_parser_get_datetime ticks_as_seconds sensusultra_example
  = datetime_result ticks_as_seconds (1000 - (100 - 40)) /\
  uwatec_memomouse_parser_get_datetime ticks_as_seconds memomouse_example
  = datetime_result ticks_as_seconds (1000 - (100 - 40) / 2) /\
  uwatec_smart_parser_get_datetime ticks_as_seconds ticks_as_seconds smart_galileo_example
  = datetime_result ticks_as_seconds (1000 - (100 - 40) / 2 + 4 * 900).
Proof.
  destruct (clock_skew_conversion ticks_as_seconds ticks_as_seconds)
    as [Hpro [Hultra [Hmm Hsmart]]].
  split; [| split; [| split]].
  - apply (Hpro sensuspro_example); by_evaluation || (split; by_evaluation).
  - apply (Hultra sensusultra_example); by_evaluation || (split; by_evaluation).
  - apply (Hmm memomouse_example); by_evaluation || (split; by_evaluation).
  - apply (Hsmart smart_galileo_example); by_evaluation || (split; by_evaluation).
Defined.

(** C2, as the specification states it, fails for the Uwatec Smart parser.  A
    Smart Pro parser created with devtime 100 and systime 1000, on a record
    stamped 0, converts 1000 - (100 - 0) / 2 = 950: the delta is halved, as
    in the Memomouse parser; the unhalved value would be 900. *)
Lemma uwatec_smart_halves_counterexample :
  option_map (fun p => snd (uwatec_smart_parser_set_data p (sm_data smart_pro_example)))
             (uwatec_smart_parser_create Smart.SMARTPRO 100 1000)
  = Some smart_pro_example /\
  array_uint32_le (sm_data smart_pro_example) 8 = 0 /\
  uwatec_smart_parser_get_datetime ticks_as_seconds ticks_as_seconds smart_pro_example
  = (DC_STATUS_SUCCESS, Some (mk_datetime 1970 1 1 0 0 950)) /\
  sm_systime smart_pro_example
  - (sm_devtime smart_pro_example - array_uint32_le (sm_data smart_pro_example) 8) = 900.
Proof.
  repeat split; vm_compute; reflexivity.
Qed.

(** ** Uwatec Smart type identification *)

Lemma uwatec_smart_mask_test (b : byte) (j : Z) :
  0 <= j <= 7 ->
  (Z.land (u8 b) (Z.shiftl 1 (Smart.NBITS - 1 - j) mod 2 ^ 8) =? 0)
  = negb (Z.testbit (u8 b) (7 - j)).
Proof.
  intro Hj.
  assert (Hcases : j = 0 \/ j = 1 \/ j = 2 \/ j = 3 \/ j = 4 \/ j = 5 \/ j = 6 \/ j = 7)
    by lia.
  destruct Hcases as [-> | [-> | [-> | [-> | [-> | [-> | [-> | ->]]]]]]];
    destruct b; reflexivity.
Qed.

Lemma leading_ones_nonneg (bits : list bool) : 0 <= leading_ones bits.
Proof.
  induction bits as [| [|] bits IH]; cbn [leading_ones]; lia.
Qed.

Lemma leading_ones_app (a b : list bool) :
  leading_ones (a ++ b)
  = if forallb (fun x => x) a then Z.of_nat (length a) + leading_ones b
    else leading_ones a.
Proof.
  induction a as [| [|] a IH]; [reflexivity | | reflexivity].
  cbn [app leading_ones forallb andb length]. rewrite IH.
  destruct (forallb (fun x => x) a); lia.
Qed.

(** The inner loop against the bits it reads. *)
Lemma uwatec_smart_identify_bits_spec (b : byte) :
  forall (n : nat) (j count : Z),
    0 <= j -> j + Z.of_nat n = 8 ->
    0 <= count -> count + Z.of_nat n < 2 ^ 32 ->
    uwatec_smart_identify_bits n j (u8 b) count
    = if forallb (fun x => x) (byte_bits_from n j (u8 b))
      then inr (count + Z.of_nat n)
      else inl (count + leading_ones (byte_bits_from n j (u8 b))).
Proof.
  induction n as [| n IH]; intros j count Hj Hn Hc Hlim.
  - cbn. f_equal. lia.
  - cbn [uwatec_smart_identify_bits byte_bits_from forallb leading_ones].
    rewrite uwatec_smart_mask_test by lia.
    destruct (Z.testbit (u8 b) (7 - j)); cbn [negb andb].
    + rewrite u32_small by lia. rewrite IH by lia.
      destruct (forallb (fun x => x) (byte_bits_from n (j + 1) (u8 b)));
        f_equal; lia.
    + f_equal. lia.
Qed.

Lemma byte_bits_length (b : byte) : length (byte_bits b) = 8%nat.
Proof.
  reflexivity.
Qed.

(** The outer loop against the bits of the whole array. *)
Lemma uwatec_smart_identify_from_spec (data : list byte) :
  forall count : Z,
    0 <= count -> count + 8 * Z.of_nat (length data) < 2 ^ 32 ->
    uwatec_smart_identify_from data count
    = if forallb (fun x => x) (stream_bits data) then u32 (-1)
      else count + leading_ones (stream_bits data).
Proof.
  induction data as [| b data IH]; intros count Hc Hlim; [reflexivity |].
  cbn [uwatec_smart_identify_from stream_bits flat_map].
  change (Z.to_nat Smart.NBITS) with 8%nat.
  cbn [length] in Hlim.
  rewrite (uwatec_smart_identify_bits_spec b 8 0 count) by lia.
  fold (byte_bits b). fold (stream_bits data).
  rewrite forallb_app, leading_ones_app.
  destruct (forallb (fun x => x) (byte_bits b)); cbn [andb]; [| reflexivity].
  rewrite IH by lia. rewrite byte_bits_length.
  destruct (forallb (fun x => x) (stream_bits data)); [reflexivity | lia].
Qed.

Lemma uwatec_smart_identify_type0 (b : byte) (rest : list byte) :
  u8 b < 0x80 -> uwatec_smart_identify (b :: rest) = 0.
Proof.
  intro H. destruct b; try reflexivity; exfalso; revert H; by_evaluation.
Qed.

Lemma uwatec_smart_identify_type1 (b : byte) (rest : list byte) :
  0x80 <= u8 b < 0xC0 -> uwatec_smart_identify (b :: rest) = 1.
Proof.
  intros [H1 H2]. destruct b; try reflexivity; exfalso;
    first [apply H1; reflexivity | revert H2; by_evaluation].
Qed.

(** C7, as the code has it.  The Smart identifier returns the count of
    leading 1-bits of its input bytes, running on into further bytes while
    all 8 bits are 1, when a 0-bit ends the run; when every bit of the
    input is 1 (the empty input included) it returns 0xFFFFFFFF, which is
    no index of a sample table.  Against the Aladin table a first byte
    0b0xxxxxxx selects entry 0 (DEPTH, delta), a first byte 0b10xxxxxx
    entry 1 (TEMPERATURE, delta), and the bytes 0xFF 0x7F entry 8 (ALARMS,
    index 1). *)
Theorem uwatec_smart_identify_leading_ones :
  (forall data : list byte,
      8 * Z.of_nat (length data) < 2 ^ 32 ->
      (existsb negb (stream_bits data) = true ->
       uwatec_smart_identify data = leading_ones (stream_bits data)) /\
      (existsb negb (stream_bits data) = false ->
       uwatec_smart_identify data = 0xFFFFFFFF /\
       uwatec_smart_sample_type (aladin_tec_parser data) 0 = None)) /\
  (forall (data : blob) (offset : Z) (b : byte) (rest : list byte),
      skipn (Z.to_nat offset) data = b :: rest ->
      u8 b < 0x80 ->
      uwatec_smart_sample_type (aladin_tec_parser data) offset
      = Some (0, mk_sample_info DEPTH 0 0 1 0 0)) /\
  (forall (data : blob) (offset : Z) (b : byte) (rest : list byte),
      skipn (Z.to_nat offset) data = b :: rest ->
      0x80 <= u8 b < 0xC0 ->
      uwatec_smart_sample_type (aladin_tec_parser data) offset
      = Some (1, mk_sample_info TEMPERATURE 0 0 2 0 0)) /\
  (forall (data : blob) (offset : Z) (rest : list byte),
      skipn (Z.to_nat offset) data = xff :: x7f :: rest ->
      uwatec_smart_sample_type (aladin_tec_parser data) offset
      = Some (8, mk_sample_info ALARMS 1 1 9 0 0)).
Proof.
  split; [| split; [| split]].
  - intros data Hlen.
    assert (Hid : uwatec_smart_identify data
                  = if forallb (fun x => x) (stream_bits data) then u32 (-1)
                    else 0 + leading_ones (stream_bits data))
      by (unfold uwatec_smart_identify; apply uwatec_smart_identify_from_spec; lia).
    split; intro Hzero.
    + rewrite Hid.
      replace (forallb (fun x => x) (stream_bits data)) with false; [lia |].
      symmetry. apply not_true_is_false. intro Hall.
      rewrite forallb_forall in Hall.
      apply existsb_exists in Hzero. destruct Hzero as [x [Hin Hx]].
      rewrite (Hall x Hin) in Hx. discriminate Hx.
    + assert (Hall : forallb (fun x => x) (stream_bits data) = true).
      { apply forallb_forall. intros x Hin. destruct x; [reflexivity |].
        assert (Hex : existsb negb (stream_bits data) = true)
          by (apply existsb_exists; exists false; split; [exact Hin | reflexivity]).
        rewrite Hex in Hzero. discriminate Hzero. }
      rewrite Hall in Hid. split; [exact Hid |].
      unfold uwatec_smart_sample_type, aladin_tec_parser.
      cbn [sm_model sm_data sm_samples]. change (model_in Smart.ALADINTEC _) with false.
      cbv iota. change (Z.to_nat 0) with 0%nat. cbn [skipn]. rewrite Hid. reflexivity.
  - intros data offset b rest Hskip Hb.
    unfold uwatec_smart_sample_type, aladin_tec_parser.
    cbn [sm_model sm_data sm_samples]. change (model_in Smart.ALADINTEC _) with false.
    cbv iota. rewrite Hskip, (uwatec_smart_identify_type0 b rest Hb). reflexivity.
  - intros data offset b rest Hskip Hb.
    unfold uwatec_smart_sample_type, aladin_tec_parser.
    cbn [sm_model sm_data sm_samples]. change (model_in Smart.ALADINTEC _) with false.
    cbv iota. rewrite Hskip, (uwatec_smart_identify_type1 b rest Hb). reflexivity.
  - intros data offset rest Hskip.
    unfold uwatec_smart_sample_type, aladin_tec_parser.
    cbn [sm_model sm_data sm_samples]. change (model_in Smart.ALADINTEC _) with false.
    cbv iota. rewrite Hskip. reflexivity.
Qed.

Lemma uwatec_smart_identify_leading_ones_witness :
  uwatec_smart_identify (bytes_of [0xFF; 0xF7; 0x00])
  = leading_ones (stream_bits (bytes_of [0xFF; 0xF7; 0x00])) /\
  uwatec_smart_identify (bytes_of [0xFF; 0xFF]) = 0xFFFFFFFF /\
  uwatec_smart_sample_type (aladin_tec_parser (bytes_of [0x00; 0x35])) 1
  = Some (0, mk_sample_info DEPTH 0 0 1 0 0) /\
  uwatec_smart_sample_type (aladin_tec_parser (bytes_of [0x00; 0xA5])) 1
  = Some (1, mk_sample_info TEMPERATURE 0 0 2 0 0) /\
  uwatec_smart_sample_type (aladin_tec_parser (bytes_of [0x00; 0xFF; 0x7F; 0x01])) 1
  = Some (8, mk_sample_info ALARMS 1 1 9 0 0).
Proof.
  destruct uwatec_smart_identify_leading_ones as [Hcount [H0 [H1 H8]]].
  split; [| split; [| split; [| split]]].
  - apply (Hcount (bytes_of [0xFF; 0xF7; 0x00])); by_evaluation.
  - apply (Hcount (bytes_of [0xFF; 0xFF])); by_evaluation.
  - apply (H0 _ 1 (byte_of_Z 0x35) []); by_evaluation.
  - apply (H1 _ 1 (byte_of_Z 0xA5) []); by_evaluation || (split; by_evaluation).
  - apply (H8 _ 1 [x01]); by_evaluation.
Defined.

(** C7, as the specification states it, fails on an input of 1-bits only.  The
    single byte 0xFF has eight leading 1-bits, but the identifier returns
    0xFFFFFFFF for it, and the type lookup of the sample loop finds no
    table entry. *)
Lemma uwatec_smart_identify_all_ones_counterexample :
  leading_ones (stream_bits [xff]) = 8 /\
  uwatec_smart_identify [xff] = 0xFFFFFFFF /\
  uwatec_smart_identify [xff] <> leading_ones (stream_bits [xff]) /\
  uwatec_smart_sample_type (aladin_tec_parser [xff]) 0 = None.
Proof.
  split; [reflexivity | split; [reflexivity | split; [| reflexivity]]].
  vm_compute. discriminate.
Qed.

(** ** Oceanic Atom2 surface interval *)

(** C8. With a sample interval of 30 s, a surface interval sample (0xBB)
    whose BCD fields give a surface time of 90 inserts 90 / 30 = 3
    zero-depth samples.  When the sample opens a new sample time (the
    usual case, [a_complete]), their times are the running time +30, +60
    and +90; when a tank switch left a sample time open, the first
    zero-depth sample completes that one and the others follow 30 s and
    60 s later.  On the example record the whole call emits the times 30,
    60 and 90. *)
Theorem atom2_surface_interval_90s (PSI BAR : float) :
  (forall (model : Z) (data : blob) (s : atom2_setup) (offset : Z) (l : atom2_locals),
      st_mode s <> FREEDIVE ->
      st_interval s = 30 ->
      byte_at data offset = 0xBB ->
      60 * bcd2dec (byte_at data (offset + 1)) + bcd2dec (byte_at data (offset + 2)) = 90 ->
      0 <= offset ->
      offset + PAGESIZE <= blob_size data - PAGESIZE ->
      blob_size data < 2 ^ 32 ->
      0 <= a_time l -> a_time l + 90 < 2 ^ 32 ->
      let vendor :=
        DC_SAMPLE_VENDOR SAMPLE_VENDOR_OCEANIC_ATOM2 PAGESIZE
          (blob_slice data offset PAGESIZE) in
      atom2_sample PSI BAR model data s offset l
      = if a_complete l then
          (None,
           [DC_SAMPLE_TIME (a_time l + 30); vendor;
            DC_SAMPLE_DEPTH 0.0%float;
            DC_SAMPLE_TIME (a_time l + 60); DC_SAMPLE_DEPTH 0.0%float;
            DC_SAMPLE_TIME (a_time l + 90); DC_SAMPLE_DEPTH 0.0%float],
           mk_atom2_locals (a_time l + 90) (a_temperature l) (a_tank l) (a_pressure l) true,
           PAGESIZE)
        else
          (None,
           [vendor;
            DC_SAMPLE_DEPTH 0.0%float;
            DC_SAMPLE_TIME (a_time l + 30); DC_SAMPLE_DEPTH 0.0%float;
            DC_SAMPLE_TIME (a_time l + 60); DC_SAMPLE_DEPTH 0.0%float],
           mk_atom2_locals (a_time l + 60) (a_temperature l) (a_tank l) (a_pressure l) true,
           PAGESIZE)) /\
  oceanic_atom2_parser_samples_foreach PSI BAR atom2_surface_example
  = Some (DC_STATUS_SUCCESS,
          [DC_SAMPLE_TIME 30;
           DC_SAMPLE_VENDOR SAMPLE_VENDOR_OCEANIC_ATOM2 16
             ([0xBB; 0x01; 0x30] ++ repeat 0 13);
           DC_SAMPLE_DEPTH 0.0%float;
           DC_SAMPLE_TIME 60; DC_SAMPLE_DEPTH 0.0%float;
           DC_SAMPLE_TIME 90; DC_SAMPLE_DEPTH 0.0%float]).
Proof.
  split; [| vm_compute; reflexivity].
  intros model data s offset l Hmode Hint Htype Hsurf Hoff Hroom Hsize Ht0 Ht vendor.
  unfold atom2_sample. rewrite Z.add_0_r, Htype, Hint, Hsurf.
  replace (st_mode s =? FREEDIVE) with false by (symmetry; apply Z.eqb_neq; exact Hmode).
  change (0xBB =? 0xBB) with true. change (0xBB =? 0xAA) with false.
  cbv iota. cbn [andb].
  unfold PAGESIZE in *.
  rewrite (u32_small (offset + 16)), (u32_small (blob_size data - 16)) by lia.
  replace (offset + 16 >? blob_size data - 16) with false
    by (symmetry; rewrite Z.gtb_ltb; apply Z.ltb_ge; lia).
  change (u32 90) with 90. change (Z.to_nat (90 / 30)) with 3%nat.
  destruct (a_complete l); cbn [atom2_surface app];
    rewrite ?(u32_small (a_time l + 30)) by lia;
    rewrite ?(u32_small (a_time l + 30 + 30)) by lia;
    rewrite ?(u32_small (a_time l + 30 + 30 + 30)) by lia;
    replace (a_time l + 30 + 30) with (a_time l + 60) by lia;
    replace (a_time l + 60 + 30) with (a_time l + 90) by lia;
    reflexivity.
Qed.

Lemma atom2_surface_interval_90s_witness :
  atom2_sample 6894.757%float 100000.0%float ATOM2 (a2_data atom2_surface_example)
    (mk_atom2_setup NORMAL 30 8 true true) 72 (mk_atom2_locals 0 0 0 0 true)
  = (None,
     [DC_SAMPLE_TIME (0 + 30);
      DC_SAMPLE_VENDOR SAMPLE_VENDOR_OCEANIC_ATOM2 PAGESIZE
        (blob_slice (a2_data atom2_surface_example) 72 PAGESIZE);
      DC_SAMPLE_DEPTH 0.0%float;
      DC_SAMPLE_TIME (0 + 60); DC_SAMPLE_DEPTH 0.0%float;
      DC_SAMPLE_TIME (0 + 90); DC_SAMPLE_DEPTH 0.0%float],
     mk_atom2_locals (0 + 90) 0 0 0 true, PAGESIZE).
Proof.
  apply (proj1 (atom2_surface_interval_90s 6894.757%float 100000.0%float)
               ATOM2 (a2_data atom2_surface_example)
               (mk_atom2_setup NORMAL 30 8 true true) 72 (mk_atom2_locals 0 0 0 0 true));
    by_evaluation.
Defined.

(** ** Suunto Common2 ring buffer traversal *)

Section SuuntoCommon2Properties.

Variable world : Type.
Variable packet :
  option (world -> list byte -> Z -> Z -> world * dc_status_t * list byte).
Variable userdata : Type.
Variable callback :
  option (userdata -> list byte -> list byte -> userdata * bool).

Lemma trace_extends_refl (t : list foreach_event) : trace_extends t t.
Proof.
  exists []. symmetry. apply app_nil_r.
Qed.

Lemma trace_extends_app (t more : list foreach_event) : trace_extends t (t ++ more).
Proof.
  exists more. reflexivity.
Qed.

Lemma trace_extends_trans (a b c : list foreach_event) :
  trace_extends a b -> trace_extends b c -> trace_extends a c.
Proof.
  intros [x ->] [y ->]. exists (x ++ y). symmetry. apply app_assoc.
Qed.

(** Reading the packets of a dive leaves the delayed status alone. *)
Lemma common2_read_packets_keeps (l : suunto_common2_layout_t) (size : Z) :
  forall (fuel : nat) (s : foreach_state world userdata) (nbytes : Z) r,
    common2_read_packets packet fuel l s size nbytes = Some r ->
    match r with
    | inl (_, s') => trace_extends (fs_trace s) (fs_trace s')
    | inr (s', _) =>
        trace_extends (fs_trace s) (fs_trace s') /\ fs_status s' = fs_status s
    end.
Proof.
  induction fuel as [| fuel IH]; intros s nbytes r H; cbn [common2_read_packets] in H;
    destruct (nbytes <? size); try discriminate;
    try (injection H as <-; split; [apply trace_extends_refl | reflexivity]).
  match type of H with
  | match ?rd with _ => _ end = _ => destruct rd as [[[w rc] bytes] |]; [| discriminate]
  end.
  destruct (negb (dc_status_eqb rc DC_STATUS_SUCCESS)).
  - injection H as <-. cbn [fs_trace]. apply trace_extends_app.
  - apply IH in H. cbn [fs_trace fs_status] in H.
    destruct r as [[rc' s'] | [s' n]].
    + eapply trace_extends_trans; [apply trace_extends_app | exact H].
    + destruct H as [Ht Hs]. split; [| exact Hs].
      eapply trace_extends_trans; [apply trace_extends_app | exact Ht].
Qed.

(** The checks after the packets: a delayed DATAFORMAT survives an
    iteration that reaches its end. *)
Lemma common2_check_dive_keeps (dev : suunto_common2_device_t)
  (s : foreach_state world userdata) (size nbytes : Z) e s' :
  common2_check_dive callback dev s size nbytes = (e, s') ->
  trace_extends (fs_trace s) (fs_trace s') /\
  (e = EXIT_DONE -> fs_status s = DC_STATUS_DATAFORMAT ->
   fs_status s' = DC_STATUS_DATAFORMAT).
Proof.
  unfold common2_check_dive. cbn [fs_previous fs_current fs_data fs_offset fs_user fs_trace
                                  fs_status fs_log].
  repeat match goal with
         | |- context [if ?c then _ else _] => destruct c
         | |- context [match callback with _ => _ end] => destruct callback
         | |- context [let '(_, _) := ?x in _] => destruct x
         end;
    intro H; injection H as <- <-; cbn [fs_trace fs_status];
    (split; [first [apply trace_extends_refl | apply trace_extends_app] |]);
    intros He Hs; first [discriminate He | exact Hs | reflexivity].
Qed.

Lemma common2_dive_keeps (dev : suunto_common2_device_t)
  (s : foreach_state world userdata) e s' :
  common2_dive packet callback dev s = Some (e, s') ->
  trace_extends (fs_trace s) (fs_trace s') /\
  (e = EXIT_DONE -> fs_status s = DC_STATUS_DATAFORMAT ->
   fs_status s' = DC_STATUS_DATAFORMAT).
Proof.
  unfold common2_dive.
  destruct (_ || _).
  { intro H; injection H as <- <-. cbn [fs_log fs_trace].
    split; [apply trace_extends_app | intro He; discriminate He]. }
  destruct (common2_read_packets _ _ _ _ _ _) as [[[rc s1] | [s1 n]] |] eqn:Eread;
    [| | discriminate].
  - intro H; injection H as <- <-.
    split; [exact (common2_read_packets_keeps _ _ _ _ _ _ Eread) |
            intro He; discriminate He].
  - intro H; injection H as H.
    destruct (common2_read_packets_keeps _ _ _ _ _ _ Eread) as [Ht Hs].
    destruct (common2_check_dive_keeps _ _ _ _ _ _ H) as [Ht' Hs'].
    split; [eapply trace_extends_trans; eassumption |].
    intros He Hst. apply Hs'; [exact He | rewrite Hs; exact Hst].
Qed.

Lemma common2_dives_loop_keeps (dev : suunto_common2_device_t) :
  forall (fuel : nat) (s : foreach_state world userdata) e s',
    common2_dives_loop packet callback fuel dev s = Some (e, s') ->
    trace_extends (fs_trace s) (fs_trace s') /\
    (e = EXIT_DONE -> fs_status s = DC_STATUS_DATAFORMAT ->
     fs_status s' = DC_STATUS_DATAFORMAT).
Proof.
  induction fuel as [| fuel IH]; intros s e s' H; cbn [common2_dives_loop] in H;
    destruct (fs_remaining s =? 0); try discriminate;
    try (injection H as <- <-; split; [apply trace_extends_refl | intros _ Hs; exact Hs]).
  destruct (common2_dive packet callback dev s) as [[[| rc] s1] |] eqn:Edive;
    [| | discriminate].
  - destruct (common2_dive_keeps _ _ _ _ Edive) as [Ht Hs].
    destruct (IH _ _ _ H) as [Ht' Hs'].
    split; [eapply trace_extends_trans; eassumption |].
    intros He Hst. apply Hs'; [exact He | apply Hs; [reflexivity | exact Hst]].
  - injection H as <- <-.
    destruct (common2_dive_keeps _ _ _ _ Edive) as [Ht _].
    split; [exact Ht | intro He; discriminate He].
Qed.

(** The pointer check on a dive whose next pointer is not the start of
    the dive traversed before it: the dive is skipped when next is its own
    start, and the iteration returns DATAFORMAT when next is neither. *)
Lemma common2_check_dive_discontinuous (dev : suunto_common2_device_t)
  (s : foreach_state world userdata) (size nbytes : Z) :
  let l := layout dev in
  let p := fs_offset s + u32 (nbytes - size) in
  let prev := array_uint16_le (fs_data s) (p + 0) in
  let next := array_uint16_le (fs_data s) (p + 2) in
  rb_profile_begin l <= prev < rb_profile_end l ->
  rb_profile_begin l <= next < rb_profile_end l ->
  next <> fs_previous s ->
  (next = fs_current s ->
   exists s',
     common2_check_dive callback dev s size nbytes = (EXIT_DONE, s') /\
     fs_status s' = DC_STATUS_DATAFORMAT /\
     fs_trace s' = fs_trace s ++ [EV_ERROR MSG_SKIPPING_INCOMPLETE_DIVE] /\
     fs_user s' = fs_user s /\
     fs_previous s' = fs_current s /\
     fs_current s' = prev /\
     fs_remaining s' = u32 (fs_remaining s - size)) /\
  (next <> fs_current s ->
   exists s',
     common2_check_dive callback dev s size nbytes
     = (EXIT_RETURN DC_STATUS_DATAFORMAT, s') /\
     fs_trace s' = fs_trace s ++ [EV_ERROR MSG_PROFILES_ARE_NOT_CONTINUOUS] /\
     fs_user s' = fs_user s /\
     fs_world s' = fs_world s).
Proof.
  intros l p prev next Hprev Hnext Hne.
  assert (Hrange :
            (prev <? rb_profile_begin l) || (prev >=? rb_profile_end l) ||
            (next <? rb_profile_begin l) || (next >=? rb_profile_end l) = false).
  { repeat (apply orb_false_intro);
      first [apply Z.ltb_ge; lia | rewrite Z.geb_leb; apply Z.leb_gt; lia]. }
  assert (Hp : (next =? fs_previous s) = false) by (apply Z.eqb_neq; exact Hne).
  split; intro Hc.
  - assert (Hcur : (next =? fs_current s) = true) by (apply Z.eqb_eq; exact Hc).
    unfold common2_check_dive.
    cbn [fs_previous fs_current fs_data fs_offset fs_user fs_trace fs_status fs_log
         fs_remaining].
    fold l p prev next. rewrite Hrange, Hp, Hcur. cbn [negb andb].
    eexists. split; [reflexivity |]. cbn [fs_status fs_trace fs_user fs_previous
                                          fs_current fs_remaining].
    repeat split; reflexivity.
  - assert (Hcur : (next =? fs_current s) = false) by (apply Z.eqb_neq; exact Hc).
    unfold common2_check_dive.
    cbn [fs_previous fs_current fs_data fs_offset fs_user fs_trace fs_status fs_log
         fs_remaining].
    fold l p prev next. rewrite Hrange, Hp, Hcur. cbn [negb andb].
    eexists. split; [reflexivity |]. cbn [fs_trace fs_user fs_world].
    repeat split; reflexivity.
Qed.

End SuuntoCommon2Properties.

(** The whole enumeration on the simulated device when the newest dive
    stores its own start as next pointer: it is skipped, the older dive
    reaches the callback, and the call returns the delayed DATAFORMAT. *)
Example common2_skipped_dive_run :
  suunto_common2_device_foreach (Some (sim_packet (sim_memory 0xA6 0x01)))
    (Some count_dives) sim_device tt 0%nat
  = Some (DC_STATUS_DATAFORMAT,
          [EV_PROGRESS 0 80; EV_VENDOR (bytes_of [0x0E; 1; 2; 3]);
           EV_PROGRESS 8 80; EV_DEVINFO 14 66051 1020304;
           EV_PROGRESS 16 40; EV_PROGRESS 40 40;
           EV_ERROR MSG_SKIPPING_INCOMPLETE_DIVE;
           EV_DIVE (bytes_of [0xA1; 0xA2; 0xA3; 0xA4; 0xA5; 0xA6; 0xA7; 0xA8])
                   (bytes_of [0xA1; 0xA2])],
          1%nat, tt).
Proof.
  vm_compute. reflexivity.
Qed.

(** C3, as the specification states it, fails.  On the simulated device the newest
    dive stores the next pointer 0x019A, which is not the address 0x01B2
    traversed before it (nor its own start 0x01A6).  The enumeration does
    not skip it and go on: it returns DATAFORMAT at once, and the older
    dive never reaches the callback, although it is well formed, as the
    second run shows, where only that next pointer is 0x01B2. *)
Lemma common2_discontinuous_dive_counterexample :
  array_uint16_le (sim_memory 0x9A 0x01) (0x01A6 + 2) = 0x019A /\
  suunto_common2_device_foreach (Some (sim_packet (sim_memory 0x9A 0x01)))
    (Some count_dives) sim_device tt 0%nat
  = Some (DC_STATUS_DATAFORMAT,
          [EV_PROGRESS 0 80; EV_VENDOR (bytes_of [0x0E; 1; 2; 3]);
           EV_PROGRESS 8 80; EV_DEVINFO 14 66051 1020304;
           EV_PROGRESS 16 40; EV_PROGRESS 40 40;
           EV_ERROR MSG_PROFILES_ARE_NOT_CONTINUOUS],
          0%nat, tt) /\
  suunto_common2_device_foreach (Some (sim_packet (sim_memory 0xB2 0x01)))
    (Some count_dives) sim_device tt 0%nat
  = Some (DC_STATUS_SUCCESS,
          [EV_PROGRESS 0 80; EV_VENDOR (bytes_of [0x0E; 1; 2; 3]);
           EV_PROGRESS 8 80; EV_DEVINFO 14 66051 1020304;
           EV_PROGRESS 16 40; EV_PROGRESS 40 40;
           EV_DIVE (bytes_of [0xB1; 0xB2; 0xB3; 0xB4; 0xB5; 0xB6; 0xB7; 0xB8])
                   (bytes_of [0xB1; 0xB2]);
           EV_DIVE (bytes_of [0xA1; 0xA2; 0xA3; 0xA4; 0xA5; 0xA6; 0xA7; 0xA8])
                   (bytes_of [0xA1; 0xA2])],
          2%nat, tt).
Proof.
  repeat split; vm_compute; reflexivity.
Qed.

(** ** The example parsers are parsers as the library creates them *)

Example aladin_tec_parser_created (data : blob) :
  option_map (fun p => snd (uwatec_smart_parser_set_data p data))
             (uwatec_smart_parser_create Smart.ALADINTEC 0 0)
  = Some (aladin_tec_parser data).
Proof.
  reflexivity.
Qed.

Example memomouse_example_created :
  uwatec_memomouse_parser_create 100 1000
  = {| mm_data := []; mm_devtime := mm_devtime memomouse_example;
       mm_systime := mm_systime memomouse_example |}.
Proof.
  reflexivity.
Qed.

(** The Shearwater parser, too, reads DIVETIME from a field of its own (the
    footer, in minutes): on the Petrel example the field is 0 while the
    sample loop counts 10 s. *)
Example shearwater_divetime_from_footer :
  fst (shearwater_predator_parser_get_field petrel_imperial_example DC_FIELD_DIVETIME 0)
  = (DC_STATUS_SUCCESS, Some (SW_value (FV_uint 0))) /\
  option_map (fun r => sample_times (snd r))
             (shearwater_predator_parser_samples_foreach petrel_imperial_example)
  = Some [10].
Proof.
  split; vm_compute; reflexivity.
Qed.

(** * Further properties of the embedded code *)

(** Linear arithmetic with divisions by constants. *)
Ltac div_lia := Z.to_euclidean_division_equations; lia.

Lemma map_indices_S (A : Type) (f : Z -> A) (n : nat) :
  map f (indices (S n)) = f 0 :: map (fun k => f (k + 1)) (indices n).
Proof.
  unfold indices. cbn [seq map]. f_equal.
  rewrite <- seq_shift, !map_map. apply map_ext. intro k. f_equal. lia.
Qed.

Lemma u32_add_idemp_l (a b : Z) : u32 (u32 a + b) = u32 (a + b).
Proof.
  unfold u32. apply Z.add_mod_idemp_l. lia.
Qed.

Lemma u32_range (a : Z) : 0 <= u32 a < 2 ^ 32.
Proof.
  unfold u32. apply Z.mod_pos_bound. lia.
Qed.

(** ** Cressi Leonardo sample stream *)

Lemma cressi_leonardo_samples_loop_eq (fuel : nat) (data : blob) (time offset : Z) :
  cressi_leonardo_samples_loop fuel data time offset
  = if u32 (offset + 2) <=? blob_size data then
      match fuel with
      | O => None
      | S fuel' =>
          let value := array_uint16_le data offset in
          let depth := Z.land value 0x07FF in
          let ascent := Z.shiftr (Z.land value 0xC000) 14 in
          let out :=
            [DC_SAMPLE_TIME (u32 (time + 20));
             DC_SAMPLE_DEPTH (double_of_uint depth / 10.0)%float] ++
            (if ascent =? 0 then []
             else [DC_SAMPLE_EVENT SAMPLE_EVENT_ASCENT 0 0 ascent]) in
          match cressi_leonardo_samples_loop fuel' data (u32 (time + 20))
                  (u32 (offset + 2)) with
          | Some (st, rest) => Some (st, out ++ rest)
          | None => None
          end
      end
    else Some (DC_STATUS_SUCCESS, []).
Proof.
  destruct fuel; reflexivity.
Qed.

Lemma cressi_leonardo_samples_loop_times (data : blob) :
  blob_size data < 2 ^ 32 - 2 ->
  forall (m fuel : nat) (time offset : Z),
    (m <= fuel)%nat -> 0 <= offset < 2 ^ 32 - 2 ->
    (m = 0%nat \/ offset + 2 * Z.of_nat m <= blob_size data) ->
    blob_size data < offset + 2 * Z.of_nat m + 2 ->
    exists out,
      cressi_leonardo_samples_loop fuel data time offset = Some (DC_STATUS_SUCCESS, out) /\
      sample_times out = map (fun k => u32 (time + 20 * (k + 1))) (indices m).
Proof.
  intros Hsz. induction m as [| m IH]; intros fuel time offset Hfuel Hoff Hlow Hup;
    rewrite cressi_leonardo_samples_loop_eq.
  - replace (u32 (offset + 2) <=? blob_size data) with false.
    + exists []. split; reflexivity.
    + symmetry. apply Z.leb_gt. rewrite u32_small by lia. lia.
  - destruct Hlow as [Hlow | Hlow]; [discriminate |].
    replace (u32 (offset + 2) <=? blob_size data) with true
      by (symmetry; apply Z.leb_le; rewrite u32_small by lia; lia).
    destruct fuel as [| fuel]; [lia |].
    rewrite (u32_small (offset + 2)) by lia.
    destruct (IH fuel (u32 (time + 20)) (offset + 2)) as [rest [Hrest Htimes]];
      [lia | lia | | lia |].
    { destruct m; [left; reflexivity | right; lia]. }
    cbv zeta. rewrite Hrest. eexists. split; [reflexivity |].
    rewrite !sample_times_app, Htimes, map_indices_S.
    replace (sample_times
               (if Z.shiftr (Z.land (array_uint16_le data offset) 49152) 14 =? 0
                then []
                else [DC_SAMPLE_EVENT SAMPLE_EVENT_ASCENT 0 0
                        (Z.shiftr (Z.land (array_uint16_le data offset) 49152) 14)]))
      with (@nil Z) by (destruct (_ =? 0); reflexivity).
    cbn [sample_times app]. f_equal.
    apply map_ext. intro k. rewrite u32_add_idemp_l. f_equal. lia.
Qed.

(** X1. The Cressi Leonardo sample loop cannot fail: on every blob (below
    4 GiB - 2) samples_foreach returns SUCCESS, and it emits one TIME
    sample per whole 2-byte record after the 82-byte header, 20 s apart
    starting at 20 s (in [unsigned int] arithmetic). *)
Theorem cressi_leonardo_samples_times (data : blob) :
  blob_size data < 2 ^ 32 - 2 ->
  exists out,
    cressi_leonardo_parser_samples_foreach data = Some (DC_STATUS_SUCCESS, out) /\
    sample_times out = map (fun k => u32 (20 * (k + 1))) (indices (cressi_records data)).
Proof.
  intro Hsz. unfold cressi_leonardo_parser_samples_foreach.
  destruct (cressi_leonardo_samples_loop_times data Hsz (cressi_records data)
              (length data) 0 Cressi.SZ_HEADER) as [out [Hout Htimes]].
  - unfold cressi_records, blob_size, Cressi.SZ_HEADER. div_lia.
  - unfold Cressi.SZ_HEADER. lia.
  - unfold cressi_records, Cressi.SZ_HEADER.
    destruct (Z_lt_le_dec (blob_size data) 82) as [Hlt | Hge]; [left | right]; div_lia.
  - unfold cressi_records, Cressi.SZ_HEADER. div_lia.
  - exists out. split; [exact Hout |]. rewrite Htimes.
    apply map_ext. intro k. reflexivity.
Qed.

Lemma cressi_leonardo_samples_times_witness :
  exists out,
    cressi_leonardo_parser_samples_foreach
      (bytes_of (repeat 0 82 ++ [0x64; 0x00; 0x65; 0x40; 0x66; 0x00; 0x01]))
    = Some (DC_STATUS_SUCCESS, out) /\
    sample_times out
    = map (fun k => u32 (20 * (k + 1)))
          (indices (cressi_records
                      (bytes_of (repeat 0 82 ++ [0x64; 0x00; 0x65; 0x40; 0x66; 0x00; 0x01])))).
Proof.
  apply cressi_leonardo_samples_times. by_evaluation.
Defined.

(** ** DiveSystem iDive sample stream and cache *)

Lemma idive_sample_maxdepth (data : blob) (offset : Z) (l l' : idive_locals) out :
  idive_sample data offset l = (None, out, l') ->
  l_maxdepth l' = Z.max (l_maxdepth l) (array_uint16_le data (offset + 6)).
Proof.
  unfold idive_sample.
  assert (Hmax : (if l_maxdepth l <? array_uint16_le data (offset + 6)
                  then array_uint16_le data (offset + 6) else l_maxdepth l)
                 = Z.max (l_maxdepth l) (array_uint16_le data (offset + 6))).
  { destruct (Z.ltb_spec (l_maxdepth l) (array_uint16_le data (offset + 6))); lia. }
  repeat match goal with
         | |- context [if ?c then _ else _] =>
             lazymatch c with
             | (_ <? _) => fail
             | _ => destruct c
             end
         end;
    intro H; try discriminate H; injection H as _ <-; exact Hmax.
Qed.

Lemma idive_samples_loop_sorted (fuel : nat) (data : blob) :
  forall (offset : Z) (l : idive_locals) out l',
    idive_samples_loop fuel data offset l = Some (DC_STATUS_SUCCESS, out, l') ->
    Sorted Z.lt (l_time l :: sample_times out).
Proof.
  induction fuel as [| fuel IH]; intros offset l out l' H;
    rewrite idive_samples_loop_eq in H;
    destruct (u32 (offset + Idive.SZ_SAMPLE) <=? blob_size data);
    try discriminate;
    try (injection H as <- _; repeat constructor).
  destruct (idive_sample_cases data offset l)
    as [[o [m Es]] | [o [m [Es [Hlt [Hm Ht]]]]]]; rewrite Es in H; [discriminate |].
  destruct (idive_samples_loop fuel data (u32 (offset + Idive.SZ_SAMPLE)) m)
    as [[[st rest] l''] |] eqn:Erec; [| discriminate].
  injection H as -> <- _.
  apply IH in Erec. rewrite Hm in Erec.
  rewrite sample_times_app, Ht. cbn [app].
  constructor; [exact Erec | constructor; exact Hlt].
Qed.

(** A successful loop over [m] records: the TIME values are their
    timestamps and the running maximum took in their depths. *)
Lemma idive_samples_loop_records (data : blob) :
  blob_size data < 2 ^ 32 - Idive.SZ_SAMPLE ->
  forall (m fuel : nat) (offset : Z) (l : idive_locals) out l',
    0 <= offset < 2 ^ 32 - Idive.SZ_SAMPLE ->
    (m = 0%nat \/ offset + Idive.SZ_SAMPLE * Z.of_nat m <= blob_size data) ->
    blob_size data < offset + Idive.SZ_SAMPLE * (Z.of_nat m + 1) ->
    idive_samples_loop fuel data offset l = Some (DC_STATUS_SUCCESS, out, l') ->
    sample_times out
    = map (fun k => array_uint32_le data (offset + k * Idive.SZ_SAMPLE + 2)) (indices m) /\
    l_maxdepth l'
    = fold_left Z.max
        (map (fun k => array_uint16_le data (offset + k * Idive.SZ_SAMPLE + 6)) (indices m))
        (l_maxdepth l).
Proof.
  unfold Idive.SZ_SAMPLE. intro Hsz.
  induction m as [| m IH]; intros fuel offset l out l' Hoff Hlow Hup H;
    rewrite idive_samples_loop_eq in H; unfold Idive.SZ_SAMPLE in H;
    rewrite (u32_small (offset + 42)) in H by lia.
  - replace (offset + 42 <=? blob_size data) with false in H
      by (symmetry; apply Z.leb_gt; lia).
    injection H as <- <-. split; reflexivity.
  - destruct Hlow as [Hlow | Hlow]; [discriminate |].
    replace (offset + 42 <=? blob_size data) with true in H
      by (symmetry; apply Z.leb_le; lia).
    destruct fuel as [| fuel]; [discriminate |].
    destruct (idive_sample_cases data offset l)
      as [[o [n Es]] | [o [n [Es [_ [_ Ht]]]]]]; rewrite Es in H; [discriminate |].
    pose proof (idive_sample_maxdepth _ _ _ _ _ Es) as Hmax.
    destruct (idive_samples_loop fuel data (offset + 42) n)
      as [[[st rest] l''] |] eqn:Erec; [| discriminate].
    injection H as -> <- <-.
    destruct (IH fuel (offset + 42) n rest l'') as [Htimes Hdepth];
      [lia | destruct m; [left; reflexivity | right; lia] | lia | exact Erec |].
    rewrite !map_indices_S. split.
    + rewrite sample_times_app, Ht, Htimes. cbn [app]. f_equal.
      * f_equal. lia.
      * apply map_ext. intro k. f_equal. lia.
    + rewrite Hdepth, Hmax. cbn [fold_left]. f_equal.
      * apply map_ext. intro k. f_equal. lia.
      * f_equal. f_equal. lia.
Qed.

Lemma idive_records_bounds (data : blob) :
  (idive_records data = 0%nat \/
   Idive.SZ_HEADER + Idive.SZ_SAMPLE * Z.of_nat (idive_records data) <= blob_size data) /\
  blob_size data < Idive.SZ_HEADER + Idive.SZ_SAMPLE * (Z.of_nat (idive_records data) + 1).
Proof.
  unfold idive_records, Idive.SZ_HEADER, Idive.SZ_SAMPLE.
  pose proof (blob_size_nonneg data).
  split.
  - destruct (Z_lt_le_dec (blob_size data) 50); [left | right]; div_lia.
  - div_lia.
Qed.

Lemma idive_foreach_success (parser parser' : divesystem_idive_parser_t) out :
  divesystem_idive_parser_samples_foreach parser = Some (DC_STATUS_SUCCESS, out, parser') ->
  exists l,
    idive_samples_loop (length (idive_data parser)) (idive_data parser)
      Idive.SZ_HEADER idive_locals_init = Some (DC_STATUS_SUCCESS, out, l) /\
    parser'
    = {| idive_data := idive_data parser;
         idive_cached := true;
         idive_divetime := l_time l;
         idive_maxdepth := l_maxdepth l;
         idive_ngasmixes := l_ngasmixes l;
         idive_oxygen :=
           array_copy_prefix (l_ngasmixes l) (l_oxygen l) (idive_oxygen parser);
         idive_helium :=
           array_copy_prefix (l_ngasmixes l) (l_helium l) (idive_helium parser) |}.
Proof.
  unfold divesystem_idive_parser_samples_foreach.
  destruct (idive_samples_loop _ _ _ _) as [[[st o] l] |]; [| discriminate].
  destruct st; intro H; try discriminate H; try (injection H as Hbad; discriminate Hbad).
  injection H as <- <-. exists l. split; reflexivity.
Qed.

(** X2. When the iDive samples_foreach succeeds, it has emitted one TIME
    sample per whole record, carrying that record's timestamp field, and
    these values are positive and strictly increasing. *)
Theorem idive_sample_times_are_timestamps
  (parser parser' : divesystem_idive_parser_t) (out : list dc_sample) :
  let data := idive_data parser in
  blob_size data < 2 ^ 32 - Idive.SZ_SAMPLE ->
  divesystem_idive_parser_samples_foreach parser = Some (DC_STATUS_SUCCESS, out, parser') ->
  sample_times out = map (idive_timestamp data) (indices (idive_records data)) /\
  Sorted Z.lt (0 :: sample_times out).
Proof.
  intros data Hsz Hrun.
  destruct (idive_foreach_success _ _ _ Hrun) as [l [Hloop _]]. fold data in Hloop.
  destruct (idive_records_bounds data) as [Hlow Hup].
  assert (Hoff : 0 <= Idive.SZ_HEADER < 2 ^ 32 - Idive.SZ_SAMPLE)
    by (unfold Idive.SZ_HEADER, Idive.SZ_SAMPLE; lia).
  split.
  - destruct (idive_samples_loop_records data Hsz _ _ _ _ _ _ Hoff Hlow Hup Hloop)
      as [Htimes _].
    rewrite Htimes. reflexivity.
  - exact (idive_samples_loop_sorted _ _ _ _ _ _ Hloop).
Qed.

Lemma idive_sample_times_are_timestamps_witness :
  sample_times
    [DC_SAMPLE_TIME 10; DC_SAMPLE_DEPTH 0.0%float; DC_SAMPLE_TEMPERATURE 0.0%float;
     DC_SAMPLE_EVENT SAMPLE_EVENT_GASCHANGE2 0 0 21;
     DC_SAMPLE_DECO DC_DECO_NDL 0.0%float 0; DC_SAMPLE_CNS 0.0%float;
     DC_SAMPLE_TIME 20; DC_SAMPLE_DEPTH 0.0%float; DC_SAMPLE_TEMPERATURE 0.0%float;
     DC_SAMPLE_DECO DC_DECO_NDL 0.0%float 0; DC_SAMPLE_CNS 0.0%float]
  = map (idive_timestamp (idive_blob [10; 20])) (indices (idive_records (idive_blob [10; 20]))) /\
  Sorted Z.lt
    (0 :: sample_times
            [DC_SAMPLE_TIME 10; DC_SAMPLE_DEPTH 0.0%float; DC_SAMPLE_TEMPERATURE 0.0%float;
             DC_SAMPLE_EVENT SAMPLE_EVENT_GASCHANGE2 0 0 21;
             DC_SAMPLE_DECO DC_DECO_NDL 0.0%float 0; DC_SAMPLE_CNS 0.0%float;
             DC_SAMPLE_TIME 20; DC_SAMPLE_DEPTH 0.0%float; DC_SAMPLE_TEMPERATURE 0.0%float;
             DC_SAMPLE_DECO DC_DECO_NDL 0.0%float 0; DC_SAMPLE_CNS 0.0%float]).
Proof.
  refine (idive_sample_times_are_timestamps (idive_parser_of (idive_blob [10; 20]))
            {| idive_data := idive_blob [10; 20]; idive_cached := true;
               idive_divetime := 20; idive_maxdepth := 0; idive_ngasmixes := 1;
               idive_oxygen := [21; 0; 0; 0; 0; 0; 0; 0];
               idive_helium := [0; 0; 0; 0; 0; 0; 0; 0] |} _ _ _);
    by_evaluation.
Defined.

Lemma fold_left_max_spec (l : list Z) :
  forall a : Z,
    let r := fold_left Z.max l a in
    (a <= r /\ forall x, In x l -> x <= r) /\ (r = a \/ In r l).
Proof.
  induction l as [| y l IH]; intro a; cbn [fold_left].
  - split; [split; [lia | intros x []] | left; reflexivity].
  - destruct (IH (Z.max a y)) as [[Hle Hall] Hin]. split; [split |].
    + lia.
    + intros x [<- | Hx]; [lia | exact (Hall x Hx)].
    + destruct Hin as [Heq | Hin]; [| right; right; exact Hin].
      rewrite Heq. destruct (Z.max_spec a y) as [[_ ->] | [_ ->]];
        [right; left; reflexivity | left; reflexivity].
Qed.

(** X3. When the iDive samples_foreach succeeds, the cached maximum depth
    bounds the depth field of every whole record and is one of them (0
    when there is no deeper record); on a blob that holds the header,
    get_field(MAXDEPTH) then returns it in metres. *)
Theorem idive_maxdepth_is_maximum
  (parser parser' : divesystem_idive_parser_t) (out : list dc_sample) :
  let data := idive_data parser in
  blob_size data < 2 ^ 32 - Idive.SZ_SAMPLE ->
  Idive.SZ_HEADER <= blob_size data ->
  divesystem_idive_parser_samples_foreach parser = Some (DC_STATUS_SUCCESS, out, parser') ->
  (forall k, In k (indices (idive_records data)) ->
             idive_depth data k <= idive_maxdepth parser') /\
  (idive_maxdepth parser' = 0 \/
   exists k, In k (indices (idive_records data)) /\
             idive_depth data k = idive_maxdepth parser') /\
  divesystem_idive_parser_get_field parser' DC_FIELD_MAXDEPTH 0
  = Some (DC_STATUS_SUCCESS,
          Some (FV_double (double_of_uint (idive_maxdepth parser') / 10.0)%float),
          parser').
Proof.
  intros data Hsz Hhdr Hrun.
  destruct (idive_foreach_success _ _ _ Hrun) as [l [Hloop Hp]]. fold data in Hloop.
  destruct (idive_records_bounds data) as [Hlow Hup].
  assert (Hoff : 0 <= Idive.SZ_HEADER < 2 ^ 32 - Idive.SZ_SAMPLE)
    by (unfold Idive.SZ_HEADER, Idive.SZ_SAMPLE; lia).
  destruct (idive_samples_loop_records data Hsz _ _ _ _ _ _ Hoff Hlow Hup Hloop)
    as [_ Hmax].
  change (l_maxdepth idive_locals_init) with 0 in Hmax.
  assert (Hmd : idive_maxdepth parser' = l_maxdepth l) by (rewrite Hp; reflexivity).
  assert (Hdepths :
            map (fun k => array_uint16_le data
                            (Idive.SZ_HEADER + k * Idive.SZ_SAMPLE + 6))
                (indices (idive_records data))
            = map (idive_depth data) (indices (idive_records data)))
    by reflexivity.
  rewrite Hdepths in Hmax.
  destruct (fold_left_max_spec (map (idive_depth data) (indices (idive_records data))) 0)
    as [[_ Hall] Hin].
  cbv zeta in Hall, Hin. rewrite <- Hmax, <- Hmd in Hall, Hin.
  split; [| split].
  - intros k Hk. apply Hall, in_map, Hk.
  - destruct Hin as [Hz | Hin]; [left; exact Hz | right].
    apply in_map_iff in Hin. destruct Hin as [k [Hk Hin]]. exists k. split; assumption.
  - assert (Hdata : idive_data parser' = data) by (rewrite Hp; reflexivity).
    assert (Hcached : idive_cached parser' = true) by (rewrite Hp; reflexivity).
    unfold divesystem_idive_parser_get_field. rewrite Hdata, Hcached.
    replace (blob_size data <? Idive.SZ_HEADER) with false
      by (symmetry; apply Z.ltb_ge; exact Hhdr).
    reflexivity.
Qed.

Lemma idive_maxdepth_is_maximum_witness :
  (forall k, In k (indices (idive_records idive_mix_example)) ->
             idive_depth idive_mix_example k <= 120) /\
  (120 = 0 \/
   exists k, In k (indices (idive_records idive_mix_example)) /\
             idive_depth idive_mix_example k = 120) /\
  divesystem_idive_parser_get_field
    {| idive_data := idive_mix_example; idive_cached := true;
       idive_divetime := 30; idive_maxdepth := 120; idive_ngasmixes := 2;
       idive_oxygen := [21; 32; 0; 0; 0; 0; 0; 0];
       idive_helium := [0; 0; 0; 0; 0; 0; 0; 0] |} DC_FIELD_MAXDEPTH 0
  = Some (DC_STATUS_SUCCESS,
          Some (FV_double (double_of_uint 120 / 10.0)%float),
          {| idive_data := idive_mix_example; idive_cached := true;
             idive_divetime := 30; idive_maxdepth := 120; idive_ngasmixes := 2;
             idive_oxygen := [21; 32; 0; 0; 0; 0; 0; 0];
             idive_helium := [0; 0; 0; 0; 0; 0; 0; 0] |}).
Proof.
  refine (idive_maxdepth_is_maximum (idive_parser_of idive_mix_example)
            {| idive_data := idive_mix_example; idive_cached := true;
               idive_divetime := 30; idive_maxdepth := 120; idive_ngasmixes := 2;
               idive_oxygen := [21; 32; 0; 0; 0; 0; 0; 0];
               idive_helium := [0; 0; 0; 0; 0; 0; 0; 0] |} _ _ _ _);
    by_evaluation.
Defined.

(** ** Gas mix tables *)

Lemma In_indices (n : nat) (k : Z) : In k (indices n) <-> 0 <= k < Z.of_nat n.
Proof.
  unfold indices. rewrite in_map_iff. split.
  - intros [i [<- Hi]]. apply in_seq in Hi. lia.
  - intro H. exists (Z.to_nat k). split; [lia | apply in_seq; lia].
Qed.

Lemma indices_S_last (n : nat) : indices (S n) = indices n ++ [Z.of_nat n].
Proof.
  unfold indices. rewrite seq_S, map_app. reflexivity.
Qed.

Lemma array_set_nat_length (l : list Z) (v : Z) :
  forall i : nat, length (array_set_nat l i v) = length l.
Proof.
  induction l as [| x l IH]; intros [| i]; cbn [array_set_nat length]; auto.
Qed.

Lemma array_set_nat_same (l : list Z) (v : Z) :
  forall i : nat, (i < length l)%nat -> nth i (array_set_nat l i v) 0 = v.
Proof.
  induction l as [| x l IH]; intros [| i] H; cbn [array_set_nat length nth] in *;
    try lia; try reflexivity; apply IH; lia.
Qed.

Lemma array_set_nat_other (l : list Z) (v : Z) :
  forall i j : nat, i <> j -> nth j (array_set_nat l i v) 0 = nth j l 0.
Proof.
  induction l as [| x l IH]; intros [| i] [| j] H; cbn [array_set_nat nth];
    try reflexivity; try congruence.
  apply IH. congruence.
Qed.

Lemma array_get_set_same (l : list Z) (i v : Z) :
  0 <= i < Z.of_nat (length l) -> array_get (array_set l i v) i = v.
Proof.
  intro H. unfold array_get, array_set. apply array_set_nat_same. lia.
Qed.

Lemma array_get_set_other (l : list Z) (i k v : Z) :
  0 <= i -> 0 <= k -> i <> k -> array_get (array_set l i v) k = array_get l k.
Proof.
  intros Hi Hk H. unfold array_get, array_set. apply array_set_nat_other. lia.
Qed.

Lemma array_get_copy_prefix (n k : Z) (src dst : list Z) :
  0 <= k < n -> n <= Z.of_nat (length src) ->
  array_get (array_copy_prefix n src dst) k = array_get src k.
Proof.
  intros Hk Hn. unfold array_get, array_copy_prefix.
  rewrite app_nth1 by (rewrite length_firstn; lia).
  rewrite nth_firstn.
  replace (Z.to_nat k <? Z.to_nat n)%nat with true
    by (symmetry; apply Nat.ltb_lt; lia).
  reflexivity.
Qed.

Lemma In_gasmix_table (n : Z) (oxygen helium : list Z) (mix : Z * Z) :
  In mix (gasmix_table n oxygen helium) <->
  exists k, 0 <= k < n /\ mix = (array_get oxygen k, array_get helium k).
Proof.
  unfold gasmix_table. rewrite in_map_iff. split.
  - intros [k [<- Hk]]. apply In_indices in Hk. exists k. split; [lia | reflexivity].
  - intros [k [Hk ->]]. exists k. split; [reflexivity | apply In_indices; lia].
Qed.

Lemma gasmix_table_ext (n : Z) (oxygen helium oxygen' helium' : list Z) :
  (forall k, 0 <= k < n ->
             array_get oxygen' k = array_get oxygen k /\
             array_get helium' k = array_get helium k) ->
  gasmix_table n oxygen' helium' = gasmix_table n oxygen helium.
Proof.
  intro H. unfold gasmix_table. apply map_ext_in. intros k Hk.
  apply In_indices in Hk. destruct (H k) as [-> ->]; [lia | reflexivity].
Qed.

Lemma gasmix_table_S (n : Z) (oxygen helium : list Z) :
  0 <= n ->
  gasmix_table (n + 1) oxygen helium
  = gasmix_table n oxygen helium ++ [(array_get oxygen n, array_get helium n)].
Proof.
  intro Hn. unfold gasmix_table.
  replace (Z.to_nat (n + 1)) with (S (Z.to_nat n)) by lia.
  rewrite indices_S_last, map_app. cbn [map]. rewrite Z2Nat.id by lia. reflexivity.
Qed.

Lemma sample_gaschanges_app (a b : list dc_sample) :
  sample_gaschanges (a ++ b) = sample_gaschanges a ++ sample_gaschanges b.
Proof.
  induction a as [| x a IH]; [reflexivity |].
  destruct x as [| | | | [] | | | | | | |]; cbn [app sample_gaschanges];
    rewrite ?IH; reflexivity.
Qed.

(** The search returns the first index at or after [i] that holds the mix,
    or the end of the table. *)
Lemma idive_find_gasmix_spec (oxygen helium : list Z) (o2 he : Z) :
  forall (n : nat) (i : Z),
    let r := idive_find_gasmix n oxygen helium o2 he i in
    i <= r <= i + Z.of_nat n /\
    (forall k, i <= k < r -> (array_get oxygen k, array_get helium k) <> (o2, he)) /\
    (r < i + Z.of_nat n -> array_get oxygen r = o2 /\ array_get helium r = he).
Proof.
  induction n as [| n IH]; intro i; cbn [idive_find_gasmix]; cbv zeta.
  - split; [lia | split; intros; lia].
  - destruct ((o2 =? array_get oxygen i) && (he =? array_get helium i)) eqn:E.
    + apply andb_true_iff in E. destruct E as [E1 E2].
      apply Z.eqb_eq in E1, E2.
      split; [lia | split; [intros; lia | intros _; split; congruence]].
    + specialize (IH (i + 1)). cbv zeta in IH. destruct IH as [Hr [Hnot Hhit]].
      split; [lia | split].
      * intros k Hk. destruct (Z.eq_dec k i) as [-> | Hne]; [| apply Hnot; lia].
        intro Heq. injection Heq as H1 H2.
        rewrite H1, H2, !Z.eqb_refl in E. discriminate E.
      * intro Hlt. apply Hhit. lia.
Qed.

(** One iteration keeps the table well formed, only appends to it, and
    announces a mix exactly when it looked it up or entered it. *)
Lemma idive_sample_gasmixes (data : blob) (offset : Z) (l l' : idive_locals) r out :
  idive_gasmix_table_ok (l_ngasmixes l) (l_oxygen l) (l_helium l) ->
  idive_sample data offset l = (r, out, l') ->
  idive_gasmix_table_ok (l_ngasmixes l') (l_oxygen l') (l_helium l') /\
  incl (idive_locals_table l) (idive_locals_table l') /\
  incl (sample_gaschanges out) (map gaschange_value (idive_locals_table l')) /\
  incl (map gaschange_value (idive_locals_table l'))
       (map gaschange_value (idive_locals_table l) ++ sample_gaschanges out).
Proof.
  intros Hok. unfold idive_sample. cbv zeta.
  set (o2 := byte_at data (offset + 10)). set (he := byte_at data (offset + 11)).
  set (out3 := _ ++ [DC_SAMPLE_CNS _]).
  assert (Hout3 : sample_gaschanges out3 = [])
    by (unfold out3; repeat (destruct (_ =? _)); reflexivity).
  assert (Hsame : forall out0,
             sample_gaschanges out0 = [] ->
             idive_gasmix_table_ok (l_ngasmixes l) (l_oxygen l) (l_helium l) /\
             incl (idive_locals_table l) (idive_locals_table l) /\
             incl (sample_gaschanges out0) (map gaschange_value (idive_locals_table l)) /\
             incl (map gaschange_value (idive_locals_table l))
                  (map gaschange_value (idive_locals_table l) ++ sample_gaschanges out0)).
  { intros out0 ->. split; [exact Hok | split; [apply incl_refl | split]].
    - intros v [].
    - apply incl_appl, incl_refl. }
  destruct (_ <=? l_time l).
  { intro H. injection H as _ <- <-. apply Hsame. reflexivity. }
  destruct (negb _ || negb _).
  2: { intro H. injection H as _ <- <-. unfold idive_locals_table.
       cbn [l_ngasmixes l_oxygen l_helium]. apply Hsame.
       cbn [sample_gaschanges app]. rewrite ?sample_gaschanges_app. exact Hout3. }
  pose proof (idive_find_gasmix_spec (l_oxygen l) (l_helium l) o2 he
                (Z.to_nat (l_ngasmixes l)) 0) as Hfind.
  cbv zeta in Hfind.
  set (i := idive_find_gasmix _ _ _ _ _ _) in *.
  destruct Hok as [Hn [Hlo [Hlh Hnd]]]. unfold Idive.NGASMIXES in *.
  destruct Hfind as [Hi [Hnot Hhit]].
  destruct ((i >=? l_ngasmixes l) && (i >=? 8)) eqn:Efull.
  { intro H. injection H as _ <- <-. unfold idive_locals_table.
    cbn [l_ngasmixes l_oxygen l_helium]. apply Hsame. reflexivity. }
  intro H. injection H as _ <- <-. unfold idive_locals_table.
  cbn [l_ngasmixes l_oxygen l_helium].
  cbn [sample_gaschanges app]. rewrite ?sample_gaschanges_app, Hout3.
  unfold idive_gasmix_table_ok, Idive.NGASMIXES.
  change (Z.lor o2 (Z.shiftl he 16)) with (gaschange_value (o2, he)).
  destruct (i >=? l_ngasmixes l) eqn:Eadd.
  - rewrite Z.geb_leb in Eadd. apply Z.leb_le in Eadd.
    cbn [andb] in Efull. rewrite Z.geb_leb in Efull. apply Z.leb_gt in Efull.
    assert (Hin : i = l_ngasmixes l) by lia.
    assert (Htab : gasmix_table (i + 1) (array_set (l_oxygen l) i o2)
                     (array_set (l_helium l) i he)
                   = gasmix_table (l_ngasmixes l) (l_oxygen l) (l_helium l) ++ [(o2, he)]).
    { rewrite gasmix_table_S by lia.
      rewrite !array_get_set_same by lia. rewrite <- Hin. f_equal.
      apply gasmix_table_ext. intros k Hk.
      rewrite !array_get_set_other by lia. split; reflexivity. }
    rewrite Htab. split; [| split; [| split]].
    + split; [lia | split; [| split]].
      * unfold array_set. rewrite array_set_nat_length. exact Hlo.
      * unfold array_set. rewrite array_set_nat_length. exact Hlh.
      * apply NoDup_app; [exact Hnd | repeat constructor; intros [] |].
        intros mix Hmix [<- | []]. apply In_gasmix_table in Hmix.
        destruct Hmix as [k [Hk Hmix]]. apply (Hnot k); [lia | congruence].
    + apply incl_appl, incl_refl.
    + intros v [<- | []]. apply (in_map gaschange_value _ (o2, he)), in_or_app.
      right. left. reflexivity.
    + rewrite map_app. apply incl_refl.
  - rewrite Z.geb_leb in Eadd. apply Z.leb_gt in Eadd.
    destruct Hhit as [Ho Hh]; [lia |].
    split; [split; [lia | split; [exact Hlo | split; [exact Hlh | exact Hnd]]] |
            split; [apply incl_refl | split]].
    + intros v [<- | []]. apply (in_map gaschange_value _ (o2, he)), In_gasmix_table.
      exists i.
      split; [lia | congruence].
    + apply incl_appl, incl_refl.
Qed.

Lemma idive_samples_loop_gasmixes (fuel : nat) (data : blob) :
  forall (offset : Z) (l l' : idive_locals) st out,
    idive_gasmix_table_ok (l_ngasmixes l) (l_oxygen l) (l_helium l) ->
    idive_samples_loop fuel data offset l = Some (st, out, l') ->
    idive_gasmix_table_ok (l_ngasmixes l') (l_oxygen l') (l_helium l') /\
    incl (idive_locals_table l) (idive_locals_table l') /\
    incl (sample_gaschanges out) (map gaschange_value (idive_locals_table l')) /\
    incl (map gaschange_value (idive_locals_table l'))
         (map gaschange_value (idive_locals_table l) ++ sample_gaschanges out).
Proof.
  induction fuel as [| fuel IH]; intros offset l l' st out Hok H;
    rewrite idive_samples_loop_eq in H;
    destruct (u32 (offset + Idive.SZ_SAMPLE) <=? blob_size data);
    try discriminate;
    try (injection H as _ <- <-;
         split; [exact Hok | split; [apply incl_refl | split;
           [intros v [] | apply incl_appl, incl_refl]]]).
  destruct (idive_sample data offset l) as [[r o] m] eqn:Es.
  pose proof (idive_sample_gasmixes _ _ _ _ _ _ Hok Es) as [Hok1 [Hinc1 [Hev1 Htab1]]].
  destruct r as [st1 |];
    [injection H as _ <- <-;
     split; [exact Hok1 | split; [exact Hinc1 | split; [exact Hev1 | exact Htab1]]] |].
  destruct (idive_samples_loop fuel data (u32 (offset + Idive.SZ_SAMPLE)) m)
    as [[[st2 rest] l''] |] eqn:Erec; [| discriminate].
  injection H as _ <- <-.
  destruct (IH _ _ _ _ _ Hok1 Erec) as [Hok2 [Hinc2 [Hev2 Htab2]]].
  split; [exact Hok2 | split; [| split]].
  - eapply incl_tran; eassumption.
  - rewrite sample_gaschanges_app. apply incl_app; [| exact Hev2].
    eapply incl_tran; [exact Hev1 | apply incl_map, Hinc2].
  - rewrite sample_gaschanges_app, app_assoc.
    eapply incl_tran; [exact Htab2 |].
    apply incl_app; [apply incl_appl, Htab1 | apply incl_appr, incl_refl].
Qed.

(** X4. When the iDive samples_foreach succeeds, the cached gas mix table
    has at most NGASMIXES entries, holds no mix twice, and holds exactly
    the mixes that the GASCHANGE2 events of the run announced (as
    [o2 | he << 16]). *)
Theorem idive_gasmix_table_matches_events
  (parser parser' : divesystem_idive_parser_t) (out : list dc_sample) :
  divesystem_idive_parser_samples_foreach parser = Some (DC_STATUS_SUCCESS, out, parser') ->
  let table :=
    gasmix_table (idive_ngasmixes parser') (idive_oxygen parser') (idive_helium parser') in
  0 <= idive_ngasmixes parser' <= Idive.NGASMIXES /\
  NoDup table /\
  forall v, In v (sample_gaschanges out) <-> In v (map gaschange_value table).
Proof.
  intro Hrun.
  destruct (idive_foreach_success _ _ _ Hrun) as [l [Hloop ->]].
  cbn [idive_ngasmixes idive_oxygen idive_helium].
  assert (Hinit : idive_gasmix_table_ok (l_ngasmixes idive_locals_init)
                    (l_oxygen idive_locals_init) (l_helium idive_locals_init)).
  { unfold idive_gasmix_table_ok, Idive.NGASMIXES, idive_locals_init.
    cbn [l_ngasmixes l_oxygen l_helium]. rewrite !repeat_length.
    split; [lia | split; [apply le_n | split; [apply le_n | constructor]]]. }
  destruct (idive_samples_loop_gasmixes _ _ _ _ _ _ _ Hinit Hloop)
    as [[Hn [Hlo [Hlh Hnd]]] [_ [Hev Htab]]].
  unfold Idive.NGASMIXES in *.
  assert (Heq : gasmix_table (l_ngasmixes l)
                  (array_copy_prefix (l_ngasmixes l) (l_oxygen l) (idive_oxygen parser))
                  (array_copy_prefix (l_ngasmixes l) (l_helium l) (idive_helium parser))
                = idive_locals_table l).
  { apply gasmix_table_ext. intros k Hk.
    rewrite !array_get_copy_prefix by lia. split; reflexivity. }
  cbv zeta. rewrite Heq. split; [exact Hn | split; [exact Hnd |]].
  intro v. split; [apply Hev | intro Hv; apply Htab in Hv; exact Hv].
Qed.

Lemma idive_gasmix_table_matches_events_witness :
  0 <= 2 <= Idive.NGASMIXES /\
  NoDup (gasmix_table 2 [21; 32; 0; 0; 0; 0; 0; 0] [0; 0; 0; 0; 0; 0; 0; 0]) /\
  forall v,
    In v (sample_gaschanges
            [DC_SAMPLE_TIME 10; DC_SAMPLE_DEPTH (double_of_uint 55 / 10.0)%float;
             DC_SAMPLE_TEMPERATURE 0.0%float;
             DC_SAMPLE_EVENT SAMPLE_EVENT_GASCHANGE2 0 0 21;
             DC_SAMPLE_DECO DC_DECO_NDL 0.0%float 0; DC_SAMPLE_CNS 0.0%float;
             DC_SAMPLE_TIME 20; DC_SAMPLE_DEPTH (double_of_uint 120 / 10.0)%float;
             DC_SAMPLE_TEMPERATURE 0.0%float;
             DC_SAMPLE_DECO DC_DECO_NDL 0.0%float 0; DC_SAMPLE_CNS 0.0%float;
             DC_SAMPLE_TIME 30; DC_SAMPLE_DEPTH (double_of_uint 80 / 10.0)%float;
             DC_SAMPLE_TEMPERATURE 0.0%float;
             DC_SAMPLE_EVENT SAMPLE_EVENT_GASCHANGE2 0 0 32;
             DC_SAMPLE_DECO DC_DECO_NDL 0.0%float 0; DC_SAMPLE_CNS 0.0%float]) <->
    In v (map gaschange_value
            (gasmix_table 2 [21; 32; 0; 0; 0; 0; 0; 0] [0; 0; 0; 0; 0; 0; 0; 0])).
Proof.
  refine (idive_gasmix_table_matches_events (idive_parser_of idive_mix_example)
            {| idive_data := idive_mix_example; idive_cached := true;
               idive_divetime := 30; idive_maxdepth := 120; idive_ngasmixes := 2;
               idive_oxygen := [21; 32; 0; 0; 0; 0; 0; 0];
               idive_helium := [0; 0; 0; 0; 0; 0; 0; 0] |} _ _).
  by_evaluation.
Defined.

Lemma idive_foreach_failure (parser parser' : divesystem_idive_parser_t) st out :
  divesystem_idive_parser_samples_foreach parser = Some (st, out, parser') ->
  st <> DC_STATUS_SUCCESS -> parser' = parser.
Proof.
  unfold divesystem_idive_parser_samples_foreach.
  destruct (idive_samples_loop _ _ _ _) as [[[s o] l] |]; [| discriminate].
  destruct s; intros H Hst; injection H as Hs _ Hp; congruence.
Qed.

(** X5. The iDive field cache is transparent: once a get_field call has
    returned, every further get_field call on the parser it leaves behind
    answers as it would have answered on the parser before, whether the
    first call filled the cache, found it filled, or failed. *)
Theorem idive_get_field_cache_transparent
  (parser parser' : divesystem_idive_parser_t)
  (type type2 : dc_field_type_t) (flags flags2 : Z) rc v :
  divesystem_idive_parser_get_field parser type flags = Some (rc, v, parser') ->
  divesystem_idive_parser_get_field parser' type2 flags2
  = match divesystem_idive_parser_get_field parser type2 flags2 with
    | Some (rc2, v2, _) => Some (rc2, v2, parser')
    | None => None
    end.
Proof.
  unfold divesystem_idive_parser_get_field at 1.
  destruct (blob_size (idive_data parser) <? Idive.SZ_HEADER) eqn:Esz.
  { intro H. injection H as _ _ <-.
    unfold divesystem_idive_parser_get_field. rewrite Esz. reflexivity. }
  destruct (idive_cached parser) eqn:Ec.
  { intro H. assert (Hp : parser' = parser)
      by (destruct type; injection H as _ _ <-; reflexivity).
    subst parser'. unfold divesystem_idive_parser_get_field. rewrite Esz, Ec.
    destruct type2; reflexivity. }
  destruct (divesystem_idive_parser_samples_foreach parser) as [[[st out] p] |] eqn:Erun;
    [| discriminate].
  assert (Hcases : st = DC_STATUS_SUCCESS \/ st <> DC_STATUS_SUCCESS)
    by (destruct st; (left; reflexivity) || (right; discriminate)).
  destruct Hcases as [-> | Hst].
  - destruct (idive_foreach_success _ _ _ Erun) as [l [_ Hp]].
    intro H. assert (Hp' : parser' = p)
      by (destruct type; injection H as _ _ <-; reflexivity).
    subst parser'.
    assert (Hd : idive_data p = idive_data parser) by (rewrite Hp; reflexivity).
    assert (Hc : idive_cached p = true) by (rewrite Hp; reflexivity).
    unfold divesystem_idive_parser_get_field.
    rewrite Hd, Hc, Esz, Ec, Erun. destruct type2; reflexivity.
  - pose proof (idive_foreach_failure _ _ _ _ Erun Hst) as ->.
    intro H. assert (Hp' : parser' = parser)
      by (destruct st; try congruence; injection H as _ _ <-; reflexivity).
    subst parser'. unfold divesystem_idive_parser_get_field.
    rewrite Esz, Ec, Erun. destruct st; try congruence; reflexivity.
Qed.

Lemma idive_get_field_cache_transparent_witness :
  divesystem_idive_parser_get_field
    {| idive_data := idive_mix_example; idive_cached := true;
       idive_divetime := 30; idive_maxdepth := 120; idive_ngasmixes := 2;
       idive_oxygen := [21; 32; 0; 0; 0; 0; 0; 0];
       idive_helium := [0; 0; 0; 0; 0; 0; 0; 0] |} DC_FIELD_GASMIX_COUNT 0
  = match divesystem_idive_parser_get_field (idive_parser_of idive_mix_example)
            DC_FIELD_GASMIX_COUNT 0 with
    | Some (rc2, v2, _) =>
        Some (rc2, v2,
              {| idive_data := idive_mix_example; idive_cached := true;
                 idive_divetime := 30; idive_maxdepth := 120; idive_ngasmixes := 2;
                 idive_oxygen := [21; 32; 0; 0; 0; 0; 0; 0];
                 idive_helium := [0; 0; 0; 0; 0; 0; 0; 0] |})
    | None => None
    end.
Proof.
  refine (idive_get_field_cache_transparent (idive_parser_of idive_mix_example) _
            DC_FIELD_DIVETIME DC_FIELD_GASMIX_COUNT 0 0
            DC_STATUS_SUCCESS (Some (FV_uint 30)) _).
  by_evaluation.
Defined.

(** ** Shearwater sample stream *)

Lemma shearwater_sample_times_one (data : blob) (petrel : bool)
  (units offset time o2 he : Z) :
  sample_times (fst (shearwater_sample data petrel units offset time o2 he)) = [time].
Proof.
  unfold shearwater_sample. cbv zeta. cbn [fst].
  destruct petrel; destruct (negb _ || negb _); reflexivity.
Qed.

Lemma shearwater_samples_loop_times (data : blob) (petrel : bool)
  (units samplesize footer : Z) :
  0 < samplesize -> footer + samplesize <= 2 ^ 32 ->
  forall (m fuel : nat) (offset time o2 he : Z),
    (m <= fuel)%nat -> 0 <= offset -> 0 <= time ->
    time + 10 * Z.of_nat m < 2 ^ 32 ->
    footer <= offset + Z.of_nat m * samplesize ->
    (m = 0%nat \/ offset + (Z.of_nat m - 1) * samplesize < footer) ->
    exists out,
      shearwater_samples_loop fuel data petrel units samplesize footer offset time o2 he
      = Some (DC_STATUS_SUCCESS, out) /\
      sample_times out
      = map (fun k => time + 10 * (k + 1))
            (indices (shearwater_nonempty m data samplesize offset)).
Proof.
  intros Hss Hfoot.
  induction m as [| m IH]; intros fuel offset time o2 he Hfuel Hoff Htime Hmax Hup Hlow.
  - assert (E : (offset <? footer) = false) by (apply Z.ltb_ge; lia).
    exists []. split; [| reflexivity].
    destruct fuel; [cbn [shearwater_samples_loop] | rewrite shearwater_samples_loop_S];
      rewrite E; reflexivity.
  - destruct Hlow as [Hlow | Hlow]; [discriminate |].
    destruct fuel as [| fuel]; [lia |].
    rewrite shearwater_samples_loop_S.
    replace (offset <? footer) with true by (symmetry; apply Z.ltb_lt; nia).
    rewrite (u32_small (offset + samplesize)) by nia.
    assert (Hlow' : m = 0%nat \/ offset + samplesize + (Z.of_nat m - 1) * samplesize < footer)
      by (destruct m; [left; reflexivity | right; nia]).
    cbn [shearwater_nonempty].
    destruct (array_isequal data offset samplesize 0).
    + apply IH; try lia; try nia; try exact Hlow'.
    + rewrite (u32_small (time + 10)) by lia.
      pose proof (shearwater_sample_times_one data petrel units offset (time + 10) o2 he)
        as Hone.
      destruct (shearwater_sample data petrel units offset (time + 10) o2 he)
        as [out [o2' he']].
      cbn [fst] in Hone.
      destruct (IH fuel (offset + samplesize) (time + 10) o2' he') as [rest [Hrest Htimes]];
        try lia; try nia; try exact Hlow'.
      rewrite Hrest. exists (out ++ rest). split; [reflexivity |].
      rewrite sample_times_app, Hone, Htimes. cbn [Nat.add].
      rewrite map_indices_S. cbn [app]. f_equal.
      apply map_ext. intro k. lia.
Qed.

(** X6. On a Shearwater record that passes the size checks samples_foreach
    cannot fail, and it emits one TIME sample per record slot before the
    footer that is not all zero: empty slots are skipped without advancing
    the clock, so the values are 10, 20, ... with no gap.  On a record that
    fails the size checks it returns DATAFORMAT and emits nothing. *)
Theorem shearwater_sample_times (parser : shearwater_predator_parser_t) :
  blob_size (sw_data parser) < 2 ^ 32 ->
  match shearwater_footer parser with
  | None => shearwater_predator_parser_samples_foreach parser = Some (DC_STATUS_DATAFORMAT, [])
  | Some footer =>
      exists out,
        shearwater_predator_parser_samples_foreach parser = Some (DC_STATUS_SUCCESS, out) /\
        sample_times out
        = map (fun k => 10 * (k + 1))
              (indices (shearwater_nonempty
                          (shearwater_slots (shearwater_samplesize parser) footer)
                          (sw_data parser) (shearwater_samplesize parser)
                          Shearwater.SZ_BLOCK))
  end.
Proof.
  intro Hsz. unfold shearwater_predator_parser_samples_foreach. cbv zeta.
  destruct (shearwater_footer parser) as [f |] eqn:Ef; [| reflexivity].
  destruct (shearwater_footer_bound parser f Hsz Ef) as [Hf0 Hf].
  fold (shearwater_samplesize parser).
  assert (Hss : shearwater_samplesize parser = 16 \/ shearwater_samplesize parser = 32)
    by (unfold shearwater_samplesize; destruct (sw_petrel parser); [right | left]; reflexivity).
  unfold Shearwater.SZ_BLOCK in *.
  pose proof (blob_size_nonneg (sw_data parser)) as Hnn.
  destruct (shearwater_samples_loop_times (sw_data parser) (sw_petrel parser)
              (byte_at (sw_data parser) 8) (shearwater_samplesize parser) f)
    with (m := shearwater_slots (shearwater_samplesize parser) f)
         (fuel := length (sw_data parser)) (offset := 128) (time := 0) (o2 := 0) (he := 0)
    as [out [Hout Htimes]].
  - lia.
  - lia.
  - unfold shearwater_slots, Shearwater.SZ_BLOCK, blob_size in *.
    destruct Hss as [-> | ->]; div_lia.
  - lia.
  - lia.
  - unfold shearwater_slots, Shearwater.SZ_BLOCK, blob_size in *.
    destruct Hss as [-> | ->]; div_lia.
  - unfold shearwater_slots, Shearwater.SZ_BLOCK.
    destruct Hss as [-> | ->]; div_lia.
  - unfold shearwater_slots, Shearwater.SZ_BLOCK.
    destruct Hss as [-> | ->];
      (destruct (Z_lt_le_dec 128 f); [right | left]; div_lia).
  - exists out. split; [exact Hout |]. rewrite Htimes. apply map_ext. intro k. lia.
Qed.

Lemma shearwater_sample_times_witness :
  exists out,
    shearwater_predator_parser_samples_foreach shearwater_gap_example
    = Some (DC_STATUS_SUCCESS, out) /\
    sample_times out = map (fun k => 10 * (k + 1)) (indices 2).
Proof.
  assert (Hsz : blob_size (sw_data shearwater_gap_example) < 2 ^ 32) by by_evaluation.
  exact (shearwater_sample_times shearwater_gap_example Hsz).
Defined.

Lemma filter_length_bound (A : Type) (f : A -> bool) (l : list A) :
  (length (filter f l) <= length l)%nat.
Proof.
  induction l as [| x l IH]; cbn [filter length]; [lia |].
  destruct (f x); cbn [length]; lia.
Qed.

Lemma length_indices (n : nat) : length (indices n) = n.
Proof.
  unfold indices. rewrite length_map, length_seq. reflexivity.
Qed.

Lemma shearwater_gasmixes_filter (data : blob) :
  forall (n : nat) (i : Z),
    shearwater_gasmixes n data i
    = filter (fun mix => negb ((fst mix =? 0) && (snd mix =? 0)))
             (map (fun k => (byte_at data (20 + (i + k)), byte_at data (30 + (i + k))))
                  (indices n)).
Proof.
  induction n as [| n IH]; intro i; [reflexivity |].
  cbn [shearwater_gasmixes]. cbv zeta. rewrite map_indices_S. cbn [filter fst snd].
  rewrite !Z.add_0_r, IH.
  replace (map (fun k => (byte_at data (20 + (i + 1 + k)), byte_at data (30 + (i + 1 + k))))
               (indices n))
    with (map (fun k => (byte_at data (20 + (i + (k + 1))), byte_at data (30 + (i + (k + 1)))))
              (indices n))
    by (apply map_ext; intro k; replace (i + 1 + k) with (i + (k + 1)) by lia;
        reflexivity).
  destruct ((byte_at data (20 + i) =? 0) && (byte_at data (30 + i) =? 0)); reflexivity.
Qed.

(** A table filled from a list of pairs reads back as that list. *)
Lemma gasmix_table_of_list (mixes : list (Z * Z)) (oxygen helium : list Z) :
  gasmix_table (Z.of_nat (length mixes))
    (array_copy_prefix (Z.of_nat (length mixes)) (map fst mixes) oxygen)
    (array_copy_prefix (Z.of_nat (length mixes)) (map snd mixes) helium)
  = mixes.
Proof.
  transitivity (gasmix_table (Z.of_nat (length mixes)) (map fst mixes) (map snd mixes)).
  { apply gasmix_table_ext. intros k Hk.
    rewrite !array_get_copy_prefix by (rewrite ?length_map; lia). split; reflexivity. }
  unfold gasmix_table. rewrite Nat2Z.id.
  induction mixes as [| [o h] mixes IH]; [reflexivity |].
  cbn [length]. rewrite map_indices_S. unfold array_get at 1 2. cbn [map fst snd nth Z.to_nat].
  f_equal. etransitivity; [| exact IH].
  apply map_ext_in. intros k Hk. apply In_indices in Hk.
  unfold array_get. replace (Z.to_nat (k + 1)) with (S (Z.to_nat k)) by lia.
  reflexivity.
Qed.

(** X7. The first Shearwater get_field call on a record that passes the
    size checks fills the gas mix cache with the header's ten slots minus
    the (0, 0) ones, in slot order: GASMIX_COUNT returns their number (at
    most 10), the cached table reads back as that list, and GASMIX with an
    index below the count returns the mix of that position. *)
Theorem shearwater_gasmix_cache (parser : shearwater_predator_parser_t) (footer : Z) :
  shearwater_footer parser = Some footer ->
  sw_cached parser = false ->
  let mixes := shearwater_header_mixes (sw_data parser) in
  let n := Z.of_nat (length mixes) in
  exists parser',
    shearwater_predator_parser_get_field parser DC_FIELD_GASMIX_COUNT 0
    = (DC_STATUS_SUCCESS, Some (SW_value (FV_uint n)), parser') /\
    n <= Shearwater.NGASMIXES /\
    gasmix_table (sw_ngasmixes parser') (sw_oxygen parser') (sw_helium parser') = mixes /\
    forall i, 0 <= i < n ->
      shearwater_predator_parser_get_field parser DC_FIELD_GASMIX i
      = (DC_STATUS_SUCCESS,
         Some (SW_value (FV_gasmix (gasmix_of_percent (nth (Z.to_nat i) mixes (0, 0))))),
         parser').
Proof.
  intros Hfooter Hcached mixes n.
  assert (Hmixes : shearwater_gasmixes (Z.to_nat Shearwater.NGASMIXES) (sw_data parser) 0
                   = mixes).
  { rewrite shearwater_gasmixes_filter. unfold mixes, shearwater_header_mixes.
    f_equal. }
  unfold shearwater_predator_parser_get_field, shearwater_predator_parser_cache.
  rewrite Hfooter, Hcached. cbv zeta. rewrite Hmixes. fold n.
  cbn [dc_status_eqb negb sw_ngasmixes sw_oxygen sw_helium].
  eexists. split; [reflexivity |].
  cbn [sw_ngasmixes sw_oxygen sw_helium].
  pose proof (gasmix_table_of_list mixes (sw_oxygen parser) (sw_helium parser)) as Htab.
  fold n in Htab.
  split; [| split; [exact Htab |]].
  - unfold n, mixes, shearwater_header_mixes.
    pose proof (filter_length_bound _
                  (fun mix : Z * Z => negb ((fst mix =? 0) && (snd mix =? 0)))
                  (map (fun i => (byte_at (sw_data parser) (20 + i),
                                  byte_at (sw_data parser) (30 + i)))
                       (indices (Z.to_nat Shearwater.NGASMIXES)))) as Hlen.
    rewrite length_map, length_indices in Hlen. unfold Shearwater.NGASMIXES in *. lia.
  - intros i Hi.
    assert (Ho : array_get (array_copy_prefix n (map fst mixes) (sw_oxygen parser)) i
                = fst (nth (Z.to_nat i) mixes (0, 0))).
    { rewrite array_get_copy_prefix by (rewrite ?length_map; lia).
      unfold array_get. change 0 with (fst (0, 0)) at 1. apply map_nth. }
    assert (Hh : array_get (array_copy_prefix n (map snd mixes) (sw_helium parser)) i
                = snd (nth (Z.to_nat i) mixes (0, 0))).
    { rewrite array_get_copy_prefix by (rewrite ?length_map; lia).
      unfold array_get. change 0 with (snd (0, 0)) at 1. apply map_nth. }
    rewrite Ho, Hh. reflexivity.
Qed.

Lemma shearwater_gasmix_cache_witness :
  exists parser',
    shearwater_predator_parser_get_field shearwater_mixes_example DC_FIELD_GASMIX_COUNT 0
    = (DC_STATUS_SUCCESS, Some (SW_value (FV_uint 2)), parser') /\
    2 <= Shearwater.NGASMIXES /\
    gasmix_table (sw_ngasmixes parser') (sw_oxygen parser') (sw_helium parser')
    = [(21, 0); (18, 45)] /\
    forall i, 0 <= i < 2 ->
      shearwater_predator_parser_get_field shearwater_mixes_example DC_FIELD_GASMIX i
      = (DC_STATUS_SUCCESS,
         Some (SW_value (FV_gasmix (gasmix_of_percent
                                      (nth (Z.to_nat i) [(21, 0); (18, 45)] (0, 0))))),
         parser').
Proof.
  refine (shearwater_gasmix_cache shearwater_mixes_example 128 _ _); by_evaluation.
Defined.

(** ** Reefnet Sensus Pro: the two walks over the samples *)

Lemma sensuspro_scan_eq (fuel : nat) (data : blob) (offset maxdepth nsamples : Z) :
  sensuspro_scan fuel data offset maxdepth nsamples
  = if (offset + 2 <=? blob_size data) && sensuspro_not_footer data offset then
      match fuel with
      | O => None
      | S fuel' =>
          let value := array_uint16_le data offset in
          let depth := Z.land value 0x01FF in
          sensuspro_scan fuel' data (u32 (offset + 2))
            (if depth >? maxdepth then depth else maxdepth) (u32 (nsamples + 1))
      end
    else Some (maxdepth, nsamples).
Proof.
  destruct fuel; reflexivity.
Qed.

Lemma last_map_indices (f : Z -> Z) (m : nat) (d : Z) :
  last (map f (indices (S m))) d = f (Z.of_nat m).
Proof.
  rewrite indices_S_last, map_app. cbn [map]. apply last_last.
Qed.

Section ReefnetSensusproProperties.

Variable FSW : float.

Lemma sensuspro_profile_eq (fuel : nat) (parser : reefnet_sensuspro_parser_t)
  (interval time offset : Z) :
  sensuspro_profile FSW fuel parser interval time offset
  = let data := sp_data parser in
    if (offset + 2 <=? blob_size data) && sensuspro_not_footer data offset then
      match fuel with
      | O => None
      | S fuel' =>
          let value := array_uint16_le data offset in
          let depth := Z.land value 0x01FF in
          let temperature := Z.shiftr (Z.land value 0xFE00) 9 in
          let time := u32 (time + interval) in
          match sensuspro_profile FSW fuel' parser interval time (u32 (offset + 2)) with
          | Some rest =>
              Some ([DC_SAMPLE_TIME time;
                     DC_SAMPLE_TEMPERATURE
                       ((double_of_uint temperature - 32.0) * (5.0 / 9.0))%float;
                     DC_SAMPLE_DEPTH
                       ((double_of_uint depth * FSW - sp_atmospheric parser)
                        / sp_hydrostatic parser)%float] ++ rest)
          | None => None
          end
      end
    else Some [].
Proof.
  destruct fuel; reflexivity.
Qed.

Lemma sensuspro_find_header_eq (fuel : nat) (parser : reefnet_sensuspro_parser_t)
  (offset : Z) :
  sensuspro_find_header FSW fuel parser offset
  = let data := sp_data parser in
    if offset + 4 <=? blob_size data then
      match fuel with
      | O => None
      | S fuel' =>
          if array_isequal data offset 4 0x00 then
            if u32 (offset + 10) >? blob_size data then Some (DC_STATUS_DATAFORMAT, [])
            else
              let interval := array_uint16_le data (offset + 4) in
              match sensuspro_profile FSW (length data) parser interval 0
                      (u32 (offset + 10)) with
              | Some out => Some (DC_STATUS_SUCCESS, out)
              | None => None
              end
          else sensuspro_find_header FSW fuel' parser (u32 (offset + 1))
      end
    else Some (DC_STATUS_SUCCESS, []).
Proof.
  destruct fuel; reflexivity.
Qed.

(** From the same offset, the scan of [get_field] and the profile loop of
    [samples_foreach] end after the same number of records. *)
Lemma sensuspro_loops_agree (parser : reefnet_sensuspro_parser_t) (interval : Z) :
  blob_size (sp_data parser) < 2 ^ 32 - 2 ->
  forall (fuel : nat) (offset maxdepth nsamples time : Z),
    0 <= offset ->
    blob_size (sp_data parser) - offset < 2 * Z.of_nat fuel + 2 ->
    0 <= nsamples -> nsamples + Z.of_nat fuel < 2 ^ 32 ->
    exists (maxdepth' : Z) (m : nat) (out : list dc_sample),
      sensuspro_scan fuel (sp_data parser) offset maxdepth nsamples
      = Some (maxdepth', nsamples + Z.of_nat m) /\
      sensuspro_profile FSW fuel parser interval time offset = Some out /\
      sample_times out = map (fun k => u32 (time + (k + 1) * interval)) (indices m).
Proof.
  intro Hsz.
  induction fuel as [| fuel IH]; intros offset maxdepth nsamples time Hoff Hfuel Hns Hmax;
    rewrite sensuspro_scan_eq, sensuspro_profile_eq; cbv zeta;
    destruct ((offset + 2 <=? blob_size (sp_data parser)) &&
              sensuspro_not_footer (sp_data parser) offset) eqn:Econd;
    try (exists maxdepth, 0%nat, []; rewrite Z.add_0_r; repeat split; reflexivity).
  - apply andb_true_iff in Econd. destruct Econd as [Econd _].
    apply Z.leb_le in Econd. lia.
  - apply andb_true_iff in Econd. destruct Econd as [Econd _].
    apply Z.leb_le in Econd.
    rewrite (u32_small (offset + 2)) by lia.
    rewrite (u32_small (nsamples + 1)) by lia.
    set (maxdepth2 := if _ >? maxdepth then _ else maxdepth).
    destruct (IH (offset + 2) maxdepth2 (nsamples + 1) (u32 (time + interval)))
      as [maxdepth' [m [rest [Hscan [Hprofile Htimes]]]]]; try lia.
    exists maxdepth', (S m), ([DC_SAMPLE_TIME (u32 (time + interval));
                               DC_SAMPLE_TEMPERATURE
                                 ((double_of_uint
                                     (Z.shiftr (Z.land (array_uint16_le (sp_data parser) offset)
                                                  0xFE00) 9) - 32.0) * (5.0 / 9.0))%float;
                               DC_SAMPLE_DEPTH
                                 ((double_of_uint
                                     (Z.land (array_uint16_le (sp_data parser) offset) 0x01FF)
                                   * FSW - sp_atmospheric parser)
                                  / sp_hydrostatic parser)%float] ++ rest).
    split; [| split].
    + rewrite Hscan. f_equal. f_equal. lia.
    + rewrite Hprofile. reflexivity.
    + rewrite sample_times_app, Htimes, map_indices_S. cbn [sample_times app].
      f_equal; [f_equal; lia |].
      apply map_ext. intro k. rewrite u32_add_idemp_l. f_equal. lia.
Qed.

(** X8. On a Reefnet Sensus Pro record that starts with the header
    00 00 00 00, the scan of get_field and the sample loop of
    samples_foreach agree: both succeed, DIVETIME is the number of emitted
    samples times the interval (in [unsigned int] arithmetic), which is
    the TIME of the last sample, and sample k carries (k + 1) * interval. *)
Theorem sensuspro_divetime_matches_samples (parser : reefnet_sensuspro_parser_t) :
  let data := sp_data parser in
  let interval := array_uint16_le data 4 in
  12 <= blob_size data < 2 ^ 32 - 2 ->
  sp_cached parser = false ->
  array_isequal data 0 4 0x00 = true ->
  exists (out : list dc_sample) (parser' : reefnet_sensuspro_parser_t),
    reefnet_sensuspro_parser_samples_foreach FSW parser = Some (DC_STATUS_SUCCESS, out) /\
    reefnet_sensuspro_parser_get_field FSW parser DC_FIELD_DIVETIME 0
    = Some (DC_STATUS_SUCCESS, Some (FV_uint (sp_divetime parser')), parser') /\
    sample_times out
    = map (fun k => u32 ((k + 1) * interval)) (indices (length (sample_times out))) /\
    sp_divetime parser' = u32 (Z.of_nat (length (sample_times out)) * interval) /\
    sp_divetime parser' = last (sample_times out) 0.
Proof.
  intros data interval Hsz Hcached Hheader.
  destruct (sensuspro_loops_agree parser interval ltac:(fold data; lia)
              (length data) 10 0 0 0)
    as [maxdepth' [m [out [Hscan [Hprofile Htimes]]]]];
    try (unfold blob_size in *; fold data; lia).
  fold data in Hscan.
  assert (Hlen : length (sample_times out) = m)
    by (rewrite Htimes, length_map, length_indices; reflexivity).
  assert (Htimes' : sample_times out = map (fun k => u32 ((k + 1) * interval)) (indices m))
    by (rewrite Htimes; apply map_ext; intro k; f_equal).
  exists out,
    {| sp_data := data;
       sp_atmospheric := sp_atmospheric parser;
       sp_hydrostatic := sp_hydrostatic parser;
       sp_devtime := sp_devtime parser;
       sp_systime := sp_systime parser;
       sp_cached := true;
       sp_divetime := u32 ((0 + Z.of_nat m) * interval);
       sp_maxdepth := maxdepth' |}.
  split; [| split; [| split; [| split]]].
  - unfold reefnet_sensuspro_parser_samples_foreach. fold data.
    assert (Hgen : forall fuel : nat,
               (0 < fuel)%nat ->
               sensuspro_find_header FSW fuel parser 0 = Some (DC_STATUS_SUCCESS, out));
      [| apply Hgen; unfold blob_size in Hsz; lia].
    intros [| fuel] Hpos; [lia |].
    rewrite sensuspro_find_header_eq. cbv zeta. fold data.
    replace (0 + 4 <=? blob_size data) with true by (symmetry; apply Z.leb_le; lia).
    rewrite Hheader.
    replace (u32 (0 + 10) >? blob_size data) with false
      by (symmetry; rewrite Z.gtb_ltb; apply Z.ltb_ge; rewrite u32_small; lia).
    rewrite (u32_small (0 + 10)) by lia. change (0 + 10) with 10.
    change (0 + 4) with 4. fold interval. rewrite Hprofile. reflexivity.
  - unfold reefnet_sensuspro_parser_get_field. fold data.
    replace (blob_size data <? 12) with false by (symmetry; apply Z.ltb_ge; lia).
    rewrite Hcached, Hscan. cbn [sp_divetime]. reflexivity.
  - rewrite Hlen. exact Htimes'.
  - cbn [sp_divetime]. rewrite Hlen. reflexivity.
  - cbn [sp_divetime]. rewrite Htimes'. fold interval.
    destruct m as [| m]; [reflexivity |].
    rewrite last_map_indices. f_equal. lia.
Qed.

End ReefnetSensusproProperties.

Lemma sensuspro_divetime_matches_samples_witness :
  exists (out : list dc_sample) (parser' : reefnet_sensuspro_parser_t),
    reefnet_sensuspro_parser_samples_foreach 3064.6%float sensuspro_dive_example
    = Some (DC_STATUS_SUCCESS, out) /\
    reefnet_sensuspro_parser_get_field 3064.6%float sensuspro_dive_example DC_FIELD_DIVETIME 0
    = Some (DC_STATUS_SUCCESS, Some (FV_uint (sp_divetime parser')), parser') /\
    sample_times out
    = map (fun k => u32 ((k + 1) * 5)) (indices (length (sample_times out))) /\
    sp_divetime parser' = u32 (Z.of_nat (length (sample_times out)) * 5) /\
    sp_divetime parser' = last (sample_times out) 0.
Proof.
  refine (sensuspro_divetime_matches_samples 3064.6%float sensuspro_dive_example _ _ _);
    by_evaluation || (split; by_evaluation).
Defined.

(** ** Uwatec Memomouse sample stream *)

Lemma memomouse_samples_loop_eq (fuel : nat) (data : blob) (is_oxygen : bool)
  (time offset : Z) :
  memomouse_samples_loop fuel data is_oxygen time offset
  = let size := blob_size data in
    if u32 (offset + 2) <=? size then
      match fuel with
      | O => None
      | S fuel' =>
          let value := array_uint16_be data offset in
          let depth := Z.shiftr (Z.land value 0xFFC0) 6 in
          let warnings := Z.land value 0x3F in
          let offset := u32 (offset + 2) in
          let out :=
            [DC_SAMPLE_TIME time;
             DC_SAMPLE_DEPTH (double_of_uint depth * 10.0 / 64.0)%float] ++
            memomouse_warnings warnings in
          let continue (out : list dc_sample) (offset : Z) :=
            match memomouse_samples_loop fuel' data is_oxygen (u32 (time + 20)) offset with
            | Some (st, rest) => Some (st, out ++ rest)
            | None => None
            end in
          if time mod 60 =? 0 then
            if u32 (offset + 1) >? size then Some (DC_STATUS_DATAFORMAT, out)
            else
              let offset1 := u32 (offset + 1) in
              if is_oxygen then
                if u32 (offset1 + 1) >? size then Some (DC_STATUS_DATAFORMAT, out)
                else
                  continue
                    (out ++ [DC_SAMPLE_VENDOR SAMPLE_VENDOR_UWATEC_ALADIN 2
                               (blob_slice data offset 2)])
                    (u32 (offset1 + 1))
              else
                continue
                  (out ++ [DC_SAMPLE_VENDOR SAMPLE_VENDOR_UWATEC_ALADIN 1
                             (blob_slice data offset 1)])
                  offset1
          else continue out offset
      end
    else Some (DC_STATUS_SUCCESS, []).
Proof.
  destruct fuel; reflexivity.
Qed.

Lemma memomouse_warnings_times (warnings : Z) :
  sample_times (memomouse_warnings warnings) = [].
Proof.
  unfold memomouse_warnings. cbn [flat_map].
  repeat (destruct (Z.land warnings _ =? 0)); reflexivity.
Qed.

Lemma memomouse_sample_times (data : blob) (time offset : Z) :
  sample_times (memomouse_sample data time offset) = [time].
Proof.
  unfold memomouse_sample. cbv zeta.
  rewrite sample_times_app, memomouse_warnings_times. reflexivity.
Qed.

Section MemomouseProperties.

Variable data : blob.
Variable is_oxygen : bool.
Hypothesis Hsize : blob_size data < 2 ^ 28.

Let c := memomouse_minute is_oxygen.

Lemma memomouse_loop_end (fuel : nat) (time offset : Z) :
  0 <= offset < 2 ^ 31 -> blob_size data < offset + 2 ->
  memomouse_samples_loop fuel data is_oxygen time offset = Some (DC_STATUS_SUCCESS, []).
Proof.
  intros Hoff Hend. rewrite memomouse_samples_loop_eq. cbv zeta.
  rewrite u32_small by lia.
  replace (offset + 2 <=? blob_size data) with false by (symmetry; apply Z.leb_gt; lia).
  reflexivity.
Qed.

Lemma memomouse_loop_plain (fuel : nat) (time offset : Z) :
  time mod 60 <> 0 -> 0 <= offset -> offset + 2 <= blob_size data ->
  memomouse_samples_loop (S fuel) data is_oxygen time offset
  = match memomouse_samples_loop fuel data is_oxygen (u32 (time + 20)) (offset + 2) with
    | Some (st, rest) => Some (st, memomouse_sample data time offset ++ rest)
    | None => None
    end.
Proof.
  intros Hmod Hoff Hin. rewrite memomouse_samples_loop_eq. cbv zeta.
  rewrite !(u32_small (offset + 2)) by lia.
  replace (offset + 2 <=? blob_size data) with true by (symmetry; apply Z.leb_le; lia).
  replace (time mod 60 =? 0) with false by (symmetry; apply Z.eqb_neq; exact Hmod).
  reflexivity.
Qed.

Lemma memomouse_loop_minute (fuel : nat) (time offset : Z) :
  time mod 60 = 0 -> 0 <= offset -> offset + (c - 4) <= blob_size data ->
  exists out,
    sample_times out = [time] /\
    memomouse_samples_loop (S fuel) data is_oxygen time offset
    = match memomouse_samples_loop fuel data is_oxygen (u32 (time + 20))
              (offset + (c - 4)) with
      | Some (st, rest) => Some (st, out ++ rest)
      | None => None
      end.
Proof.
  intros Hmod Hoff Hin. rewrite memomouse_samples_loop_eq. cbv zeta.
  fold (memomouse_sample data time offset).
  unfold c, memomouse_minute in *.
  rewrite !(u32_small (offset + 2)) by (destruct is_oxygen; lia).
  rewrite !(u32_small (offset + 2 + 1)) by (destruct is_oxygen; lia).
  replace (offset + 2 <=? blob_size data) with true
    by (symmetry; apply Z.leb_le; destruct is_oxygen; lia).
  replace (time mod 60 =? 0) with true by (symmetry; apply Z.eqb_eq; exact Hmod).
  replace (offset + 2 + 1 >? blob_size data) with false
    by (symmetry; rewrite Z.gtb_ltb; apply Z.ltb_ge; destruct is_oxygen; lia).
  destruct is_oxygen.
  - rewrite (u32_small (offset + 2 + 1 + 1)) by lia.
    replace (offset + 2 + 1 + 1 >? blob_size data) with false
      by (symmetry; rewrite Z.gtb_ltb; apply Z.ltb_ge; lia).
    replace (offset + 2 + 1 + 1) with (offset + (8 - 4)) by lia.
    eexists. split; [| reflexivity].
    rewrite sample_times_app, memomouse_sample_times. reflexivity.
  - replace (offset + 2 + 1) with (offset + (7 - 4)) by lia.
    eexists. split; [| reflexivity].
    rewrite sample_times_app, memomouse_sample_times. reflexivity.
Qed.

Lemma memomouse_loop_short (fuel : nat) (time offset : Z) :
  time mod 60 = 0 -> 0 <= offset ->
  offset + 2 <= blob_size data -> blob_size data < offset + (c - 4) ->
  memomouse_samples_loop (S fuel) data is_oxygen time offset
  = Some (DC_STATUS_DATAFORMAT, memomouse_sample data time offset).
Proof.
  intros Hmod Hoff Hin Hshort. rewrite memomouse_samples_loop_eq. cbv zeta.
  fold (memomouse_sample data time offset).
  unfold c, memomouse_minute in *.
  rewrite !(u32_small (offset + 2)) by lia.
  rewrite !(u32_small (offset + 2 + 1)) by lia.
  replace (offset + 2 <=? blob_size data) with true by (symmetry; apply Z.leb_le; lia).
  replace (time mod 60 =? 0) with true by (symmetry; apply Z.eqb_eq; exact Hmod).
  destruct (Z_lt_le_dec (blob_size data) (offset + 3)) as [Hlt | Hge].
  - replace (offset + 2 + 1 >? blob_size data) with true
      by (symmetry; rewrite Z.gtb_ltb; apply Z.ltb_lt; lia).
    reflexivity.
  - replace (offset + 2 + 1 >? blob_size data) with false
      by (symmetry; rewrite Z.gtb_ltb; apply Z.ltb_ge; lia).
    destruct is_oxygen; [| lia].
    rewrite (u32_small (offset + 2 + 1 + 1)) by lia.
    replace (offset + 2 + 1 + 1 >? blob_size data) with true
      by (symmetry; rewrite Z.gtb_ltb; apply Z.ltb_lt; lia).
    reflexivity.
Qed.

(** Two plain samples from a time that is 20 s past a whole minute. *)
Lemma memomouse_loop_two (fuel : nat) (time offset : Z) :
  time mod 60 = 20 -> 0 <= time -> time + 60 < 2 ^ 32 ->
  0 <= offset -> offset + 4 <= blob_size data ->
  memomouse_samples_loop (S (S fuel)) data is_oxygen time offset
  = match memomouse_samples_loop fuel data is_oxygen (time + 40) (offset + 4) with
    | Some (st, rest) =>
        Some (st, memomouse_sample data time offset ++
                  memomouse_sample data (time + 20) (offset + 2) ++ rest)
    | None => None
    end.
Proof.
  intros Hmod Htime Hmax Hoff Hin.
  rewrite memomouse_loop_plain by lia.
  rewrite (u32_small (time + 20)) by lia.
  rewrite memomouse_loop_plain by (try lia; div_lia).
  rewrite (u32_small (time + 20 + 20)) by lia.
  replace (time + 20 + 20) with (time + 40) by lia.
  replace (offset + 2 + 2) with (offset + 4) by lia.
  destruct (memomouse_samples_loop fuel data is_oxygen (time + 40) (offset + 4))
    as [[st rest] |]; reflexivity.
Qed.

Lemma memomouse_loop_minutes :
  forall (q fuel : nat) (time offset r : Z),
    (3 * q + 3 <= fuel)%nat ->
    time mod 60 = 20 -> 0 <= time -> time + 60 * (Z.of_nat q + 1) < 2 ^ 32 ->
    0 <= offset -> blob_size data - offset = c * Z.of_nat q + r -> 0 <= r < c ->
    exists out,
      memomouse_samples_loop fuel data is_oxygen time offset
      = Some (if 6 <=? r then DC_STATUS_DATAFORMAT else DC_STATUS_SUCCESS, out) /\
      sample_times out
      = map (fun k => time + 20 * k) (indices (3 * q + Z.to_nat (Z.min 3 (r / 2)))).
Proof.
  assert (Hc : c = 7 \/ c = 8) by (unfold c, memomouse_minute; destruct is_oxygen; auto).
  induction q as [| q IH]; intros fuel time offset r Hfuel Hmod Htime Hmax Hoff Hrest Hr.
  - destruct fuel as [| [| [| fuel]]]; try lia.
    cbn [Nat.mul Nat.add]. rewrite Z.mul_0_r, Z.add_0_l in Hrest.
    destruct (Z_lt_le_dec r 2) as [H2 | H2];
      [| destruct (Z_lt_le_dec r 4) as [H4 | H4];
         [| destruct (Z_lt_le_dec r 6) as [H6 | H6]]].
    + rewrite memomouse_loop_end by lia.
      replace (6 <=? r) with false by (symmetry; apply Z.leb_gt; lia).
      replace (r / 2) with 0 by div_lia.
      exists []. split; reflexivity.
    + rewrite memomouse_loop_plain by lia.
      rewrite memomouse_loop_end by lia.
      replace (6 <=? r) with false by (symmetry; apply Z.leb_gt; lia).
      replace (r / 2) with 1 by div_lia.
      eexists. split; [reflexivity |].
      rewrite app_nil_r, memomouse_sample_times.
      change (Z.to_nat (Z.min 3 1)) with 1%nat.
      rewrite !map_indices_S. cbn [app].
      repeat (apply f_equal2; [lia |]); reflexivity.
    + rewrite memomouse_loop_two by lia.
      rewrite memomouse_loop_end by lia.
      replace (6 <=? r) with false by (symmetry; apply Z.leb_gt; lia).
      replace (r / 2) with 2 by div_lia.
      eexists. split; [reflexivity |].
      rewrite !sample_times_app, !memomouse_sample_times.
      change (Z.to_nat (Z.min 3 2)) with 2%nat.
      rewrite !map_indices_S. cbn [app].
      repeat (apply f_equal2; [lia |]); reflexivity.
    + rewrite memomouse_loop_two by lia.
      rewrite memomouse_loop_short by (try lia; div_lia).
      replace (6 <=? r) with true by (symmetry; apply Z.leb_le; lia).
      replace (r / 2) with 3 by div_lia.
      eexists. split; [reflexivity |].
      rewrite !sample_times_app, !memomouse_sample_times.
      change (Z.to_nat (Z.min 3 3)) with 3%nat.
      rewrite !map_indices_S. cbn [app].
      repeat (apply f_equal2; [lia |]); reflexivity.
  - destruct fuel as [| [| [| fuel]]]; try lia.
    rewrite memomouse_loop_two by nia.
    destruct (memomouse_loop_minute fuel (time + 40) (offset + 4))
      as [out3 [Hout3 Hloop3]]; [div_lia | lia | nia |].
    rewrite Hloop3. rewrite (u32_small (time + 40 + 20)) by lia.
    replace (offset + 4 + (c - 4)) with (offset + c) by lia.
    destruct (IH fuel (time + 40 + 20) (offset + c) r)
      as [rest [Hrest' Htimes]]; try lia; try nia; [div_lia |].
    rewrite Hrest'. eexists. split; [reflexivity |].
    rewrite !sample_times_app, !memomouse_sample_times, Hout3, Htimes.
    replace (3 * S q + Z.to_nat (Z.min 3 (r / 2)))%nat
      with (S (S (S (3 * q + Z.to_nat (Z.min 3 (r / 2)))))) by lia.
    rewrite !map_indices_S. cbn [app].
    repeat (apply f_equal2; [lia |]).
    apply map_ext. intro k. lia.
Qed.

End MemomouseProperties.

(** X9. The Memomouse sample loop reads three 2-byte samples per minute
    followed by one vendor byte (two on the O2 series).  On a record of at
    least 18 bytes samples_foreach therefore emits TIME 20, 40, ... for
    three samples per whole minute of profile bytes plus one per further
    whole 2-byte sample, and it returns DATAFORMAT exactly when the bytes
    left after the last whole minute hold three samples without their
    vendor bytes; the three samples have been emitted by then. *)
Theorem memomouse_samples_per_minute (parser : uwatec_memomouse_parser_t) :
  let data := mm_data parser in
  let c := memomouse_minute (memomouse_is_oxygen (byte_at data 3)) in
  let n := memomouse_profile_size data in
  18 <= blob_size data < 2 ^ 28 ->
  exists out,
    uwatec_memomouse_parser_samples_foreach parser
    = Some (if memomouse_truncated n c then DC_STATUS_DATAFORMAT else DC_STATUS_SUCCESS,
            out) /\
    sample_times out = map (fun k => 20 * (k + 1)) (indices (memomouse_sample_count n c)).
Proof.
  intros data c n Hsz.
  unfold uwatec_memomouse_parser_samples_foreach. fold data. cbv zeta.
  replace (blob_size data <? 18) with false by (symmetry; apply Z.ltb_ge; lia).
  assert (Hc : c = 7 \/ c = 8)
    by (unfold c, memomouse_minute; destruct (memomouse_is_oxygen _); auto).
  assert (Hheader : 22 <= memomouse_header (byte_at data 3) <= 27)
    by (unfold memomouse_header;
        destruct (memomouse_is_nitrox _), (memomouse_is_oxygen _); lia).
  assert (Hlt : blob_size data < 2 ^ 28) by lia.
  unfold memomouse_truncated, memomouse_sample_count.
  unfold n, memomouse_profile_size.
  set (start := memomouse_header (byte_at data 3) + 18) in *.
  destruct (Z_lt_le_dec (blob_size data) start) as [Hshort | Hlong].
  - rewrite memomouse_loop_end by lia.
    replace (Z.max 0 (blob_size data - start)) with 0 by lia.
    exists []. destruct Hc as [-> | ->]; split; reflexivity.
  - replace (Z.max 0 (blob_size data - start)) with (blob_size data - start) by lia.
    set (m := blob_size data - start) in *.
    destruct (memomouse_loop_minutes data (memomouse_is_oxygen (byte_at data 3)) Hlt
                (Z.to_nat (m / c)) (length data) 20 start (m mod c))
      as [out [Hout Htimes]].
    + unfold blob_size in *. destruct Hc as [Hc | Hc]; rewrite Hc; div_lia.
    + reflexivity.
    + lia.
    + destruct Hc as [Hc | Hc]; rewrite Hc; div_lia.
    + lia.
    + fold c. rewrite Z2Nat.id by (destruct Hc as [Hc | Hc]; rewrite Hc; div_lia).
      fold m. apply Z.div_mod. lia.
    + apply Z.mod_pos_bound. lia.
    + exists out. split; [exact Hout |].
      rewrite Htimes. apply map_ext. intro k. lia.
Qed.

Lemma memomouse_samples_per_minute_witness :
  exists out,
    uwatec_memomouse_parser_samples_foreach memomouse_truncated_example
    = Some (DC_STATUS_DATAFORMAT, out) /\
    sample_times out = map (fun k => 20 * (k + 1)) (indices 6).
Proof.
  assert (Hsz : 18 <= blob_size (mm_data memomouse_truncated_example) < 2 ^ 28)
    by (split; by_evaluation).
  exact (memomouse_samples_per_minute memomouse_truncated_example Hsz).
Defined.

(** ** Uwatec Smart: sign extension and sample values *)

Lemma land_pow2 (x k : Z) :
  0 <= k -> Z.land x (2 ^ k) = if Z.testbit x k then 2 ^ k else 0.
Proof.
  intro Hk. apply Z.bits_inj'. intros i Hi.
  rewrite Z.land_spec, Z.pow2_bits_eqb by lia.
  destruct (Z.eqb_spec k i) as [<- | Hne].
  - rewrite andb_true_r.
    destruct (Z.testbit x k); [rewrite Z.pow2_bits_true by lia | rewrite Z.bits_0];
      reflexivity.
  - rewrite andb_false_r.
    destruct (Z.testbit x k); [rewrite Z.pow2_bits_false by lia | rewrite Z.bits_0];
      reflexivity.
Qed.

Lemma high_mask_bits (n i : Z) :
  0 <= n <= 32 -> 0 <= i ->
  Z.testbit (2 ^ 32 - 2 ^ n) i = (n <=? i) && (i <? 32).
Proof.
  intros Hn Hi.
  replace (2 ^ 32 - 2 ^ n) with (Z.shiftl (Z.ones (32 - n)) n).
  - rewrite Z.shiftl_spec by lia.
    destruct (Z.leb_spec n i) as [Hle | Hlt].
    + rewrite Z.testbit_ones_nonneg by lia. cbn [andb].
      destruct (Z.ltb_spec (i - n) (32 - n)), (Z.ltb_spec i 32); try reflexivity; lia.
    + rewrite Z.testbit_neg_r by lia. reflexivity.
  - rewrite Z.shiftl_mul_pow2, Z.ones_equiv by lia.
    rewrite <- Z.sub_1_r, Z.mul_sub_distr_r, <- Z.pow_add_r by lia.
    replace (32 - n + n) with 32 by lia. lia.
Qed.

Lemma lor_high_mask (x n : Z) :
  0 <= x < 2 ^ 32 -> 0 <= n <= 32 ->
  Z.lor x (2 ^ 32 - 2 ^ n) = x mod 2 ^ n + (2 ^ 32 - 2 ^ n).
Proof.
  intros Hx Hn.
  assert (Hdisjoint : Z.land (x mod 2 ^ n) (2 ^ 32 - 2 ^ n) = 0).
  { apply Z.bits_inj'. intros i Hi.
    rewrite Z.land_spec, Z.bits_0, high_mask_bits by lia.
    destruct (Z.leb_spec n i) as [Hle | Hlt]; [| apply andb_false_r].
    rewrite Z.mod_pow2_bits_high by lia. reflexivity. }
  rewrite <- (Z.add_lor_land (x mod 2 ^ n)), Hdisjoint, Z.add_0_r.
  apply Z.bits_inj'. intros i Hi.
  rewrite !Z.lor_spec, high_mask_bits by lia.
  destruct (Z.leb_spec n i) as [Hle | Hlt].
  - rewrite Z.mod_pow2_bits_high by lia.
    destruct (Z.ltb_spec i 32) as [H32 | H32]; [rewrite !orb_true_r; reflexivity |].
    cbn [andb]. rewrite !orb_false_r.
    apply Z.bits_above_log2; [lia |].
    destruct (Z.eq_dec x 0) as [-> | Hx0]; [cbn; lia |].
    apply Z.log2_lt_pow2; [lia |].
    apply Z.lt_le_trans with (2 ^ 32); [lia | apply Z.pow_le_mono_r; lia].
  - rewrite Z.mod_pow2_bits_low by lia. reflexivity.
Qed.

(** X10. [uwatec_smart_fixsignbit] is the sign extension of an [n]-bit
    two's complement field: for 1 <= n <= 31 its result, read as a signed
    int, is the low [n] bits of [x], minus 2^n when bit [n - 1] is set. *)
Theorem uwatec_smart_fixsignbit_sign_extends (x n : Z) :
  0 <= x < 2 ^ 32 -> 1 <= n <= 31 ->
  0 <= uwatec_smart_fixsignbit x n < 2 ^ 32 /\
  s32 (uwatec_smart_fixsignbit x n)
  = if Z.testbit x (n - 1) then x mod 2 ^ n - 2 ^ n else x mod 2 ^ n.
Proof.
  intros Hx Hn. unfold uwatec_smart_fixsignbit. cbv zeta.
  replace ((n <=? 0) || (n >? 32)) with false
    by (symmetry; apply orb_false_iff; split;
        [apply Z.leb_gt | rewrite Z.gtb_ltb; apply Z.ltb_ge]; lia).
  assert (Hpow : 0 < 2 ^ n <= 2 ^ 31)
    by (split; [apply Z.pow_pos_nonneg; lia | apply Z.pow_le_mono_r; lia]).
  assert (Hpow' : 0 < 2 ^ (n - 1) < 2 ^ 32)
    by (split; [apply Z.pow_pos_nonneg; lia |
                apply Z.pow_lt_mono_r; lia]).
  assert (Hsign : u32 (Z.shiftl 1 (n - 1)) = 2 ^ (n - 1))
    by (rewrite Z.shiftl_mul_pow2, Z.mul_1_l by lia; apply u32_small; lia).
  assert (Hmask : u32 (Z.shiftl 0xFFFFFFFF n) = 2 ^ 32 - 2 ^ n).
  { rewrite Z.shiftl_mul_pow2 by lia. unfold u32.
    replace (4294967295 * 2 ^ n) with ((2 ^ 32 - 2 ^ n) + (2 ^ n - 1) * 2 ^ 32) by lia.
    rewrite Z.mod_add by lia. apply Z.mod_small. lia. }
  assert (Hnot : u32 (Z.lnot (2 ^ 32 - 2 ^ n)) = Z.ones n).
  { rewrite Z.ones_equiv, <- Z.sub_1_r. unfold Z.lnot, u32.
    replace (Z.pred (- (2 ^ 32 - 2 ^ n))) with (2 ^ n - 1 + (-1) * 2 ^ 32) by lia.
    rewrite Z.mod_add by lia. apply Z.mod_small. lia. }
  rewrite Hsign, Hmask, Hnot, land_pow2 by lia.
  pose proof (Z.mod_pos_bound x (2 ^ n) ltac:(lia)) as Hmod.
  destruct (Z.testbit x (n - 1)).
  - rewrite Z.eqb_refl, lor_high_mask by lia.
    split; [lia |]. unfold s32. cbv zeta.
    rewrite (Z.mod_small (x mod 2 ^ n + (2 ^ 32 - 2 ^ n))) by lia.
    replace (x mod 2 ^ n + (2 ^ 32 - 2 ^ n) <? 2 ^ 31) with false
      by (symmetry; apply Z.ltb_ge; lia).
    lia.
  - replace (0 =? 2 ^ (n - 1)) with false by (symmetry; apply Z.eqb_neq; lia).
    rewrite Z.land_ones by lia.
    split; [lia |]. unfold s32. cbv zeta.
    rewrite (Z.mod_small (x mod 2 ^ n)) by lia.
    replace (x mod 2 ^ n <? 2 ^ 31) with true by (symmetry; apply Z.ltb_lt; lia).
    reflexivity.
Qed.

Lemma uwatec_smart_fixsignbit_sign_extends_witness :
  0 <= uwatec_smart_fixsignbit 0x7D 7 < 2 ^ 32 /\
  s32 (uwatec_smart_fixsignbit 0x7D 7)
  = if Z.testbit 0x7D (7 - 1) then 0x7D mod 2 ^ 7 - 2 ^ 7 else 0x7D mod 2 ^ 7.
Proof.
  apply uwatec_smart_fixsignbit_sign_extends; split; by_evaluation.
Defined.

Lemma smart_tables_ok (model devtime : Z) (systime : dc_ticks_t)
  (parser : uwatec_smart_parser_t) :
  uwatec_smart_parser_create model devtime systime = Some parser ->
  forallb smart_entry_ok (sm_samples parser) = true.
Proof.
  unfold uwatec_smart_parser_create. cbv zeta.
  repeat match goal with
         | |- context [if ?c then _ else _] => destruct c
         end;
    intro H; try discriminate H; injection H as <-; reflexivity.
Qed.

Lemma land_low_mask (b n : Z) :
  1 <= n <= 7 -> 0 <= Z.land b (Z.shiftr 0xFF n) < 2 ^ (8 - n).
Proof.
  intro Hn.
  assert (Hcases : n = 1 \/ n = 2 \/ n = 3 \/ n = 4 \/ n = 5 \/ n = 6 \/ n = 7) by lia.
  destruct Hcases as [-> | [-> | [-> | [-> | [-> | [-> | ->]]]]]];
    match goal with
    | |- context [Z.shiftr 255 ?k] =>
        change (Z.shiftr 255 k) with (Z.ones (8 - k))
    end;
    rewrite Z.land_ones by lia; apply Z.mod_pos_bound; lia.
Qed.

Lemma uwatec_smart_extrabytes_spec (data : blob) :
  forall (n : nat) (offset nbits value : Z),
    0 <= offset -> offset + Z.of_nat n < 2 ^ 32 ->
    0 <= nbits -> nbits + 8 * Z.of_nat n <= 31 ->
    0 <= value < 2 ^ nbits ->
    exists value',
      uwatec_smart_extrabytes n data offset nbits value
      = (offset + Z.of_nat n, nbits + 8 * Z.of_nat n, value') /\
      0 <= value' < 2 ^ (nbits + 8 * Z.of_nat n).
Proof.
  induction n as [| n IH]; intros offset nbits value Hoff Hmax Hnb Hbits Hv.
  - exists value. cbn [uwatec_smart_extrabytes]. rewrite !Z.add_0_r.
    split; [reflexivity | exact Hv].
  - cbn [uwatec_smart_extrabytes]. unfold Smart.NBITS.
    pose proof (byte_at_range data offset) as Hb.
    assert (Hpow : 2 ^ (nbits + 8) = 2 ^ nbits * 256)
      by (rewrite Z.pow_add_r by lia; reflexivity).
    assert (Hpow31 : 2 ^ (nbits + 8) <= 2 ^ 31) by (apply Z.pow_le_mono_r; lia).
    rewrite Z.shiftl_mul_pow2 by lia. change (2 ^ 8) with 256.
    rewrite (u32_small (offset + 1)), (u32_small (nbits + 8)),
      (u32_small (value * 256)), (u32_small (value * 256 + byte_at data offset)) by lia.
    destruct (IH (offset + 1) (nbits + 8) (value * 256 + byte_at data offset))
      as [value' [Heq Hv']]; try lia.
    exists value'. rewrite Heq.
    replace (offset + 1 + Z.of_nat n) with (offset + Z.of_nat (S n)) by lia.
    replace (nbits + 8 + 8 * Z.of_nat n) with (nbits + 8 * Z.of_nat (S n)) in * by lia.
    split; [reflexivity | exact Hv'].
Qed.

(** The data bits of a sample whose table entry keeps the bounds. *)
Lemma uwatec_smart_sample_value_spec
  (entry : uwatec_smart_sample_info_t) (data : blob) (offset offset' nbits value : Z) :
  smart_entry_ok entry = true ->
  0 <= offset < blob_size data -> blob_size data < 2 ^ 32 - 4 ->
  uwatec_smart_sample_value data entry offset = Some (offset', nbits, value) ->
  offset < offset' <= blob_size data /\
  0 <= nbits <= 23 /\
  0 <= value < 2 ^ nbits /\
  8 * (offset' - offset) = s_ntypebits entry + smart_ignored_bits entry + nbits.
Proof.
  intros Hok Hoff Hsz.
  unfold smart_entry_ok in Hok.
  apply andb_true_iff in Hok. destruct Hok as [Hok He2].
  apply andb_true_iff in Hok. destruct Hok as [Hok He1].
  apply andb_true_iff in Hok. destruct Hok as [Ht1 Ht2].
  apply Z.leb_le in Ht1, Ht2, He1, He2.
  unfold uwatec_smart_sample_value, smart_ignored_bits, Smart.NBITS. cbv zeta.
  set (q := s_ntypebits entry / 8). set (n := s_ntypebits entry mod 8).
  assert (Hq : 0 <= q <= 1) by (unfold q; div_lia).
  assert (Hn : 0 <= n < 8) by (unfold n; div_lia).
  assert (Hqn : s_ntypebits entry = 8 * q + n) by (unfold q, n; div_lia).
  rewrite (u32_small (offset + q)) by lia.
  assert (Hstage :
    forall off1 nb1 v1,
      offset < off1 <= offset + 2 -> 0 <= nb1 <= 7 -> 0 <= v1 < 2 ^ nb1 ->
      (if u32 (off1 + s_extrabytes entry) >? blob_size data then None
       else Some (uwatec_smart_extrabytes (Z.to_nat (s_extrabytes entry)) data off1 nb1 v1))
      = Some (offset', nbits, value) ->
      offset < offset' <= blob_size data /\ 0 <= nbits <= 23 /\ 0 <= value < 2 ^ nbits /\
      offset' = off1 + s_extrabytes entry /\ nbits = nb1 + 8 * s_extrabytes entry).
  { intros off1 nb1 v1 Ho1 Hnb1 Hv1.
    rewrite (u32_small (off1 + s_extrabytes entry)) by lia.
    destruct (off1 + s_extrabytes entry >? blob_size data) eqn:Echeck; [discriminate |].
    rewrite Z.gtb_ltb in Echeck. apply Z.ltb_ge in Echeck.
    destruct (uwatec_smart_extrabytes_spec data (Z.to_nat (s_extrabytes entry)) off1 nb1 v1)
      as [v' [Heq Hv']]; try lia.
    rewrite Z2Nat.id in Heq, Hv' by lia.
    rewrite Heq. intro H.
    assert (Ho' : off1 + s_extrabytes entry = offset') by congruence.
    assert (Hnb' : nb1 + 8 * s_extrabytes entry = nbits) by congruence.
    assert (Hv'' : v' = value) by congruence.
    rewrite <- Ho', <- Hnb', <- Hv''.
    split; [lia | split; [lia | split; [exact Hv' | split; reflexivity]]]. }
  destruct (n >? 0) eqn:En.
  - rewrite Z.gtb_ltb in En. apply Z.ltb_lt in En.
    rewrite (u32_small (offset + q + 1)) by lia.
    destruct (s_ignoretype entry =? 0) eqn:Ei; cbn [negb andb].
    + intro H. pose proof (land_low_mask (byte_at data (offset + q)) n ltac:(lia)) as Hland.
      apply Hstage in H; [| lia | lia | exact Hland].
      destruct H as [H1 [H2 [H3 [H4 H5]]]]. repeat split; lia.
    + intro H. apply Hstage in H; [| lia | lia | cbn; lia].
      destruct H as [H1 [H2 [H3 [H4 H5]]]]. repeat split; lia.
  - rewrite Z.gtb_ltb in En. apply Z.ltb_ge in En.
    rewrite andb_false_r.
    intro H. apply Hstage in H; [| lia | lia | cbn; lia].
    destruct H as [H1 [H2 [H3 [H4 H5]]]]. repeat split; lia.
Qed.

(** X11. For every sample table that [uwatec_smart_parser_create]
    installs, a sample whose data bits were read without the "Incomplete
    sample data" return ends inside the blob and strictly after its start,
    carries at most 23 data bits, its value fits in them, and every bit
    between the two offsets is a type bit, a data bit or an ignored bit of
    the last type byte. *)
Theorem uwatec_smart_sample_value_bounds
  (model devtime : Z) (systime : dc_ticks_t) (parser : uwatec_smart_parser_t)
  (entry : uwatec_smart_sample_info_t) (data : blob) (offset offset' nbits value : Z) :
  uwatec_smart_parser_create model devtime systime = Some parser ->
  In entry (sm_samples parser) ->
  0 <= offset < blob_size data -> blob_size data < 2 ^ 32 - 4 ->
  uwatec_smart_sample_value data entry offset = Some (offset', nbits, value) ->
  offset < offset' <= blob_size data /\
  0 <= nbits <= 23 /\
  0 <= value < 2 ^ nbits /\
  8 * (offset' - offset) = s_ntypebits entry + smart_ignored_bits entry + nbits.
Proof.
  intros Hcreate Hin.
  pose proof (smart_tables_ok _ _ _ _ Hcreate) as Hok.
  rewrite forallb_forall in Hok.
  apply uwatec_smart_sample_value_spec, Hok, Hin.
Qed.

Lemma uwatec_smart_sample_value_bounds_witness :
  0 < 2 <= blob_size smart_depth_delta_example /\
  0 <= 11 <= 23 /\
  0 <= 0x512 < 2 ^ 11 /\
  8 * (2 - 0)
  = s_ntypebits (mk_sample_info DEPTH 0 0 5 0 1) +
    smart_ignored_bits (mk_sample_info DEPTH 0 0 5 0 1) + 11.
Proof.
  eapply (uwatec_smart_sample_value_bounds Smart.SMARTPRO 0 0 _
            (mk_sample_info DEPTH 0 0 5 0 1) smart_depth_delta_example 0).
  - reflexivity.
  - do 4 right. left. reflexivity.
  - split; by_evaluation.
  - by_evaluation.
  - by_evaluation.
Defined.

(** ** Uwatec Galileo type bits *)

Lemma uwatec_galileo_identify_check :
  forallb
    (fun v =>
       (0 <=? uwatec_galileo_identify v) && (uwatec_galileo_identify v <=? 22) &&
       Bool.eqb (uwatec_galileo_identify v <? 19) (v <? 0xFC) &&
       match nth_error uwatec_smart_galileo_samples
               (Z.to_nat (uwatec_galileo_identify v)) with
       | Some entry =>
           forallb
             (fun w =>
                Bool.eqb (Z.shiftr w (8 - s_ntypebits entry)
                          =? Z.shiftr v (8 - s_ntypebits entry))
                         (uwatec_galileo_identify w =? uwatec_galileo_identify v))
             (indices 256)
       | None => true
       end)
    (indices 256) = true.
Proof.
  vm_compute. reflexivity.
Qed.

(** X12. [uwatec_galileo_identify] decodes a prefix code that agrees with
    the Galileo sample table: for every byte the identifier lies in 0..22,
    it is a valid table index exactly for the bytes below 0xFC, and then
    another byte gets the same identifier if and only if it has the same
    leading [ntypebits] bits, [ntypebits] taken from the table entry. *)
Theorem uwatec_galileo_identify_prefix_code (v : Z) :
  0 <= v < 256 ->
  0 <= uwatec_galileo_identify v <= 22 /\
  (uwatec_galileo_identify v < Z.of_nat (length uwatec_smart_galileo_samples) <-> v < 0xFC) /\
  forall (entry : uwatec_smart_sample_info_t) (w : Z),
    nth_error uwatec_smart_galileo_samples (Z.to_nat (uwatec_galileo_identify v))
    = Some entry ->
    0 <= w < 256 ->
    (Z.shiftr w (8 - s_ntypebits entry) = Z.shiftr v (8 - s_ntypebits entry) <->
     uwatec_galileo_identify w = uwatec_galileo_identify v).
Proof.
  intro Hv.
  pose proof uwatec_galileo_identify_check as Hcheck.
  rewrite forallb_forall in Hcheck.
  specialize (Hcheck v ltac:(apply In_indices; lia)).
  apply andb_true_iff in Hcheck. destruct Hcheck as [Hcheck Hprefix].
  apply andb_true_iff in Hcheck. destruct Hcheck as [Hcheck Hvalid].
  apply andb_true_iff in Hcheck. destruct Hcheck as [Hlo Hhi].
  apply Z.leb_le in Hlo, Hhi. apply Bool.eqb_prop in Hvalid.
  split; [lia | split].
  - change (Z.of_nat (length uwatec_smart_galileo_samples)) with 19.
    rewrite <- !Z.ltb_lt, Hvalid. reflexivity.
  - intros entry w Hentry Hw. rewrite Hentry in Hprefix.
    rewrite forallb_forall in Hprefix.
    specialize (Hprefix w ltac:(apply In_indices; lia)).
    apply Bool.eqb_prop in Hprefix.
    rewrite <- !Z.eqb_eq, Hprefix. reflexivity.
Qed.

Lemma uwatec_galileo_identify_prefix_code_witness :
  0 <= uwatec_galileo_identify 0xB7 <= 22 /\
  (uwatec_galileo_identify 0xB7 < Z.of_nat (length uwatec_smart_galileo_samples)
   <-> 0xB7 < 0xFC) /\
  forall (entry : uwatec_smart_sample_info_t) (w : Z),
    nth_error uwatec_smart_galileo_samples (Z.to_nat (uwatec_galileo_identify 0xB7))
    = Some entry ->
    0 <= w < 256 ->
    (Z.shiftr w (8 - s_ntypebits entry) = Z.shiftr 0xB7 (8 - s_ntypebits entry) <->
     uwatec_galileo_identify w = uwatec_galileo_identify 0xB7).
Proof.
  apply uwatec_galileo_identify_prefix_code. split; by_evaluation.
Defined.

(** ** Oceanic Atom2: the clock of the sample stream *)

Lemma multiples_S_last (interval c : Z) (m : nat) :
  multiples interval c (S m)
  = multiples interval c m ++ [u32 ((c + Z.of_nat m + 1) * interval)].
Proof.
  unfold multiples. rewrite indices_S_last, map_app. reflexivity.
Qed.

Lemma multiples_app (interval c : Z) (m1 m2 : nat) :
  multiples interval c m1 ++ multiples interval (c + Z.of_nat m1) m2
  = multiples interval c (m1 + m2).
Proof.
  induction m2 as [| m2 IH].
  - rewrite Nat.add_0_r. apply app_nil_r.
  - rewrite Nat.add_succ_r, !multiples_S_last, app_assoc, IH.
    do 3 f_equal. lia.
Qed.

Lemma length_multiples (interval c : Z) (m : nat) : length (multiples interval c m) = m.
Proof.
  unfold multiples. rewrite length_map. apply length_indices.
Qed.

Lemma atom2_surface_times (interval : Z) :
  forall (n : nat) (time c : Z) (complete : bool) out t cpl,
    time = u32 (c * interval) ->
    atom2_surface n interval time complete = (out, t, cpl) ->
    exists m : nat,
      sample_times out = multiples interval c m /\
      t = u32 ((c + Z.of_nat m) * interval).
Proof.
  induction n as [| n IH]; intros time c complete out t cpl Htime H.
  - cbn [atom2_surface] in H. injection H as <- <- _.
    exists 0%nat. split; [reflexivity |]. rewrite Z.add_0_r. exact Htime.
  - cbn [atom2_surface] in H. cbv zeta in H.
    destruct (atom2_surface n interval (if complete then u32 (time + interval) else time) true)
      as [[rest t'] c'] eqn:Erec.
    injection H as <- <- _.
    destruct complete.
    + assert (Hnext : u32 (time + interval) = u32 ((c + 1) * interval))
        by (rewrite Htime, u32_add_idemp_l; f_equal; lia).
      destruct (IH _ (c + 1) _ _ _ _ Hnext Erec) as [m [Hrest Ht]].
      exists (1 + m)%nat. rewrite <- multiples_app. split.
      * cbn [app sample_times]. rewrite Hrest. unfold multiples at 2.
        rewrite map_indices_S. cbn [map indices seq app].
        change (map (fun k : Z => u32 ((c + (k + 1) + 1) * interval)) (indices 0)) with (@nil Z).
        cbn [app]. rewrite Hnext.
        replace (c + 0 + 1) with (c + 1) by lia.
        replace (c + Z.of_nat 1) with (c + 1) by lia. reflexivity.
      * rewrite Ht. f_equal. lia.
    + destruct (IH _ c _ _ _ _ Htime Erec) as [m [Hrest Ht]].
      exists m. split; [exact Hrest | exact Ht].
Qed.

Section OceanicAtom2Properties.

Variables PSI BAR : float.

Lemma atom2_sample_times (model : Z) (data : blob) (s : atom2_setup) (offset : Z)
  (l l' : atom2_locals) (c : Z) r out len :
  a_time l = u32 (c * st_interval s) ->
  atom2_sample PSI BAR model data s offset l = (r, out, l', len) ->
  (exists m : nat,
      sample_times out = multiples (st_interval s) c m /\
      a_time l' = u32 ((c + Z.of_nat m) * st_interval s)) /\
  (r = None \/ r = Some DC_STATUS_DATAFORMAT) /\
  (r = None ->
   len = st_samplesize s \/
   (len = PAGESIZE /\ u32 (offset + PAGESIZE) <= u32 (blob_size data - PAGESIZE))).
Proof.
  intro Htime. unfold atom2_sample. cbv zeta.
  set (i := st_interval s) in *.
  set (time := if a_complete l then u32 (a_time l + i) else a_time l).
  set (out0 := if a_complete l then [DC_SAMPLE_TIME time] else []).
  assert (H0 : exists m0 : nat,
             sample_times out0 = multiples i c m0 /\ time = u32 ((c + Z.of_nat m0) * i)).
  { unfold out0, time. destruct (a_complete l).
    - exists 1%nat. split.
      + unfold multiples. rewrite map_indices_S. cbn [sample_times].
        rewrite Htime, u32_add_idemp_l. f_equal. f_equal. lia.
      + rewrite Htime, u32_add_idemp_l. f_equal. lia.
    - exists 0%nat. split; [reflexivity |]. rewrite Z.add_0_r. exact Htime. }
  destruct H0 as [m0 [Hm0 Ht0]].
  set (sampletype := if st_mode s =? FREEDIVE then 0 else byte_at data (offset + 0)).
  destruct (sampletype =? 0xBB) eqn:Ebb; cbn [andb].
  - destruct (u32 (offset + PAGESIZE) >? u32 (blob_size data - PAGESIZE)) eqn:Egt.
    + intro H. injection H as <- <- <- <-. cbn [a_time].
      split; [exists m0; split; assumption | split; [right; reflexivity | discriminate]].
    + replace (sampletype =? 0xAA) with false
        by (apply Z.eqb_eq in Ebb; rewrite Ebb; reflexivity).
      destruct (atom2_surface _ i time false) as [[surf t'] cpl] eqn:Es.
      destruct (atom2_surface_times _ _ _ (c + Z.of_nat m0) _ _ _ _ Ht0 Es) as [m [Hsurf Ht']].
      intro H. injection H as <- <- <- <-. cbn [a_time].
      split; [| split; [left; reflexivity |]].
      * exists (m0 + m)%nat. rewrite sample_times_app, Hm0. cbn [sample_times].
        rewrite Hsurf, multiples_app. split; [reflexivity |].
        rewrite Ht'. f_equal. lia.
      * intros _. right. split; [reflexivity |].
        rewrite Z.gtb_ltb in Egt. apply Z.ltb_ge in Egt. exact Egt.
  - destruct (sampletype =? 0xAA).
    + destruct (atom2_tank_switch model data offset) as [tank pressure].
      intro H. injection H as <- <- <- <-. cbn [a_time].
      split; [| split; [left; reflexivity | intros _; left; reflexivity]].
      exists m0. rewrite sample_times_app, Hm0. cbn [sample_times].
      rewrite app_nil_r. split; [reflexivity | exact Ht0].
    + intro H. injection H as <- <- <- <-. cbn [a_time].
      split; [| split; [left; reflexivity | intros _; left; reflexivity]].
      exists m0. rewrite sample_times_app, Hm0.
      destruct (st_have_temperature s), (st_have_pressure s); cbn [sample_times app];
        match goal with
        | |- context [sample_times (if ?b then _ else _)] => destruct b
        end;
        cbn [sample_times]; rewrite app_nil_r; (split; [reflexivity | exact Ht0]).
Qed.

Lemma atom2_samples_loop_eq (fuel : nat) (parser : oceanic_atom2_parser_t)
  (s : atom2_setup) (offset : Z) (l : atom2_locals) :
  atom2_samples_loop PSI BAR fuel parser s offset l
  = let data := a2_data parser in
    if u32 (offset + st_samplesize s) <=? u32 (blob_size data - a2_footersize parser) then
      match fuel with
      | O => None
      | S fuel' =>
          if array_isequal data offset (st_samplesize s) 0x00 ||
             array_isequal data offset (st_samplesize s) 0xFF then
            atom2_samples_loop PSI BAR fuel' parser s (u32 (offset + st_samplesize s)) l
          else
            match atom2_sample PSI BAR (a2_model parser) data s offset l with
            | (Some st, out, _, _) => Some (st, out)
            | (None, out, l', length) =>
                match atom2_samples_loop PSI BAR fuel' parser s (u32 (offset + length)) l' with
                | Some (st, rest) => Some (st, out ++ rest)
                | None => None
                end
            end
      end
    else Some (DC_STATUS_SUCCESS, []).
Proof.
  destruct fuel; reflexivity.
Qed.

(** With fuel for every sample before the footer the loop ends, with
    SUCCESS or DATAFORMAT, and the TIME values it emitted continue the
    multiples of the interval. *)
Lemma atom2_samples_loop_times (parser : oceanic_atom2_parser_t) (s : atom2_setup) :
  let bound := blob_size (a2_data parser) - a2_footersize parser in
  0 <= a2_footersize parser <= PAGESIZE ->
  PAGESIZE <= blob_size (a2_data parser) < 2 ^ 32 - PAGESIZE ->
  2 <= st_samplesize s <= PAGESIZE ->
  forall (fuel : nat) (offset : Z) (l : atom2_locals) (c : Z),
    0 <= offset <= bound -> bound - offset < 2 * Z.of_nat fuel ->
    a_time l = u32 (c * st_interval s) ->
    exists st out (m : nat),
      atom2_samples_loop PSI BAR fuel parser s offset l = Some (st, out) /\
      (st = DC_STATUS_SUCCESS \/ st = DC_STATUS_DATAFORMAT) /\
      sample_times out = multiples (st_interval s) c m.
Proof.
  intros bound Hfs Hsz Hss fuel. unfold PAGESIZE in Hfs, Hsz, Hss.
  induction fuel as [| fuel IH]; intros offset l c Hoff Hfuel Htime; [lia |].
  rewrite atom2_samples_loop_eq. cbv zeta. fold bound.
  rewrite (u32_small bound), (u32_small (offset + st_samplesize s)) by lia.
  destruct (offset + st_samplesize s <=? bound) eqn:Econd.
  2: { exists DC_STATUS_SUCCESS, [], 0%nat.
       split; [reflexivity | split; [left; reflexivity | reflexivity]]. }
  apply Z.leb_le in Econd.
  destruct (array_isequal _ _ _ 0 || array_isequal _ _ _ 255).
  - apply IH; [lia | lia | exact Htime].
  - destruct (atom2_sample PSI BAR (a2_model parser) (a2_data parser) s offset l)
      as [[[r out] l'] len] eqn:Es.
    destruct (atom2_sample_times _ _ _ _ _ _ _ _ _ _ Htime Es)
      as [[m1 [Hout Htime']] [Hr Hlen]].
    destruct Hr as [-> | ->].
    + assert (Hnext : 0 <= offset + len <= bound /\ 2 <= len).
      { destruct (Hlen eq_refl) as [-> | [-> Hbb]]; [lia |].
        unfold PAGESIZE in *.
        rewrite (u32_small (offset + 16)), (u32_small (blob_size (a2_data parser) - 16)) in Hbb
          by (unfold bound in *; lia).
        unfold bound in *. lia. }
      rewrite (u32_small (offset + len)) by lia.
      destruct (IH (offset + len) l' (c + Z.of_nat m1)) as [st [rest [m2 [Hrest [Hst Htimes]]]]];
        [lia | lia | exact Htime' |].
      rewrite Hrest. exists st, (out ++ rest), (m1 + m2)%nat.
      split; [reflexivity | split; [exact Hst |]].
      rewrite sample_times_app, Hout, Htimes. apply multiples_app.
    + exists DC_STATUS_DATAFORMAT, out, m1.
      split; [reflexivity | split; [right; reflexivity | exact Hout]].
Qed.

End OceanicAtom2Properties.

Lemma atom2_create_sizes (model serial : Z) :
  40 <= a2_headersize (oceanic_atom2_parser_create model serial) <= 104 /\
  8 <= a2_footersize (oceanic_atom2_parser_create model serial) <= 16.
Proof.
  unfold oceanic_atom2_parser_create. cbv zeta.
  repeat match goal with
         | |- context [if ?c then _ else _] => destruct c
         end;
    cbn [a2_headersize a2_footersize]; unfold PAGESIZE; split; split; by_evaluation.
Qed.

Lemma atom2_samplesize_bounds (model mode : Z) : 2 <= atom2_samplesize model mode <= PAGESIZE.
Proof.
  unfold atom2_samplesize.
  repeat match goal with
         | |- context [if ?c then _ else _] => destruct c
         end;
    unfold PAGESIZE; split; by_evaluation.
Qed.

(** X13. For every model, on a blob below 4 GiB - 16 the Atom2
    samples_foreach returns (SUCCESS or DATAFORMAT), and whatever the mix
    of ordinary, tank switch and surface interval samples, the TIME values
    it has emitted are the consecutive multiples interval, 2 * interval,
    ... of the sample interval (in [unsigned int] arithmetic). *)
Theorem atom2_sample_clock (PSI BAR : float) (model serial : Z) (data : blob) :
  blob_size data < 2 ^ 32 - PAGESIZE ->
  let interval := atom2_interval model (atom2_mode model data) data in
  exists st out,
    oceanic_atom2_parser_samples_foreach PSI BAR (atom2_parser_of model serial data)
    = Some (st, out) /\
    (st = DC_STATUS_SUCCESS \/ st = DC_STATUS_DATAFORMAT) /\
    sample_times out
    = map (fun k => u32 ((k + 1) * interval)) (indices (length (sample_times out))).
Proof.
  intros Hsz interval.
  pose proof (atom2_create_sizes model serial) as [Hhs Hfs].
  unfold oceanic_atom2_parser_samples_foreach, atom2_parser_of. cbv zeta.
  cbn [oceanic_atom2_parser_set_data snd a2_data a2_model a2_headersize a2_footersize].
  set (hs := a2_headersize (oceanic_atom2_parser_create model serial)) in *.
  set (fs := a2_footersize (oceanic_atom2_parser_create model serial)) in *.
  assert (Hmodel : a2_model (oceanic_atom2_parser_create model serial) = model)
    by (unfold oceanic_atom2_parser_create; cbv zeta;
        destruct (if model_in model _ then _ else _); reflexivity).
  rewrite Hmodel. fold interval.
  rewrite (u32_small (hs + fs)) by lia.
  destruct (blob_size data <? hs + fs) eqn:Eshort.
  { exists DC_STATUS_DATAFORMAT, [].
    split; [reflexivity | split; [right; reflexivity | reflexivity]]. }
  apply Z.ltb_ge in Eshort.
  match goal with
  | |- context [atom2_samples_loop PSI BAR ?f ?p ?su ?o ?lo] =>
      pose proof (atom2_samples_loop_times PSI BAR p su) as Hl;
      cbv zeta in Hl;
      specialize (fun A B C => Hl A B C f o lo 0)
  end.
  cbn [a2_data a2_footersize st_samplesize st_interval a_time] in Hl. fold fs in Hl.
  destruct Hl as [st [out [m [Hloop [Hst Htimes]]]]];
    unfold PAGESIZE in *; try lia.
  - apply atom2_samplesize_bounds.
  - unfold blob_size in *. lia.
  - reflexivity.
  - exists st, out. split; [exact Hloop | split; [exact Hst |]].
    rewrite Htimes, length_multiples. unfold multiples.
    apply map_ext. intro k. f_equal.
Qed.

Lemma atom2_sample_clock_witness :
  exists st out,
    oceanic_atom2_parser_samples_foreach 6894.757%float 100000.0%float
      (atom2_parser_of ATOM2 0 atom2_clock_example)
    = Some (st, out) /\
    (st = DC_STATUS_SUCCESS \/ st = DC_STATUS_DATAFORMAT) /\
    sample_times out = map (fun k => u32 ((k + 1) * 30)) (indices (length (sample_times out))).
Proof.
  assert (Hsz : blob_size atom2_clock_example < 2 ^ 32 - PAGESIZE) by by_evaluation.
  exact (atom2_sample_clock 6894.757%float 100000.0%float ATOM2 0 atom2_clock_example Hsz).
Defined.

(** ** Suunto Common2: packets *)

(** X14. [suunto_common2_transfer] repeats one and the same exchange, and
    what it returns is the outcome of the last exchange it made: every
    exchange before the last ended in TIMEOUT or PROTOCOL, there are at
    most MAXRETRIES = 2 of those, and the call gives up with TIMEOUT or
    PROTOCOL only after the third exchange.  So any other status, SUCCESS
    included, ends the call at the exchange that produced it. *)
Theorem suunto_common2_transfer_retries (world : Type)
  (pk : world -> list byte -> Z -> Z -> world * dc_status_t * list byte)
  (w w' : world) (log : list exchange) (command answer : list byte) (asize size : Z)
  (rc : dc_status_t) :
  suunto_common2_transfer (world * list exchange) (Some (logged_packet pk)) (w, [])
    command asize size = ((w', log), rc, answer) ->
  exists (earlier : list dc_status_t) (w0 : world),
    log = map (mk_exchange command asize size) (earlier ++ [rc]) /\
    Forall (fun st => st = DC_STATUS_TIMEOUT \/ st = DC_STATUS_PROTOCOL) earlier /\
    (length earlier <= 2)%nat /\
    (rc = DC_STATUS_TIMEOUT \/ rc = DC_STATUS_PROTOCOL -> length earlier = 2%nat) /\
    pk w0 command asize size = (w', rc, answer).
Proof.
  unfold suunto_common2_transfer.
  change (Z.to_nat Common2.MAXRETRIES) with 2%nat.
  cbn [suunto_common2_transfer_loop]. unfold logged_packet at 1. cbn [fst snd app].
  destruct (pk w command asize size) as [[w1 rc1] a1] eqn:E1.
  assert (Hend1 : (w1, [mk_exchange command asize size rc1], rc1, a1) = (w', log, rc, answer) ->
                  rc1 <> DC_STATUS_TIMEOUT -> rc1 <> DC_STATUS_PROTOCOL ->
                  exists (earlier : list dc_status_t) (w0 : world),
                    log = map (mk_exchange command asize size) (earlier ++ [rc]) /\
                    Forall (fun st => st = DC_STATUS_TIMEOUT \/ st = DC_STATUS_PROTOCOL) earlier /\
                    (length earlier <= 2)%nat /\
                    (rc = DC_STATUS_TIMEOUT \/ rc = DC_STATUS_PROTOCOL
                     -> length earlier = 2%nat) /\
                    pk w0 command asize size = (w', rc, answer)).
  { intros H Ht Hp. injection H as <- <- <- <-. exists [], w.
    split; [reflexivity | split; [constructor | split; [cbn; lia | split; [| exact E1]]]].
    intros [E | E]; [elim (Ht E) | elim (Hp E)]. }
  assert (Hretry : (rc1 = DC_STATUS_TIMEOUT \/ rc1 = DC_STATUS_PROTOCOL) ->
            suunto_common2_transfer_loop (world * list exchange) 1 (logged_packet pk)
              (w1, [mk_exchange command asize size rc1]) command asize size
            = ((w', log), rc, answer) ->
            exists (earlier : list dc_status_t) (w0 : world),
              log = map (mk_exchange command asize size) (earlier ++ [rc]) /\
              Forall (fun st => st = DC_STATUS_TIMEOUT \/ st = DC_STATUS_PROTOCOL) earlier /\
              (length earlier <= 2)%nat /\
              (rc = DC_STATUS_TIMEOUT \/ rc = DC_STATUS_PROTOCOL -> length earlier = 2%nat) /\
              pk w0 command asize size = (w', rc, answer)).
  { intro Hrc1. clear Hend1.
    cbn [suunto_common2_transfer_loop]. unfold logged_packet at 1. cbn [fst snd app].
    destruct (pk w1 command asize size) as [[w2 rc2] a2] eqn:E2.
    assert (Hend2 : (w2, [mk_exchange command asize size rc1;
                          mk_exchange command asize size rc2], rc2, a2)
                    = (w', log, rc, answer) ->
                    rc2 <> DC_STATUS_TIMEOUT -> rc2 <> DC_STATUS_PROTOCOL ->
                    exists (earlier : list dc_status_t) (w0 : world),
                      log = map (mk_exchange command asize size) (earlier ++ [rc]) /\
                      Forall (fun st => st = DC_STATUS_TIMEOUT \/ st = DC_STATUS_PROTOCOL)
                             earlier /\
                      (length earlier <= 2)%nat /\
                      (rc = DC_STATUS_TIMEOUT \/ rc = DC_STATUS_PROTOCOL
                       -> length earlier = 2%nat) /\
                      pk w0 command asize size = (w', rc, answer)).
    { intros H Ht Hp. injection H as <- <- <- <-. exists [rc1], w1.
      split; [reflexivity |
              split; [constructor; [exact Hrc1 | constructor] |
                      split; [cbn; lia | split; [| exact E2]]]].
      intros [E | E]; [elim (Ht E) | elim (Hp E)]. }
    assert (Hlast : (rc2 = DC_STATUS_TIMEOUT \/ rc2 = DC_STATUS_PROTOCOL) ->
              suunto_common2_transfer_loop (world * list exchange) 0 (logged_packet pk)
                (w2, [mk_exchange command asize size rc1;
                      mk_exchange command asize size rc2]) command asize size
              = ((w', log), rc, answer) ->
              exists (earlier : list dc_status_t) (w0 : world),
                log = map (mk_exchange command asize size) (earlier ++ [rc]) /\
                Forall (fun st => st = DC_STATUS_TIMEOUT \/ st = DC_STATUS_PROTOCOL) earlier /\
                (length earlier <= 2)%nat /\
                (rc = DC_STATUS_TIMEOUT \/ rc = DC_STATUS_PROTOCOL
                 -> length earlier = 2%nat) /\
                pk w0 command asize size = (w', rc, answer)).
    { intro Hrc2. clear Hend2.
      cbn [suunto_common2_transfer_loop]. unfold logged_packet at 1. cbn [fst snd app].
      destruct (pk w2 command asize size) as [[w3 rc3] a3] eqn:E3.
      intro H.
      assert (H' : (w3, [mk_exchange command asize size rc1;
                         mk_exchange command asize size rc2;
                         mk_exchange command asize size rc3], rc3, a3)
                   = (w', log, rc, answer))
        by (destruct rc3; exact H).
      injection H' as <- <- <- <-. exists [rc1; rc2], w2.
      split; [reflexivity |
              split; [constructor; [exact Hrc1 | constructor; [exact Hrc2 | constructor]] |
                      split; [cbn; lia | split; [intros _; reflexivity | exact E3]]]]. }
    destruct rc2; intro H;
      try (apply Hend2; [exact H | discriminate | discriminate]);
      (apply Hlast; [(left; reflexivity) || (right; reflexivity) | exact H]). }
  destruct rc1; intro H;
    try (apply Hend1; [exact H | discriminate | discriminate]);
    (apply Hretry; [(left; reflexivity) || (right; reflexivity) | exact H]).
Qed.

Lemma suunto_common2_transfer_retries_witness :
  exists (earlier : list dc_status_t) (w0 : nat),
    [mk_exchange [x0f; x00; x00; x0f] 8 4 DC_STATUS_TIMEOUT;
     mk_exchange [x0f; x00; x00; x0f] 8 4 DC_STATUS_SUCCESS]
    = map (mk_exchange [x0f; x00; x00; x0f] 8 4) (earlier ++ [DC_STATUS_SUCCESS]) /\
    Forall (fun st => st = DC_STATUS_TIMEOUT \/ st = DC_STATUS_PROTOCOL) earlier /\
    (length earlier <= 2)%nat /\
    (DC_STATUS_SUCCESS = DC_STATUS_TIMEOUT \/ DC_STATUS_SUCCESS = DC_STATUS_PROTOCOL
     -> length earlier = 2%nat) /\
    flaky_line 1 w0 [x0f; x00; x00; x0f] 8 4 = (2%nat, DC_STATUS_SUCCESS, repeat x00 4).
Proof.
  apply (suunto_common2_transfer_retries nat (flaky_line 1) 0%nat 2%nat
           [mk_exchange [x0f; x00; x00; x0f] 8 4 DC_STATUS_TIMEOUT;
            mk_exchange [x0f; x00; x00; x0f] 8 4 DC_STATUS_SUCCESS]
           [x0f; x00; x00; x0f] (repeat x00 4) 8 4 DC_STATUS_SUCCESS).
  reflexivity.
Defined.

Lemma u8_byte_of_Z (z : Z) : 0 <= z < 256 -> u8 (byte_of_Z z) = z.
Proof.
  intro Hz. unfold u8, byte_of_Z.
  destruct (Byte.of_N (Z.to_N z)) as [b |] eqn:E.
  - apply Byte.to_of_N in E. rewrite E. lia.
  - apply Byte.of_N_None_iff in E. lia.
Qed.

Lemma firstn_add_skipn (A : Type) (l : list A) :
  forall n m : nat, firstn (n + m) l = firstn n l ++ firstn m (skipn n l).
Proof.
  induction l as [| x l IH]; intros [| n] m; cbn [Nat.add firstn skipn app];
    try reflexivity; try (rewrite firstn_nil; reflexivity).
  rewrite IH. reflexivity.
Qed.

Lemma bytes_slice_app (mem : list byte) (a n len : Z) :
  0 <= a -> 0 <= n -> 0 <= len ->
  bytes_slice mem a n ++ bytes_slice mem (a + n) len = bytes_slice mem a (n + len).
Proof.
  intros Ha Hn Hlen. unfold bytes_slice.
  rewrite !Z2Nat.inj_add by lia.
  rewrite firstn_add_skipn, skipn_skipn.
  rewrite (Nat.add_comm (Z.to_nat n) (Z.to_nat a)). reflexivity.
Qed.

Lemma checksum_xor_uint8_range (data : list byte) :
  forall init : Z, 0 <= init < 256 -> 0 <= checksum_xor_uint8 data init < 256.
Proof.
  unfold checksum_xor_uint8.
  induction data as [| b data IH]; intros init Hinit; cbn [fold_left]; [exact Hinit |].
  apply IH. pose proof (u8_range b) as Hb.
  assert (Hnonneg : 0 <= Z.lxor init (u8 b)) by (apply Z.lxor_nonneg; lia).
  split; [exact Hnonneg |].
  destruct (Z.eq_dec (Z.lxor init (u8 b)) 0) as [-> | Hnz]; [lia |].
  change 256 with (2 ^ 8). apply Z.log2_lt_pow2; [lia |].
  eapply Z.le_lt_trans; [apply Z.log2_lxor; lia |].
  apply Z.max_lub_lt.
  - destruct (Z.eq_dec init 0) as [-> | Hi]; [reflexivity |].
    apply Z.log2_lt_pow2; [lia |]. change (2 ^ 8) with 256. lia.
  - destruct (Z.eq_dec (u8 b) 0) as [-> | Hu]; [reflexivity |].
    apply Z.log2_lt_pow2; [lia |]. change (2 ^ 8) with 256. lia.
Qed.

Lemma checksum_xor_uint8_closes (data : list byte) :
  checksum_xor_uint8 (data ++ [byte_of_Z (checksum_xor_uint8 data 0)]) 0 = 0.
Proof.
  pose proof (checksum_xor_uint8_range data 0 ltac:(lia)) as Hrange.
  unfold checksum_xor_uint8 in *. rewrite fold_left_app. cbn [fold_left].
  rewrite u8_byte_of_Z by exact Hrange. apply Z.lxor_nilpotent.
Qed.

Lemma address_bytes_div (address : Z) :
  0 <= address < 2 ^ 16 ->
  Z.land (Z.shiftr address 8) 0xFF = address / 256 /\
  Z.land address 0xFF = address mod 256.
Proof.
  intro Ha. change 0xFF with (Z.ones 8).
  rewrite !Z.land_ones, Z.shiftr_div_pow2 by lia.
  change (2 ^ 8) with 256. change (2 ^ 16) with 65536 in Ha. div_lia.
Qed.

Lemma packets_done (A : Type) (f : Z -> A) (size : Z) (k : nat) :
  0 <= size -> (k <= Z.to_nat ((size + 0x77) / 0x78))%nat -> size <= 0x78 * Z.of_nat k ->
  map f (indices k) = map f (indices (Z.to_nat ((size + 0x77) / 0x78))).
Proof.
  intros Hsize Hk Hdone. f_equal. f_equal.
  assert (H : (size + 0x77) / 0x78 <= Z.of_nat k) by div_lia. lia.
Qed.

Lemma packets_next (size : Z) (k : nat) :
  0 <= size -> 0x78 * Z.of_nat k < size ->
  (S k <= Z.to_nat ((size + 0x77) / 0x78))%nat.
Proof.
  intros Hsize Hk.
  assert (H : Z.of_nat k + 1 <= (size + 0x77) / 0x78) by div_lia. lia.
Qed.

Section SuuntoCommon2Read.

Variable world : Type.
Variable pk : world -> list byte -> Z -> Z -> world * dc_status_t * list byte.
Variable mem : list byte.
Hypothesis Hserves : serves_memory pk mem.

Lemma suunto_common2_read_loop_eq (fuel : nat) (w : world * list exchange)
  (address nbytes size : Z) (acc : list byte) :
  suunto_common2_read_loop (world * list exchange) (Some (logged_packet pk)) fuel w
    address nbytes size acc
  = if nbytes <? size then
      match fuel with
      | O => None
      | S fuel' =>
          let len := if u32 (size - nbytes) >? Common2.SZ_PACKET then Common2.SZ_PACKET
                     else u32 (size - nbytes) in
          let command6 :=
            bytes_of [0x05; 0x00; 0x03;
                      Z.land (Z.shiftr address 8) 0xFF;
                      Z.land address 0xFF;
                      len mod 2 ^ 8] in
          let command := command6 ++ [byte_of_Z (checksum_xor_uint8 command6 0x00)] in
          let '(w, rc, answer) :=
            suunto_common2_transfer (world * list exchange) (Some (logged_packet pk)) w
              command (len + 7) len in
          if negb (dc_status_eqb rc DC_STATUS_SUCCESS) then Some (w, rc, acc)
          else
            suunto_common2_read_loop (world * list exchange) (Some (logged_packet pk)) fuel' w
              (u32 (address + len)) (u32 (nbytes + len)) size (acc ++ bytes_slice answer 6 len)
      end
    else Some (w, DC_STATUS_SUCCESS, acc).
Proof.
  destruct fuel; reflexivity.
Qed.

Lemma suunto_common2_read_loop_reassembles (a0 size : Z) :
  0 <= a0 -> 0 <= size -> a0 + size <= 2 ^ 16 ->
  forall (fuel : nat) (w : world) (k : nat) (nbytes : Z),
    nbytes = Z.min size (0x78 * Z.of_nat k) ->
    (k <= Z.to_nat ((size + 0x77) / 0x78))%nat ->
    size - nbytes <= Z.of_nat fuel ->
    exists w',
      suunto_common2_read_loop (world * list exchange) (Some (logged_packet pk)) fuel
        (w, map (fun k => let len := Z.min 0x78 (size - 0x78 * k) in
                          mk_exchange (common2_read_command (a0 + 0x78 * k) len)
                                      (len + 7) len DC_STATUS_SUCCESS)
                (indices k))
        (a0 + nbytes) nbytes size (bytes_slice mem a0 nbytes)
      = Some ((w', common2_read_exchanges a0 size), DC_STATUS_SUCCESS,
              bytes_slice mem a0 size).
Proof.
  intros Ha0 Hsize Hmax.
  induction fuel as [| fuel IH]; intros w k nbytes Hnbytes Hk Hfuel;
    rewrite suunto_common2_read_loop_eq.
  - replace (nbytes <? size) with false by (symmetry; apply Z.ltb_ge; lia).
    replace nbytes with size by lia. exists w. unfold common2_read_exchanges.
    rewrite (packets_done _ _ size k) by lia. reflexivity.
  - destruct (nbytes <? size) eqn:Elt.
    2: { apply Z.ltb_ge in Elt. replace nbytes with size by lia. exists w.
         unfold common2_read_exchanges.
         rewrite (packets_done _ _ size k) by lia. reflexivity. }
    apply Z.ltb_lt in Elt. cbv zeta. unfold Common2.SZ_PACKET.
    assert (Hnb : nbytes = 0x78 * Z.of_nat k) by lia.
    rewrite (u32_small (size - nbytes)) by lia.
    replace (if size - nbytes >? 120 then 120 else size - nbytes)
      with (Z.min 0x78 (size - 0x78 * Z.of_nat k))
      by (destruct (Z.gtb_spec (size - nbytes) 120); lia).
    set (len := Z.min 0x78 (size - 0x78 * Z.of_nat k)).
    assert (Hlen : 1 <= len <= 120 /\ len <= size - nbytes) by (unfold len; lia).
    rewrite (Z.mod_small len) by (change (2 ^ 8) with 256; lia).
    destruct (address_bytes_div (a0 + nbytes) ltac:(lia)) as [Hhi Hlo].
    rewrite Hhi, Hlo.
    change (bytes_of [5; 0; 3; (a0 + nbytes) / 256; (a0 + nbytes) mod 256; len] ++
            [byte_of_Z (checksum_xor_uint8
                          (bytes_of [5; 0; 3; (a0 + nbytes) / 256;
                                     (a0 + nbytes) mod 256; len]) 0)])
      with (common2_read_command (a0 + nbytes) len).
    destruct (Hserves w (a0 + nbytes) len) as [w1 [answer [Hpk Hslice]]]; [lia | lia | lia |].
    unfold suunto_common2_transfer.
    change (Z.to_nat Common2.MAXRETRIES) with 2%nat.
    cbn [suunto_common2_transfer_loop]. unfold logged_packet at 1. cbn [fst snd].
    rewrite Hpk. cbn [dc_status_eqb negb].
    rewrite (u32_small (a0 + nbytes + len)), (u32_small (nbytes + len)) by lia.
    rewrite Hslice, bytes_slice_app by lia.
    destruct (IH w1 (S k) (nbytes + len)) as [w' Hw'];
      [lia | apply packets_next; lia | lia |].
    exists w'. rewrite <- Hw'.
    rewrite indices_S_last, map_app. cbn [map]. cbv zeta. fold len.
    rewrite <- Hnb. replace (a0 + nbytes + len) with (a0 + (nbytes + len)) by lia.
    reflexivity.
Qed.

End SuuntoCommon2Read.


Lemma common2_command_fields (a b c d e f : Z) (r : list byte) :
  0 <= a < 256 -> 0 <= b < 256 -> 0 <= c < 256 ->
  0 <= d < 256 -> 0 <= e < 256 -> 0 <= f < 256 ->
  byte_at (bytes_of [a; b; c; d; e; f] ++ r) 0 = a /\
  byte_at (bytes_of [a; b; c; d; e; f] ++ r) 1 = b /\
  byte_at (bytes_of [a; b; c; d; e; f] ++ r) 2 = c /\
  byte_at (bytes_of [a; b; c; d; e; f] ++ r) 3 = d /\
  byte_at (bytes_of [a; b; c; d; e; f] ++ r) 4 = e /\
  byte_at (bytes_of [a; b; c; d; e; f] ++ r) 5 = f.
Proof.
  intros Ha Hb Hc Hd He Hf. unfold byte_at, bytes_of. cbn [map app].
  change (Z.to_nat 0) with 0%nat. change (Z.to_nat 1) with 1%nat.
  change (Z.to_nat 2) with 2%nat. change (Z.to_nat 3) with 3%nat.
  change (Z.to_nat 4) with 4%nat. change (Z.to_nat 5) with 5%nat.
  cbn [nth Z.ltb Z.compare].
  rewrite !u8_byte_of_Z by assumption. repeat split.
Qed.

Lemma memory_packet_serves (mem : list byte) : serves_memory (memory_packet mem) mem.
Proof.
  intros w address len Ha Hlen Hmax. exists tt. eexists.
  unfold memory_packet, common2_read_command. cbv zeta.
  set (command6 := bytes_of [5; 0; 3; address / 256; address mod 256; len]).
  assert (Hhi : 0 <= address / 256 < 256) by (change (2 ^ 16) with 65536 in Hmax; div_lia).
  assert (Hlo : 0 <= address mod 256 < 256) by div_lia.
  destruct (common2_command_fields 5 0 3 (address / 256) (address mod 256) len
              [byte_of_Z (checksum_xor_uint8 command6 0)])
    as [H0 [H1 [H2 [H3 [H4 H5]]]]]; try lia.
  fold command6 in H0, H1, H2, H3, H4, H5.
  rewrite H0, H1, H2, H3, H4, H5, checksum_xor_uint8_closes.
  replace (Z.shiftl (address / 256) 8 + address mod 256) with address
    by (rewrite Z.shiftl_mul_pow2 by lia; change (2 ^ 8) with 256; div_lia).
  replace (Z.of_nat (length (command6 ++ [byte_of_Z (checksum_xor_uint8 command6 0)])))
    with 7 by reflexivity.
  rewrite !Z.eqb_refl.
  replace (1 <=? len) with true by (symmetry; apply Z.leb_le; lia).
  replace (len <=? 120) with true by (symmetry; apply Z.leb_le; lia).
  cbn [andb]. split; [reflexivity |].
  unfold bytes_slice at 1.
  change (Z.to_nat 6) with 6%nat. cbn [repeat app skipn].
  unfold bytes_slice. rewrite firstn_firstn, Nat.min_id. reflexivity.
Qed.


(** ** Oceanic Atom2: the clock and the decade guess *)

Ltac nonneg :=
  repeat match goal with
         | |- 0 <= _ + _ => apply Z.add_nonneg_nonneg
         | |- 0 <= _ * _ => apply Z.mul_nonneg_nonneg
         | |- 0 <= Z.shiftr _ _ => apply Z.shiftr_nonneg
         | |- 0 <= Z.land _ _ => apply Z.land_nonneg; right; lia
         | |- 0 <= bcd2dec _ => unfold bcd2dec
         | |- 0 <= byte_at _ _ => apply byte_at_range
         | |- 0 <= _ => lia
         end.

Lemma atom2_raw_year_min (parser : oceanic_atom2_parser_t) : 2000 <= atom2_raw_year parser.
Proof.
  unfold atom2_raw_year, atom2_datetime_raw. cbv zeta.
  repeat match goal with
         | |- context [if ?c then (_, _) else _] => destruct c
         end;
    cbv beta iota;
    match goal with
    | |- 2000 <= ?x + 2000 => assert (0 <= x) by nonneg; lia
    end.
Qed.

(** X16. When [oceanic_atom2_parser_get_datetime] succeeds, the hour it
    reports is a 24-hour clock value and the seconds are 0.  The year
    keeps the last digit of the stored year; a stored year from 2010 on
    is reported as it is, and so is every year when the host's date is
    unknown or before 2010; otherwise the decade guess puts a stored year
    before 2010 into the ten years that end with the host's current
    year. *)
Theorem atom2_datetime_clock_and_decade
  (now : option dc_datetime_t) (parser : oceanic_atom2_parser_t) (dt : dc_datetime_t) :
  oceanic_atom2_parser_get_datetime now parser = (DC_STATUS_SUCCESS, Some dt) ->
  0 <= hour dt < 24 /\
  second dt = 0 /\
  year dt mod 10 = atom2_raw_year parser mod 10 /\
  (2010 <= atom2_raw_year parser -> year dt = atom2_raw_year parser) /\
  (match now with
   | Some n =>
       if year n >=? 2010
       then atom2_raw_year parser < 2010 -> year n - 10 < year dt <= year n
       else year dt = atom2_raw_year parser
   | None => year dt = atom2_raw_year parser
   end).
Proof.
  pose proof (atom2_raw_year_min parser) as Hmin. revert Hmin.
  unfold oceanic_atom2_parser_get_datetime, atom2_raw_year. cbv zeta.
  destruct (blob_size (a2_data parser) <? _); [discriminate |].
  destruct (atom2_datetime_raw (a2_model parser) (a2_data parser))
    as [[[[[y mo] d] h] mi] pm].
  intros Hmin H. injection H as <-. cbn [hour second year].
  pose proof (Z.mod_pos_bound h 12 ltac:(lia)) as Hh.
  split; [destruct (negb (pm =? 0)); lia | split; [reflexivity |]].
  destruct (Z.ltb_spec y 2010) as [Hy | Hy].
  - destruct now as [n |]; [| repeat split; lia].
    destruct (Z.geb_spec (year n) 2010) as [Hn | Hn]; [| repeat split; lia].
    destruct (Z.gtb_spec (y mod 10) (year n mod 10)) as [Hd | Hd];
      (split; [div_lia | split; [lia | intros _; div_lia]]).
  - split; [reflexivity | split; [reflexivity |]].
    destruct now as [n |]; [| reflexivity].
    destruct (year n >=? 2010); [lia | reflexivity].
Qed.

Lemma atom2_datetime_clock_and_decade_witness :
  0 <= 13 < 24 /\
  0 = 0 /\
  2017 mod 10 = atom2_raw_year atom2_datetime_example mod 10 /\
  (2010 <= atom2_raw_year atom2_datetime_example
   -> 2017 = atom2_raw_year atom2_datetime_example) /\
  (atom2_raw_year atom2_datetime_example < 2010 -> 2024 - 10 < 2017 <= 2024).
Proof.
  apply (atom2_datetime_clock_and_decade
           (Some {| year := 2024; month := 10; day := 30; hour := 9; minute := 0;
                    second := 0 |})
           atom2_datetime_example
           {| year := 2017; month := 3; day := 21; hour := 13; minute := 45;
              second := 0 |}).
  by_evaluation.
Defined.

(** ** Uwatec Smart: the clock of the sample stream *)

Lemma smart_emit_eq (fuel : nat) (c : uwatec_smart_cache_t) (nalarms : Z) (l : smart_locals) :
  smart_emit fuel c nalarms l
  = if sl_complete l =? 0 then Some (None, [], l)
    else
      match fuel with
      | O => None
      | S fuel' =>
          let out_time := [DC_SAMPLE_TIME (sl_time l)] in
          let change :=
            negb (sc_ngasmixes c =? 0) && negb (sl_gasmix l =? sl_gasmix_previous l) in
          if change && (sl_gasmix l >=? sc_ngasmixes c) then
            Some (Some DC_STATUS_DATAFORMAT, out_time, l)
          else
            let salinity :=
              match sc_watertype c with
              | DC_WATER_SALT => Uwatec.SALT
              | DC_WATER_FRESH => Uwatec.FRESH
              end in
            let out :=
              out_time ++
              (if change
               then [DC_SAMPLE_EVENT SAMPLE_EVENT_GASCHANGE 0 0
                       (array_get (sc_oxygen c) (sl_gasmix l))]
               else []) ++
              (if sl_have_temperature l then [DC_SAMPLE_TEMPERATURE (sl_temperature l)]
               else []) ++
              (if sl_have_alarms l
               then [DC_SAMPLE_VENDOR SAMPLE_VENDOR_UWATEC_SMART nalarms
                       (firstn (Z.to_nat nalarms) (sl_alarms l))]
               else []) ++
              (if sl_have_rbt l || sl_have_pressure l then [DC_SAMPLE_RBT (sl_rbt l)]
               else []) ++
              (if sl_have_pressure l then [DC_SAMPLE_PRESSURE (sl_tank l) (sl_pressure l)]
               else []) ++
              (if sl_have_heartrate l then [DC_SAMPLE_HEARTBEAT (sl_heartrate l)] else []) ++
              (if sl_have_bearing l then [DC_SAMPLE_BEARING (sl_bearing l)] else []) ++
              (if sl_have_depth l
               then [DC_SAMPLE_DEPTH
                       ((sl_depth l - sl_depth_calibration l) * salinity)%float]
               else []) in
            let l1 := if change then set_sl_gasmix_previous (sl_gasmix l) l else l in
            let l2 :=
              if sl_have_alarms l
              then set_sl_have_alarms false (set_sl_alarms [0; 0; 0] l1)
              else l1 in
            let l3 := if sl_have_bearing l then set_sl_have_bearing false l2 else l2 in
            let l4 :=
              set_sl_complete (sl_complete l - 1) (set_sl_time (u32 (sl_time l + 4)) l3) in
            match smart_emit fuel' c nalarms l4 with
            | Some (st, rest, l') => Some (st, out ++ rest, l')
            | None => None
            end
      end.
Proof.
  destruct fuel; reflexivity.
Qed.

Lemma multiples_one (interval c : Z) : multiples interval c 1 = [u32 ((c + 1) * interval)].
Proof.
  unfold multiples. rewrite map_indices_S. cbn [map indices seq].
  rewrite Z.add_0_r. reflexivity.
Qed.

(** The emission loop ends; it emits one TIME per completed sample time,
    4 s apart, and leaves [complete] at 0. *)
Lemma smart_emit_spec (c : uwatec_smart_cache_t) (nalarms : Z) :
  forall (fuel : nat) (l : smart_locals) (n : Z),
    0 <= sl_complete l -> sl_complete l <= Z.of_nat fuel ->
    sl_time l = u32 ((n + 1) * 4) ->
    exists r out l' (m : nat),
      smart_emit fuel c nalarms l = Some (r, out, l') /\
      sample_times out = multiples 4 n m /\
      (r = None \/ r = Some DC_STATUS_DATAFORMAT) /\
      (r = None ->
       sl_complete l' = 0 /\ sl_time l' = u32 ((n + Z.of_nat m + 1) * 4)).
Proof.
  induction fuel as [| fuel IH]; intros l n Hc Hfuel Htime; rewrite smart_emit_eq.
  - replace (sl_complete l =? 0) with true by (symmetry; apply Z.eqb_eq; lia).
    exists None, [], l, 0%nat.
    split; [reflexivity | split; [reflexivity | split; [left; reflexivity |]]].
    intros _. split; [lia |]. rewrite Z.add_0_r. exact Htime.
  - destruct (Z.eqb_spec (sl_complete l) 0) as [Hz | Hnz].
    { exists None, [], l, 0%nat.
      split; [reflexivity | split; [reflexivity | split; [left; reflexivity |]]].
      intros _. split; [exact Hz |]. rewrite Z.add_0_r. exact Htime. }
    cbv zeta.
    set (change := negb (sc_ngasmixes c =? 0) && negb (sl_gasmix l =? sl_gasmix_previous l)).
    destruct (change && (sl_gasmix l >=? sc_ngasmixes c)).
    { exists (Some DC_STATUS_DATAFORMAT), [DC_SAMPLE_TIME (sl_time l)], l, 1%nat.
      split; [reflexivity | split; [| split; [right; reflexivity | discriminate]]].
      rewrite multiples_one. cbn [sample_times]. rewrite Htime. reflexivity. }
    match goal with
    | |- context [smart_emit fuel c nalarms ?l4] =>
        destruct (IH l4 (n + 1)) as [r [rest [l' [m [Hrest [Htimes [Hr Hdone]]]]]]]
    end.
    { cbn [set_sl_complete sl_complete]. lia. }
    { cbn [set_sl_complete sl_complete]. lia. }
    { cbn [set_sl_complete set_sl_time sl_time]. rewrite Htime, u32_add_idemp_l.
      f_equal. lia. }
    rewrite Hrest. eexists r, _, l', (1 + m)%nat.
    split; [reflexivity | split; [| split; [exact Hr |]]].
    + rewrite <- multiples_app, multiples_one, <- Htime.
      rewrite !sample_times_app, Htimes.
      replace (n + Z.of_nat 1) with (n + 1) by lia.
      destruct change, (sl_have_temperature l), (sl_have_alarms l),
        (sl_have_rbt l || sl_have_pressure l), (sl_have_pressure l),
        (sl_have_heartrate l), (sl_have_bearing l), (sl_have_depth l);
        reflexivity.
    + intro Hnone. destruct (Hdone Hnone) as [H0 Ht]. split; [exact H0 |].
      rewrite Ht. f_equal. lia.
Qed.

(** The value of a sample leaves the clock alone, sets [complete] to a
    count and moves the offset forward inside the blob only. *)
Lemma uwatec_smart_parse_value_spec (model : Z) (trimix : bool) (size : Z)
  (entry : uwatec_smart_sample_info_t) (value svalue offset offset' : Z)
  (l l' : smart_locals) :
  0 <= offset <= size -> size < 2 ^ 31 -> 0 <= value < 2 ^ 23 -> 0 <= sl_complete l ->
  uwatec_smart_parse_value model trimix size entry value svalue offset l = Some (offset', l') ->
  sl_time l' = sl_time l /\ 0 <= sl_complete l' < 2 ^ 23 + sl_complete l + 1 /\
  offset <= offset' <= size.
Proof.
  intros Hoff Hsz Hv Hc. unfold uwatec_smart_parse_value. cbv zeta.
  assert (Hpow : 2 ^ 23 < 2 ^ 31) by (apply Z.pow_lt_mono_r; lia).
  assert (Hs32 : s32 value = value).
  { unfold s32. cbv zeta. rewrite Z.mod_small by lia.
    replace (value <? 2 ^ 31) with true by (symmetry; apply Z.ltb_lt; lia). reflexivity. }
  destruct (s_type entry);
    repeat match goal with
           | |- context [if ?b then _ else _] =>
               lazymatch b with
               | (_ >? _) => fail
               | (_ || _) => fail
               | _ => destruct b
               end
           end;
    try (intro H; injection H as <- <-;
         cbn [set_sl_complete set_sl_depth set_sl_pressure set_sl_rbt set_sl_have_rbt
              set_sl_temperature set_sl_have_temperature set_sl_gasmix set_sl_have_pressure
              set_sl_tank set_sl_calibrated set_sl_depth_calibration set_sl_have_depth
              set_sl_heartrate set_sl_have_heartrate set_sl_bearing set_sl_have_bearing
              set_sl_alarms set_sl_have_alarms sl_time sl_complete];
         rewrite ?Hs32; split; [reflexivity | split; lia]).
  - rewrite (u32_small (offset + 8)) by lia.
    destruct (Z.gtb_spec (offset + 8) size) as [Hgt | Hle]; [discriminate |].
    intro H. injection H as <- <-. split; [reflexivity | split; lia].
  - destruct (Z.ltb_spec value 1) as [Hlt | Hge]; [discriminate |].
    rewrite (u32_small (offset + value)), (u32_small (offset + value - 1)) by lia.
    cbn [orb]. destruct (Z.gtb_spec (offset + value - 1) size) as [Hgt | Hle];
      [discriminate |].
    intro H. injection H as <- <-. split; [reflexivity | split; lia].
Qed.

Lemma uwatec_smart_sample_type_In (parser : uwatec_smart_parser_t) (offset id : Z)
  (entry : uwatec_smart_sample_info_t) :
  uwatec_smart_sample_type parser offset = Some (id, entry) ->
  In entry (sm_samples parser).
Proof.
  unfold uwatec_smart_sample_type. cbv zeta.
  destruct (_ >=? Z.of_nat (length (sm_samples parser))); [discriminate |].
  destruct (nth_error (sm_samples parser) _) as [e |] eqn:Enth; [| discriminate].
  intro H. injection H as _ <-. eapply nth_error_In, Enth.
Qed.

Lemma uwatec_smart_sample_spec (parser : uwatec_smart_parser_t) (c : uwatec_smart_cache_t)
  (nalarms offset : Z) (l : smart_locals) (n : Z) :
  forallb smart_entry_ok (sm_samples parser) = true ->
  0 <= offset < blob_size (sm_data parser) -> blob_size (sm_data parser) < 2 ^ 31 ->
  sl_complete l = 0 -> sl_time l = u32 ((n + 1) * 4) ->
  exists r out l' offset' (m : nat),
    uwatec_smart_sample parser c nalarms offset l = Some (r, out, l', offset') /\
    sample_times out = multiples 4 n m /\
    (r = None \/ r = Some DC_STATUS_DATAFORMAT) /\
    (r = None ->
     offset < offset' <= blob_size (sm_data parser) /\
     sl_complete l' = 0 /\ sl_time l' = u32 ((n + Z.of_nat m + 1) * 4)).
Proof.
  intros Hok Hoff Hsz Hc Htime. unfold uwatec_smart_sample. cbv zeta.
  assert (Hfail : forall (l0 : smart_locals) (o : Z),
             exists r out l' offset' (m : nat),
               Some (Some DC_STATUS_DATAFORMAT, @nil dc_sample, l0, o)
               = Some (r, out, l', offset') /\
               sample_times out = multiples 4 n m /\
               (r = None \/ r = Some DC_STATUS_DATAFORMAT) /\
               (r = None ->
                offset < offset' <= blob_size (sm_data parser) /\
                sl_complete l' = 0 /\ sl_time l' = u32 ((n + Z.of_nat m + 1) * 4))).
  { intros l0 o. exists (Some DC_STATUS_DATAFORMAT), [], l0, o, 0%nat.
    split; [reflexivity | split; [reflexivity | split; [right; reflexivity | discriminate]]]. }
  destruct (uwatec_smart_sample_type parser offset) as [[id entry] |] eqn:Etype;
    [| apply Hfail].
  apply uwatec_smart_sample_type_In in Etype.
  rewrite forallb_forall in Hok. specialize (Hok entry Etype).
  destruct (uwatec_smart_sample_value (sm_data parser) entry offset)
    as [[[o1 nbits] value] |] eqn:Evalue; [| apply Hfail].
  assert (H31 : 2 ^ 31 < 2 ^ 32 - 4) by (vm_compute; reflexivity).
  assert (Hsz4 : blob_size (sm_data parser) < 2 ^ 32 - 4) by lia.
  destruct (uwatec_smart_sample_value_spec _ _ _ _ _ _ Hok Hoff Hsz4 Evalue)
    as [Ho1 [Hnbits [Hvalue _]]].
  assert (Hv23 : 0 <= value < 2 ^ 23).
  { split; [lia |]. apply Z.lt_le_trans with (2 ^ nbits); [lia |].
    apply Z.pow_le_mono_r; lia. }
  destruct (uwatec_smart_parse_value _ _ _ entry value _ o1 l) as [[o2 l2] |] eqn:Eparse;
    [| apply Hfail].
  assert (Ho1' : 0 <= o1 <= blob_size (sm_data parser)) by lia.
  assert (Hc0 : 0 <= sl_complete l) by lia.
  destruct (uwatec_smart_parse_value_spec _ _ _ _ _ _ _ _ _ _ Ho1' Hsz Hv23 Hc0 Eparse)
    as [Ht2 [Hc2 Ho2]].
  destruct (smart_emit_spec c nalarms (Z.to_nat (sl_complete l2)) l2 n)
    as [r [out [l' [m [Hemit [Htimes [Hr Hdone]]]]]]]; [lia | lia | congruence |].
  rewrite Hemit. exists r, out, l', o2, m.
  split; [reflexivity | split; [exact Htimes | split; [exact Hr |]]].
  intro Hnone. destruct (Hdone Hnone) as [H0 Ht]. split; [lia | split; assumption].
Qed.

Lemma uwatec_smart_samples_loop_eq (fuel : nat) (parser : uwatec_smart_parser_t)
  (c : uwatec_smart_cache_t) (nalarms offset : Z) (l : smart_locals) :
  uwatec_smart_samples_loop fuel parser c nalarms offset l
  = if offset <? blob_size (sm_data parser) then
      match fuel with
      | O => None
      | S fuel' =>
          match uwatec_smart_sample parser c nalarms offset l with
          | None => None
          | Some (Some st, out, _, _) => Some (st, out)
          | Some (None, out, l', offset') =>
              match uwatec_smart_samples_loop fuel' parser c nalarms offset' l' with
              | Some (st, rest) => Some (st, out ++ rest)
              | None => None
              end
          end
      end
    else Some (DC_STATUS_SUCCESS, []).
Proof.
  destruct fuel; reflexivity.
Qed.

Lemma uwatec_smart_samples_loop_spec (parser : uwatec_smart_parser_t)
  (c : uwatec_smart_cache_t) (nalarms : Z) :
  forallb smart_entry_ok (sm_samples parser) = true ->
  blob_size (sm_data parser) < 2 ^ 31 ->
  forall (fuel : nat) (offset : Z) (l : smart_locals) (n : Z),
    0 <= offset -> blob_size (sm_data parser) - offset <= Z.of_nat fuel ->
    sl_complete l = 0 -> sl_time l = u32 ((n + 1) * 4) ->
    exists st out (m : nat),
      uwatec_smart_samples_loop fuel parser c nalarms offset l = Some (st, out) /\
      (st = DC_STATUS_SUCCESS \/ st = DC_STATUS_DATAFORMAT) /\
      sample_times out = multiples 4 n m.
Proof.
  intros Hok Hsz fuel.
  induction fuel as [| fuel IH]; intros offset l n Hoff Hfuel Hc Htime;
    rewrite uwatec_smart_samples_loop_eq;
    destruct (Z.ltb_spec offset (blob_size (sm_data parser))) as [Hlt | Hge];
    try lia;
    try (exists DC_STATUS_SUCCESS, [], 0%nat;
         split; [reflexivity | split; [left; reflexivity | reflexivity]]).
  assert (Hin : 0 <= offset < blob_size (sm_data parser)) by lia.
  destruct (uwatec_smart_sample_spec parser c nalarms offset l n Hok Hin Hsz Hc Htime)
    as [r [out [l' [offset' [m [Hs [Htimes [Hr Hnext]]]]]]]].
  rewrite Hs. destruct Hr as [-> | ->].
  - destruct (Hnext eq_refl) as [Ho [Hc' Ht']].
    destruct (IH offset' l' (n + Z.of_nat m)) as [st [rest [m2 [Hrest [Hst Hrt]]]]];
      [lia | lia | exact Hc' | exact Ht' |].
    rewrite Hrest. exists st, (out ++ rest), (m + m2)%nat.
    split; [reflexivity | split; [exact Hst |]].
    rewrite sample_times_app, Htimes, Hrt. apply multiples_app.
  - exists DC_STATUS_DATAFORMAT, out, m.
    split; [reflexivity | split; [right; reflexivity | exact Htimes]].
Qed.

Lemma uwatec_smart_parser_cache_status (parser : uwatec_smart_parser_t)
  (c : uwatec_smart_cache_t) :
  fst (uwatec_smart_parser_cache parser c) = DC_STATUS_SUCCESS \/
  fst (uwatec_smart_parser_cache parser c) = DC_STATUS_DATAFORMAT.
Proof.
  unfold uwatec_smart_parser_cache. cbv zeta.
  destruct (sc_cached c); [left; reflexivity |].
  destruct (model_in _ _ && _); [right | left]; reflexivity.
Qed.

(** The header of every model is long enough for the bytes that the cache
    reads. *)
Lemma smart_cache_reads_in_header (model devtime : Z) (systime : dc_ticks_t)
  (parser : uwatec_smart_parser_t) :
  uwatec_smart_parser_create model devtime systime = Some parser ->
  Forall (fun o => 0 <= o < sm_headersize parser) (smart_cache_reads parser).
Proof.
  unfold uwatec_smart_parser_create. cbv zeta.
  destruct (model =? Smart.SMARTPRO);
    [intro H; injection H as <-; unfold smart_cache_reads; cbn [sm_header sm_model sm_headersize];
     destruct (model_in model [Smart.GALILEO; Smart.GALILEOTRIMIX]);
     destruct (model_in model _);
     vm_compute; repeat constructor; discriminate |].
  destruct (model_in model [Smart.GALILEO; Smart.GALILEOTRIMIX; Smart.ALADIN2G;
                            Smart.MERIDIAN; Smart.CHROMIS]) eqn:Hg;
    [intro H; injection H as <-; unfold smart_cache_reads; cbn [sm_header sm_model sm_headersize];
     rewrite Hg; destruct (model_in model [Smart.GALILEO; Smart.GALILEOTRIMIX]);
     vm_compute; repeat constructor; discriminate |].
  repeat match goal with
         | |- context [if ?c then _ else _] => destruct c
         end;
    intro H; try discriminate H; injection H as <-;
    unfold smart_cache_reads; cbn [sm_header sm_model sm_headersize]; rewrite Hg;
    destruct (model_in model [Smart.GALILEO; Smart.GALILEOTRIMIX]);
    vm_compute; repeat constructor; discriminate.
Qed.

(** X17. For every model that [uwatec_smart_parser_create] accepts, on a
    blob below 2 GiB that holds the header of the model, every header byte
    that the cache reads lies inside the blob, the Smart samples_foreach
    returns, with SUCCESS or DATAFORMAT, and the TIME values it has
    emitted are 0, 4, 8, ...: every completed sample time advances the
    clock by 4 s, and a TIME sample that announces several sample times
    emits each of them. *)
Theorem uwatec_smart_sample_clock (model devtime : Z) (systime : dc_ticks_t) (data : blob)
  (parser : uwatec_smart_parser_t) (c : uwatec_smart_cache_t) :
  smart_parser_of model devtime systime data = Some parser ->
  sm_headersize parser <= blob_size data ->
  blob_size data < 2 ^ 31 ->
  Forall (fun o => 0 <= o < blob_size data) (smart_cache_reads parser) /\
  exists st out c',
    uwatec_smart_parser_samples_foreach parser c = Some (st, out, c') /\
    (st = DC_STATUS_SUCCESS \/ st = DC_STATUS_DATAFORMAT) /\
    sample_times out = map (fun k => u32 (4 * k)) (indices (length (sample_times out))).
Proof.
  unfold smart_parser_of. intros Hparser Hheadersize Hsz.
  destruct (uwatec_smart_parser_create model devtime systime) as [parser0 |] eqn:Hcreate;
    [| discriminate].
  injection Hparser as <-.
  pose proof (smart_tables_ok _ _ _ _ Hcreate) as Hok.
  pose proof (smart_cache_reads_in_header _ _ _ _ Hcreate) as Hreads.
  cbn [uwatec_smart_parser_set_data snd] in Hheadersize |- *.
  set (parser := {| sm_data := data; sm_model := sm_model parser0;
                    sm_devtime := sm_devtime parser0; sm_systime := sm_systime parser0;
                    sm_samples := sm_samples parser0; sm_header := sm_header parser0;
                    sm_headersize := sm_headersize parser0 |}) in *.
  split.
  { change (smart_cache_reads parser) with (smart_cache_reads parser0).
    cbn [parser sm_headersize] in Hheadersize.
    eapply Forall_impl; [| exact Hreads]. cbv beta. intros o Ho. lia. }
  unfold uwatec_smart_parser_samples_foreach.
  pose proof (uwatec_smart_parser_cache_status parser c) as Hstatus.
  destruct (uwatec_smart_parser_cache parser c) as [rc c'].
  cbn [fst] in Hstatus. destruct Hstatus as [-> | ->]; cbn [dc_status_eqb negb].
  2: { exists DC_STATUS_DATAFORMAT, [], c'.
       split; [reflexivity | split; [right; reflexivity | reflexivity]]. }
  assert (Hheader : 0 <= (if sc_trimix c' then 177 else sm_headersize parser)).
  { destruct (sc_trimix c'); [lia |]. cbn [parser sm_headersize].
    revert Hcreate. unfold uwatec_smart_parser_create. cbv zeta.
    repeat match goal with
           | |- context [if ?b then _ else _] => destruct b
           end;
      intro H; try discriminate H; injection H as <-; cbn [sm_headersize]; lia. }
  destruct (uwatec_smart_samples_loop_spec parser c' (smart_nalarms (sm_samples parser)) Hok Hsz
              (length (sm_data parser))
              (if sc_trimix c' then 177 else sm_headersize parser) smart_locals_init (-1))
    as [st [out [m [Hloop [Hst Htimes]]]]];
    [exact Hheader | unfold blob_size; lia | reflexivity | reflexivity |].
  rewrite Hloop. exists st, out, c'.
  split; [reflexivity | split; [exact Hst |]].
  rewrite Htimes, length_multiples. unfold multiples.
  apply map_ext. intro k. f_equal. lia.
Qed.

Lemma uwatec_smart_sample_clock_witness :
  exists parser,
    smart_parser_of Smart.SMARTPRO 0 0 smart_clock_example = Some parser /\
    Forall (fun o => 0 <= o < blob_size smart_clock_example) (smart_cache_reads parser) /\
    exists st out c',
      uwatec_smart_parser_samples_foreach parser uwatec_smart_cache_reset
      = Some (st, out, c') /\
      (st = DC_STATUS_SUCCESS \/ st = DC_STATUS_DATAFORMAT) /\
      sample_times out = map (fun k => u32 (4 * k)) (indices (length (sample_times out))).
Proof.
  eexists. split; [reflexivity |].
  assert (Hsz : blob_size smart_clock_example < 2 ^ 31) by by_evaluation.
  refine (uwatec_smart_sample_clock Smart.SMARTPRO 0 0 smart_clock_example _
            uwatec_smart_cache_reset eq_refl _ Hsz).
  vm_compute. discriminate.
Defined.


(** ** Uwatec Smart: the samples of a trimix dive *)

Lemma smart_trimix_tank (value : Z) : Z.shiftr (Z.land value 0xF000) 24 = 0.
Proof.
  apply Z.bits_inj'. intros n Hn.
  rewrite Z.shiftr_spec, Z.land_spec, Z.bits_0 by lia.
  rewrite (Z.bits_above_log2 0xF000 (n + 24)); [apply andb_false_r | lia |].
  change (Z.log2 0xF000) with 15. lia.
Qed.

Lemma uwatec_smart_parse_value_trimix (model size : Z) (entry : uwatec_smart_sample_info_t)
  (value svalue offset offset' : Z) (l l' : smart_locals) :
  sl_tank l = 0 ->
  uwatec_smart_parse_value model true size entry value svalue offset l = Some (offset', l') ->
  sl_tank l' = 0.
Proof.
  intros Htank. unfold uwatec_smart_parse_value. cbv zeta.
  destruct (s_type entry);
    repeat match goal with
           | |- context [if ?b then _ else _] => destruct b
           end;
    intro H; try discriminate H; injection H as _ <-;
    cbn [sl_tank set_sl_complete set_sl_calibrated set_sl_time set_sl_rbt set_sl_tank
         set_sl_gasmix set_sl_depth set_sl_depth_calibration set_sl_temperature
         set_sl_pressure set_sl_heartrate set_sl_bearing set_sl_alarms
         set_sl_gasmix_previous set_sl_have_depth set_sl_have_temperature
         set_sl_have_pressure set_sl_have_rbt set_sl_have_heartrate set_sl_have_alarms
         set_sl_have_bearing];
    try exact Htank; apply smart_trimix_tank.
Qed.

Lemma smart_emit_trimix (c : uwatec_smart_cache_t) (nalarms : Z) :
  sc_ngasmixes c = 0 ->
  forall (fuel : nat) (l : smart_locals) (r : option dc_status_t) (out : list dc_sample)
         (l' : smart_locals),
    sl_tank l = 0 ->
    smart_emit fuel c nalarms l = Some (r, out, l') ->
    sample_events out = [] /\ Forall (eq 0) (sample_tanks out) /\ sl_tank l' = 0.
Proof.
  intros Hmix. induction fuel as [| fuel IH]; intros l r out l' Htank;
    rewrite smart_emit_eq; destruct (sl_complete l =? 0);
    try (intro H; injection H as _ <- <-;
         split; [reflexivity | split; [constructor | exact Htank]]);
    try discriminate.
  rewrite Hmix. cbn [Z.eqb negb andb]. cbv zeta.
  match goal with
  | |- context [smart_emit fuel c nalarms ?l4] =>
      destruct (smart_emit fuel c nalarms l4) as [[[r1 rest] l1] |] eqn:Erest;
      [| discriminate]
  end.
  intro H. injection H as <- <- <-.
  apply IH in Erest.
  - destruct Erest as [Hev [Htk Hl]].
    unfold sample_events, sample_tanks in *.
    destruct (sl_have_temperature l), (sl_have_alarms l), (sl_have_rbt l),
      (sl_have_pressure l), (sl_have_heartrate l), (sl_have_bearing l), (sl_have_depth l);
      cbn [flat_map app orb]; rewrite ?Htank;
      (split; [exact Hev | split; [| exact Hl]]);
      first [exact Htk | constructor; [reflexivity | exact Htk]].
  - destruct (sl_have_alarms l), (sl_have_bearing l); exact Htank.
Qed.

Lemma uwatec_smart_sample_trimix (parser : uwatec_smart_parser_t) (c : uwatec_smart_cache_t)
  (nalarms offset offset' : Z) (l l' : smart_locals) (r : option dc_status_t)
  (out : list dc_sample) :
  sc_trimix c = true -> sc_ngasmixes c = 0 -> sl_tank l = 0 ->
  uwatec_smart_sample parser c nalarms offset l = Some (r, out, l', offset') ->
  sample_events out = [] /\ Forall (eq 0) (sample_tanks out) /\ sl_tank l' = 0.
Proof.
  intros Htrimix Hmix Htank. unfold uwatec_smart_sample. cbv zeta. rewrite Htrimix.
  assert (Hfail : forall o : Z,
             Some (Some DC_STATUS_DATAFORMAT, @nil dc_sample, l, o) = Some (r, out, l', offset') ->
             sample_events out = [] /\ Forall (eq 0) (sample_tanks out) /\ sl_tank l' = 0).
  { intros o H. injection H as _ <- <- _.
    split; [reflexivity | split; [constructor | exact Htank]]. }
  destruct (uwatec_smart_sample_type parser offset) as [[id entry] |]; [| apply Hfail].
  destruct (uwatec_smart_sample_value (sm_data parser) entry offset)
    as [[[o1 nbits] value] |]; [| apply Hfail].
  destruct (uwatec_smart_parse_value _ _ _ entry value _ o1 l) as [[o2 l2] |] eqn:Eparse;
    [| apply Hfail].
  apply uwatec_smart_parse_value_trimix in Eparse; [| exact Htank].
  destruct (smart_emit _ c nalarms l2) as [[[r1 out1] l1] |] eqn:Eemit; [| discriminate].
  intro H. injection H as <- <- <- _.
  exact (smart_emit_trimix c nalarms Hmix _ _ _ _ _ Eparse Eemit).
Qed.

Lemma uwatec_smart_samples_loop_trimix (parser : uwatec_smart_parser_t)
  (c : uwatec_smart_cache_t) (nalarms : Z) :
  sc_trimix c = true -> sc_ngasmixes c = 0 ->
  forall (fuel : nat) (offset : Z) (l : smart_locals) (st : dc_status_t)
         (out : list dc_sample),
    sl_tank l = 0 ->
    uwatec_smart_samples_loop fuel parser c nalarms offset l = Some (st, out) ->
    sample_events out = [] /\ Forall (eq 0) (sample_tanks out).
Proof.
  intros Htrimix Hmix. induction fuel as [| fuel IH]; intros offset l st out Htank;
    rewrite uwatec_smart_samples_loop_eq; destruct (offset <? blob_size (sm_data parser));
    try (intro H; injection H as _ <-; split; [reflexivity | constructor]);
    try discriminate.
  destruct (uwatec_smart_sample parser c nalarms offset l) as [[[[r out1] l1] o1] |] eqn:Es;
    [| discriminate].
  destruct (uwatec_smart_sample_trimix _ _ _ _ _ _ _ _ _ Htrimix Hmix Htank Es)
    as [Hev [Htk Hl]].
  destruct r as [st1 |].
  - intro H. injection H as _ <-. split; assumption.
  - destruct (uwatec_smart_samples_loop fuel parser c nalarms o1 l1) as [[st2 rest] |] eqn:Er;
      [| discriminate].
    intro H. injection H as _ <-.
    destruct (IH _ _ _ _ Hl Er) as [Hev2 Htk2].
    unfold sample_events, sample_tanks in *.
    rewrite !flat_map_app, Hev, Hev2, Forall_app. split; [reflexivity | split; assumption].
Qed.

(** X18. On the first call after [set_data], when
    [uwatec_smart_parser_cache] finds the trimix bit of a Galileo header
    set it reads no gas mix, and samples_foreach then emits no EVENT
    sample (no gas change is ever reported) and every PRESSURE sample
    names tank 0: the tank index [(value & 0xF000) >> 24] of a trimix
    pressure sample is 0 for every value. *)
Theorem uwatec_smart_trimix_samples (parser : uwatec_smart_parser_t)
  (c' : uwatec_smart_cache_t) (st : dc_status_t) (out : list dc_sample) :
  uwatec_smart_parser_samples_foreach parser uwatec_smart_cache_reset = Some (st, out, c') ->
  sc_trimix c' = true ->
  sc_ngasmixes c' = 0 /\ sample_events out = [] /\ Forall (eq 0) (sample_tanks out).
Proof.
  unfold uwatec_smart_parser_samples_foreach, uwatec_smart_parser_cache.
  cbv zeta. cbn [sc_cached uwatec_smart_cache_reset].
  destruct (model_in _ _ && (blob_size (sm_data parser) <? 44)).
  - cbn [dc_status_eqb negb]. intro H. injection H as _ _ <-. discriminate.
  - cbn [dc_status_eqb negb sc_trimix].
    destruct (model_in _ _ && negb (Z.land (byte_at (sm_data parser) 43) 128 =? 0)) eqn:Etrimix.
    + cbn [negb andb length app skipn].
      match goal with
      | |- context [uwatec_smart_samples_loop ?f parser ?c1 ?na ?o ?l] =>
          destruct (uwatec_smart_samples_loop f parser c1 na o l) as [[st1 out1] |] eqn:Eloop;
          [| discriminate]
      end.
      intro H. injection H as _ <- <-. intros _.
      split; [reflexivity |].
      eapply uwatec_smart_samples_loop_trimix; [| | | exact Eloop]; reflexivity.
    + match goal with
      | |- context [uwatec_smart_samples_loop ?f parser ?c1 ?na ?o ?l] =>
          destruct (uwatec_smart_samples_loop f parser c1 na o l) as [[st1 out1] |];
          [| discriminate]
      end.
      intro H. injection H as _ _ <-. cbn [sc_trimix]. discriminate.
Qed.

Lemma uwatec_smart_trimix_samples_witness :
  exists parser st out c',
    smart_parser_of Smart.GALILEOTRIMIX 0 0 smart_trimix_example = Some parser /\
    uwatec_smart_parser_samples_foreach parser uwatec_smart_cache_reset = Some (st, out, c') /\
    sample_tanks out = [0] /\
    sc_ngasmixes c' = 0 /\ sample_events out = [] /\ Forall (eq 0) (sample_tanks out).
Proof.
  eexists. eexists. eexists. eexists.
  split; [reflexivity |].
  match goal with
  | |- uwatec_smart_parser_samples_foreach ?p _ = _ /\ _ => pose (parser := p)
  end.
  split; [lazy; reflexivity |].
  split; [reflexivity |].
  refine (uwatec_smart_trimix_samples parser _ DC_STATUS_SUCCESS _ _ _); lazy; reflexivity.
Defined.

(** ** Uwatec Smart: gas change events *)

Lemma smart_header_ok_create (model devtime : Z) (systime : dc_ticks_t)
  (parser : uwatec_smart_parser_t) :
  uwatec_smart_parser_create model devtime systime = Some parser ->
  smart_header_ok parser = true.
Proof.
  unfold uwatec_smart_parser_create. cbv zeta.
  repeat match goal with
         | |- context [if ?c then _ else _] => destruct c
         end;
    intro H; try discriminate H; injection H as <-; reflexivity.
Qed.

Lemma smart_cache_gasmixes_length (data : blob) (gasmix : Z) :
  forall (n : nat) (i : Z), (length (smart_cache_gasmixes n data gasmix i) <= n)%nat.
Proof.
  induction n as [| n IH]; intro i; cbn [smart_cache_gasmixes]; cbv zeta; [apply le_n |].
  destruct (_ =? 0); cbn [length]; [lia |].
  specialize (IH (i + 1)). lia.
Qed.

Lemma smart_cache_gasmixes_spec (data : blob) (gasmix : Z) :
  forall (n : nat) (i : Z) (k : nat),
    (k < length (smart_cache_gasmixes n data gasmix i))%nat ->
    nth k (smart_cache_gasmixes n data gasmix i) 0
    = byte_at data (u32 (gasmix + u32 ((i + Z.of_nat k) * 2))) /\
    byte_at data (u32 (gasmix + u32 ((i + Z.of_nat k) * 2))) <> 0.
Proof.
  induction n as [| n IH]; intros i k; cbn [smart_cache_gasmixes]; cbv zeta;
    [cbn [length]; lia |].
  destruct (byte_at data (u32 (gasmix + u32 (i * 2))) =? 0) eqn:Ezero; cbn [length]; [lia |].
  apply Z.eqb_neq in Ezero.
  destruct k as [| k]; intro Hk.
  - cbn [nth]. replace (i + Z.of_nat 0) with i by lia. split; [reflexivity | exact Ezero].
  - cbn [nth]. replace (i + Z.of_nat (S k)) with (i + 1 + Z.of_nat k) by lia.
    apply IH. lia.
Qed.

Lemma sample_event_list_app (a b : list dc_sample) :
  sample_event_list (a ++ b) = sample_event_list a ++ sample_event_list b.
Proof.
  apply flat_map_app.
Qed.

Lemma uwatec_smart_parse_value_gasmix (model : Z) (trimix : bool) (size : Z)
  (entry : uwatec_smart_sample_info_t) (value svalue offset offset' : Z)
  (l l' : smart_locals) :
  0 <= s_index entry -> 0 <= sl_gasmix l ->
  uwatec_smart_parse_value model trimix size entry value svalue offset l = Some (offset', l') ->
  0 <= sl_gasmix l'.
Proof.
  intros Hindex Hgasmix. unfold uwatec_smart_parse_value. cbv zeta.
  assert (Hland : forall m, 0 <= Z.shiftr (Z.land value m) 4 \/ m < 0).
  { intro m. destruct (Z.lt_ge_cases m 0) as [Hm | Hm]; [right; exact Hm | left].
    apply Z.shiftr_nonneg, Z.land_nonneg. right. exact Hm. }
  destruct (s_type entry);
    repeat match goal with
           | |- context [if ?b then _ else _] => destruct b
           end;
    intro H; try discriminate H; injection H as _ <-;
    cbn [sl_gasmix set_sl_complete set_sl_calibrated set_sl_time set_sl_rbt set_sl_tank
         set_sl_gasmix set_sl_depth set_sl_depth_calibration set_sl_temperature
         set_sl_pressure set_sl_heartrate set_sl_bearing set_sl_alarms
         set_sl_gasmix_previous set_sl_have_depth set_sl_have_temperature
         set_sl_have_pressure set_sl_have_rbt set_sl_have_heartrate set_sl_have_alarms
         set_sl_have_bearing];
    try exact Hgasmix; try exact Hindex.
  - rewrite smart_trimix_tank. lia.
  - destruct (Hland 48) as [H48 | H48]; [exact H48 | lia].
Qed.

Lemma smart_emit_gaschange (c : uwatec_smart_cache_t) (nalarms : Z) :
  forall (fuel : nat) (l : smart_locals) (r : option dc_status_t) (out : list dc_sample)
         (l' : smart_locals),
    0 <= sl_gasmix l ->
    smart_emit fuel c nalarms l = Some (r, out, l') ->
    Forall (smart_gaschange c) (sample_event_list out) /\ 0 <= sl_gasmix l'.
Proof.
  induction fuel as [| fuel IH]; intros l r out l' Hgasmix;
    rewrite smart_emit_eq; destruct (sl_complete l =? 0);
    try (intro H; injection H as _ <- <-; split; [constructor | exact Hgasmix]);
    try discriminate.
  cbv zeta.
  set (change := negb (sc_ngasmixes c =? 0) && negb (sl_gasmix l =? sl_gasmix_previous l)).
  destruct change.
  - destruct (Z.geb_spec (sl_gasmix l) (sc_ngasmixes c)) as [Hge | Hlt]; cbn [andb].
    + intro H. injection H as _ <- <-. split; [constructor | exact Hgasmix].
    + match goal with
      | |- context [smart_emit fuel c nalarms ?l4] =>
          destruct (smart_emit fuel c nalarms l4) as [[[r1 rest] l1] |] eqn:Erest;
          [| discriminate]
      end.
      intro H. injection H as <- <- <-.
      apply IH in Erest.
      * destruct Erest as [Hrest Hl].
        split; [| exact Hl].
        unfold sample_event_list in Hrest |- *.
        destruct (sl_have_temperature l), (sl_have_alarms l), (sl_have_rbt l),
          (sl_have_pressure l), (sl_have_heartrate l), (sl_have_bearing l),
          (sl_have_depth l);
          cbn [flat_map app orb];
          (constructor; [| exact Hrest]);
          exists (sl_gasmix l); (split; [lia | reflexivity]).
      * destruct (sl_have_alarms l), (sl_have_bearing l); exact Hgasmix.
  - cbn [andb].
    match goal with
    | |- context [smart_emit fuel c nalarms ?l4] =>
        destruct (smart_emit fuel c nalarms l4) as [[[r1 rest] l1] |] eqn:Erest;
        [| discriminate]
    end.
    intro H. injection H as <- <- <-.
    apply IH in Erest.
    + destruct Erest as [Hrest Hl].
      split; [| exact Hl].
      unfold sample_event_list in Hrest |- *.
      destruct (sl_have_temperature l), (sl_have_alarms l), (sl_have_rbt l),
        (sl_have_pressure l), (sl_have_heartrate l), (sl_have_bearing l),
        (sl_have_depth l);
        cbn [flat_map app orb]; exact Hrest.
    + destruct (sl_have_alarms l), (sl_have_bearing l); exact Hgasmix.
Qed.

Lemma uwatec_smart_sample_gaschange (parser : uwatec_smart_parser_t)
  (c : uwatec_smart_cache_t) (nalarms offset offset' : Z) (l l' : smart_locals)
  (r : option dc_status_t) (out : list dc_sample) :
  forallb (fun e => 0 <=? s_index e) (sm_samples parser) = true ->
  0 <= sl_gasmix l ->
  uwatec_smart_sample parser c nalarms offset l = Some (r, out, l', offset') ->
  Forall (smart_gaschange c) (sample_event_list out) /\ 0 <= sl_gasmix l'.
Proof.
  intros Hindex Hgasmix. unfold uwatec_smart_sample. cbv zeta.
  assert (Hfail : forall o : Z,
             Some (Some DC_STATUS_DATAFORMAT, @nil dc_sample, l, o) = Some (r, out, l', offset') ->
             Forall (smart_gaschange c) (sample_event_list out) /\ 0 <= sl_gasmix l').
  { intros o H. injection H as _ <- <- _. split; [constructor | exact Hgasmix]. }
  destruct (uwatec_smart_sample_type parser offset) as [[id entry] |] eqn:Etype;
    [| apply Hfail].
  apply uwatec_smart_sample_type_In in Etype.
  rewrite forallb_forall in Hindex. specialize (Hindex entry Etype).
  apply Z.leb_le in Hindex.
  destruct (uwatec_smart_sample_value (sm_data parser) entry offset)
    as [[[o1 nbits] value] |]; [| apply Hfail].
  destruct (uwatec_smart_parse_value _ _ _ entry value _ o1 l) as [[o2 l2] |] eqn:Eparse;
    [| apply Hfail].
  apply uwatec_smart_parse_value_gasmix in Eparse; [| exact Hindex | exact Hgasmix].
  destruct (smart_emit _ c nalarms l2) as [[[r1 out1] l1] |] eqn:Eemit; [| discriminate].
  intro H. injection H as <- <- <- _.
  exact (smart_emit_gaschange c nalarms _ _ _ _ _ Eparse Eemit).
Qed.

Lemma uwatec_smart_samples_loop_gaschange (parser : uwatec_smart_parser_t)
  (c : uwatec_smart_cache_t) (nalarms : Z) :
  forallb (fun e => 0 <=? s_index e) (sm_samples parser) = true ->
  forall (fuel : nat) (offset : Z) (l : smart_locals) (st : dc_status_t)
         (out : list dc_sample),
    0 <= sl_gasmix l ->
    uwatec_smart_samples_loop fuel parser c nalarms offset l = Some (st, out) ->
    Forall (smart_gaschange c) (sample_event_list out).
Proof.
  intros Hindex. induction fuel as [| fuel IH]; intros offset l st out Hgasmix;
    rewrite uwatec_smart_samples_loop_eq; destruct (offset <? blob_size (sm_data parser));
    try (intro H; injection H as _ <-; constructor);
    try discriminate.
  destruct (uwatec_smart_sample parser c nalarms offset l) as [[[[r out1] l1] o1] |] eqn:Es;
    [| discriminate].
  destruct (uwatec_smart_sample_gaschange _ _ _ _ _ _ _ _ _ Hindex Hgasmix Es) as [Hev Hl].
  destruct r as [st1 |].
  - intro H. injection H as _ <-. exact Hev.
  - destruct (uwatec_smart_samples_loop fuel parser c nalarms o1 l1) as [[st2 rest] |] eqn:Er;
      [| discriminate].
    intro H. injection H as _ <-.
    rewrite sample_event_list_app. apply Forall_app. split; [exact Hev |].
    exact (IH _ _ _ _ Hl Er).
Qed.

Lemma smart_cache_reset_gasmixes (parser : uwatec_smart_parser_t)
  (rc : dc_status_t) (c' : uwatec_smart_cache_t) (i : Z) :
  smart_header_ok parser = true ->
  uwatec_smart_parser_cache parser uwatec_smart_cache_reset = (rc, c') ->
  0 <= i < sc_ngasmixes c' ->
  sc_ngasmixes c' <= h_ngases (sm_header parser) /\
  array_get (sc_oxygen c') i = byte_at (sm_data parser) (h_gasmix (sm_header parser) + 2 * i) /\
  forall j, 0 <= j <= i ->
    byte_at (sm_data parser) (h_gasmix (sm_header parser) + 2 * j) <> 0.
Proof.
  unfold smart_header_ok. intro Hok.
  apply andb_true_iff in Hok. destruct Hok as [Hok _].
  apply andb_true_iff in Hok. destruct Hok as [Hok Hn2]. apply Z.leb_le in Hn2.
  apply andb_true_iff in Hok. destruct Hok as [Hok Hn1]. apply Z.leb_le in Hn1.
  apply andb_true_iff in Hok. destruct Hok as [Hg1 Hg2].
  apply Z.leb_le in Hg1. apply Z.leb_le in Hg2.
  unfold uwatec_smart_parser_cache. cbv zeta. cbn [sc_cached uwatec_smart_cache_reset].
  destruct (model_in _ _ && (blob_size (sm_data parser) <? 44)).
  { intro H. injection H as _ <-. cbn [sc_ngasmixes uwatec_smart_cache_reset]. lia. }
  set (trimix := model_in _ _ && negb (Z.land (byte_at (sm_data parser) 43) 128 =? 0)).
  destruct trimix; cbn [negb andb].
  { intro H. injection H as _ <-. cbn [sc_ngasmixes length]. lia. }
  set (oxygen := smart_cache_gasmixes (Z.to_nat (h_ngases (sm_header parser)))
                   (sm_data parser) (h_gasmix (sm_header parser)) 0).
  intro H. injection H as _ <-. cbn [sc_ngasmixes sc_oxygen]. intro Hi.
  pose proof (smart_cache_gasmixes_length (sm_data parser) (h_gasmix (sm_header parser))
                (Z.to_nat (h_ngases (sm_header parser))) 0) as Hlen.
  fold oxygen in Hlen.
  assert (Hbyte : forall j, 0 <= j <= i ->
            nth (Z.to_nat j) oxygen 0
            = byte_at (sm_data parser) (h_gasmix (sm_header parser) + 2 * j) /\
            byte_at (sm_data parser) (h_gasmix (sm_header parser) + 2 * j) <> 0).
  { intros j Hj.
    destruct (smart_cache_gasmixes_spec (sm_data parser) (h_gasmix (sm_header parser))
                (Z.to_nat (h_ngases (sm_header parser))) 0 (Z.to_nat j)) as [Hnth Hnz].
    { fold oxygen. lia. }
    fold oxygen in Hnth.
    assert (Haddr : u32 (h_gasmix (sm_header parser) + u32 ((0 + Z.of_nat (Z.to_nat j)) * 2))
                    = h_gasmix (sm_header parser) + 2 * j).
    { rewrite (u32_small ((0 + Z.of_nat (Z.to_nat j)) * 2)) by lia.
      rewrite u32_small by lia. lia. }
    rewrite Haddr in Hnth, Hnz. split; assumption. }
  split; [lia |]. split.
  - unfold array_get. rewrite app_nth1 by lia. apply Hbyte. lia.
  - intros j Hj. apply Hbyte. exact Hj.
Qed.

(** X19. On the first samples_foreach call after set_data, every EVENT
    sample that the Smart parser emits is a GASCHANGE event with time 0
    and flags 0 whose value is the oxygen byte of a gas mix slot of the
    header that [uwatec_smart_parser_cache] has accepted: the slot index is
    below the cached number of gas mixes, that number is at most the
    header's [ngases], and no slot up to it holds 0 (a disabled mix ends
    the table). *)
Theorem uwatec_smart_gaschange_events (model devtime : Z) (systime : dc_ticks_t)
  (data : blob) (parser : uwatec_smart_parser_t) (st : dc_status_t)
  (out : list dc_sample) (c' : uwatec_smart_cache_t) :
  smart_parser_of model devtime systime data = Some parser ->
  uwatec_smart_parser_samples_foreach parser uwatec_smart_cache_reset = Some (st, out, c') ->
  sc_ngasmixes c' <= h_ngases (sm_header parser) /\
  Forall (fun e => exists i,
            0 <= i < sc_ngasmixes c' /\
            e = (SAMPLE_EVENT_GASCHANGE, 0, 0,
                 byte_at data (h_gasmix (sm_header parser) + 2 * i)) /\
            forall j, 0 <= j <= i ->
              byte_at data (h_gasmix (sm_header parser) + 2 * j) <> 0)
         (sample_event_list out).
Proof.
  unfold smart_parser_of. intros Hparser.
  destruct (uwatec_smart_parser_create model devtime systime) as [parser0 |] eqn:Hcreate;
    [| discriminate].
  injection Hparser as <-.
  pose proof (smart_header_ok_create _ _ _ _ Hcreate) as Hok.
  cbn [uwatec_smart_parser_set_data snd sm_header].
  set (parser := {| sm_data := data; sm_model := sm_model parser0;
                    sm_devtime := sm_devtime parser0; sm_systime := sm_systime parser0;
                    sm_samples := sm_samples parser0; sm_header := sm_header parser0;
                    sm_headersize := sm_headersize parser0 |}).
  assert (Hok' : smart_header_ok parser = true) by exact Hok.
  assert (Hindex : forallb (fun e => 0 <=? s_index e) (sm_samples parser) = true).
  { unfold smart_header_ok in Hok'. apply andb_true_iff in Hok'. apply Hok'. }
  unfold uwatec_smart_parser_samples_foreach.
  destruct (uwatec_smart_parser_cache parser uwatec_smart_cache_reset) as [rc c1] eqn:Ecache.
  assert (Hcount : sc_ngasmixes c1 <= h_ngases (sm_header parser0)).
  { destruct (Z.le_gt_cases (sc_ngasmixes c1) 0) as [Hle | Hgt].
    - unfold smart_header_ok in Hok. apply andb_true_iff in Hok. destruct Hok as [Hok _].
      apply andb_true_iff in Hok. destruct Hok as [Hok _].
      apply andb_true_iff in Hok. destruct Hok as [_ Hn]. apply Z.leb_le in Hn.
      cbn [sm_header parser] in Hn. lia.
    - apply (smart_cache_reset_gasmixes parser rc c1 0 Hok' Ecache). lia. }
  destruct (negb (dc_status_eqb rc DC_STATUS_SUCCESS)).
  { intro H. injection H as _ <- <-. split; [exact Hcount | constructor]. }
  match goal with
  | |- context [uwatec_smart_samples_loop ?f parser c1 ?na ?o ?l] =>
      destruct (uwatec_smart_samples_loop f parser c1 na o l) as [[st1 out1] |] eqn:Eloop;
      [| discriminate]
  end.
  intro H. injection H as _ <- <-.
  split; [exact Hcount |].
  apply uwatec_smart_samples_loop_gaschange in Eloop; [| exact Hindex | cbn; lia].
  eapply Forall_impl; [| exact Eloop].
  intros e [i [Hi He]]. exists i.
  destruct (smart_cache_reset_gasmixes parser rc c1 i Hok' Ecache Hi) as [_ [Hget Hnz]].
  split; [exact Hi |]. split; [| exact Hnz].
  rewrite He, Hget. reflexivity.
Qed.

Lemma uwatec_smart_gaschange_events_witness :
  exists parser st out c',
    smart_parser_of Smart.GALILEO 0 0 smart_gasmix_example = Some parser /\
    uwatec_smart_parser_samples_foreach parser uwatec_smart_cache_reset = Some (st, out, c') /\
    sample_event_list out
    = [(SAMPLE_EVENT_GASCHANGE, 0, 0, 50); (SAMPLE_EVENT_GASCHANGE, 0, 0, 32)] /\
    sc_ngasmixes c' <= h_ngases (sm_header parser) /\
    Forall (fun e => exists i,
              0 <= i < sc_ngasmixes c' /\
              e = (SAMPLE_EVENT_GASCHANGE, 0, 0,
                   byte_at smart_gasmix_example (h_gasmix (sm_header parser) + 2 * i)) /\
              forall j, 0 <= j <= i ->
                byte_at smart_gasmix_example (h_gasmix (sm_header parser) + 2 * j) <> 0)
           (sample_event_list out).
Proof.
  eexists. eexists. eexists. eexists.
  split; [reflexivity |].
  match goal with
  | |- uwatec_smart_parser_samples_foreach ?p _ = _ /\ _ => pose (parser := p)
  end.
  split; [lazy; reflexivity |].
  split; [reflexivity |].
  refine (uwatec_smart_gaschange_events Smart.GALILEO 0 0 smart_gasmix_example parser
            DC_STATUS_SUCCESS _ _ _ _); lazy; reflexivity.
Defined.

(** ** Suunto Common2: writing *)

Lemma length_bytes_slice (data : list byte) (off len : Z) :
  0 <= off -> 0 <= len -> off + len <= Z.of_nat (length data) ->
  length (bytes_slice data off len) = Z.to_nat len.
Proof.
  intros Hoff Hlen Hmax. unfold bytes_slice.
  rewrite firstn_length_le; [reflexivity |]. rewrite length_skipn. lia.
Qed.

Lemma buffer_write_next (mem data : list byte) (a n len : Z) :
  0 <= a -> 0 <= n -> 0 <= len ->
  a + n + len <= Z.of_nat (length mem) -> n + len <= Z.of_nat (length data) ->
  buffer_write (buffer_write mem a (bytes_slice data 0 n)) (a + n) (bytes_slice data n len)
  = buffer_write mem a (bytes_slice data 0 (n + len)).
Proof.
  intros Ha Hn Hlen Hmem Hdata.
  pose proof (length_bytes_slice data 0 n ltac:(lia) Hn ltac:(lia)) as HX.
  pose proof (length_bytes_slice data n len Hn Hlen Hdata) as HY.
  pose proof (length_bytes_slice data 0 (n + len) ltac:(lia) ltac:(lia) ltac:(lia)) as HXY.
  rewrite <- (bytes_slice_app data 0 n len) in * by lia.
  rewrite Z.add_0_l in *.
  set (X := bytes_slice data 0 n) in *. set (Y := bytes_slice data n len) in *.
  unfold buffer_write. rewrite HX, HY, HXY.
  assert (HA : length (firstn (Z.to_nat a) mem) = Z.to_nat a)
    by (apply firstn_length_le; lia).
  set (A := firstn (Z.to_nat a) mem) in *.
  set (M := skipn (Z.to_nat a + Z.to_nat n) mem).
  assert (Hfirst : firstn (Z.to_nat (a + n)) (A ++ X ++ M) = A ++ X).
  { rewrite app_assoc. rewrite firstn_app.
    rewrite firstn_all2 by (rewrite length_app; lia).
    replace (Z.to_nat (a + n) - length (A ++ X))%nat with 0%nat
      by (rewrite length_app; lia).
    cbn [firstn]. apply app_nil_r. }
  assert (Hskip : skipn (Z.to_nat (a + n) + Z.to_nat len) (A ++ X ++ M)
                  = skipn (Z.to_nat a + Z.to_nat (n + len)) mem).
  { rewrite app_assoc. rewrite skipn_app.
    rewrite skipn_all2 by (rewrite length_app; lia).
    replace (Z.to_nat (a + n) + Z.to_nat len - length (A ++ X))%nat with (Z.to_nat len)
      by (rewrite length_app; lia).
    unfold M. rewrite skipn_skipn. cbn [app]. f_equal. lia. }
  rewrite Hfirst, Hskip. rewrite <- !app_assoc. reflexivity.
Qed.

Section SuuntoCommon2WriteProperties.

Variable world : Type.
Variable pk : world -> list byte -> Z -> Z -> world * dc_status_t * list byte.
Variable mem_of : world -> list byte.
Hypothesis Hstores : stores_memory pk mem_of.

Lemma suunto_common2_write_loop_eq (fuel : nat) (w : world * list exchange) (address : Z)
  (data : list byte) (nbytes size : Z) :
  suunto_common2_write_loop (world * list exchange) (Some (logged_packet pk)) fuel w
    address data nbytes size
  = if nbytes <? size then
      match fuel with
      | O => None
      | S fuel' =>
          let len := if u32 (size - nbytes) >? Common2.SZ_PACKET then Common2.SZ_PACKET
                     else u32 (size - nbytes) in
          let command6 :=
            bytes_of [0x06; 0x00; (len + 3) mod 2 ^ 8;
                      Z.land (Z.shiftr address 8) 0xFF;
                      Z.land address 0xFF;
                      len mod 2 ^ 8] in
          let command := command6 ++ bytes_slice data nbytes len in
          let command := command ++ [byte_of_Z (checksum_xor_uint8 command 0x00)] in
          let '(w, rc, answer) :=
            suunto_common2_transfer (world * list exchange) (Some (logged_packet pk)) w
              command 7 0 in
          if negb (dc_status_eqb rc DC_STATUS_SUCCESS) then Some (w, rc)
          else
            suunto_common2_write_loop (world * list exchange) (Some (logged_packet pk)) fuel' w
              (u32 (address + len)) data (u32 (nbytes + len)) size
      end
    else Some (w, DC_STATUS_SUCCESS).
Proof.
  destruct fuel; reflexivity.
Qed.

Lemma suunto_common2_write_loop_stores (mem : list byte) (a0 : Z) (data : list byte) :
  let size := Z.of_nat (length data) in
  0 <= a0 -> a0 + size <= Z.of_nat (length mem) -> Z.of_nat (length mem) <= 2 ^ 16 ->
  forall (fuel : nat) (w : world) (k : nat) (nbytes : Z),
    nbytes = Z.min size (0x78 * Z.of_nat k) ->
    (k <= Z.to_nat ((size + 0x77) / 0x78))%nat ->
    size - nbytes <= Z.of_nat fuel ->
    mem_of w = buffer_write mem a0 (bytes_slice data 0 nbytes) ->
    exists w',
      suunto_common2_write_loop (world * list exchange) (Some (logged_packet pk)) fuel
        (w, map (fun k => let len := Z.min 0x78 (size - 0x78 * k) in
                          mk_exchange (common2_write_command (a0 + 0x78 * k)
                                         (bytes_slice data (0x78 * k) len))
                                      7 0 DC_STATUS_SUCCESS)
                (indices k))
        (a0 + nbytes) data nbytes size
      = Some ((w', common2_write_exchanges a0 data), DC_STATUS_SUCCESS) /\
      mem_of w' = buffer_write mem a0 data.
Proof.
  intros size Ha0 Hmem Hmax.
  assert (Hsize : 0 <= size) by (unfold size; lia).
  assert (Hdone : forall w, mem_of w = buffer_write mem a0 (bytes_slice data 0 size) ->
                            mem_of w = buffer_write mem a0 data).
  { intros w Hw. rewrite Hw. unfold bytes_slice, size. cbn [skipn Z.to_nat].
    rewrite Nat2Z.id, firstn_all. reflexivity. }
  induction fuel as [| fuel IH]; intros w k nbytes Hnbytes Hk Hfuel Hw;
    rewrite suunto_common2_write_loop_eq.
  - replace (nbytes <? size) with false by (symmetry; apply Z.ltb_ge; lia).
    exists w. unfold common2_write_exchanges. fold size.
    rewrite (packets_done _ _ size k) by lia.
    split; [reflexivity |]. apply Hdone. replace size with nbytes by lia. exact Hw.
  - destruct (nbytes <? size) eqn:Elt.
    2: { apply Z.ltb_ge in Elt. exists w. unfold common2_write_exchanges. fold size.
         rewrite (packets_done _ _ size k) by lia.
         split; [reflexivity |].
         apply Hdone. replace size with nbytes by lia. exact Hw. }
    apply Z.ltb_lt in Elt. cbv zeta. unfold Common2.SZ_PACKET.
    assert (Hnb : nbytes = 0x78 * Z.of_nat k) by lia.
    rewrite (u32_small (size - nbytes)) by lia.
    replace (if size - nbytes >? 120 then 120 else size - nbytes)
      with (Z.min 0x78 (size - 0x78 * Z.of_nat k))
      by (destruct (Z.gtb_spec (size - nbytes) 120); lia).
    set (len := Z.min 0x78 (size - 0x78 * Z.of_nat k)).
    assert (Hlen : 1 <= len <= 120 /\ len <= size - nbytes) by (unfold len; lia).
    rewrite (Z.mod_small len), (Z.mod_small (len + 3)) by (change (2 ^ 8) with 256; lia).
    assert (Ha16 : 0 <= a0 + nbytes < 2 ^ 16) by lia.
    destruct (address_bytes_div (a0 + nbytes) Ha16) as [Hhi Hlo].
    rewrite Hhi, Hlo.
    set (payload := bytes_slice data nbytes len).
    assert (Hpayload : Z.of_nat (length payload) = len).
    { unfold payload. rewrite length_bytes_slice by (fold size; lia). lia. }
    match goal with
    | |- context [suunto_common2_transfer _ _ _ ?c 7 0] =>
        replace c with (common2_write_command (a0 + nbytes) payload)
          by (unfold common2_write_command; rewrite Hpayload; reflexivity)
    end.
    destruct (Hstores w (a0 + nbytes) payload) as [w1 [answer [Hpk Hmem1]]];
      [lia | lia | lia |].
    unfold suunto_common2_transfer.
    change (Z.to_nat Common2.MAXRETRIES) with 2%nat.
    cbn [suunto_common2_transfer_loop]. unfold logged_packet at 1. cbn [fst snd].
    rewrite Hpk. cbn [dc_status_eqb negb].
    rewrite (u32_small (a0 + nbytes + len)), (u32_small (nbytes + len)) by lia.
    destruct (IH w1 (S k) (nbytes + len)) as [w' [Hw' Hmem']];
      [lia | apply packets_next; lia | lia | |].
    + rewrite Hmem1, Hw. apply buffer_write_next; fold size; lia.
    + exists w'. split; [| exact Hmem']. rewrite <- Hw'.
      rewrite indices_S_last, map_app. cbn [map]. cbv zeta. fold len.
      rewrite <- Hnb. fold payload.
      replace (a0 + nbytes + len) with (a0 + (nbytes + len)) by lia.
      reflexivity.
Qed.

End SuuntoCommon2WriteProperties.

(** X20. Against a device that stores write commands of at most 0x78 data
    bytes in a memory image of at most 2^16 bytes,
    [suunto_common2_device_write] of a buffer that fits into the image at
    [address] returns SUCCESS and leaves the image with exactly the buffer
    at [address] and every other byte as before, and the exchanges it
    makes are the write commands (code 0x06, length bytes, address, count,
    data, XOR checksum) for consecutive pieces of 0x78 bytes of the
    buffer, the last one shorter, at consecutive addresses, one exchange
    each. *)
Theorem suunto_common2_device_write_stores (world : Type)
  (pk : world -> list byte -> Z -> Z -> world * dc_status_t * list byte)
  (mem_of : world -> list byte) (w : world) (address : Z) (data : list byte) :
  stores_memory pk mem_of ->
  0 <= address ->
  address + Z.of_nat (length data) <= Z.of_nat (length (mem_of w)) ->
  Z.of_nat (length (mem_of w)) <= 2 ^ 16 ->
  exists w',
    suunto_common2_device_write (world * list exchange) (Some (logged_packet pk)) (w, [])
      address data (Z.of_nat (length data))
    = Some ((w', common2_write_exchanges address data), DC_STATUS_SUCCESS) /\
    mem_of w' = buffer_write (mem_of w) address data.
Proof.
  intros Hstores Ha Hfit Hmax. unfold suunto_common2_device_write.
  assert (Hstart : mem_of w = buffer_write (mem_of w) address (bytes_slice data 0 0)).
  { unfold buffer_write, bytes_slice. cbn [Z.to_nat firstn skipn length app].
    rewrite Nat.add_0_r. symmetry. apply firstn_skipn. }
  pose proof (suunto_common2_write_loop_stores world pk mem_of Hstores (mem_of w) address data
                Ha Hfit Hmax (Z.to_nat (Z.of_nat (length data))) w 0%nat 0) as Hloop.
  rewrite Z.add_0_r in Hloop. apply Hloop; [lia | lia | lia | exact Hstart].
Qed.

Lemma memory_store_packet_stores : stores_memory memory_store_packet (fun w => w).
Proof.
  intros w address data Ha Hlen Hmax.
  unfold memory_store_packet, common2_write_command. cbv zeta.
  set (len := Z.of_nat (length data)) in *.
  set (command6 := bytes_of [6; 0; len + 3; address / 256; address mod 256; len]).
  assert (Hhi : 0 <= address / 256 < 256) by (change (2 ^ 16) with 65536 in Hmax; div_lia).
  assert (Hlo : 0 <= address mod 256 < 256) by div_lia.
  set (cs := byte_of_Z (checksum_xor_uint8 (command6 ++ data) 0)).
  destruct (common2_command_fields 6 0 (len + 3) (address / 256) (address mod 256) len
              (data ++ [cs]))
    as [H0 [H1 [H2 [H3 [H4 H5]]]]]; try lia.
  fold command6 in H0, H1, H2, H3, H4, H5.
  rewrite <- app_assoc.
  rewrite H0, H1, H2, H3, H4, H5.
  replace (checksum_xor_uint8 (command6 ++ data ++ [cs]) 0) with 0
    by (rewrite app_assoc; symmetry; apply checksum_xor_uint8_closes).
  replace (Z.shiftl (address / 256) 8 + address mod 256) with address
    by (rewrite Z.shiftl_mul_pow2 by lia; change (2 ^ 8) with 256; div_lia).
  replace (Z.of_nat (length (command6 ++ data ++ [cs]))) with (len + 7)
    by (rewrite !length_app; cbn [length command6 bytes_of map]; lia).
  rewrite !Z.eqb_refl.
  replace (1 <=? len) with true by (symmetry; apply Z.leb_le; lia).
  replace (len <=? 120) with true by (symmetry; apply Z.leb_le; lia).
  cbn [andb].
  replace (bytes_slice (command6 ++ data ++ [cs]) 6 len) with data.
  - eexists. eexists. split; reflexivity.
  - unfold bytes_slice. change (Z.to_nat 6) with 6%nat.
    cbn [command6 bytes_of map app skipn].
    rewrite firstn_app. unfold len. rewrite Nat2Z.id, firstn_all, Nat.sub_diag.
    cbn [firstn]. symmetry. apply app_nil_r.
Qed.

Lemma suunto_common2_device_write_stores_witness :
  exists w',
    suunto_common2_device_write (list byte * list exchange)
      (Some (logged_packet memory_store_packet)) (repeat x00 1024, [])
      0x0100 write_example (Z.of_nat (length write_example))
    = Some ((w', common2_write_exchanges 0x0100 write_example), DC_STATUS_SUCCESS) /\
    w' = buffer_write (repeat x00 1024) 0x0100 write_example.
Proof.
  assert (Ha : 0 <= 0x0100) by by_evaluation.
  assert (Hfit : 0x0100 + Z.of_nat (length write_example)
                 <= Z.of_nat (length (repeat x00 1024))) by by_evaluation.
  assert (Hmax : Z.of_nat (length (repeat x00 1024)) <= 2 ^ 16) by by_evaluation.
  exact (suunto_common2_device_write_stores (list byte) memory_store_packet (fun w => w)
           (repeat x00 1024) 0x0100 write_example memory_store_packet_stores Ha Hfit Hmax).
Defined.

(** ** Reefnet Sensus Ultra: dive time and samples *)

Lemma sensusultra_scan_eq (fuel : nat) (data : blob)
  (threshold offset maxdepth nsamples : Z) :
  sensusultra_scan fuel data threshold offset maxdepth nsamples
  = if (offset + 4 <=? blob_size data) && sensusultra_not_footer data offset then
      match fuel with
      | O => None
      | S fuel' =>
          let depth := array_uint16_le data (offset + 2) in
          let '(maxdepth, nsamples) :=
            if depth >=? threshold
            then (if depth >? maxdepth then depth else maxdepth, u32 (nsamples + 1))
            else (maxdepth, nsamples) in
          sensusultra_scan fuel' data threshold (u32 (offset + 4)) maxdepth nsamples
      end
    else Some (maxdepth, nsamples).
Proof.
  destruct fuel; reflexivity.
Qed.

Section ReefnetSensusultraProperties.

Variable BAR : float.

Lemma sensusultra_profile_eq (fuel : nat) (parser : reefnet_sensusultra_parser_t)
  (interval time offset : Z) :
  sensusultra_profile BAR fuel parser interval time offset
  = let data := su_data parser in
    if (offset + 4 <=? blob_size data) && sensusultra_not_footer data offset then
      match fuel with
      | O => None
      | S fuel' =>
          let time := u32 (time + interval) in
          let temperature := array_uint16_le data offset in
          let depth := array_uint16_le data (offset + 2) in
          match sensusultra_profile BAR fuel' parser interval time (u32 (offset + 4)) with
          | Some rest =>
              Some ([DC_SAMPLE_TIME time;
                     DC_SAMPLE_TEMPERATURE
                       (double_of_uint temperature / 100.0 - 273.15)%float;
                     DC_SAMPLE_DEPTH
                       ((double_of_uint depth * BAR / 1000.0 - su_atmospheric parser)
                        / su_hydrostatic parser)%float] ++ rest)
          | None => None
          end
      end
    else Some [].
Proof.
  destruct fuel; reflexivity.
Qed.

Lemma sensusultra_find_header_eq (fuel : nat) (parser : reefnet_sensusultra_parser_t)
  (offset : Z) :
  sensusultra_find_header BAR fuel parser offset
  = let data := su_data parser in
    if offset + 4 <=? blob_size data then
      match fuel with
      | O => None
      | S fuel' =>
          if array_isequal data offset 4 0x00 then
            if u32 (offset + 16) >? blob_size data then Some (DC_STATUS_DATAFORMAT, [])
            else
              let interval := array_uint16_le data (offset + 8) in
              match sensusultra_profile BAR (length data) parser interval 0
                      (u32 (offset + 16)) with
              | Some out => Some (DC_STATUS_SUCCESS, out)
              | None => None
              end
          else sensusultra_find_header BAR fuel' parser (u32 (offset + 1))
      end
    else Some (DC_STATUS_SUCCESS, []).
Proof.
  destruct fuel; reflexivity.
Qed.

(** From the same offset, the scan of [get_field] and the profile loop of
    [samples_foreach] end after the same number of records; the scan has
    counted the records whose depth field reaches the threshold. *)
Lemma sensusultra_loops_agree (parser : reefnet_sensusultra_parser_t)
  (interval threshold : Z) :
  blob_size (su_data parser) < 2 ^ 32 - 4 ->
  forall (fuel : nat) (offset maxdepth nsamples time : Z),
    0 <= offset ->
    blob_size (su_data parser) - offset < 4 * Z.of_nat fuel + 4 ->
    0 <= nsamples -> nsamples + Z.of_nat fuel < 2 ^ 32 ->
    exists (m : nat) (out : list dc_sample),
      let deep :=
        filter (fun d => threshold <=? d)
               (map (fun k => array_uint16_le (su_data parser) (offset + 4 * k + 2))
                    (indices m)) in
      sensusultra_scan fuel (su_data parser) threshold offset maxdepth nsamples
      = Some (fold_left Z.max deep maxdepth, nsamples + Z.of_nat (length deep)) /\
      sensusultra_profile BAR fuel parser interval time offset = Some out /\
      sample_times out = map (fun k => u32 (time + (k + 1) * interval)) (indices m).
Proof.
  intro Hsz.
  induction fuel as [| fuel IH]; intros offset maxdepth nsamples time Hoff Hfuel Hns Hmax;
    rewrite sensusultra_scan_eq, sensusultra_profile_eq; cbv zeta;
    destruct ((offset + 4 <=? blob_size (su_data parser)) &&
              sensusultra_not_footer (su_data parser) offset) eqn:Econd;
    try (exists 0%nat, []; cbn [indices seq map filter fold_left length];
         rewrite Z.add_0_r; repeat split; reflexivity).
  - apply andb_true_iff in Econd. destruct Econd as [Econd _].
    apply Z.leb_le in Econd. lia.
  - apply andb_true_iff in Econd. destruct Econd as [Econd _].
    apply Z.leb_le in Econd.
    rewrite (u32_small (offset + 4)) by lia.
    set (d0 := array_uint16_le (su_data parser) (offset + 2)).
    set (state := if d0 >=? threshold
                  then (if d0 >? maxdepth then d0 else maxdepth, u32 (nsamples + 1))
                  else (maxdepth, nsamples)).
    assert (Hstate : state = (if threshold <=? d0 then Z.max maxdepth d0 else maxdepth,
                              if threshold <=? d0 then nsamples + 1 else nsamples)).
    { unfold state. rewrite Z.geb_leb.
      destruct (threshold <=? d0); [| reflexivity].
      rewrite (u32_small (nsamples + 1)) by lia.
      destruct (Z.gtb_spec d0 maxdepth); f_equal; lia. }
    rewrite Hstate.
    destruct (IH (offset + 4) (if threshold <=? d0 then Z.max maxdepth d0 else maxdepth)
                (if threshold <=? d0 then nsamples + 1 else nsamples)
                (u32 (time + interval)))
      as [m [rest [Hscan [Hprofile Htimes]]]];
      try (destruct (threshold <=? d0); lia).
    exists (S m), ([DC_SAMPLE_TIME (u32 (time + interval));
                    DC_SAMPLE_TEMPERATURE
                      (double_of_uint (array_uint16_le (su_data parser) offset) / 100.0
                       - 273.15)%float;
                    DC_SAMPLE_DEPTH
                      ((double_of_uint d0 * BAR / 1000.0 - su_atmospheric parser)
                       / su_hydrostatic parser)%float] ++ rest).
    cbv zeta in Hscan |- *.
    assert (Hdeep : map (fun k => array_uint16_le (su_data parser) (offset + 4 * k + 2))
                        (indices (S m))
                    = d0 :: map (fun k => array_uint16_le (su_data parser)
                                            (offset + 4 + 4 * k + 2)) (indices m)).
    { rewrite map_indices_S. f_equal.
      - unfold d0. f_equal. lia.
      - apply map_ext. intro k. f_equal. lia. }
    rewrite Hdeep. cbn [filter].
    split; [| split].
    + rewrite Hscan. destruct (threshold <=? d0); cbn [fold_left length];
        f_equal; f_equal; lia.
    + rewrite Hprofile. reflexivity.
    + rewrite sample_times_app, Htimes, map_indices_S. cbn [sample_times app].
      f_equal; [f_equal; lia |].
      apply map_ext. intro k. rewrite u32_add_idemp_l. f_equal. lia.
Qed.

(** X21. On a Reefnet Sensus Ultra record that starts with the header
    00 00 00 00, the scan of get_field and the sample loop of
    samples_foreach stop at the same record: both succeed, sample k
    carries (k + 1) * interval, and DIVETIME is the interval times the
    number of emitted samples whose depth field reaches the header's
    threshold (in [unsigned int] arithmetic), not the time of the last
    sample; the cached maximum depth is the largest depth field among
    those samples, 0 when none reaches the threshold. *)
Theorem sensusultra_divetime_counts_deep_samples (parser : reefnet_sensusultra_parser_t) :
  let data := su_data parser in
  let interval := array_uint16_le data 8 in
  let threshold := array_uint16_le data 10 in
  20 <= blob_size data < 2 ^ 32 - 4 ->
  su_cached parser = false ->
  array_isequal data 0 4 0x00 = true ->
  exists (out : list dc_sample) (parser' : reefnet_sensusultra_parser_t),
    reefnet_sensusultra_parser_samples_foreach BAR parser = Some (DC_STATUS_SUCCESS, out) /\
    reefnet_sensusultra_parser_get_field BAR parser DC_FIELD_DIVETIME 0
    = Some (DC_STATUS_SUCCESS, Some (FV_uint (su_divetime parser')), parser') /\
    let n := length (sample_times out) in
    let deep := filter (fun d => threshold <=? d) (map (sensusultra_depth data) (indices n)) in
    sample_times out = map (fun k => u32 ((k + 1) * interval)) (indices n) /\
    su_divetime parser' = u32 (Z.of_nat (length deep) * interval) /\
    su_maxdepth parser' = fold_left Z.max deep 0.
Proof.
  intros data interval threshold Hsz Hcached Hheader.
  assert (Hsz4 : blob_size (su_data parser) < 2 ^ 32 - 4) by (fold data; lia).
  destruct (sensusultra_loops_agree parser interval threshold Hsz4
              (length data) 16 0 0 0)
    as [m [out [Hscan [Hprofile Htimes]]]];
    try (unfold blob_size in *; fold data; lia).
  fold data in Hscan. cbv zeta in Hscan.
  assert (Hlen : length (sample_times out) = m)
    by (rewrite Htimes, length_map, length_indices; reflexivity).
  assert (Htimes' : sample_times out = map (fun k => u32 ((k + 1) * interval)) (indices m))
    by (rewrite Htimes; apply map_ext; intro k; f_equal).
  set (deep := filter (fun d => threshold <=? d)
                 (map (fun k => array_uint16_le data (16 + 4 * k + 2)) (indices m))) in *.
  exists out,
    {| su_data := data;
       su_atmospheric := su_atmospheric parser;
       su_hydrostatic := su_hydrostatic parser;
       su_devtime := su_devtime parser;
       su_systime := su_systime parser;
       su_cached := true;
       su_divetime := u32 ((0 + Z.of_nat (length deep)) * interval);
       su_maxdepth := fold_left Z.max deep 0 |}.
  split; [| split].
  - unfold reefnet_sensusultra_parser_samples_foreach. fold data.
    assert (Hgen : forall fuel : nat,
               (0 < fuel)%nat ->
               sensusultra_find_header BAR fuel parser 0 = Some (DC_STATUS_SUCCESS, out));
      [| apply Hgen; unfold blob_size in Hsz; lia].
    intros [| fuel] Hpos; [lia |].
    rewrite sensusultra_find_header_eq. cbv zeta. fold data.
    replace (0 + 4 <=? blob_size data) with true by (symmetry; apply Z.leb_le; lia).
    rewrite Hheader.
    replace (u32 (0 + 16) >? blob_size data) with false
      by (symmetry; rewrite Z.gtb_ltb; apply Z.ltb_ge; rewrite u32_small; lia).
    rewrite (u32_small (0 + 16)) by lia. change (0 + 16) with 16.
    change (0 + 8) with 8. fold interval. rewrite Hprofile. reflexivity.
  - unfold reefnet_sensusultra_parser_get_field. fold data.
    replace (blob_size data <? 20) with false by (symmetry; apply Z.ltb_ge; lia).
    rewrite Hcached. cbv zeta. fold threshold. rewrite Hscan. cbn [su_divetime].
    fold interval. reflexivity.
  - cbv zeta. rewrite Hlen. fold deep. cbn [su_divetime su_maxdepth].
    split; [exact Htimes' |]. split; reflexivity.
Qed.

End ReefnetSensusultraProperties.

Lemma sensusultra_divetime_counts_deep_samples_witness :
  exists (out : list dc_sample) (parser' : reefnet_sensusultra_parser_t),
    reefnet_sensusultra_parser_samples_foreach 100000.0%float sensusultra_dive_example
    = Some (DC_STATUS_SUCCESS, out) /\
    reefnet_sensusultra_parser_get_field 100000.0%float sensusultra_dive_example
      DC_FIELD_DIVETIME 0
    = Some (DC_STATUS_SUCCESS, Some (FV_uint (su_divetime parser')), parser') /\
    let n := length (sample_times out) in
    let deep := filter (fun d => 1100 <=? d)
                  (map (sensusultra_depth (su_data sensusultra_dive_example)) (indices n)) in
    sample_times out = map (fun k => u32 ((k + 1) * 10)) (indices n) /\
    su_divetime parser' = u32 (Z.of_nat (length deep) * 10) /\
    su_maxdepth parser' = fold_left Z.max deep 0.
Proof.
  refine (sensusultra_divetime_counts_deep_samples 100000.0%float sensusultra_dive_example
            _ _ _);
    by_evaluation || (split; by_evaluation).
Defined.

(** ** Shearwater: gas change events *)

Lemma gaschange_value_inj (o2 he o2' he' : Z) :
  0 <= o2 < 256 -> 0 <= o2' < 256 -> 0 <= he -> 0 <= he' ->
  gaschange_value (o2, he) = gaschange_value (o2', he') -> o2 = o2' /\ he = he'.
Proof.
  intros Ho Ho' Hh Hh'. unfold gaschange_value. cbn [fst snd]. intro Heq.
  assert (Hhigh : forall a b, 0 <= a < 256 -> 0 <= b ->
            Z.shiftr (Z.lor a (Z.shiftl b 16)) 16 = b).
  { intros a b Ha Hb. rewrite Z.shiftr_lor, Z.shiftr_shiftl_l by lia.
    rewrite Z.sub_diag, Z.shiftl_0_r, Z.shiftr_div_pow2 by lia.
    rewrite Z.div_small by (change (2 ^ 16) with 65536; lia). reflexivity. }
  assert (Hlow : forall a b, 0 <= a < 256 -> 0 <= b ->
            Z.land (Z.lor a (Z.shiftl b 16)) (Z.ones 16) = a).
  { intros a b Ha Hb. rewrite Z.land_lor_distr_l, !Z.land_ones by lia.
    rewrite Z.shiftl_mul_pow2, Z.mod_mul by lia.
    rewrite Z.mod_small by (change (2 ^ 16) with 65536; lia). apply Z.lor_0_r. }
  split.
  - rewrite <- (Hlow o2 he Ho Hh), <- (Hlow o2' he' Ho' Hh'), Heq. reflexivity.
  - rewrite <- (Hhigh o2 he Ho Hh), <- (Hhigh o2' he' Ho' Hh'), Heq. reflexivity.
Qed.

Lemma shearwater_sample_gaschanges (data : blob) (petrel : bool)
  (units offset time o2p hep : Z) :
  let o2 := byte_at data (offset + 7) in
  let he := byte_at data (offset + 8) in
  let changed := negb (o2 =? o2p) || negb (he =? hep) in
  sample_gaschanges (fst (shearwater_sample data petrel units offset time o2p hep))
  = (if changed then [gaschange_value (o2, he)] else []) /\
  snd (shearwater_sample data petrel units offset time o2p hep)
  = (if changed then (o2, he) else (o2p, hep)).
Proof.
  unfold shearwater_sample. cbv zeta. cbn [fst snd].
  split; [| reflexivity].
  destruct petrel; destruct (negb _ || negb _); reflexivity.
Qed.

Lemma shearwater_samples_loop_gaschanges (data : blob) (petrel : bool)
  (units samplesize footer : Z) :
  forall (fuel : nat) (offset time o2p hep : Z) (st : dc_status_t) (out : list dc_sample),
    0 <= o2p < 256 -> 0 <= hep ->
    shearwater_samples_loop fuel data petrel units samplesize footer offset time o2p hep
    = Some (st, out) ->
    distinct_neighbours (gaschange_value (o2p, hep)) (sample_gaschanges out).
Proof.
  induction fuel as [| fuel IH]; intros offset time o2p hep st out Ho Hh.
  - cbn [shearwater_samples_loop]. destruct (offset <? footer); [discriminate |].
    intro H. injection H as _ <-. exact I.
  - rewrite shearwater_samples_loop_S. destruct (offset <? footer).
    2: { intro H. injection H as _ <-. exact I. }
    destruct (array_isequal data offset samplesize 0).
    + apply IH; assumption.
    + pose proof (shearwater_sample_gaschanges data petrel units offset (u32 (time + 10))
                    o2p hep) as Hsample.
      cbv zeta in Hsample.
      destruct (shearwater_sample data petrel units offset (u32 (time + 10)) o2p hep)
        as [out1 [o2 he]].
      cbn [fst snd] in Hsample. destruct Hsample as [Hevents Hmix].
      destruct (shearwater_samples_loop fuel data petrel units samplesize footer
                  (u32 (offset + samplesize)) (u32 (time + 10)) o2 he)
        as [[st1 rest] |] eqn:Erest; [| discriminate].
      intro H. injection H as _ <-.
      rewrite sample_gaschanges_app, Hevents.
      pose proof (byte_at_range data (offset + 7)) as Hb7.
      pose proof (byte_at_range data (offset + 8)) as Hb8.
      destruct (negb (byte_at data (offset + 7) =? o2p) ||
                negb (byte_at data (offset + 8) =? hep)) eqn:Echanged.
      * injection Hmix as -> ->. cbn [app distinct_neighbours]. split.
        -- intro Heq. apply gaschange_value_inj in Heq; [| lia | lia | lia | lia].
           destruct Heq as [H1 H2].
           rewrite <- H1, <- H2, !Z.eqb_refl in Echanged. discriminate Echanged.
        -- eapply IH; [| | exact Erest]; lia.
      * injection Hmix as -> ->. cbn [app].
        apply (IH _ _ _ _ _ _ Ho Hh Erest).
Qed.

(** X22. The gas change events of the Shearwater samples_foreach never
    repeat the mix in use: the loop starts from the mix (0, 0), whose
    event value is 0, and the GASCHANGE2 values [o2 | (he << 16)] it
    emits differ from 0 for the first one and from the preceding event's
    value for every later one. *)
Theorem shearwater_gaschanges_distinct (parser : shearwater_predator_parser_t)
  (st : dc_status_t) (out : list dc_sample) :
  shearwater_predator_parser_samples_foreach parser = Some (st, out) ->
  distinct_neighbours 0 (sample_gaschanges out).
Proof.
  unfold shearwater_predator_parser_samples_foreach. cbv zeta.
  destruct (shearwater_footer parser) as [footer |].
  - intro Hloop.
    apply shearwater_samples_loop_gaschanges in Hloop; [| lia | lia].
    exact Hloop.
  - intro H. injection H as _ <-. exact I.
Qed.

Lemma shearwater_gaschanges_distinct_witness :
  exists st out,
    shearwater_predator_parser_samples_foreach shearwater_switch_example = Some (st, out) /\
    sample_gaschanges out = [21; 18 + 45 * 65536; 21] /\
    distinct_neighbours 0 (sample_gaschanges out).
Proof.
  eexists. eexists.
  split; [lazy; reflexivity |].
  split; [reflexivity |].
  refine (shearwater_gaschanges_distinct shearwater_switch_example DC_STATUS_SUCCESS _ _).
  lazy; reflexivity.
Defined.

(** ** Suunto Common2: the dives of the enumeration *)

Lemma bytes_eqb_refl (a : list byte) : bytes_eqb a a = true.
Proof.
  unfold bytes_eqb. rewrite Nat.eqb_refl. cbn [andb].
  induction a as [| x a IH]; [reflexivity |].
  cbn [combine forallb fst snd]. rewrite IH, andb_true_r.
  apply Byte.byte_dec_lb. reflexivity.
Qed.

Section SuuntoCommon2Dives.

Variable world : Type.
Variable packet :
  option (world -> list byte -> Z -> Z -> world * dc_status_t * list byte).
Variable userdata : Type.
Variable callback :
  option (userdata -> list byte -> list byte -> userdata * bool).
Variable dev : suunto_common2_device_t.

Lemma common2_read_packets_new_dives (size : Z) :
  forall (fuel : nat) (s : foreach_state world userdata) (nbytes : Z) r,
    Forall (new_dive dev) (fs_trace s) ->
    common2_read_packets packet fuel (layout dev) s size nbytes = Some r ->
    match r with
    | inl (_, s') => Forall (new_dive dev) (fs_trace s')
    | inr (s', _) => Forall (new_dive dev) (fs_trace s')
    end.
Proof.
  induction fuel as [| fuel IH]; intros s nbytes r Hs H; cbn [common2_read_packets] in H;
    destruct (nbytes <? size); try discriminate;
    try (injection H as <-; exact Hs).
  match type of H with
  | match ?rd with _ => _ end = _ => destruct rd as [[[w rc] bytes] |]; [| discriminate]
  end.
  destruct (negb (dc_status_eqb rc DC_STATUS_SUCCESS)).
  - injection H as <-. cbn [fs_trace]. apply Forall_app. split; [exact Hs |].
    constructor; [exact I | constructor].
  - apply IH in H; [exact H |]. cbn [fs_trace]. apply Forall_app. split; [exact Hs |].
    constructor; [exact I | constructor].
Qed.

Lemma common2_check_dive_new_dives (s : foreach_state world userdata) (size nbytes : Z)
  e s' :
  Forall (new_dive dev) (fs_trace s) ->
  common2_check_dive callback dev s size nbytes = (e, s') ->
  Forall (new_dive dev) (fs_trace s').
Proof.
  intro Hs. unfold common2_check_dive.
  cbn [fs_previous fs_current fs_data fs_offset fs_user fs_trace fs_status fs_log].
  destruct (_ || _ || _ || _).
  { intro H. injection H as _ <-. cbn [fs_trace]. apply Forall_app.
    split; [exact Hs | constructor; [exact I | constructor]]. }
  destruct (negb _ && negb _).
  { intro H. injection H as _ <-. cbn [fs_trace]. apply Forall_app.
    split; [exact Hs | constructor; [exact I | constructor]]. }
  destruct (negb _).
  - destruct (bytes_eqb _ (dev_fingerprint dev)) eqn:Efp.
    { intro H. injection H as _ <-. exact Hs. }
    assert (Hnew : forall dive,
               Forall (new_dive dev)
                 (fs_trace s ++
                  [EV_DIVE dive
                     (bytes_slice (fs_data s)
                        (fs_offset s + u32 (nbytes - size) + (fingerprint (layout dev) + 4))
                        (Z.of_nat (length (dev_fingerprint dev))))])).
    { intro dive. apply Forall_app. split; [exact Hs |].
      constructor; [| constructor]. cbn [new_dive]. intro Heq.
      rewrite Heq, bytes_eqb_refl in Efp. discriminate Efp. }
    destruct callback as [cb |].
    + destruct (cb _ _ _) as [u go].
      destruct go; intro H; injection H as _ <-; cbn [fs_trace]; apply Hnew.
    + intro H. injection H as _ <-. exact Hs.
  - intro H. injection H as _ <-. cbn [fs_trace]. apply Forall_app.
    split; [exact Hs | constructor; [exact I | constructor]].
Qed.

Lemma common2_dives_loop_new_dives :
  forall (fuel : nat) (s : foreach_state world userdata) e s',
    Forall (new_dive dev) (fs_trace s) ->
    common2_dives_loop packet callback fuel dev s = Some (e, s') ->
    Forall (new_dive dev) (fs_trace s').
Proof.
  induction fuel as [| fuel IH]; intros s e s' Hs H; cbn [common2_dives_loop] in H;
    destruct (fs_remaining s =? 0); try discriminate;
    try (injection H as _ <-; exact Hs).
  assert (Hdive : forall e1 s1,
             common2_dive packet callback dev s = Some (e1, s1) ->
             Forall (new_dive dev) (fs_trace s1)).
  { intros e1 s1. unfold common2_dive. destruct (_ || _).
    { intro H1. injection H1 as _ <-. cbn [fs_log fs_trace]. apply Forall_app.
      split; [exact Hs | constructor; [exact I | constructor]]. }
    destruct (common2_read_packets _ _ _ _ _ _) as [[[rc s2] | [s2 n]] |] eqn:Eread;
      [| | discriminate];
      pose proof (common2_read_packets_new_dives _ _ _ _ _ Hs Eread) as Hread.
    - intro H1. injection H1 as _ <-. exact Hread.
    - intro H1. injection H1 as H1.
      exact (common2_check_dive_new_dives _ _ _ _ _ Hread H1). }
  destruct (common2_dive packet callback dev s) as [[[| rc] s1] |] eqn:Edive;
    [| | discriminate].
  - exact (IH _ _ _ (Hdive _ _ eq_refl) H).
  - injection H as _ <-. exact (Hdive _ _ eq_refl).
Qed.

End SuuntoCommon2Dives.

(** ** Suunto Common2: the progress of the enumeration *)

Lemma ringbuffer_distance_range (a b : Z) (mode : bool) (rb_begin rb_end : Z) :
  rb_begin < rb_end ->
  0 <= ringbuffer_distance a b mode rb_begin rb_end <= rb_end - rb_begin.
Proof.
  intro Hn. unfold ringbuffer_distance. cbv zeta.
  pose proof (Z.mod_pos_bound (b - a) (rb_end - rb_begin) ltac:(lia)) as H1.
  pose proof (Z.mod_pos_bound (a - b) (rb_end - rb_begin) ltac:(lia)) as H2.
  destruct (a <? b); [lia |]. destruct (a >? b); [lia |]. destruct mode; lia.
Qed.

Lemma foreach_result_trace (A B C : Type) (x x' : A) (t t' : list foreach_event)
  (y y' : B) (z z' : C) :
  Some (x, t, y, z) = Some (x', t', y', z') -> t' = t.
Proof.
  intro H. injection H as _ <- _ _. reflexivity.
Qed.

Lemma progress_within_app (t : list foreach_event) (ev : foreach_event) :
  Forall progress_within t -> progress_within ev -> Forall progress_within (t ++ [ev]).
Proof.
  intros Ht Hev. apply Forall_app. split; [exact Ht |]. constructor; [exact Hev |].
  constructor.
Qed.

Section SuuntoCommon2Progress.

Variable world : Type.
Variable packet :
  option (world -> list byte -> Z -> Z -> world * dc_status_t * list byte).
Variable userdata : Type.
Variable callback :
  option (userdata -> list byte -> list byte -> userdata * bool).
Variable dev : suunto_common2_device_t.

Hypothesis Hbegin : 0 <= rb_profile_begin (layout dev) < rb_profile_end (layout dev).
Hypothesis Hend : rb_profile_end (layout dev) + 136 < 2 ^ 32.

Lemma common2_read_packets_progress (size : Z) :
  forall (fuel : nat) (s : foreach_state world userdata) (nbytes : Z) r,
    progress_state (layout dev) s nbytes -> size <= fs_remaining s ->
    common2_read_packets packet fuel (layout dev) s size nbytes = Some r ->
    match r with
    | inl (_, s') => Forall progress_within (fs_trace s')
    | inr (s', nbytes') =>
        progress_state (layout dev) s' nbytes' /\ size <= nbytes' /\
        fs_remaining s' = fs_remaining s
    end.
Proof.
  induction fuel as [| fuel IH]; intros s nbytes r Hs Hsize H;
    cbn [common2_read_packets] in H;
    destruct (Z.ltb_spec nbytes size) as [Hlt | Hge]; try discriminate;
    try (injection H as <-; split; [exact Hs | split; [lia | reflexivity]]).
  destruct Hs as [Haddr [Hn [Hrem [Hcur [Hsum [Hmax Htrace]]]]]].
  unfold Common2.SZ_PACKET, Common2.SZ_MINIMUM in H.
  set (a1 := if fs_address s =? rb_profile_begin (layout dev)
             then rb_profile_end (layout dev) else fs_address s) in H.
  assert (Ha1 : rb_profile_begin (layout dev) < a1 <= rb_profile_end (layout dev))
    by (unfold a1; destruct (Z.eqb_spec (fs_address s) (rb_profile_begin (layout dev))); lia).
  rewrite (u32_small (rb_profile_begin (layout dev) + 120)) in H by lia.
  rewrite (u32_small (a1 - rb_profile_begin (layout dev))) in H by lia.
  set (len1 := if rb_profile_begin (layout dev) + 120 >? a1
               then a1 - rb_profile_begin (layout dev) else 120) in H.
  assert (Hlen1 : 1 <= len1 <= 120 /\ len1 <= a1 - rb_profile_begin (layout dev))
    by (unfold len1; destruct (Z.gtb_spec (rb_profile_begin (layout dev) + 120) a1); lia).
  rewrite (u32_small (nbytes + len1)) in H by lia.
  rewrite (u32_small (fs_remaining s - nbytes)) in H by lia.
  set (len2 := if nbytes + len1 >? fs_remaining s then fs_remaining s - nbytes else len1)
    in H.
  assert (Hlen2 : 1 <= len2 <= len1 /\ nbytes + len2 <= fs_remaining s)
    by (unfold len2; destruct (Z.gtb_spec (nbytes + len1) (fs_remaining s)); lia).
  rewrite (u32_small (a1 - len2)) in H by lia.
  rewrite (u32_small (nbytes + len2)) in H by lia.
  rewrite (u32_small (fs_progress_current s + len2)) in H by lia.
  match type of H with
  | match ?rd with _ => _ end = _ => destruct rd as [[[w rc] bytes] |]; [| discriminate]
  end.
  destruct (negb (dc_status_eqb rc DC_STATUS_SUCCESS)).
  - injection H as <-. cbn [fs_trace]. apply progress_within_app; [exact Htrace | exact I].
  - apply IH in H.
    + destruct r as [[rc' s'] | [s' n']]; [exact H |].
      cbn [fs_remaining] in H. exact H.
    + unfold progress_state. cbn [fs_address fs_remaining fs_progress_current
                                  fs_progress_maximum fs_trace].
      repeat (split; [lia |]).
      apply progress_within_app; [exact Htrace |]. cbn [progress_within]. lia.
    + cbn [fs_remaining]. exact Hsize.
Qed.

Lemma common2_check_dive_progress (s : foreach_state world userdata) (size nbytes : Z)
  e s' :
  progress_state (layout dev) s nbytes -> 0 <= size <= nbytes ->
  common2_check_dive callback dev s size nbytes = (e, s') ->
  Forall progress_within (fs_trace s') /\
  (e = EXIT_DONE -> progress_state (layout dev) s' (fs_available s')).
Proof.
  intros [Haddr [Hn [Hrem [Hcur [Hsum [Hmax Htrace]]]]]] Hsize. unfold common2_check_dive.
  cbn [fs_previous fs_current fs_data fs_offset fs_user fs_trace fs_status fs_log
       fs_remaining fs_available fs_address fs_progress_current fs_progress_maximum].
  rewrite (u32_small (fs_remaining s - size)), (u32_small (nbytes - size)) by lia.
  assert (Hstate : forall (w : world) (u : userdata) (t : list foreach_event)
                     (d : list byte) (st : dc_status_t) (c p o : Z),
             Forall progress_within t ->
             progress_state (layout dev)
               {| fs_world := w; fs_user := u; fs_trace := t; fs_data := d;
                  fs_progress_current := fs_progress_current s;
                  fs_progress_maximum := fs_progress_maximum s; fs_status := st;
                  fs_remaining := fs_remaining s - size; fs_available := nbytes - size;
                  fs_current := c; fs_previous := p;
                  fs_address := fs_address s; fs_offset := o |}
               (nbytes - size)).
  { intros w u t d st c p o Ht. unfold progress_state.
    cbn [fs_address fs_remaining fs_progress_current fs_progress_maximum fs_trace].
    repeat (split; [lia |]). exact Ht. }
  destruct (_ || _ || _ || _).
  { intro H. injection H as <- <-. cbn [fs_trace].
    split; [apply progress_within_app; [exact Htrace | exact I] | discriminate]. }
  destruct (negb _ && negb _).
  { intro H. injection H as <- <-. cbn [fs_trace].
    split; [apply progress_within_app; [exact Htrace | exact I] | discriminate]. }
  destruct (negb _).
  - destruct (bytes_eqb _ (dev_fingerprint dev)).
    { intro H. injection H as <- <-. cbn [fs_trace]. split; [exact Htrace | discriminate]. }
    destruct callback as [cb |].
    + destruct (cb _ _ _) as [u go].
      destruct go; intro H; injection H as <- <-; cbn [fs_trace fs_available];
        (split; [apply progress_within_app; [exact Htrace | exact I] |]);
        [intros _; apply Hstate; apply progress_within_app; [exact Htrace | exact I]
        | discriminate].
    + intro H. injection H as <- <-. cbn [fs_trace fs_available].
      split; [exact Htrace | intros _; apply Hstate; exact Htrace].
  - intro H. injection H as <- <-. cbn [fs_trace fs_available].
    split; [apply progress_within_app; [exact Htrace | exact I] |].
    intros _. apply Hstate. apply progress_within_app; [exact Htrace | exact I].
Qed.

Lemma common2_dive_progress (s : foreach_state world userdata) e s' :
  progress_state (layout dev) s (fs_available s) ->
  common2_dive packet callback dev s = Some (e, s') ->
  Forall progress_within (fs_trace s') /\
  (e = EXIT_DONE -> progress_state (layout dev) s' (fs_available s')).
Proof.
  intro Hs. unfold common2_dive. cbv zeta.
  set (size := RB_PROFILE_DISTANCE (layout dev) (fs_current s) (fs_previous s) true).
  destruct (Z.ltb_spec size 4) as [H4 | H4]; cbn [orb].
  { intro H. injection H as <- <-. cbn [fs_log fs_trace].
    split; [apply progress_within_app; [apply Hs | exact I] | discriminate]. }
  destruct (Z.gtb_spec size (fs_remaining s)) as [Hgt | Hle].
  { intro H. injection H as <- <-. cbn [fs_log fs_trace].
    split; [apply progress_within_app; [apply Hs | exact I] | discriminate]. }
  destruct (common2_read_packets _ _ _ _ _ _) as [[[rc s1] | [s1 n]] |] eqn:Eread;
    [| | discriminate];
    pose proof (common2_read_packets_progress _ _ _ _ _ Hs Hle Eread) as Hread.
  - intro H. injection H as <- <-. split; [exact Hread | discriminate].
  - destruct Hread as [Hs1 [Hn _]].
    intro H. injection H as H.
    assert (Hsz : 0 <= size <= n) by lia.
    exact (common2_check_dive_progress _ _ _ _ _ Hs1 Hsz H).
Qed.

Lemma common2_dives_loop_progress :
  forall (fuel : nat) (s : foreach_state world userdata) e s',
    progress_state (layout dev) s (fs_available s) ->
    common2_dives_loop packet callback fuel dev s = Some (e, s') ->
    Forall progress_within (fs_trace s').
Proof.
  induction fuel as [| fuel IH]; intros s e s' Hs H; cbn [common2_dives_loop] in H;
    destruct (fs_remaining s =? 0); try discriminate;
    try (injection H as _ <-; apply Hs).
  destruct (common2_dive packet callback dev s) as [[[| rc] s1] |] eqn:Edive;
    [| | discriminate];
    destruct (common2_dive_progress _ _ _ Hs Edive) as [Ht Hnext].
  - exact (IH _ _ _ (Hnext eq_refl) H).
  - injection H as _ <-. exact Ht.
Qed.

End SuuntoCommon2Progress.

(** X24. For a layout whose profile ring buffer is not empty and ends
    below 2^32 - 136, every progress event that
    [suunto_common2_device_foreach] emits keeps its current value between
    0 and its maximum, whatever the device answers and however the call
    ends: the packets of the backward walk never add up to more than the
    profile bytes the header announces. *)
Theorem common2_foreach_progress_within (world userdata : Type)
  (packet : option (world -> list byte -> Z -> Z -> world * dc_status_t * list byte))
  (callback : option (userdata -> list byte -> list byte -> userdata * bool))
  (dev : suunto_common2_device_t) (w w' : world) (u u' : userdata)
  (rc : dc_status_t) (t : list foreach_event) :
  0 <= rb_profile_begin (layout dev) < rb_profile_end (layout dev) ->
  rb_profile_end (layout dev) + 136 < 2 ^ 32 ->
  suunto_common2_device_foreach packet callback dev w u = Some (rc, t, u', w') ->
  Forall progress_within t.
Proof.
  intros Hbegin Hend. unfold suunto_common2_device_foreach. cbv zeta.
  unfold Common2.SZ_MINIMUM. cbn [Z.gtb Z.compare Pos.compare Pos.compare_cont].
  set (n := rb_profile_end (layout dev) - rb_profile_begin (layout dev)).
  rewrite (u32_small (n + 8 + 8)) by (unfold n; lia).
  assert (Hstart : forall v, Forall progress_within [EV_PROGRESS 0 (n + 8 + 8); EV_VENDOR v]).
  { intro v. constructor; [cbn [progress_within]; unfold n; lia |].
    constructor; [exact I | constructor]. }
  destruct (suunto_common2_device_read _ _ w _ _) as [[[w1 rc1] ser] |]; [| discriminate].
  destruct (negb (dc_status_eqb rc1 DC_STATUS_SUCCESS)).
  { intro H. apply foreach_result_trace in H. rewrite H.
    apply progress_within_app; [apply Hstart | exact I]. }
  assert (Hinfo : forall v a b d,
             Forall progress_within
               ([EV_PROGRESS 0 (n + 8 + 8); EV_VENDOR v] ++
                [EV_PROGRESS 8 (n + 8 + 8); EV_DEVINFO a b d])).
  { intros v a b d. apply Forall_app. split; [apply Hstart |].
    constructor; [cbn [progress_within]; unfold n; lia |].
    constructor; [exact I | constructor]. }
  destruct (suunto_common2_device_read _ _ w1 _ _) as [[[w2 rc2] header] |];
    [| discriminate].
  destruct (negb (dc_status_eqb rc2 DC_STATUS_SUCCESS)).
  { intro H. apply foreach_result_trace in H. rewrite H.
    apply progress_within_app; [apply Hinfo | exact I]. }
  destruct (_ || _ || _ || _ || _ || _) eqn:Erange.
  { intro H. apply foreach_result_trace in H. rewrite H.
    apply progress_within_app; [apply Hinfo | exact I]. }
  apply orb_false_elim in Erange. destruct Erange as [Erange _].
  apply orb_false_elim in Erange. destruct Erange as [Erange _].
  apply orb_false_elim in Erange. destruct Erange as [Erange Eend2].
  apply orb_false_elim in Erange. destruct Erange as [_ Eend1].
  apply Z.ltb_ge in Eend1. rewrite Z.geb_leb in Eend2. apply Z.leb_gt in Eend2.
  set (remaining := RB_PROFILE_DISTANCE (layout dev) (array_uint16_le header 6)
                      (array_uint16_le header 4) (negb (array_uint16_le header 2 =? 0))).
  assert (Hremaining : 0 <= remaining <= n)
    by (apply ringbuffer_distance_range; lia).
  rewrite (u32_small (n + 8 + 8 - (n - remaining))) by (unfold n in *; lia).
  rewrite (u32_small (8 + 8)) by lia.
  match goal with
  | |- context [common2_dives_loop packet callback ?f dev ?s0] =>
      destruct (common2_dives_loop packet callback f dev s0) as [[e s] |] eqn:Eloop;
      [| discriminate];
      apply (common2_dives_loop_progress world packet userdata callback dev Hbegin Hend)
        in Eloop
  end.
  - destruct e; intro H; apply foreach_result_trace in H; rewrite H; exact Eloop.
  - unfold progress_state.
    cbn [fs_address fs_remaining fs_available fs_progress_current fs_progress_maximum
         fs_trace].
    fold n. repeat (split; [lia |]).
    apply progress_within_app; [apply Hinfo |]. cbn [progress_within]. lia.
Qed.

Lemma common2_foreach_progress_within_witness :
  exists rc t u' w',
    suunto_common2_device_foreach (Some (sim_packet (sim_memory 0xB2 0x01)))
      (Some count_dives) sim_device tt 0%nat
    = Some (rc, t, u', w') /\
    Forall progress_within t.
Proof.
  eexists. eexists. eexists. eexists.
  split; [vm_compute; reflexivity |].
  assert (Hbegin : 0 <= rb_profile_begin (layout sim_device)
                   < rb_profile_end (layout sim_device)) by (split; by_evaluation).
  assert (Hend : rb_profile_end (layout sim_device) + 136 < 2 ^ 32) by by_evaluation.
  refine (common2_foreach_progress_within unit nat (Some (sim_packet (sim_memory 0xB2 0x01)))
            (Some count_dives) sim_device tt tt 0%nat 2%nat DC_STATUS_SUCCESS _
            Hbegin Hend _).
  vm_compute; reflexivity.
Defined.

(** ** Suunto Common2: the enumeration returns *)

Section SuuntoCommon2Total.

Variable world : Type.
Variable packet :
  option (world -> list byte -> Z -> Z -> world * dc_status_t * list byte).
Variable userdata : Type.
Variable callback :
  option (userdata -> list byte -> list byte -> userdata * bool).
Variable dev : suunto_common2_device_t.

Hypothesis Hbegin : 0 <= rb_profile_begin (layout dev) < rb_profile_end (layout dev).
Hypothesis Hend : rb_profile_end (layout dev) + 136 < 2 ^ 32.

Lemma suunto_common2_read_loop_unfold (fuel : nat) (w : world)
  (address nbytes size : Z) (acc : list byte) :
  suunto_common2_read_loop world packet fuel w address nbytes size acc
  = if nbytes <? size then
      match fuel with
      | O => None
      | S fuel' =>
          let len := if u32 (size - nbytes) >? Common2.SZ_PACKET then Common2.SZ_PACKET
                     else u32 (size - nbytes) in
          let command6 :=
            bytes_of [0x05; 0x00; 0x03;
                      Z.land (Z.shiftr address 8) 0xFF;
                      Z.land address 0xFF;
                      len mod 2 ^ 8] in
          let command := command6 ++ [byte_of_Z (checksum_xor_uint8 command6 0x00)] in
          let '(w, rc, answer) :=
            suunto_common2_transfer world packet w command (len + 7) len in
          if negb (dc_status_eqb rc DC_STATUS_SUCCESS) then Some (w, rc, acc)
          else
            suunto_common2_read_loop world packet fuel' w (u32 (address + len))
              (u32 (nbytes + len)) size (acc ++ bytes_slice answer 6 len)
      end
    else Some (w, DC_STATUS_SUCCESS, acc).
Proof.
  destruct fuel; reflexivity.
Qed.

Lemma suunto_common2_read_loop_returns (size : Z) :
  size < 2 ^ 32 ->
  forall (fuel : nat) (w : world) (address nbytes : Z) (acc : list byte),
    0 <= nbytes -> size - nbytes <= Z.of_nat fuel ->
    exists r, suunto_common2_read_loop world packet fuel w address nbytes size acc = Some r.
Proof.
  intro Hsize.
  induction fuel as [| fuel IH]; intros w address nbytes acc Hn Hfuel;
    rewrite suunto_common2_read_loop_unfold;
    destruct (Z.ltb_spec nbytes size) as [Hlt | Hge];
    try (eexists; reflexivity); try lia.
  cbv zeta. unfold Common2.SZ_PACKET.
  rewrite (u32_small (size - nbytes)) by lia.
  set (len := if size - nbytes >? 120 then 120 else size - nbytes).
  assert (Hlen : 1 <= len <= 120 /\ len <= size - nbytes)
    by (unfold len; destruct (Z.gtb_spec (size - nbytes) 120); lia).
  destruct (suunto_common2_transfer world packet w _ (len + 7) len) as [[w1 rc] answer].
  destruct (negb (dc_status_eqb rc DC_STATUS_SUCCESS)); [eexists; reflexivity |].
  rewrite (u32_small (nbytes + len)) by lia.
  apply IH; lia.
Qed.

Lemma suunto_common2_device_read_returns (w : world) (address size : Z) :
  size < 2 ^ 32 ->
  exists r, suunto_common2_device_read world packet w address size = Some r.
Proof.
  intro Hsize. unfold suunto_common2_device_read.
  apply suunto_common2_read_loop_returns; lia.
Qed.

Lemma common2_read_packets_returns (size : Z) :
  forall (fuel : nat) (s : foreach_state world userdata) (nbytes : Z),
    progress_state (layout dev) s nbytes -> size <= fs_remaining s ->
    size - nbytes <= Z.of_nat fuel ->
    exists r, common2_read_packets packet fuel (layout dev) s size nbytes = Some r.
Proof.
  induction fuel as [| fuel IH]; intros s nbytes Hs Hsize Hfuel;
    cbn [common2_read_packets];
    destruct (Z.ltb_spec nbytes size) as [Hlt | Hge];
    try (eexists; reflexivity); try lia.
  destruct Hs as [Haddr [Hn [Hrem [Hcur [Hsum [Hmax Htrace]]]]]].
  unfold Common2.SZ_PACKET, Common2.SZ_MINIMUM.
  set (a1 := if fs_address s =? rb_profile_begin (layout dev)
             then rb_profile_end (layout dev) else fs_address s).
  assert (Ha1 : rb_profile_begin (layout dev) < a1 <= rb_profile_end (layout dev))
    by (unfold a1; destruct (Z.eqb_spec (fs_address s) (rb_profile_begin (layout dev))); lia).
  rewrite (u32_small (rb_profile_begin (layout dev) + 120)) by lia.
  rewrite (u32_small (a1 - rb_profile_begin (layout dev))) by lia.
  set (len1 := if rb_profile_begin (layout dev) + 120 >? a1
               then a1 - rb_profile_begin (layout dev) else 120).
  assert (Hlen1 : 1 <= len1 <= 120 /\ len1 <= a1 - rb_profile_begin (layout dev))
    by (unfold len1; destruct (Z.gtb_spec (rb_profile_begin (layout dev) + 120) a1); lia).
  rewrite (u32_small (nbytes + len1)) by lia.
  rewrite (u32_small (fs_remaining s - nbytes)) by lia.
  set (len2 := if nbytes + len1 >? fs_remaining s then fs_remaining s - nbytes else len1).
  assert (Hlen2 : 1 <= len2 <= len1 /\ nbytes + len2 <= fs_remaining s)
    by (unfold len2; destruct (Z.gtb_spec (nbytes + len1) (fs_remaining s)); lia).
  rewrite (u32_small (a1 - len2)) by lia.
  rewrite (u32_small (nbytes + len2)) by lia.
  rewrite (u32_small (fs_progress_current s + len2)) by lia.
  set (extra := if len2 <? 8 then 8 - len2 else 0).
  assert (Hextra : 0 <= extra <= 8) by (unfold extra; destruct (Z.ltb_spec len2 8); lia).
  destruct (suunto_common2_device_read_returns (fs_world s) (u32 (a1 - len2 - extra))
              (u32 (len2 + extra))) as [[[w rc] bytes] Hread].
  { apply u32_range. }
  rewrite Hread.
  destruct (negb (dc_status_eqb rc DC_STATUS_SUCCESS)); [eexists; reflexivity |].
  apply IH.
  - unfold progress_state. cbn [fs_address fs_remaining fs_progress_current
                                fs_progress_maximum fs_trace].
    repeat (split; [lia |]).
    apply progress_within_app; [exact Htrace |]. cbn [progress_within]. lia.
  - cbn [fs_remaining]. exact Hsize.
  - lia.
Qed.

Lemma common2_dives_loop_returns :
  forall (fuel : nat) (s : foreach_state world userdata),
    progress_state (layout dev) s (fs_available s) ->
    fs_remaining s <= Z.of_nat fuel ->
    exists r, common2_dives_loop packet callback fuel dev s = Some r.
Proof.
  induction fuel as [| fuel IH]; intros s Hs Hfuel; cbn [common2_dives_loop];
    destruct (Z.eqb_spec (fs_remaining s) 0) as [Hzero | Hpos];
    try (eexists; reflexivity).
  - destruct Hs as [_ [Hn _]]. lia.
  - assert (Hdive : exists e s1, common2_dive packet callback dev s = Some (e, s1) /\
                                 (e = EXIT_DONE -> fs_remaining s1 < fs_remaining s)).
    { unfold common2_dive. cbv zeta.
      set (size := RB_PROFILE_DISTANCE (layout dev) (fs_current s) (fs_previous s) true).
      destruct (Z.ltb_spec size 4) as [H4 | H4]; cbn [orb].
      { eexists. eexists. split; [reflexivity | discriminate]. }
      destruct (Z.gtb_spec size (fs_remaining s)) as [Hgt | Hle].
      { eexists. eexists. split; [reflexivity | discriminate]. }
      destruct (common2_read_packets_returns size (Z.to_nat size) s (fs_available s) Hs Hle)
        as [r Hread].
      { destruct Hs as [_ [Hn _]]. lia. }
      rewrite Hread.
      pose proof (common2_read_packets_progress world packet userdata dev Hbegin Hend
                    _ _ _ _ _ Hs Hle Hread) as Hkeeps.
      destruct r as [[rc s1] | [s1 n]].
      - eexists. eexists. split; [reflexivity | discriminate].
      - destruct Hkeeps as [Hs1 [Hn Hrem]].
        destruct (common2_check_dive callback dev s1 size n) as [e s2] eqn:Echeck.
        exists e, s2. split; [reflexivity |]. intro He.
        assert (Hrem2 : fs_remaining s2 = u32 (fs_remaining s1 - size)).
        { revert Echeck. unfold common2_check_dive. cbv zeta.
          cbn [fs_previous fs_current fs_data fs_offset fs_user fs_trace fs_status fs_log
               fs_remaining].
          repeat match goal with
                 | |- context [if ?c then _ else _] => destruct c
                 | |- context [match callback with _ => _ end] => destruct callback
                 | |- context [let '(_, _) := ?x in _] => destruct x
                 end;
            intro H; injection H as <- <-; try discriminate He; reflexivity. }
        destruct Hs as [_ [_ [Hbound _]]].
        rewrite Hrem2, Hrem, u32_small by lia. lia. }
    destruct Hdive as [e [s1 [Hdive Hless]]]. rewrite Hdive.
    destruct e as [| rc]; [| eexists; reflexivity].
    apply IH.
    + exact (proj2 (common2_dive_progress world packet userdata callback dev Hbegin Hend
                      _ _ _ Hs Hdive) eq_refl).
    + specialize (Hless eq_refl). lia.
Qed.

End SuuntoCommon2Total.

(** X25. For a layout whose profile ring buffer is not empty and ends
    below 2^32 - 136, [suunto_common2_device_foreach] returns, whatever
    the device answers and whatever the callback does: every packet of
    the backward walk brings at least one new byte and every dive takes
    at least four bytes off the remaining profile data, so both loops
    end. *)
Theorem common2_foreach_returns (world userdata : Type)
  (packet : option (world -> list byte -> Z -> Z -> world * dc_status_t * list byte))
  (callback : option (userdata -> list byte -> list byte -> userdata * bool))
  (dev : suunto_common2_device_t) (w : world) (u : userdata) :
  0 <= rb_profile_begin (layout dev) < rb_profile_end (layout dev) ->
  rb_profile_end (layout dev) + 136 < 2 ^ 32 ->
  exists rc t u' w',
    suunto_common2_device_foreach packet callback dev w u = Some (rc, t, u', w').
Proof.
  intros Hbegin Hend. unfold suunto_common2_device_foreach. cbv zeta.
  unfold Common2.SZ_MINIMUM. cbn [Z.gtb Z.compare Pos.compare Pos.compare_cont].
  set (n := rb_profile_end (layout dev) - rb_profile_begin (layout dev)).
  rewrite (u32_small (n + 8 + 8)) by (unfold n; lia).
  destruct (suunto_common2_device_read_returns world packet w (serial (layout dev)) 8)
    as [[[w1 rc1] ser] Hser]; [lia |].
  rewrite Hser.
  destruct (negb (dc_status_eqb rc1 DC_STATUS_SUCCESS)); [repeat eexists |].
  destruct (suunto_common2_device_read_returns world packet w1 400 8)
    as [[[w2 rc2] header] Hheader]; [lia |].
  rewrite Hheader.
  destruct (negb (dc_status_eqb rc2 DC_STATUS_SUCCESS)); [repeat eexists |].
  destruct (_ || _ || _ || _ || _ || _) eqn:Erange; [repeat eexists |].
  apply orb_false_elim in Erange. destruct Erange as [Erange _].
  apply orb_false_elim in Erange. destruct Erange as [Erange _].
  apply orb_false_elim in Erange. destruct Erange as [Erange Eend2].
  apply orb_false_elim in Erange. destruct Erange as [_ Eend1].
  apply Z.ltb_ge in Eend1. rewrite Z.geb_leb in Eend2. apply Z.leb_gt in Eend2.
  set (remaining := RB_PROFILE_DISTANCE (layout dev) (array_uint16_le header 6)
                      (array_uint16_le header 4) (negb (array_uint16_le header 2 =? 0))).
  assert (Hremaining : 0 <= remaining <= n)
    by (apply ringbuffer_distance_range; lia).
  rewrite (u32_small (n + 8 + 8 - (n - remaining))) by (unfold n in *; lia).
  rewrite (u32_small (8 + 8)) by lia.
  match goal with
  | |- context [common2_dives_loop packet callback ?f dev ?s0] =>
      destruct (common2_dives_loop_returns world packet userdata callback dev Hbegin Hend
                  f s0) as [[e s] Hloop]
  end.
  - unfold progress_state.
    cbn [fs_address fs_remaining fs_available fs_progress_current fs_progress_maximum
         fs_trace].
    fold n. repeat (split; [lia |]).
    repeat (constructor; [cbn [progress_within]; unfold n; try exact I; lia |]).
    constructor.
  - cbn [fs_remaining]. lia.
  - rewrite Hloop. destruct e; repeat eexists.
Qed.

Lemma common2_foreach_returns_witness :
  exists rc t u' w',
    suunto_common2_device_foreach (Some (sim_packet (sim_memory 0x9A 0x01)))
      (Some count_dives) sim_device tt 0%nat
    = Some (rc, t, u', w').
Proof.
  assert (Hbegin : 0 <= rb_profile_begin (layout sim_device)
                   < rb_profile_end (layout sim_device)) by (split; by_evaluation).
  assert (Hend : rb_profile_end (layout sim_device) + 136 < 2 ^ 32) by by_evaluation.
  exact (common2_foreach_returns unit nat (Some (sim_packet (sim_memory 0x9A 0x01)))
           (Some count_dives) sim_device tt 0%nat Hbegin Hend).
Defined.

(** ** Suunto Common2: where the enumeration ends *)

Section SuuntoCommon2Walk.

Variable world : Type.
Variable packet :
  option (world -> list byte -> Z -> Z -> world * dc_status_t * list byte).
Variable userdata : Type.
Variable callback :
  option (userdata -> list byte -> list byte -> userdata * bool).
Variable dev : suunto_common2_device_t.

Hypothesis Hbegin : 0 <= rb_profile_begin (layout dev) < rb_profile_end (layout dev).
Hypothesis Hend : rb_profile_end (layout dev) + 136 < 2 ^ 32.

(** The call is its prologue followed by its loop. *)
Lemma suunto_common2_device_foreach_eq (w : world) (u : userdata) :
  suunto_common2_device_foreach packet callback dev w u
  = match common2_foreach_start packet dev w u with
    | None => None
    | Some (inl r) => Some r
    | Some (inr s0) =>
        option_map common2_foreach_result
          (common2_dives_loop packet callback (Z.to_nat (fs_remaining s0)) dev s0)
    end.
Proof.
  unfold suunto_common2_device_foreach, common2_foreach_start. cbv zeta.
  destruct (suunto_common2_device_read _ _ w _ _) as [[[w1 rc1] ser] |]; [| reflexivity].
  destruct (negb (dc_status_eqb rc1 DC_STATUS_SUCCESS)); [reflexivity |].
  destruct (suunto_common2_device_read _ _ w1 _ _) as [[[w2 rc2] header] |];
    [| reflexivity].
  destruct (negb (dc_status_eqb rc2 DC_STATUS_SUCCESS)); [reflexivity |].
  destruct (_ || _ || _ || _ || _ || _); [reflexivity |].
  cbn [fs_remaining].
  match goal with
  | |- context [common2_dives_loop packet callback ?f dev ?s0] =>
      destruct (common2_dives_loop packet callback f dev s0) as [[[| rc] s] |]
  end; reflexivity.
Qed.

Lemma common2_foreach_start_progress (w : world) (u : userdata)
  (s0 : foreach_state world userdata) :
  common2_foreach_start packet dev w u = Some (inr s0) ->
  progress_state (layout dev) s0 (fs_available s0).
Proof.
  unfold common2_foreach_start. cbv zeta.
  unfold Common2.SZ_MINIMUM. cbn [Z.gtb Z.compare Pos.compare Pos.compare_cont].
  set (n := rb_profile_end (layout dev) - rb_profile_begin (layout dev)).
  rewrite (u32_small (n + 8 + 8)) by (unfold n; lia).
  destruct (suunto_common2_device_read _ _ w _ _) as [[[w1 rc1] ser] |]; [| discriminate].
  destruct (negb (dc_status_eqb rc1 DC_STATUS_SUCCESS)); [discriminate |].
  destruct (suunto_common2_device_read _ _ w1 _ _) as [[[w2 rc2] header] |];
    [| discriminate].
  destruct (negb (dc_status_eqb rc2 DC_STATUS_SUCCESS)); [discriminate |].
  destruct (_ || _ || _ || _ || _ || _) eqn:Erange; [discriminate |].
  apply orb_false_elim in Erange. destruct Erange as [Erange _].
  apply orb_false_elim in Erange. destruct Erange as [Erange _].
  apply orb_false_elim in Erange. destruct Erange as [Erange Eend2].
  apply orb_false_elim in Erange. destruct Erange as [_ Eend1].
  apply Z.ltb_ge in Eend1. rewrite Z.geb_leb in Eend2. apply Z.leb_gt in Eend2.
  set (remaining := RB_PROFILE_DISTANCE (layout dev) (array_uint16_le header 6)
                      (array_uint16_le header 4) (negb (array_uint16_le header 2 =? 0))).
  assert (Hremaining : 0 <= remaining <= n)
    by (apply ringbuffer_distance_range; lia).
  rewrite (u32_small (n + 8 + 8 - (n - remaining))) by (unfold n in *; lia).
  rewrite (u32_small (8 + 8)) by lia.
  intro H. injection H as <-.
  unfold progress_state.
  cbn [fs_address fs_remaining fs_available fs_progress_current fs_progress_maximum
       fs_trace].
  fold n. repeat (split; [lia |]).
  repeat (constructor; [cbn [progress_within]; unfold n; try exact I; lia |]).
  constructor.
Qed.

Lemma common2_dives_loop_eq (fuel : nat) (s : foreach_state world userdata) :
  common2_dives_loop packet callback fuel dev s
  = if fs_remaining s =? 0 then Some (EXIT_DONE, s)
    else
      match fuel with
      | O => None
      | S fuel' =>
          match common2_dive packet callback dev s with
          | None => None
          | Some (EXIT_RETURN rc, s) => Some (EXIT_RETURN rc, s)
          | Some (EXIT_DONE, s) => common2_dives_loop packet callback fuel' dev s
          end
      end.
Proof.
  destruct fuel; reflexivity.
Qed.

(** A loop that returns from [s0] returns the same from every state the
    walk passes. *)
Lemma common2_after_loop :
  forall (n : nat) (s0 s : foreach_state world userdata),
    common2_after packet callback n dev s0 = Some s ->
    forall (fuel : nat) r,
      common2_dives_loop packet callback fuel dev s0 = Some r ->
      exists fuel', common2_dives_loop packet callback fuel' dev s = Some r.
Proof.
  induction n as [| n IH]; intros s0 s Hafter fuel r Hloop; cbn [common2_after] in Hafter.
  - injection Hafter as <-. exists fuel. exact Hloop.
  - rewrite common2_dives_loop_eq in Hloop.
    destruct (fs_remaining s0 =? 0); [discriminate |].
    destruct fuel as [| fuel]; [discriminate |].
    destruct (common2_dive packet callback dev s0) as [[[| rc] s1] |];
      try discriminate.
    exact (IH s1 s Hafter fuel r Hloop).
Qed.

Lemma common2_after_snoc :
  forall (n : nat) (s0 s s2 : foreach_state world userdata),
    common2_after packet callback n dev s0 = Some s ->
    fs_remaining s <> 0 ->
    common2_dive packet callback dev s = Some (EXIT_DONE, s2) ->
    common2_after packet callback (S n) dev s0 = Some s2.
Proof.
  induction n as [| n IH]; intros s0 s s2 Hafter Hrem Hdive.
  - cbn [common2_after] in Hafter. injection Hafter as <-.
    cbn [common2_after]. apply Z.eqb_neq in Hrem. rewrite Hrem, Hdive. reflexivity.
  - cbn [common2_after] in Hafter.
    change (common2_after packet callback (S (S n)) dev s0)
      with (if fs_remaining s0 =? 0 then None
            else match common2_dive packet callback dev s0 with
                 | Some (EXIT_DONE, s1) => common2_after packet callback (S n) dev s1
                 | _ => None
                 end).
    destruct (fs_remaining s0 =? 0); [discriminate |].
    destruct (common2_dive packet callback dev s0) as [[[| rc] s1] |];
      try discriminate.
    exact (IH s1 s s2 Hafter Hrem Hdive).
Qed.

Lemma common2_after_app :
  forall (n m : nat) (s0 s s' : foreach_state world userdata),
    common2_after packet callback n dev s0 = Some s ->
    common2_after packet callback m dev s = Some s' ->
    common2_after packet callback (n + m) dev s0 = Some s'.
Proof.
  induction n as [| n IH]; intros m s0 s s' Hn Hm; cbn [common2_after] in Hn.
  - injection Hn as <-. exact Hm.
  - change (common2_after packet callback (S n + m) dev s0)
      with (if fs_remaining s0 =? 0 then None
            else match common2_dive packet callback dev s0 with
                 | Some (EXIT_DONE, s1) => common2_after packet callback (n + m) dev s1
                 | _ => None
                 end).
    destruct (fs_remaining s0 =? 0); [discriminate |].
    destruct (common2_dive packet callback dev s0) as [[[| rc] s1] |];
      try discriminate.
    exact (IH m s1 s s' Hn Hm).
Qed.

(** A delayed DATAFORMAT survives the iterations that follow. *)
Lemma common2_after_status :
  forall (n : nat) (s s' : foreach_state world userdata),
    common2_after packet callback n dev s = Some s' ->
    fs_status s = DC_STATUS_DATAFORMAT -> fs_status s' = DC_STATUS_DATAFORMAT.
Proof.
  induction n as [| n IH]; intros s s' Hafter Hs; cbn [common2_after] in Hafter.
  - injection Hafter as <-. exact Hs.
  - destruct (fs_remaining s =? 0); [discriminate |].
    destruct (common2_dive packet callback dev s) as [[[| rc] s1] |] eqn:Edive;
      try discriminate.
    apply (IH s1 s' Hafter).
    exact (proj2 (common2_dive_keeps world packet userdata callback dev s EXIT_DONE s1 Edive)
             eq_refl Hs).
Qed.

(** The call returns what its loop returns from any state of the walk. *)
Lemma common2_foreach_at (w : world) (u : userdata) (n : nat)
  (s0 s : foreach_state world userdata) :
  common2_foreach_start packet dev w u = Some (inr s0) ->
  common2_after packet callback n dev s0 = Some s ->
  exists fuel r,
    common2_dives_loop packet callback fuel dev s = Some r /\
    suunto_common2_device_foreach packet callback dev w u = Some (common2_foreach_result r).
Proof.
  intros Hstart Hafter.
  pose proof (common2_foreach_start_progress w u s0 Hstart) as Hs0.
  destruct (common2_dives_loop_returns world packet userdata callback dev Hbegin Hend
              (Z.to_nat (fs_remaining s0)) s0 Hs0) as [r Hloop].
  { destruct Hs0 as [_ [Hn _]]. lia. }
  destruct (common2_after_loop n s0 s Hafter _ r Hloop) as [fuel Hfuel].
  exists fuel, r. split; [exact Hfuel |].
  rewrite suunto_common2_device_foreach_eq, Hstart, Hloop. reflexivity.
Qed.

(** A return statement in an iteration of the walk ends the call. *)
Lemma common2_foreach_return_at (w : world) (u : userdata) (n : nat)
  (s0 s s' : foreach_state world userdata) (rc : dc_status_t) :
  common2_foreach_start packet dev w u = Some (inr s0) ->
  common2_after packet callback n dev s0 = Some s ->
  fs_remaining s <> 0 ->
  common2_dive packet callback dev s = Some (EXIT_RETURN rc, s') ->
  suunto_common2_device_foreach packet callback dev w u
  = Some (rc, fs_trace s', fs_user s', fs_world s').
Proof.
  intros Hstart Hafter Hrem Hdive.
  destruct (common2_foreach_at w u n s0 s Hstart Hafter) as [fuel [r [Hloop Hcall]]].
  rewrite common2_dives_loop_eq in Hloop.
  apply Z.eqb_neq in Hrem. rewrite Hrem in Hloop.
  destruct fuel as [| fuel]; [discriminate |].
  rewrite Hdive in Hloop. injection Hloop as <-. exact Hcall.
Qed.

(** When the walk has used up the profile data, the call returns the
    delayed status. *)
Lemma common2_foreach_done_at (w : world) (u : userdata) (n : nat)
  (s0 s : foreach_state world userdata) :
  common2_foreach_start packet dev w u = Some (inr s0) ->
  common2_after packet callback n dev s0 = Some s ->
  fs_remaining s = 0 ->
  suunto_common2_device_foreach packet callback dev w u
  = Some (fs_status s, fs_trace s, fs_user s, fs_world s).
Proof.
  intros Hstart Hafter Hrem.
  destruct (common2_foreach_at w u n s0 s Hstart Hafter) as [fuel [r [Hloop Hcall]]].
  rewrite common2_dives_loop_eq in Hloop.
  rewrite Hrem in Hloop. cbn [Z.eqb] in Hloop.
  injection Hloop as <-. exact Hcall.
Qed.

(** Whatever the call returns, it has the trace of every state of the
    walk at its head. *)
Lemma common2_foreach_extends_at (w : world) (u : userdata) (n : nat)
  (s0 s : foreach_state world userdata) :
  common2_foreach_start packet dev w u = Some (inr s0) ->
  common2_after packet callback n dev s0 = Some s ->
  exists rc t u' w',
    suunto_common2_device_foreach packet callback dev w u = Some (rc, t, u', w') /\
    trace_extends (fs_trace s) t.
Proof.
  intros Hstart Hafter.
  destruct (common2_foreach_at w u n s0 s Hstart Hafter) as [fuel [[e s'] [Hloop Hcall]]].
  destruct (common2_dives_loop_keeps world packet userdata callback dev fuel s e s' Hloop)
    as [Hext _].
  rewrite Hcall. cbn [common2_foreach_result].
  eexists. eexists. eexists. eexists. split; [reflexivity | exact Hext].
Qed.

(** Reading the packets of a dive touches neither the walk's pointers nor
    the callback's data, and hands no dive out. *)
Lemma common2_read_packets_frame (size : Z) :
  forall (fuel : nat) (s s1 : foreach_state world userdata) (nbytes n1 : Z),
    common2_read_packets packet fuel (layout dev) s size nbytes = Some (inr (s1, n1)) ->
    fs_user s1 = fs_user s /\ fs_current s1 = fs_current s /\
    fs_previous s1 = fs_previous s /\ fs_remaining s1 = fs_remaining s /\
    fs_status s1 = fs_status s /\
    trace_dives (fs_trace s1) = trace_dives (fs_trace s).
Proof.
  induction fuel as [| fuel IH]; intros s s1 nbytes n1 H; cbn [common2_read_packets] in H;
    destruct (nbytes <? size); try discriminate;
    try (injection H as <- <-; repeat split; reflexivity).
  match type of H with
  | match ?rd with _ => _ end = _ => destruct rd as [[[w rc] bytes] |]; [| discriminate]
  end.
  destruct (negb (dc_status_eqb rc DC_STATUS_SUCCESS)); [discriminate |].
  apply IH in H. cbn [fs_user fs_current fs_previous fs_remaining fs_status fs_trace] in H.
  destruct H as [Hu [Hc [Hp [Hr [Hs Ht]]]]].
  repeat (split; [assumption |]).
  rewrite Ht. clear. induction (fs_trace s) as [| ev t IH]; [reflexivity |].
  destruct ev; cbn [app trace_dives]; rewrite ?IH; reflexivity.
Qed.

(** An iteration whose size check passes and whose packets arrive is the
    pointer and fingerprint check on the state with the packets. *)
Lemma common2_dive_checked (s s1 : foreach_state world userdata) (nbytes : Z) :
  let size := RB_PROFILE_DISTANCE (layout dev) (fs_current s) (fs_previous s) true in
  4 <= size <= fs_remaining s ->
  common2_read_packets packet (Z.to_nat size) (layout dev) s size (fs_available s)
  = Some (inr (s1, nbytes)) ->
  common2_dive packet callback dev s = Some (common2_check_dive callback dev s1 size nbytes).
Proof.
  intros size Hsize Hread. unfold common2_dive. cbv zeta. fold size.
  replace (size <? 4) with false by (symmetry; apply Z.ltb_ge; lia).
  replace (size >? fs_remaining s) with false
    by (symmetry; rewrite Z.gtb_ltb; apply Z.ltb_ge; lia).
  cbn [orb]. rewrite Hread. reflexivity.
Qed.

(** The fingerprint check on a dive that continues the chain: when its
    fingerprint bytes are the ones the device was given, the iteration
    returns SUCCESS and the callback is not called. *)
Lemma common2_check_dive_known (s : foreach_state world userdata) (size nbytes : Z) :
  let l := layout dev in
  let p := fs_offset s + u32 (nbytes - size) in
  let prev := array_uint16_le (fs_data s) (p + 0) in
  let next := array_uint16_le (fs_data s) (p + 2) in
  rb_profile_begin l <= prev < rb_profile_end l ->
  rb_profile_begin l <= next < rb_profile_end l ->
  next = fs_previous s -> next <> fs_current s ->
  bytes_slice (fs_data s) (p + (fingerprint l + 4)) (Z.of_nat (length (dev_fingerprint dev)))
  = dev_fingerprint dev ->
  exists s',
    common2_check_dive callback dev s size nbytes = (EXIT_RETURN DC_STATUS_SUCCESS, s') /\
    fs_trace s' = fs_trace s /\ fs_user s' = fs_user s /\ fs_world s' = fs_world s.
Proof.
  intros l p prev next Hprev Hnext Hp Hc Hfp.
  assert (Hrange :
            (prev <? rb_profile_begin l) || (prev >=? rb_profile_end l) ||
            (next <? rb_profile_begin l) || (next >=? rb_profile_end l) = false).
  { repeat (apply orb_false_intro);
      first [apply Z.ltb_ge; lia | rewrite Z.geb_leb; apply Z.leb_gt; lia]. }
  assert (Hprevious : (next =? fs_previous s) = true) by (apply Z.eqb_eq; exact Hp).
  assert (Hcur : (next =? fs_current s) = false) by (apply Z.eqb_neq; exact Hc).
  unfold common2_check_dive.
  cbn [fs_previous fs_current fs_data fs_offset fs_user fs_trace fs_status fs_log
       fs_remaining].
  fold l p prev next. rewrite Hrange, Hprevious, Hcur. cbn [negb andb].
  rewrite Hfp, bytes_eqb_refl.
  eexists. split; [reflexivity |]. cbn [fs_trace fs_user fs_world].
  repeat split; reflexivity.
Qed.

End SuuntoCommon2Walk.

(** C3, as the code has it.  Take a layout whose ring buffer is not empty
    and ends below 2^32 - 136, a call of [suunto_common2_device_foreach]
    that has entered its loop, and a dive that the walk has reached: its
    size check passes, its packets have arrived, its prev and next
    pointers lie in the ring buffer, and next differs from the start of
    the dive traversed before it ([fs_previous]).  When next equals the
    dive's own start ([fs_current]) the dive is skipped: nothing goes to
    the callback, "Skipping incomplete dive." is logged and the walk goes
    on with the dive before it; the call returns with everything handed
    out so far in its trace, and whenever the walk uses up the profile
    data the call returns the delayed DATAFORMAT.  When next differs from
    the dive's own start too, the call returns DATAFORMAT at once
    ("Profiles are not continuous.") and no further dive is enumerated. *)
Theorem common2_discontinuous_dive (world userdata : Type)
  (packet : option (world -> list byte -> Z -> Z -> world * dc_status_t * list byte))
  (callback : option (userdata -> list byte -> list byte -> userdata * bool))
  (dev : suunto_common2_device_t) (w : world) (u : userdata) (n : nat)
  (s0 s s1 : foreach_state world userdata) (nbytes : Z) :
  let l := layout dev in
  let size := RB_PROFILE_DISTANCE l (fs_current s) (fs_previous s) true in
  let p := fs_offset s1 + u32 (nbytes - size) in
  let prev := array_uint16_le (fs_data s1) (p + 0) in
  let next := array_uint16_le (fs_data s1) (p + 2) in
  0 <= rb_profile_begin l < rb_profile_end l ->
  rb_profile_end l + 136 < 2 ^ 32 ->
  common2_foreach_start packet dev w u = Some (inr s0) ->
  common2_after packet callback n dev s0 = Some s ->
  fs_remaining s <> 0 ->
  4 <= size <= fs_remaining s ->
  common2_read_packets packet (Z.to_nat size) l s size (fs_available s)
  = Some (inr (s1, nbytes)) ->
  rb_profile_begin l <= prev < rb_profile_end l ->
  rb_profile_begin l <= next < rb_profile_end l ->
  next <> fs_previous s ->
  (next = fs_current s ->
   exists s2,
     common2_after packet callback (S n) dev s0 = Some s2 /\
     fs_trace s2 = fs_trace s1 ++ [EV_ERROR MSG_SKIPPING_INCOMPLETE_DIVE] /\
     trace_dives (fs_trace s2) = trace_dives (fs_trace s) /\
     fs_user s2 = fs_user s /\
     fs_previous s2 = fs_current s /\
     fs_current s2 = prev /\
     fs_remaining s2 = u32 (fs_remaining s - size) /\
     (exists rc t u' w',
        suunto_common2_device_foreach packet callback dev w u = Some (rc, t, u', w') /\
        trace_extends (fs_trace s2) t) /\
     (forall (m : nat) (s3 : foreach_state world userdata),
        common2_after packet callback m dev s2 = Some s3 ->
        fs_remaining s3 = 0 ->
        suunto_common2_device_foreach packet callback dev w u
        = Some (DC_STATUS_DATAFORMAT, fs_trace s3, fs_user s3, fs_world s3))) /\
  (next <> fs_current s ->
   suunto_common2_device_foreach packet callback dev w u
   = Some (DC_STATUS_DATAFORMAT,
           fs_trace s1 ++ [EV_ERROR MSG_PROFILES_ARE_NOT_CONTINUOUS],
           fs_user s, fs_world s1)).
Proof.
  intros l size p prev next Hbegin Hend Hstart Hafter Hrem Hsize Hread Hprev Hnext Hne.
  subst l.
  destruct (common2_read_packets_frame world packet userdata dev size _ _ _ _ _ Hread)
    as [Hu [Hc [Hp [Hr [Hs Ht]]]]].
  pose proof (common2_dive_checked world packet userdata callback dev s s1 nbytes
                Hsize Hread) as Hdive.
  fold size in Hdive.
  destruct (common2_check_dive_discontinuous world userdata callback dev s1 size nbytes
              Hprev Hnext) as [Hskip Hstop].
  { fold next. rewrite Hp. exact Hne. }
  fold next in Hskip, Hstop. rewrite Hc in Hskip, Hstop.
  split; intro Hcur.
  - destruct (Hskip Hcur) as [s2 [Hcheck [Hst [Htr [Hus [Hpr [Hcu Hre]]]]]]].
    rewrite Hcheck in Hdive.
    assert (Hafter2 : common2_after packet callback (S n) dev s0 = Some s2)
      by exact (common2_after_snoc world packet userdata callback dev n s0 s s2
                  Hafter Hrem Hdive).
    exists s2. split; [exact Hafter2 |]. split; [exact Htr |].
    split.
    { rewrite Htr, <- Ht. clear.
      induction (fs_trace s1) as [| ev t IH]; [reflexivity |].
      destruct ev; cbn [app trace_dives]; rewrite ?IH; reflexivity. }
    split; [rewrite Hus; exact Hu |].
    split; [exact Hpr |].
    split; [exact Hcu |].
    split; [rewrite Hre, Hr; reflexivity |].
    split.
    + exact (common2_foreach_extends_at world packet userdata callback dev Hbegin Hend
               w u (S n) s0 s2 Hstart Hafter2).
    + intros m s3 Hm Hzero.
      pose proof (common2_after_status world packet userdata callback dev m s2 s3 Hm Hst)
        as Hst3.
      rewrite <- Hst3.
      apply (common2_foreach_done_at world packet userdata callback dev Hbegin Hend
               w u (S n + m) s0 s3 Hstart); [| exact Hzero].
      exact (common2_after_app world packet userdata callback dev (S n) m s0 s2 s3
               Hafter2 Hm).
  - destruct (Hstop Hcur) as [s2 [Hcheck [Htr [Hus Hwo]]]].
    rewrite Hcheck in Hdive.
    rewrite (common2_foreach_return_at world packet userdata callback dev Hbegin Hend
               w u n s0 s s2 DC_STATUS_DATAFORMAT Hstart Hafter Hrem Hdive).
    rewrite Htr, Hus, Hwo, Hu. reflexivity.
Qed.

Lemma common2_discontinuous_dive_witness :
  (exists s2,
     common2_after (Some (sim_packet (sim_memory 0xA6 0x01))) (Some count_dives) 1
       sim_device sim_loop_start = Some s2 /\
     fs_trace s2
     = fs_trace (sim_dive_read 0xA6 0x01) ++ [EV_ERROR MSG_SKIPPING_INCOMPLETE_DIVE] /\
     trace_dives (fs_trace s2) = trace_dives (fs_trace sim_loop_start) /\
     fs_user s2 = fs_user sim_loop_start /\
     fs_previous s2 = fs_current sim_loop_start /\
     fs_current s2 = 0x019A /\
     fs_remaining s2 = u32 (24 - 12) /\
     (exists rc t u' w',
        suunto_common2_device_foreach (Some (sim_packet (sim_memory 0xA6 0x01)))
          (Some count_dives) sim_device tt 0%nat = Some (rc, t, u', w') /\
        trace_extends (fs_trace s2) t) /\
     (forall (m : nat) (s3 : foreach_state unit nat),
        common2_after (Some (sim_packet (sim_memory 0xA6 0x01))) (Some count_dives) m
          sim_device s2 = Some s3 ->
        fs_remaining s3 = 0 ->
        suunto_common2_device_foreach (Some (sim_packet (sim_memory 0xA6 0x01)))
          (Some count_dives) sim_device tt 0%nat
        = Some (DC_STATUS_DATAFORMAT, fs_trace s3, fs_user s3, fs_world s3))) /\
  suunto_common2_device_foreach (Some (sim_packet (sim_memory 0x9A 0x01)))
    (Some count_dives) sim_device tt 0%nat
  = Some (DC_STATUS_DATAFORMAT,
          fs_trace (sim_dive_read 0x9A 0x01) ++ [EV_ERROR MSG_PROFILES_ARE_NOT_CONTINUOUS],
          fs_user sim_loop_start, fs_world (sim_dive_read 0x9A 0x01)).
Proof.
  split.
  - refine (proj1 (common2_discontinuous_dive unit nat
                     (Some (sim_packet (sim_memory 0xA6 0x01))) (Some count_dives)
                     sim_device tt 0%nat 0%nat sim_loop_start sim_loop_start
                     (sim_dive_read 0xA6 0x01) 24 _ _ _ _ _ _ _ _ _ _) _);
      by_evaluation || (split; by_evaluation).
  - refine (proj2 (common2_discontinuous_dive unit nat
                     (Some (sim_packet (sim_memory 0x9A 0x01))) (Some count_dives)
                     sim_device tt 0%nat 0%nat sim_loop_start sim_loop_start
                     (sim_dive_read 0x9A 0x01) 24 _ _ _ _ _ _ _ _ _ _) _);
      by_evaluation || (split; by_evaluation).
Defined.

(** X23. [suunto_common2_device_foreach] never hands a dive to the
    callback whose fingerprint bytes equal the fingerprint the device was
    given: whatever the device answers and however the call ends, every
    dive in the trace of the call carries another fingerprint.  And the
    call ends with SUCCESS at the first such dive: when the walk reaches a
    dive that continues the chain and carries the device's fingerprint,
    the call returns SUCCESS with the trace and the callback's data as
    they were before that dive. *)
Theorem common2_foreach_new_dives_only (world userdata : Type)
  (packet : option (world -> list byte -> Z -> Z -> world * dc_status_t * list byte))
  (callback : option (userdata -> list byte -> list byte -> userdata * bool))
  (dev : suunto_common2_device_t) :
  (forall (w w' : world) (u u' : userdata) (rc : dc_status_t) (t : list foreach_event),
      suunto_common2_device_foreach packet callback dev w u = Some (rc, t, u', w') ->
      Forall (new_dive dev) t) /\
  (forall (w : world) (u : userdata) (n : nat) (s0 s s1 : foreach_state world userdata)
          (nbytes : Z),
      let l := layout dev in
      let size := RB_PROFILE_DISTANCE l (fs_current s) (fs_previous s) true in
      let p := fs_offset s1 + u32 (nbytes - size) in
      let prev := array_uint16_le (fs_data s1) (p + 0) in
      let next := array_uint16_le (fs_data s1) (p + 2) in
      0 <= rb_profile_begin l < rb_profile_end l ->
      rb_profile_end l + 136 < 2 ^ 32 ->
      common2_foreach_start packet dev w u = Some (inr s0) ->
      common2_after packet callback n dev s0 = Some s ->
      fs_remaining s <> 0 ->
      4 <= size <= fs_remaining s ->
      common2_read_packets packet (Z.to_nat size) l s size (fs_available s)
      = Some (inr (s1, nbytes)) ->
      rb_profile_begin l <= prev < rb_profile_end l ->
      rb_profile_begin l <= next < rb_profile_end l ->
      next = fs_previous s -> next <> fs_current s ->
      bytes_slice (fs_data s1) (p + (fingerprint l + 4))
        (Z.of_nat (length (dev_fingerprint dev))) = dev_fingerprint dev ->
      suunto_common2_device_foreach packet callback dev w u
      = Some (DC_STATUS_SUCCESS, fs_trace s1, fs_user s, fs_world s1) /\
      trace_dives (fs_trace s1) = trace_dives (fs_trace s)).
Proof.
  split.
  - intros w w' u u' rc t.
    unfold suunto_common2_device_foreach. cbv zeta.
    destruct (suunto_common2_device_read _ _ w _ _) as [[[w1 rc1] ser] |]; [| discriminate].
    destruct (negb (dc_status_eqb rc1 DC_STATUS_SUCCESS)).
    { intro H. injection H as _ <- _ _. repeat constructor. }
    destruct (suunto_common2_device_read _ _ w1 _ _) as [[[w2 rc2] header] |];
      [| discriminate].
    destruct (negb (dc_status_eqb rc2 DC_STATUS_SUCCESS)).
    { intro H. injection H as _ <- _ _. repeat constructor. }
    destruct (_ || _ || _ || _ || _ || _).
    { intro H. injection H as _ <- _ _. repeat constructor. }
    match goal with
    | |- context [common2_dives_loop packet callback ?f dev ?s0] =>
        destruct (common2_dives_loop packet callback f dev s0) as [[e s] |] eqn:Eloop;
        [| discriminate];
        apply common2_dives_loop_new_dives in Eloop;
        [| cbn [fs_trace app]; repeat constructor]
    end.
    destruct e; intro H; injection H as _ <- _ _; exact Eloop.
  - intros w u n s0 s s1 nbytes l size p prev next Hbegin Hend Hstart Hafter Hrem Hsize
           Hread Hprev Hnext Hprevious Hcur Hfp.
    subst l.
    destruct (common2_read_packets_frame world packet userdata dev size _ _ _ _ _ Hread)
      as [Hu [Hc [Hp [Hr [Hs Ht]]]]].
    pose proof (common2_dive_checked world packet userdata callback dev s s1 nbytes
                  Hsize Hread) as Hdive.
    fold size in Hdive.
    destruct (common2_check_dive_known world userdata callback dev s1 size nbytes
                Hprev Hnext) as [s2 [Hcheck [Htr [Hus Hwo]]]].
    { fold next. rewrite Hp. exact Hprevious. }
    { fold next. rewrite Hc. exact Hcur. }
    { exact Hfp. }
    rewrite Hcheck in Hdive.
    rewrite (common2_foreach_return_at world packet userdata callback dev Hbegin Hend
               w u n s0 s s2 DC_STATUS_SUCCESS Hstart Hafter Hrem Hdive).
    rewrite Htr, Hus, Hwo, Hu. split; [reflexivity | exact Ht].
Qed.

Lemma common2_foreach_new_dives_only_witness :
  (exists rc t u' w',
     suunto_common2_device_foreach (Some (sim_packet (sim_memory 0xB2 0x01)))
       (Some count_dives) sim_known_device tt 0%nat
     = Some (rc, t, u', w') /\
     trace_dives t = [bytes_of [0xB1; 0xB2; 0xB3; 0xB4; 0xB5; 0xB6; 0xB7; 0xB8]] /\
     Forall (new_dive sim_known_device) t) /\
  suunto_common2_device_foreach (Some (sim_packet (sim_memory 0xB2 0x01)))
    (Some count_dives) sim_known_device tt 0%nat
  = Some (DC_STATUS_SUCCESS, fs_trace sim_second_dive, 1%nat, tt) /\
  trace_dives (fs_trace sim_second_dive) = trace_dives (fs_trace sim_second_dive).
Proof.
  split.
  - eexists. eexists. eexists. eexists.
    split; [vm_compute; reflexivity |].
    split; [reflexivity |].
    refine (proj1 (common2_foreach_new_dives_only unit nat
                     (Some (sim_packet (sim_memory 0xB2 0x01)))
                     (Some count_dives) sim_known_device)
                  tt tt 0%nat 1%nat DC_STATUS_SUCCESS _ _).
    vm_compute; reflexivity.
  - refine (proj2 (common2_foreach_new_dives_only unit nat
                     (Some (sim_packet (sim_memory 0xB2 0x01)))
                     (Some count_dives) sim_known_device)
                  tt 0%nat 1%nat sim_loop_start sim_second_dive sim_second_dive 12
                  _ _ _ _ _ _ _ _ _ _ _ _);
      by_evaluation || (split; by_evaluation).
Defined.
